(* ===== verification/_CoqProject ===== *)
-Q . S2P
Prelude.v
Machine.v
JsString.v
Json.v
Style.v
Task.v
Schema.v
Database.v
Fetch.v
Sync.v
Payload.v
Api.v
UiStore.v
Hooks.v
TaskItem.v
FilterTabs.v
Dashboard.v
Avatar.v
Views.v
Navigation.v
App.v
DynApp.v
Observe.v
Screen.v
Display.v
Tests.v
