(* ===== verification/Prelude.v ===== *)
(** * TaskDashboard: a verification development

    The program is a React Native task list ("TaskDashboard").  It downloads
    the to-do collection of a remote JSON API, stores it in a local
    WatermelonDB/SQLite table, and shows filtered live views of that table.
    The local table is the source of truth for the UI ("offline-first"); a
    synchronisation pass only ever adds rows to it, and the user changes
    rows by toggling them and by attaching a photo.

    ** Parts of the program and the files that model them

    The files are listed in the order in which they depend on each other.
    Paths are relative to src/src/.

    - [Prelude] (this file): what every component shares.  The [result]
      error monad (a rejected promise or a thrown exception is [Err], a
      resolved promise is [Ok]) with stdpp's [x ← c; k] notation; the
      state-and-error monad [prog S A := S → result A * S] of an [async]
      function on a state [S], with the [try{ m }catch e ⇒ h] and
      [try{ m }finally f] notations of scope [td_scope]; the [Error]
      values that the sources throw or receive; [drop_while] and the list
      lemmas the components share; the tactics [bool_dec], [by_compute]
      and [result_cases]; the hint database [td].
    - [Machine]: labelled transition systems in general: reachable
      states, traces, invariants as a record of an initial and a step
      case, variants for termination, and the run of a step function
      along a list of labels; the simulation of one system by another
      ([simulation]), which carries reachability across.
    - [JsString]: JavaScript strings as lists of UTF-16 code units,
      [String.prototype.trim] with the white-space table of ECMAScript,
      truthiness of a string ([truthy]), and the literal injection [js].
      The builtin is modelled from the language standard and its call
      sites (services/SyncService.ts lines 57 and 67,
      screens/DashboardScreen.tsx lines 58-59).
    - [Style]: what the [style] props of React Native mean: values,
      sheets as finite maps, arrays of styles with [cond && style]
      entries, [Style.flatten] (the later entry wins), the equivalence
      of style props that flatten to the same style, the colours
      [#rgb] and [#rrggbb]; and [Native.Element], the tree of elements
      that a component returns, with [Native.legible]: every text
      differs in colour from the background behind it.
    - [Task]: the model class of database/Task.ts.  The record [Task.t]
      has the three decorated columns and the [id] that the store
      generates; [Task.toggleComplete] and [Task.addAttachment] are the
      callbacks of the two writers.  The [@text] decorator of WatermelonDB
      normalises what is assigned; it is library code, so the model is
      parametric in it: the class [TextField] states the one law the
      program relies on (a trimmed string is stored unchanged), with the
      instances [text_trim] (WatermelonDB's setter, which trims) and
      [text_raw] (a plain field, as in the mock of the unit tests).
    - [Schema]: database/schema.ts as data, and the binding of the
      properties of the model to columns ([Schema.to_raw],
      [Schema.of_raw]).
    - [Database]: the store of database/index.ts and the calls that the
      sources make on it.  [Database.t] is the [tasks] collection (rows in
      insertion order) with the id supply; [query], [fetch],
      [prepareCreate], [batch], [update] and [write] are the WatermelonDB
      calls.  A storage fault is an input of a call (a boolean): a faulty
      [batch] returns [Err StoreWriteError] and leaves the store as it
      was, which is the all-or-nothing contract of the engine.
      Identifiers are drawn from a counter: the random ids of the engine
      are assumed never to collide.  [Database.toggleComplete] and
      [Database.addAttachment] are the two [@writer] methods on a stored
      record.
    - [Fetch]: what the program reads of a [fetch] response ([ok],
      [status], the decoded body), and the network as a function from
      the URL to a response or a rejection.
    - [Sync]: services/SyncService.ts.  [Sync.syncTaskFromApi] is the
      whole function: request, decoding, the read of the local titles,
      the filter, the creation callbacks, the single batch, the log line
      and the rethrowing handler.  It is composed of [Sync.readPhase]
      (up to the read) and [Sync.afterRead] (from the write on), the two
      pieces between which another call can run.  [Sync.Env] collects
      the inputs of one call: the network, whether the read succeeds,
      whether the batch commits.  [Sync.reconcile] is the reconciler as
      the specification words it, stated independently of the code.
    - [Json]: the values that a decoded body can be ([Js.Value]: what
      [JSON.parse] builds, and [undefined]) with the operations that the
      service applies to them and the [TypeError] that each can throw:
      a property read ([Js.get]), a value as a condition ([Js.truthy]),
      [.trim()], [Set.has], [.filter] and [.map] with a callback that
      can throw.  [Js.Ty] has the types of TypeScript that describe
      such values and [Js.conforms] decides whether a value has one.
      [Js.normal] drops the members that a later member of the same
      name hides; values with the same normal form are equivalent
      ([≡]).  Both types have lists of themselves inside, so their
      induction principles are written by hand.
    - [Payload]: services/SyncService.ts once more, as it runs after
      compilation.  The interface [RemoteTask] is erased and
      [response.json()] is of type [any]: [Dyn.syncTaskFromApi] is the
      service on whatever value the body is, line by line with the
      operations of [Json].  What [@field] stores for a value that is
      not a boolean is WatermelonDB's business: the class [FlagField]
      states what matters (a boolean is stored as it is, and hidden
      members are not looked at), with the instance [flag_sanitized].  [Dyn.typed] reads a body as the interface,
      which relates the service to [Sync]; the class [Wire] writes a
      value of an interface as JSON and reads it back; and
      [Wires.RemoteTaskT] is the interface as a type of [Js.Ty].
    - [Api]: api/client.ts ([ApiClient.get]), api/taskApi.ts
      ([TaskApi.fetchAllTasks]), types/api.ts, and a model of the
      paginating endpoint ([Dummyjson.server]).  Their state is the
      console.
    - [UiStore]: store/useUiStore.ts, the two fields and two setters.
    - [Hooks]: hooks/useTasks.ts ([UseTasks.handleRefresh]: the flag,
      then try, catch and finally around the service), hooks/useFilter.ts
      and hooks/useCamera.ts.  The state of [useTasks] is put together
      with the store and the console.
    - [TaskItem]: components/TaskItem.tsx: [TaskItem.handleCamera] and
      the press on the check box as programs on the store, with what
      [launchCamera] settles to as an input; the rendering as the record
      of what the JSX tree depends on.
    - [FilterTabs]: components/filterTabs.tsx: the table of tabs, the
      selected one, the press handler.
    - [Dashboard]: screens/DashboardScreen.tsx: the clauses that a filter
      selects and the observed list ([Dashboard.tasks]), the header as a
      state machine ([Dashboard.step], with [Dashboard.handle] as its
      step function), the filter bar and the rendering.
    - [Avatar]: components/AvatarView.tsx, the bridge to the native avatar,
      and the native views under src/android and src/ios: the view
      manager that Android registers ([AvatarViewManager.setName]), the
      custom view AvatarView.kt, which the manager does not instantiate
      ([AvatarViewKt.setAvatarName], [AvatarViewKt.generateColor]), and
      the view of iOS with its manager ([AvatarViewSwift.set_name],
      [AvatarViewManagerSwift.view]).  An [Int] of Kotlin
      is a [Z] that [Int32.wrap] keeps in 32 bits; the hash of Swift is
      seeded per process and therefore an input; the case mappings of
      the platforms are the class [CaseMapping].
    - [Views]: the three style sheets, entry by entry
      ([TaskItemStyles], [FilterTabsStyles], [DashboardStyles]), and the
      trees that the JSX of components/TaskItem.tsx,
      components/filterTabs.tsx and screens/DashboardScreen.tsx builds
      from the rendering records of [TaskItem], [FilterTabs] and
      [Dashboard].
    - [Navigation]: navigation/types.ts, navigation/MainNavigator.tsx
      and src/App.tsx as data: the routes, the table of screens with
      the stack of routes as its state, the tree of the root component.
    - [App]: the screen with its hooks as one transition system.  A
      state has the store, the flag and the console of [useTasks], the
      refreshes in flight, the filter, the header and the UI store.  The
      labels are the events of the user (pull to refresh, press on a
      check box, a capture, a filter chip, the header) and [Resume i],
      the continuation of the [i]-th refresh in flight at its next
      [await]: a refresh in flight is at [Reading] (request sent) or at
      [Writing read] (payload and local titles read), and its steps run
      [Sync.readPhase] and [Sync.afterRead] on the store of that moment.
      The condition under which a refresh may start is a parameter:
      [App.unguarded] is the code ([handleRefresh] starts one whenever it
      is called), [App.single_flight] the discipline that the
      specification asks of the caller, with [isSyncing] as the guard.
      [App.launch] is the refresh that the effect of the dashboard
      starts when it mounts.
    - [DynApp]: the transition system of [App] with the service of
      [Payload]: a refresh in flight holds [data.todos] as it arrived
      and its continuations are [Dyn.readPhase] and [Dyn.afterRead].
      [DynApp.typed] reads a state as a state of [App].
    - [Observe]: the subscriptions of [withObservables]: the dashboard
      observes the query of its filter (screens/DashboardScreen.tsx,
      [enhance]), every row observes its record (components/TaskItem.tsx,
      [enhance]).  [Observe.notify] is what the observers deliver after a
      commit, with the contract that the specification gives the
      observation layer; [Observe.observe] runs the application and its
      screen side by side.
    - [Screen]: the wiring of screens/DashboardScreen.tsx.  [React] has
      the contract of [useEffect] and [useCallback]: a cell per hook
      and the comparison of dependency arrays.  [Screen.render] is one
      render of [DashboardScreen] with [Dashboard] inside it: the
      memoised [handleRefresh] of hooks/useTasks.ts (a function value
      is known by the render that created it), the effect of the layout
      animation with its three dependencies and the effect that calls
      [handleRefresh].  [Screen.commit] renders, runs the effects that
      are due and renders again; [Screen.next] is an event of [App]
      followed by the renders.  The pull gesture goes through
      [Screen.refreshControl]: the control of React Native does not
      call [onRefresh] while [refreshing] is set, which makes the
      gesture the policy [App.single_flight].  Whether
      [withObservables] mounts [Dashboard] anew when the filter changes
      depends on the version of that library; it is the parameter
      [remounts], and [Screen.remount] is the component mounted anew,
      at the moment of the press.
    - [Display]: the screen of [Screen] run together with the observers
      of [Observe], and the tree of [Views] drawn from the rows that
      the observers have delivered ([Display.tree]): what is on the
      display after a sequence of events.
    - [Tests]: services/__tests__/TaskLogic.test.ts and the [fetch] of
      src/jest-setup.js: the mock task with its [update], the three
      tests with their expectations, run in sequence on the shared
      mock.

    ** What the theorems show

    - JsString: [trim] is idempotent, returns a segment of its argument
      between two runs of white space, never starts or ends with white
      space, and is empty exactly on blank strings.
    - Task: toggling twice restores the record; the two actions commute,
      touch only their own column and keep the title; they refine the
      life cycle of the specification, in which attached is absorbing.
    - Schema: the raw record of any instance has the declared columns
      with the declared types, and reading it back gives the instance.
    - Database: the writers keep the store well formed with the same ids
      and titles; a failed write changes nothing; a query returns exactly
      the rows that match its clauses, in the order of the table.
    - Sync: the behaviour of [syncTaskFromApi] on every path (each error
      leaves the store untouched, is logged once and rethrown; success
      appends the created rows and nothing else); the invariants of the
      store are preserved; what is created, in closed form; idempotence
      and uniqueness of titles for payloads of trimmed titles, and the
      rows that a second pass adds otherwise, because the filter looks up
      the untrimmed title; refinement of the specification's reconciler
      where the two agree and the specification's own scenario where they
      do not; a response with an error status is synchronised.
    - Json, Payload: on every body the service is the typed service of
      [Sync] on the body read as the interface, as a whole and from the
      write on, so that the theorems on [Sync] hold whatever the server
      sends; the store is safe on any body;
      the call ends in a [TypeError] exactly when the body is [null],
      or [todos] is not an array, or one item is [null] or has a title
      that is truthy and not a string, and then nothing is created;
      items whose title is missing or falsy are passed over; a payload
      of the interface written as JSON is read back as it was; the
      annotation [RemoteTask[]] is sound on the bodies that have that
      type (no [TypeError], and the typed model reads the declared
      fields); no operation tells equivalent values apart, and calls
      that meet equivalent bodies have the same outcome.
    - Api: [apiClient.get] on every path; [fetchAllTasks] returns the
      first page of the paginating endpoint.
    - Hooks: [handleRefresh] always resolves and clears the flag; a
      failure of the service changes no row; the camera hook returns the
      first back device.
    - TaskItem, FilterTabs, Dashboard: the handlers keep the invariants
      of the store; [handleCamera] on an empty [assets] array throws; the
      list shows exactly the rows of its filter and follows a toggle; the
      saved name is always trimmed and the avatar is never given an empty
      name; the filter bar of the screen and [FilterTabs] agree.
    - Style, Views: the laws of flattening (append, conditional
      entries, the later entry wins) and the setoid of style props; the
      tree of a row determines and is determined by its rendering
      record, and shows a completed row struck through with the check
      mark; every text of the screen differs in colour from its
      background, whatever the rows, the filter and the header are;
      exactly the chip of the current filter has the active style.
    - Avatar: the palette of AvatarView.kt is read outside its bounds
      exactly when the hash of the name is [Int.MIN_VALUE]; the colour of
      the view manager in closed form; the hash as the polynomial of the
      JVM cut to 32 bits; splitting and joining a name; for the names
      that the screen passes, both platforms show initials that are not
      empty; both platforms draw white initials on a white circle
      exactly for the names whose hash has its 24 low bits set.
    - Navigation: the stack of [MainNavigator] shows the dashboard
      whatever is navigated to; the root component mounts no navigator.
    - App: safety of every reachable state under any interleaving of
      events and continuations and any faults; the schedule of two
      overlapping refreshes that stores every new title twice; under
      [App.single_flight], at most one refresh is in flight, titles stay
      unique, the continuation that ends a refresh leaves the hook as an
      uninterrupted [handleRefresh] would, and every reachable store is
      the result of operations that did not overlap; continuations
      terminate (a variant counts the pending [await]s), and every
      refresh that was started settles.
    - DynApp: every sequence of events of the application on unchecked
      bodies is the same sequence of [App] on the states read as the
      interface ([App] simulates it step by step); so every state that
      it reaches is safe whatever the server sends and however the
      refreshes interleave, and under single flight with bodies of
      trimmed, pairwise distinct titles the stored titles stay
      distinct.
    - Observe: the rows that the observers have delivered are the query
      of the current filter on the store as it is, along every run of
      the application; a commit is seen at most once and a failed write
      not at all; every emitted list is the query on a committed store;
      and the first launch end to end: the refresh at mount, served
      without faults, leaves the stored rows followed by the new rows
      of the remote items on the screen.
    - Screen: rendering settles after two renders, each effect running
      at most once per event; the screen simulates the application, so
      every state that it reaches is safe; when [Dashboard] stays
      mounted the screen is single flight (one refresh started by the
      effect, gestures only while none is in flight, titles unique);
      when it is mounted anew on a filter change, a chip pressed during
      the refresh of the launch starts an overlapping refresh that
      stores every new title twice; the animation is configured exactly
      when the length of the list, the filter or the mode of the header
      changes.
    - Display: after any sequence of events the tree on the display is
      the tree of the store (the query of the current filter on the
      records as they are stored); the launch from mounting to the
      display, with the rows that were created and the animations that
      were configured.
    - Tests: the suite passes in the order of the file and in any
      order, with repetitions; the first test needs a pending mock; the
      copies of the program's logic that the tests run agree with the
      program, for the attachment exactly on trimmed references; under
      the replaced [fetch] the service resolves with nothing created
      and the client rejects.

    ** Bounds and fuel

    Every function is structurally recursive.  Two definitions have
    fuel.  [App.settle_all] is the event loop that resumes the refreshes
    in flight: [App.pending], the number of their pending [await]s (at
    most two per refresh), is enough fuel, and the liveness theorem is
    stated with it.  [Screen.commit] is the loop of renders and effects
    after an event: [Screen.next] gives it two renders, and
    [rendering_settles] shows that no effect is due after the second
    and that more fuel gives the same state.  Code units and ids are [N]; status codes are [N];
    the numeric fields of the API types are [Z], the numbers of a
    decoded body are [Qc].  The only machine
    integers are the [Int]s of the Kotlin views, kept at 32 bits.

    ** Not modelled

    - Layout and the layout animation itself: the style sheets are
      data and the animation is the event [Screen.ConfigureNext]; where
      the properties put an element on the display is not computed,
      and the switch that screens/DashboardScreen.tsx sets on Android
      when the module is loaded (lines 30 to 32) has no reader in the
      sources.
    - Batching and timing in React: a state setter takes effect at
      once, the screen renders after every event, and notifications are
      delivered between two events.  A component that is mounted anew
      is mounted at the event that makes the wrapper resubscribe.
    - The libraries that the sources call (React, React Native,
      WatermelonDB, zustand): their contracts are modelled from their
      documentation, as far as the sources rely on them.
    - Drawing in the native views (the frame, the corner radius that
      [layoutSubviews] of AvatarView.swift derives from it), and the
      stack of native screens.
    - Strings outside the basic plane in the native views: a character
      of Swift is modelled by one code unit.
    - The wired screen and the display on unchecked bodies: [Screen],
      [Observe] and [Display] are built on [App], whose payloads are
      typed; [DynApp] relates the two at the level of [App].
    - The text of a body and its parsing: a body is the value that
      [response.json()] resolved to, or the error that it rejected
      with.  A number of [Json] is the rational that its literal
      denotes, without the rounding to a double; the service reads no
      number.  Properties that values inherit ([length] of a string,
      indices) are not members of [Js.get], which the service reads
      only at [todos], [todo] and [completed].
    - The configuration of the build, of jest and of eslint. *)

From stdpp Require Export base tactics option list gmap sets numbers strings.

Declare Scope td_scope.
Delimit Scope td_scope with td.
Open Scope td_scope.

Create HintDb td discriminated.
Create Rewrite HintDb td.

(** ** Errors and results *)

(** The failures that the sources throw, receive from a rejected promise,
    or pass on.  [HttpError] is the [Error] that the API client throws on
    a response whose [ok] flag is false; [IndexOutOfBounds] is the
    exception of the JVM for a list read outside its indices. *)
Inductive Error : Type :=
| NetworkError
| JsonParseError
| TypeError
| HttpError (status : N)
| StoreReadError
| StoreWriteError
| IndexOutOfBounds (index : Z).

#[export] Instance Error_eq_dec : EqDecision Error.
Proof. solve_decision. Defined.

(** The outcome of an awaited promise or of a call that may throw. *)
Inductive result (A : Type) : Type :=
| Ok (a : A)
| Err (e : Error).
Arguments Ok {A} a.
Arguments Err {A} e.

#[export] Instance result_eq_dec `{EqDecision A} : EqDecision (result A).
Proof. solve_decision. Defined.

#[export] Instance result_ret : MRet result := λ A a, Ok a.
#[export] Instance result_bind : MBind result :=
  λ A B f m, match m with Ok a => f a | Err e => Err e end.
#[export] Instance result_fmap : FMap result :=
  λ A B f m, match m with Ok a => Ok (f a) | Err e => Err e end.

Definition is_Ok {A} (r : result A) : bool :=
  match r with Ok _ => true | Err _ => false end.

(** [catch c h]: JavaScript's [try { c } catch (e) { h e }] around an
    expression without effects. *)
Definition catch {A} (c : result A) (h : Error → result A) : result A :=
  match c with Ok a => Ok a | Err e => h e end.

(** ** Programs with state

    An [async] function that reads and writes a store of type [S]: it
    ends with a value or an error, and with the store as it left it.  The
    store survives an error: nothing is rolled back unless an operation
    says so. *)
Definition prog (S A : Type) : Type := S → result A * S.

#[export] Instance prog_ret {S} : MRet (prog S) := λ A a s, (Ok a, s).
#[export] Instance prog_bind {S} : MBind (prog S) :=
  λ A B f m s, match m s with (Ok a, s') => f a s' | (Err e, s') => (Err e, s') end.

(** [throw e] *)
Definition throw {S A} (e : Error) : prog S A := λ s, (Err e, s).

(** Awaiting a promise that does not touch the store. *)
Definition lift {S A} (r : result A) : prog S A := λ s, (r, s).

Definition get {S} : prog S S := λ s, (Ok s, s).
Definition put {S} (s' : S) : prog S unit := λ _, (Ok tt, s').

(** [try { m } catch (e) { h e }] *)
Definition try_catch {S A} (m : prog S A) (h : Error → prog S A) : prog S A :=
  λ s, match m s with (Ok a, s') => (Ok a, s') | (Err e, s') => h e s' end.

(** [try { m } finally { f }]: [f] runs on both paths; the error of [m],
    if any, is rethrown after it. *)
Definition try_finally {S A} (m : prog S A) (f : prog S unit) : prog S A :=
  λ s, let '(r, s') := m s in
       match f s' with (Ok _, s'') => (r, s'') | (Err e, s'') => (Err e, s'') end.

Notation "'try{' m '}catch' e '⇒' h" := (try_catch m (λ e, h))
  (at level 10, m at level 200, e name, h at level 200,
   format "'[v' 'try{'  m  '/' '}catch'  e  '⇒'  h ']'") : td_scope.
Notation "'try{' m '}finally' f" := (try_finally m f)
  (at level 10, m at level 200, f at level 200,
   format "'[v' 'try{'  m  '/' '}finally'  f ']'") : td_scope.

(** ** Dropping a prefix *)

Section drop_while.
Context {A : Type} (p : A → bool).

Fixpoint drop_while (l : list A) : list A :=
  match l with
  | [] => []
  | x :: l' => if p x then drop_while l' else l
  end.

Fixpoint take_while (l : list A) : list A :=
  match l with
  | [] => []
  | x :: l' => if p x then x :: take_while l' else []
  end.

End drop_while.

(** ** Tactics *)

(** Case analysis on the boolean tests of the goal, turning each into the
    proposition it decides. *)
Ltac bool_dec :=
  repeat first
    [ progress simplify_eq/=
    | case_bool_decide
    | case_decide
    | case_match ].

(** A closed decidable proposition, by evaluating its decision. *)
Ltac by_compute :=
  lazymatch goal with
  | |- ?P => apply (bool_decide_eq_true_1 P); vm_compute; reflexivity
  end.

(** Case analysis on the results that a monadic definition binds. *)
Ltac result_cases :=
  repeat match goal with
  | |- context [mbind _ ?m] => destruct m eqn:?; simpl
  | |- context [catch ?m _] => destruct m eqn:?; simpl
  | H : context [mbind _ ?m] |- _ => destruct m eqn:?; simpl in H
  end.

(** ** Lemmas on results *)

Section result.
Context {A B : Type}.
Implicit Types (m : result A) (f : A → result B).

Lemma bind_Ok (a : A) f : (Ok a ≫= f) = f a.
Proof. done. Qed.

Lemma bind_Err (e : Error) f : (Err e ≫= f) = Err e.
Proof. done. Qed.

Lemma bind_Ok_inv m f (b : B) :
  m ≫= f = Ok b → ∃ a, m = Ok a ∧ f a = Ok b.
Proof. destruct m; naive_solver. Qed.

Lemma bind_Err_inv m f (e : Error) :
  m ≫= f = Err e → m = Err e ∨ ∃ a, m = Ok a ∧ f a = Err e.
Proof. destruct m; naive_solver. Qed.

Lemma catch_rethrow m : catch m Err = m.
Proof. by destruct m. Qed.

Lemma is_Ok_true m : is_Ok m = true ↔ ∃ a, m = Ok a.
Proof. destruct m; simpl; split; eauto; [done|]. by intros [? ?]. Qed.

End result.

#[export] Hint Rewrite @bind_Ok @bind_Err @catch_rethrow : td.

(** ** Lemmas on programs *)

Section prog.
Context {S A B : Type}.
Implicit Types (m : prog S A) (f : A → prog S B) (s : S).

Lemma prog_bind_unfold m f s :
  (m ≫= f) s = match m s with (Ok a, s') => f a s' | (Err e, s') => (Err e, s') end.
Proof. done. Qed.

Lemma prog_bind_Ok m f s a s' : m s = (Ok a, s') → (m ≫= f) s = f a s'.
Proof. intros Hm. by rewrite prog_bind_unfold, Hm. Qed.

Lemma prog_bind_Err m f s e s' : m s = (Err e, s') → (m ≫= f) s = (Err e, s').
Proof. intros Hm. by rewrite prog_bind_unfold, Hm. Qed.

Lemma prog_bind_lift_Ok (a : A) f s : (lift (Ok a) ≫= f) s = f a s.
Proof. done. Qed.

Lemma prog_bind_lift_Err (e : Error) f s : (lift (Err e) ≫= f) s = (Err e, s).
Proof. done. Qed.

(** A handler that only rethrows is no handler. *)
Lemma try_catch_rethrow m s : (try{ m }catch e ⇒ throw e) s = m s.
Proof. unfold try_catch, throw. by destruct (m s) as [[a|e] s']. Qed.

Lemma try_finally_Ok m (g : prog S unit) s r s' s'' :
  m s = (r, s') → g s' = (Ok tt, s'') → (try{ m }finally g) s = (r, s'').
Proof. intros Hm Hg. unfold try_finally. by rewrite Hm, Hg. Qed.

End prog.

#[export] Hint Rewrite @prog_bind_lift_Ok @prog_bind_lift_Err @try_catch_rethrow : td.

(** ** Lemmas on [drop_while] and [take_while] *)

Section drop_while_lemmas.
Context {A : Type} (p : A → bool).
Implicit Types (l k : list A) (x : A).

Lemma take_drop_while l : take_while p l ++ drop_while p l = l.
Proof. induction l as [|x l IH]; simpl; [done|]. destruct (p x); simpl; congruence. Qed.

Lemma take_while_Forall l : Forall (λ x, p x = true) (take_while p l).
Proof. induction l as [|x l IH]; simpl; [done|]. destruct (p x) eqn:?; auto. Qed.

Lemma drop_while_head l x : head (drop_while p l) = Some x → p x = false.
Proof.
  induction l as [|y l IH]; simpl; [done|].
  destruct (p y) eqn:Hy; [done|]. simpl. by intros [= <-].
Qed.

Lemma drop_while_all l : Forall (λ x, p x = true) l → drop_while p l = [].
Proof. induction 1 as [|x l Hx _ IH]; simpl; [done|]. by rewrite Hx. Qed.

Lemma drop_while_nil_inv l : drop_while p l = [] → Forall (λ x, p x = true) l.
Proof.
  induction l as [|x l IH]; simpl; [done|].
  destruct (p x) eqn:?; [auto|done].
Qed.

Lemma drop_while_id l :
  (∀ x, head l = Some x → p x = false) → drop_while p l = l.
Proof. destruct l as [|x l]; simpl; [done|]. intros H. by rewrite (H x). Qed.

Lemma drop_while_app_all l k :
  Forall (λ x, p x = true) l → drop_while p (l ++ k) = drop_while p k.
Proof. induction 1 as [|x l Hx _ IH]; simpl; [done|]. by rewrite Hx. Qed.

Lemma drop_while_idemp l : drop_while p (drop_while p l) = drop_while p l.
Proof. apply drop_while_id, drop_while_head. Qed.

Lemma drop_while_suffix l : drop_while p l `suffix_of` l.
Proof. exists (take_while p l). by rewrite take_drop_while. Qed.

Lemma drop_while_length l : length (drop_while p l) ≤ length l.
Proof. apply suffix_length, drop_while_suffix. Qed.

Lemma drop_while_last l x :
  last l = Some x → p x = false → last (drop_while p l) = Some x.
Proof.
  induction l as [|y l IH]; simpl; [done|]. intros Hl Hx.
  destruct (p y) eqn:Hy; [|done].
  destruct l as [|z l]; [naive_solver congruence|]. by apply IH.
Qed.

End drop_while_lemmas.

#[export] Hint Resolve drop_while_suffix drop_while_length take_while_Forall : td.
#[export] Hint Rewrite @drop_while_idemp @take_drop_while : td.

(** ** Lemmas on lists *)

Section lists.
Context {A B : Type}.
Implicit Types (l k : list A) (x y : A) (f : A → B).

(** A key that occurs once determines its element. *)
Lemma NoDup_fmap_eq f l x y :
  NoDup (f <$> l) → x ∈ l → y ∈ l → f x = f y → x = y.
Proof.
  induction l as [|z l IH]; [by intros _ ?%elem_of_nil|].
  rewrite fmap_cons, NoDup_cons. intros [Hz Hnd] Hx Hy Hf.
  apply elem_of_cons in Hx as [->|Hx]; apply elem_of_cons in Hy as [->|Hy]; auto.
  - destruct Hz. rewrite Hf. by apply list_elem_of_fmap_2.
  - destruct Hz. rewrite <-Hf. by apply list_elem_of_fmap_2.
Qed.

Lemma prefix_fmap (f : A → B) (l k : list A) :
  l `prefix_of` k → f <$> l `prefix_of` f <$> k.
Proof. intros [m ->]. exists (f <$> m). apply fmap_app. Qed.

(** Sums over a list that is updated or shortened at an index. *)
Lemma sum_list_with_insert (f : A → nat) l i x y :
  l !! i = Some x →
  sum_list_with f (<[i:=y]> l) + f x = sum_list_with f l + f y.
Proof.
  intros Hi. rewrite insert_take_drop by by eapply lookup_lt_Some.
  rewrite <-(take_drop_middle _ _ _ Hi) at 3.
  rewrite !sum_list_with_app. cbn. lia.
Qed.

Lemma sum_list_with_delete (f : A → nat) l i x :
  l !! i = Some x → sum_list_with f (delete i l) + f x = sum_list_with f l.
Proof.
  intros Hi. rewrite delete_take_drop. rewrite <-(take_drop_middle _ _ _ Hi) at 3.
  rewrite !sum_list_with_app. cbn. lia.
Qed.

Lemma filter_all (P : A → Prop) `{∀ x, Decision (P x)} l :
  Forall P l → filter P l = l.
Proof.
  induction 1 as [|x l Hx _ IH]; [done|]. by rewrite filter_cons_True, IH.
Qed.

Lemma filter_none (P : A → Prop) `{∀ x, Decision (P x)} l :
  Forall (λ x, ¬ P x) l → filter P l = [].
Proof.
  induction 1 as [|x l Hx _ IH]; [done|]. by rewrite filter_cons_False, IH.
Qed.

Lemma filter_ext_in (P Q : A → Prop) `{∀ x, Decision (P x)} `{∀ x, Decision (Q x)} l :
  (∀ x, x ∈ l → P x ↔ Q x) → filter P l = filter Q l.
Proof.
  induction l as [|x l IH]; intros HPQ; [done|].
  rewrite !filter_cons, IH by (intros; apply HPQ; by right).
  destruct (HPQ x) as [? ?]; [by left|]. repeat case_decide; tauto.
Qed.

Lemma filter_sublist_impl (P Q : A → Prop) `{∀ x, Decision (P x)} `{∀ x, Decision (Q x)} l :
  (∀ x, P x → Q x) → filter P l `sublist_of` filter Q l.
Proof.
  intros HPQ. induction l as [|x l IH]; [done|]. rewrite !filter_cons.
  destruct (decide (P x)) as [HP|HP].
  - rewrite decide_True by auto. by constructor.
  - case_decide; [by constructor|done].
Qed.

End lists.

Lemma filter_fmap {A B} (f : A → B) (P : B → Prop) `{∀ y, Decision (P y)} (l : list A) :
  filter P (f <$> l) = f <$> filter (P ∘ f) l.
Proof.
  induction l as [|x l IH]; [done|]. rewrite fmap_cons, !filter_cons, IH. cbn.
  by case_decide.
Qed.

#[export] Hint Resolve list_elem_of_here list_elem_of_further : td.
