(* ===== verification/Machine.v ===== *)
(** * Machine: labelled transition systems

    The interactive parts of the program (the header of the dashboard,
    the application as a whole) are state machines: a state, the events
    that the interface offers in it, and the state after each.  This
    file has what they share: reachable states, traces, invariants
    proved by induction on the steps, variants for termination, the
    agreement of a step relation with the function that computes it,
    and the simulation of one machine by another. *)

From S2P Require Import Prelude.

(** ** Definitions *)

Section machine.
Context {State Label : Type}.
Context (step : State → Label → State → Prop) (initial : State → Prop).

(** The states that some sequence of steps leads to from an initial
    state. *)
Inductive reachable : State → Prop :=
| reachable_initial s : initial s → reachable s
| reachable_step s l s' : reachable s → step s l s' → reachable s'.

(** The sequences of steps from one state to another. *)
Inductive trace : State → list Label → State → Prop :=
| trace_nil s : trace s [] s
| trace_cons s l s' ls s'' : step s l s' → trace s' ls s'' → trace s (l :: ls) s''.

(** An invariant holds initially and is kept by every step. *)
Record invariant (P : State → Prop) : Prop := mk_invariant {
  establish s : initial s → P s;
  preserve s l s' : P s → step s l s' → P s';
}.

(** ** Lemmas *)

Lemma invariant_reachable P s : invariant P → reachable s → P s.
Proof.
  intros [Hinit Hstep] Hs. induction Hs as [s Hs|s l s' _ IH Hsl]; eauto.
Qed.

Lemma invariant_and P Q : invariant P → invariant Q → invariant (λ s, P s ∧ Q s).
Proof.
  intros [HP HP'] [HQ HQ']. split; [by split; eauto|].
  intros s l s' [? ?] ?. split; eauto.
Qed.

Lemma trace_app s ls s' ls' s'' :
  trace s ls s' → trace s' ls' s'' → trace s (ls ++ ls') s''.
Proof.
  intros Hs. induction Hs as [|s l s1 ls s2 Hstep _ IH]; [done|].
  intros Hs'. econstructor; [done|]. by apply IH.
Qed.

Lemma trace_snoc s ls s' l s'' :
  trace s ls s' → step s' l s'' → trace s (ls ++ [l]) s''.
Proof. intros Hs Hl. eapply trace_app; [done|]. econstructor; [done|constructor]. Qed.

Lemma trace_reachable s ls s' : reachable s → trace s ls s' → reachable s'.
Proof.
  intros Hs Ht. induction Ht as [|s l s1 ls s2 Hstep _ IH]; [done|].
  apply IH. by eapply reachable_step.
Qed.

(** A property that every step keeps is kept along every trace. *)
Lemma trace_preserves (P : State → Prop) s ls s' :
  (∀ s l s', P s → step s l s' → P s') → P s → trace s ls s' → P s'.
Proof.
  intros Hstep Hs Ht. induction Ht as [|s l s1 ls s2 Hsl _ IH]; [done|].
  apply IH. by eapply Hstep.
Qed.

(** A preorder that every step respects relates the ends of every
    trace. *)
Lemma trace_monotone (R : relation State) `{!PreOrder R} s ls s' :
  (∀ s l s', step s l s' → R s s') → trace s ls s' → R s s'.
Proof.
  intros Hstep Ht. induction Ht as [|s l s1 ls s2 Hsl _ IH]; [done|].
  etrans; [by eapply Hstep|done].
Qed.

(** ** Termination *)

Section variant.
Context (progress : Label → Prop) (measure : State → nat).

(** A variant of the steps whose label is in [progress]: each of them
    makes the measure smaller. *)
Definition variant : Prop :=
  ∀ s l s', progress l → step s l s' → measure s' < measure s.

(** A sequence of such steps is at most as long as the measure falls. *)
Lemma variant_trace s ls s' :
  variant → Forall progress ls → trace s ls s' → length ls + measure s' ≤ measure s.
Proof.
  intros Hvar Hls Ht. induction Ht as [|s l s1 ls s2 Hstep _ IH]; [done|].
  apply Forall_cons in Hls as [Hl Hls]. specialize (IH Hls).
  pose proof (Hvar _ _ _ Hl Hstep). cbn. lia.
Qed.

(** If a step of [progress] is offered in every state that is not
    final, a final state is reached from every state by such steps. *)
Lemma variant_reaches (final : State → Prop) s :
  variant → (∀ s, final s ∨ ∃ l s', progress l ∧ step s l s') →
  ∃ ls s', Forall progress ls ∧ trace s ls s' ∧ final s'.
Proof.
  intros Hvar Hlive.
  assert (∀ n s, measure s < n →
    ∃ ls s', Forall progress ls ∧ trace s ls s' ∧ final s') as Hn;
    [|by apply (Hn (S (measure s))); lia].
  clear s. induction n as [|n IH]; intros s Hs; [lia|].
  destruct (Hlive s) as [Hf|(l & s1 & Hl & Hstep)].
  - exists [], s. split_and!; [constructor..|done].
  - destruct (IH s1) as (ls & s' & Hls & Ht & Hf); [specialize (Hvar _ _ _ Hl Hstep); lia|].
    exists (l :: ls), s'. split_and!; [by constructor|by econstructor|done].
Qed.

End variant.

(** ** The step function *)

Section run.
Context (next : Label → State → option State).
Context (step_next : ∀ s l s', step s l s' ↔ next l s = Some s').

(** The state after a sequence of events, if each is offered when it
    comes. *)
Fixpoint run (ls : list Label) (s : State) : option State :=
  match ls with
  | [] => Some s
  | l :: ls => next l s ≫= run ls
  end.

Lemma run_trace ls s s' : run ls s = Some s' ↔ trace s ls s'.
Proof.
  revert s. induction ls as [|l ls IH]; intros s; cbn.
  - split; [intros [= <-]; constructor|]. by inversion 1.
  - split.
    + intros (s1 & Hl & Hrun)%bind_Some. econstructor; [by apply step_next|by apply IH].
    + inversion 1 as [|? ? s1 ? ? Hl Hrest]; subst.
      apply bind_Some. exists s1. split; [by apply step_next|by apply IH].
Qed.

Lemma run_reachable ls s s' : reachable s → run ls s = Some s' → reachable s'.
Proof. intros Hs Hrun%run_trace. by eapply trace_reachable. Qed.

Lemma run_cons l ls s s1 : next l s = Some s1 → run (l :: ls) s = run ls s1.
Proof. intros Hl. cbn. by rewrite Hl. Qed.

Lemma run_app ls ls' s : run (ls ++ ls') s = run ls s ≫= run ls'.
Proof.
  revert s. induction ls as [|l ls IH]; intros s; cbn; [done|].
  destruct (next l s) as [s1|]; cbn; [apply IH|done].
Qed.

End run.

End machine.

(** ** Simulation

    A machine whose steps are each matched, on the image of its states,
    by a sequence of steps of another machine reaches only states whose
    image the other machine reaches.  An invariant of the first machine
    may be used along the way. *)

Section simulation.
Context {State1 Label1 State2 Label2 : Type}.
Context (step1 : State1 → Label1 → State1 → Prop) (initial1 : State1 → Prop).
Context (step2 : State2 → Label2 → State2 → Prop) (initial2 : State2 → Prop).
Context (image : State1 → State2) (inv : State1 → Prop).

Record simulation : Prop := mk_simulation {
  simulation_initial s : initial1 s → inv s ∧ reachable step2 initial2 (image s);
  simulation_step s l s' :
    inv s → step1 s l s' → inv s' ∧ ∃ ls, trace step2 (image s) ls (image s');
}.

Lemma simulation_reachable s :
  simulation → reachable step1 initial1 s → inv s ∧ reachable step2 initial2 (image s).
Proof.
  intros [Hinit Hstep] Hs. induction Hs as [s Hs|s l s' _ [Hinv IH] Hsl]; [by apply Hinit|].
  destruct (Hstep s l s' Hinv Hsl) as [? [ls Hls]]. split; [done|].
  by eapply trace_reachable.
Qed.

End simulation.

Arguments reachable_initial {State Label step initial} s _.
Arguments reachable_step {State Label step initial} s l s' _ _.

#[export] Hint Constructors trace : td.
