(* ===== verification/JsString.v ===== *)
(** * JsString: JavaScript strings and [String.prototype.trim]

    A JavaScript string is a sequence of UTF-16 code units.  The program
    trims remote titles (SyncService.ts, lines 57 and 67) and the user
    name (DashboardScreen.tsx, lines 58-59), and tests strings for
    truthiness (SyncService.ts line 57, TaskItem.tsx line 55).  This file
    defines those builtins as ECMAScript specifies them and proves the
    facts about [trim] that the components use. *)

From S2P Require Import Prelude.

(** A string is the list of its code units. *)
Abbreviation jsstring := (list N).

(** ** Definitions *)

(** ECMAScript's WhiteSpace and LineTerminator code points: the ones
    [trim] strips.  All of them are in the basic plane, so testing code
    units is testing code points. *)
Definition is_whitespace (c : N) : bool :=
  (c =? 0x0009)%N || (c =? 0x000A)%N || (c =? 0x000B)%N || (c =? 0x000C)%N
  || (c =? 0x000D)%N || (c =? 0x0020)%N || (c =? 0x00A0)%N || (c =? 0x1680)%N
  || ((0x2000 <=? c)%N && (c <=? 0x200A)%N)
  || (c =? 0x2028)%N || (c =? 0x2029)%N || (c =? 0x202F)%N || (c =? 0x205F)%N
  || (c =? 0x3000)%N || (c =? 0xFEFF)%N.

Definition trimStart (s : jsstring) : jsstring :=
  drop_while is_whitespace s.

Definition trimEnd (s : jsstring) : jsstring :=
  reverse (drop_while is_whitespace (reverse s)).

(** [s.trim()] *)
Definition trim (s : jsstring) : jsstring :=
  trimEnd (trimStart s).

(** A string in a boolean position: only the empty string is falsy. *)
Definition truthy (s : jsstring) : bool :=
  match s with [] => false | _ :: _ => true end.

(** An ASCII literal as a JavaScript string. *)
Definition js (s : string) : jsstring :=
  (λ a, Ascii.N_of_ascii a) <$> String.list_ascii_of_string s.

(** A string of white space only. *)
Definition blank (s : jsstring) : Prop :=
  Forall (λ c, is_whitespace c = true) s.

(** A string that neither starts nor ends with white space. *)
Definition trimmed (s : jsstring) : Prop :=
  (∀ c, head s = Some c → is_whitespace c = false) ∧
  (∀ c, last s = Some c → is_whitespace c = false).

#[export] Instance blank_dec s : Decision (blank s).
Proof. unfold blank. apply _. Defined.

(** ** Lemmas *)

Section trim.
Implicit Types (s pre post m : jsstring) (c : N).

Lemma trimEnd_last s c : last (trimEnd s) = Some c → is_whitespace c = false.
Proof. unfold trimEnd. rewrite last_reverse. apply drop_while_head. Qed.

Lemma trimEnd_head s c :
  head s = Some c → is_whitespace c = false → head (trimEnd s) = Some c.
Proof.
  unfold trimEnd. rewrite head_reverse. intros Hs Hc.
  apply drop_while_last; [|done]. by rewrite last_reverse.
Qed.

Lemma trimEnd_prefix s : trimEnd s `prefix_of` s.
Proof.
  unfold trimEnd. destruct (drop_while_suffix is_whitespace (reverse s)) as [k Hk].
  exists (reverse k). apply (inj reverse).
  by rewrite reverse_app, !reverse_involutive.
Qed.

Lemma trimEnd_blank s : blank s → trimEnd s = [].
Proof.
  intros Hs. unfold trimEnd. rewrite drop_while_all; [done|].
  by apply Forall_reverse.
Qed.

Lemma trimEnd_id s :
  (∀ c, last s = Some c → is_whitespace c = false) → trimEnd s = s.
Proof.
  intros Hs. unfold trimEnd. rewrite drop_while_id, reverse_involutive; [done|].
  intros c. rewrite head_reverse. apply Hs.
Qed.

Lemma trimEnd_app_blank s post : blank post → trimEnd (s ++ post) = trimEnd s.
Proof.
  intros Hp. unfold trimEnd. rewrite reverse_app, drop_while_app_all; [done|].
  by apply Forall_reverse.
Qed.

Lemma trimStart_head s c : head (trimStart s) = Some c → is_whitespace c = false.
Proof. apply drop_while_head. Qed.

Lemma trimStart_app_blank pre s : blank pre → trimStart (pre ++ s) = trimStart s.
Proof. apply drop_while_app_all. Qed.

Lemma trim_head s c : head (trim s) = Some c → is_whitespace c = false.
Proof.
  unfold trim. intros Hc.
  destruct (trimEnd_prefix (trimStart s)) as [k Hk].
  destruct (trimEnd (trimStart s)) as [|d t] eqn:Ht; simplify_eq/=.
  apply (trimStart_head s). by rewrite Hk.
Qed.

Lemma trim_last s c : last (trim s) = Some c → is_whitespace c = false.
Proof. apply trimEnd_last. Qed.

Lemma trim_trimmed s : trimmed (trim s).
Proof. split; [apply trim_head | apply trim_last]. Qed.

Lemma trimmed_trim s : trimmed s → trim s = s.
Proof.
  intros [Hh Hl]. unfold trim, trimStart.
  rewrite (drop_while_id _ s) by done. by apply trimEnd_id.
Qed.

Lemma trim_fixed s : trim s = s ↔ trimmed s.
Proof. split; [intros <-; apply trim_trimmed | apply trimmed_trim]. Qed.

#[export] Instance trimmed_dec s : Decision (trimmed s).
Proof. refine (cast_if (decide (trim s = s))); by rewrite <-trim_fixed. Defined.

Lemma trim_idemp s : trim (trim s) = trim s.
Proof. apply trimmed_trim, trim_trimmed. Qed.

Lemma trim_blank s : blank s → trim s = [].
Proof. intros Hs. unfold trim, trimStart. by rewrite drop_while_all. Qed.

Lemma trim_nil_blank s : trim s = [] → blank s.
Proof.
  unfold trim. intros Ht.
  destruct (trimStart s) as [|c t] eqn:Hs.
  { by apply drop_while_nil_inv. }
  assert (head (trimEnd (c :: t)) = Some c) as Hc; [|by rewrite Ht in Hc].
  apply trimEnd_head; [done|]. apply (trimStart_head s). by rewrite Hs.
Qed.

Lemma trim_nil_iff s : trim s = [] ↔ blank s.
Proof. split; [apply trim_nil_blank | apply trim_blank]. Qed.

Lemma trim_length s : length (trim s) ≤ length s.
Proof.
  unfold trim. etrans; [apply prefix_length, trimEnd_prefix|].
  apply drop_while_length.
Qed.

Lemma trim_length_pos s : 0 < length (trim s) ↔ ¬ blank s.
Proof. rewrite <-trim_nil_iff, <-length_zero_iff_nil. lia. Qed.

(** [trim] only removes: its result sits in the argument between two
    blank strings. *)
Lemma trim_decompose s :
  ∃ pre post, s = pre ++ trim s ++ post ∧ blank pre ∧ blank post.
Proof.
  exists (take_while is_whitespace s),
    (reverse (take_while is_whitespace (reverse (trimStart s)))).
  split_and!.
  - unfold trim, trimEnd. rewrite <-reverse_app, take_drop_while, reverse_involutive.
    unfold trimStart. by rewrite take_drop_while.
  - apply take_while_Forall.
  - apply Forall_reverse, take_while_Forall.
Qed.

(** ... and that segment is the only trimmed one. *)
Lemma trim_unique pre m post :
  blank pre → blank post → trimmed m → trim (pre ++ m ++ post) = m.
Proof.
  intros Hpre Hpost Hm. unfold trim. rewrite trimStart_app_blank by done.
  destruct m as [|c m].
  { simpl. fold (trim post). by apply trim_blank. }
  unfold trimStart. rewrite drop_while_id.
  - rewrite trimEnd_app_blank by done. apply trimEnd_id, Hm.
  - intros d Hd. simplify_eq/=. by apply (proj1 Hm).
Qed.

Lemma trim_app_blank pre s post :
  blank pre → blank post → trim (pre ++ s ++ post) = trim s.
Proof.
  intros Hpre Hpost.
  destruct (trim_decompose s) as (p & q & Hs & Hp & Hq).
  rewrite Hs at 1.
  replace (pre ++ (p ++ trim s ++ q) ++ post)
    with ((pre ++ p) ++ trim s ++ (q ++ post)) by (by rewrite <-!(assoc_L (++))).
  apply trim_unique; [by apply Forall_app|by apply Forall_app|apply trim_trimmed].
Qed.

Lemma truthy_length s : truthy s = true ↔ 0 < length s.
Proof. destruct s; simpl; split; (done || lia). Qed.

(** A string with a non-empty trim is non-empty: the truthiness test in
    front of the length test of the sync filter is implied by it. *)
Lemma trim_nonempty_truthy s : 0 < length (trim s) → truthy s = true.
Proof. destruct s; [by vm_compute; lia|done]. Qed.

Lemma trimmed_nil : trimmed [].
Proof. by split. Qed.

End trim.

#[export] Hint Resolve trim_trimmed trim_length trimmed_nil : td.
#[export] Hint Rewrite trim_idemp : td.

(** ** Examples *)

Example trim_buy_milk : trim (js "Buy milk   ") = js "Buy milk".
Proof. reflexivity. Qed.

Example trim_inner_space_kept : trim (js "  Call   mom ") = js "Call   mom".
Proof. reflexivity. Qed.

Example trim_unicode_space : trim [0x00A0; 0x0041; 0x2003; 0xFEFF]%N = [0x0041]%N.
Proof. reflexivity. Qed.

Example trim_only_spaces : trim (js "   ") = [].
Proof. reflexivity. Qed.
