(* ===== verification/Json.v ===== *)
(** * Json: the values that a decoded body can be

    [await response.json()] has the type [any]: the annotations of
    src/src/services/SyncService.ts (lines 21 to 26 and 37) are erased
    when the program is compiled, and nothing checks the body at run
    time.  So the service works on whatever the server sent, with the
    operations of JavaScript: reading a property, testing a value as a
    condition, calling a method.  Each of them is defined on every
    value, and some of them throw a [TypeError].

    [Js.Value] has the values that [JSON.parse] builds, and [undefined],
    which reading a missing property gives.  A number is the rational
    that its literal denotes: the rounding of [JSON.parse] to a double
    is not modelled.  The members of an object are kept as the text has
    them; of two members with the same name the later one is read.

    The operations are those that the service applies to the body
    (lines 37, 56 to 58, 65 to 69 and 82 of SyncService.ts): [data.todos],
    [raw.todo] and [raw.completed]; a value as a condition;
    [value.trim()]; [set.has(value)]; [value.filter(callback)] and
    [value.length].

    [Js.Ty] has the types of TypeScript that describe such values, and
    [Js.conforms] what it means for a value to have one: the annotation
    that the compiler trusts.  [Js.normal] drops the members that are
    never read, as [JSON.parse] does for a text with repeated names;
    values with the same normal form are equivalent ([≡]), and no
    operation of this file tells them apart. *)

From Stdlib Require Import QArith Qcanon.
From S2P Require Import Prelude JsString.

Module Js.

(** ** Definitions *)

Section nested_ind.
Local Unset Elimination Schemes.

Inductive Value : Type :=
| Undefined
| Null
| Bool (b : bool)
| Number (n : Qc)
| String (s : jsstring)
| Array (items : list Value)
| Object (members : list (string * Value)).

Variable P : Value → Prop.
Hypothesis case_Undefined : P Undefined.
Hypothesis case_Null : P Null.
Hypothesis case_Bool : ∀ b, P (Bool b).
Hypothesis case_Number : ∀ n, P (Number n).
Hypothesis case_String : ∀ s, P (String s).
Hypothesis case_Array : ∀ items, Forall P items → P (Array items).
Hypothesis case_Object : ∀ members, Forall (λ m, P m.2) members → P (Object members).

Fixpoint Value_ind (v : Value) : P v :=
  match v with
  | Undefined => case_Undefined
  | Null => case_Null
  | Bool b => case_Bool b
  | Number n => case_Number n
  | String s => case_String s
  | Array items =>
      case_Array items
        ((fix go (l : list Value) : Forall P l :=
            match l with
            | [] => Forall_nil_2 P
            | v :: l => Forall_cons_2 P v l (Value_ind v) (go l)
            end) items)
  | Object members =>
      case_Object members
        ((fix go (l : list (string * Value)) : Forall (λ m, P m.2) l :=
            match l with
            | [] => Forall_nil_2 _
            | m :: l => Forall_cons_2 (λ m, P m.2) m l (Value_ind m.2) (go l)
            end) members)
  end.

End nested_ind.

(** An integer as a number. *)
Definition int (z : Z) : Value := Number (Qc_of_Z z).

(** The integer that a number is, if it is one. *)
Definition as_int (v : Value) : option Z :=
  match v with
  | Number n => if decide (Qden n = 1%positive) then Some (Qnum n) else None
  | _ => None
  end.

(** The member that is read for a name: the last one of that name. *)
Definition member (key : string) (members : list (string * Value)) : Value :=
  default Undefined (snd <$> last (filter (λ m, m.1 = key) members)).

(** [value.key], for a name that is neither an index nor a property
    that values inherit ([todos], [todo], [completed], [id], [userId]):
    [undefined] and [null] have no properties, and reading one throws;
    only an object can have such a member. *)
Definition get (key : string) (value : Value) : result Value :=
  match value with
  | Undefined | Null => Err TypeError
  | Object members => Ok (member key members)
  | Bool _ | Number _ | String _ | Array _ => Ok Undefined
  end.

(** A value as a condition. *)
Definition truthy (value : Value) : bool :=
  match value with
  | Undefined | Null => false
  | Bool b => b
  | Number n => negb (bool_decide (n = Qc_of_Z 0))
  | String s => JsString.truthy s
  | Array _ | Object _ => true
  end.

(** [value.trim()]: the method of strings.  On [undefined] and [null]
    reading [trim] throws; on any other value [trim] is [undefined] or,
    for an object with such a member, a value that cannot be called. *)
Definition trim (value : Value) : result jsstring :=
  match value with
  | String s => Ok (JsString.trim s)
  | _ => Err TypeError
  end.

(** [set.has(value)] for a set of strings. *)
Definition has (set : gset jsstring) (value : Value) : bool :=
  match value with
  | String s => bool_decide (s ∈ set)
  | _ => false
  end.

(** The elements for which the callback returns true, in order; the
    first call that throws ends the loop. *)
Fixpoint filterM (callback : Value → result bool) (items : list Value)
  : result (list Value) :=
  match items with
  | [] => Ok []
  | item :: items =>
      callback item ≫= λ keep : bool,
      rest ← filterM callback items;
      Ok (if keep then item :: rest else rest)
  end.

(** [value.filter(callback)]: the method of arrays; on anything else
    the call throws. *)
Definition filter (callback : Value → result bool) (value : Value) : result (list Value) :=
  match value with
  | Array items => filterM callback items
  | _ => Err TypeError
  end.

(** [array.map(callback)] with the index, for a callback that can
    throw. *)
Fixpoint imapM {A B} (callback : nat → A → result B) (items : list A) : result (list B) :=
  match items with
  | [] => Ok []
  | item :: items =>
      b ← callback 0 item;
      rest ← imapM (callback ∘ S) items;
      Ok (b :: rest)
  end.

(** [typeof value === 'string'] *)
Definition is_string (value : Value) : bool :=
  match value with String _ => true | _ => false end.

(** ** Types

    The types of TypeScript that describe JSON data: [number],
    [string], [boolean], [T[]], and an interface, which lists the
    properties that a value must have; it may have more. *)

Section nested_ind.
Local Unset Elimination Schemes.

Inductive Ty : Type :=
| TNumber
| TString
| TBoolean
| TArray (item : Ty)
| TInterface (properties : list (string * Ty)).

Variable P : Ty → Prop.
Hypothesis case_TNumber : P TNumber.
Hypothesis case_TString : P TString.
Hypothesis case_TBoolean : P TBoolean.
Hypothesis case_TArray : ∀ item, P item → P (TArray item).
Hypothesis case_TInterface :
  ∀ properties, Forall (λ p, P p.2) properties → P (TInterface properties).

Fixpoint Ty_ind (t : Ty) : P t :=
  match t with
  | TNumber => case_TNumber
  | TString => case_TString
  | TBoolean => case_TBoolean
  | TArray item => case_TArray item (Ty_ind item)
  | TInterface properties =>
      case_TInterface properties
        ((fix go (l : list (string * Ty)) : Forall (λ p, P p.2) l :=
            match l with
            | [] => Forall_nil_2 _
            | p :: l => Forall_cons_2 (λ p, P p.2) p l (Ty_ind p.2) (go l)
            end) properties)
  end.

End nested_ind.

(** A value has a type. *)
Fixpoint conforms (t : Ty) (value : Value) {struct t} : bool :=
  match t, value with
  | TNumber, Number _ => true
  | TString, String _ => true
  | TBoolean, Bool _ => true
  | TArray item, Array items => forallb (conforms item) items
  | TInterface properties, Object members =>
      forallb (λ p, conforms p.2 (member p.1 members)) properties
  | _, _ => false
  end.

(** ** Normal forms

    The members that are read: of the members with one name, the last. *)
Fixpoint last_members {A} (members : list (string * A)) : list (string * A) :=
  match members with
  | [] => []
  | m :: members =>
      if decide (m.1 ∈ members.*1) then last_members members
      else m :: last_members members
  end.

(** The value without the members that are never read. *)
Fixpoint normal (value : Value) : Value :=
  match value with
  | Array items => Array (normal <$> items)
  | Object members => Object (last_members ((λ m, (m.1, normal m.2)) <$> members))
  | _ => value
  end.

#[global] Instance Value_equiv : Equiv Value := λ v w, normal v = normal w.

(** ** Lemmas *)

#[global] Instance Value_eq_dec : EqDecision Value.
Proof.
  refine (fix go (x y : Value) {struct x} : Decision (x = y) :=
    match x, y with
    | Undefined, Undefined | Null, Null => left _
    | Bool b, Bool b' => cast_if (decide (b = b'))
    | Number n, Number n' => cast_if (decide (n = n'))
    | String s, String s' => cast_if (decide (s = s'))
    | Array l, Array l' => cast_if (@list_eq_dec _ go l l')
    | Object l, Object l' => cast_if (@list_eq_dec _ (@prod_eq_dec _ _ _ go) l l')
    | _, _ => right _
    end); abstract congruence.
Defined.

Lemma as_int_int z : as_int (int z) = Some z.
Proof. done. Qed.

Lemma member_snoc key members key' value :
  member key (members ++ [(key', value)]) =
  if decide (key' = key) then value else member key members.
Proof.
  unfold member. rewrite filter_app, filter_cons, filter_nil. cbn [fst].
  case_decide; [by rewrite last_snoc|by rewrite (right_id_L [] (++))].
Qed.

Lemma member_singleton key value : member key [(key, value)] = value.
Proof. unfold member. by rewrite filter_cons_True. Qed.

(** A name that no member has reads as [undefined]. *)
Lemma member_None key members :
  key ∉ members.*1 → member key members = Undefined.
Proof.
  intros Hkey. unfold member. rewrite filter_none; [done|].
  apply Forall_forall. intros [k v] Hin Hk. cbn in Hk. subst k. apply Hkey.
  by apply (list_elem_of_fmap_2 fst _ (key, v)).
Qed.

(** A truthy value from which [trim] does not throw is a string. *)
Lemma trim_Ok value s : trim value = Ok s → ∃ s', value = String s' ∧ s = JsString.trim s'.
Proof. destruct value; intros [= <-]; eauto. Qed.

(** When no call throws, [filterM] is the filter of lists. *)
Lemma filterM_Ok (callback : Value → result bool) (p : Value → bool) items :
  Forall (λ item, callback item = Ok (p item)) items →
  filterM callback items = Ok (base.filter (λ item, p item) items).
Proof.
  induction 1 as [|item items Hitem _ IH]; [done|].
  cbn [filterM]. rewrite Hitem, IH, filter_cons. cbn. by destruct (p item).
Qed.

(** One call that throws makes [filterM] throw, if the calls before it
    throw nothing else. *)
Lemma filterM_Err (callback : Value → result bool) e items :
  Forall (λ item, is_Ok (callback item) = true ∨ callback item = Err e) items →
  Exists (λ item, callback item = Err e) items →
  filterM callback items = Err e.
Proof.
  induction 1 as [|item items Hitem _ IH]; intros Hex; [by apply Exists_nil in Hex|].
  cbn [filterM]. destruct Hitem as [(keep & Hk)%is_Ok_true|Hk]; rewrite Hk; [|done].
  apply Exists_cons in Hex as [Hex|Hex]; [congruence|]. cbn. by rewrite IH.
Qed.

Lemma imapM_Ok {A B} (callback : nat → A → result B) (f : nat → A → B) items :
  (∀ i item, items !! i = Some item → callback i item = Ok (f i item)) →
  imapM callback items = Ok (imap f items).
Proof.
  revert callback f. induction items as [|item items IH]; intros callback f Hall; [done|].
  cbn [imapM imap]. rewrite (Hall 0 item eq_refl). cbn.
  rewrite (IH _ (f ∘ S)); [done|]. intros i item' Hi. by apply (Hall (S i)).
Qed.

(** ** Lemmas: reading members *)

Lemma member_cons key (m : string * Value) members :
  member key (m :: members) =
  if decide (key ∈ members.*1) then member key members
  else if decide (m.1 = key) then m.2 else Undefined.
Proof.
  unfold member. rewrite filter_cons. destruct (decide (key ∈ members.*1)) as [Hin|Hout].
  - apply list_elem_of_fmap in Hin as (kv & Hk & Hin).
    assert (kv ∈ base.filter (λ m : string * Value, m.1 = key) members) as Hf
      by by apply list_elem_of_filter.
    case_decide; [|done].
    destruct (base.filter _ members); [by inversion Hf|by rewrite last_cons_cons].
  - rewrite (filter_none _ members).
    + by repeat case_decide.
    + apply Forall_forall. intros [k v] Hin Hk. cbn in Hk. subst k. apply Hout.
      by apply (list_elem_of_fmap_2 fst _ (key, v)).
Qed.

Lemma last_members_keys {A} key (members : list (string * A)) :
  key ∈ (last_members members).*1 ↔ key ∈ members.*1.
Proof.
  induction members as [|m members IH]; [done|]. cbn [last_members].
  case_decide; rewrite ?fmap_cons, ?elem_of_cons, IH; [|done].
  split; [by right|]. by intros [->|?].
Qed.

(** Reading does not see the members that [last_members] drops. *)
Lemma member_last_members key members : member key (last_members members) = member key members.
Proof.
  induction members as [|m members IH]; [done|]. cbn [last_members]. rewrite !member_cons.
  destruct (decide (m.1 ∈ members.*1)) as [Hm|Hm].
  - rewrite IH. case_decide; [done|]. case_decide; [by subst|by rewrite member_None].
  - rewrite member_cons, IH.
    destruct (decide (key ∈ (last_members members).*1)) as [Hk|Hk];
      rewrite last_members_keys in Hk; by destruct (decide (key ∈ members.*1)).
Qed.

Lemma member_fmap key (f : Value → Value) members :
  f Undefined = Undefined →
  member key ((λ m, (m.1, f m.2)) <$> members) = f (member key members).
Proof.
  intros Hf. induction members as [|m members IH]; [done|].
  rewrite fmap_cons, !member_cons, IH, <-list_fmap_compose. cbn.
  by repeat case_decide.
Qed.

Lemma last_members_nodup {A} (members : list (string * A)) :
  NoDup (last_members members).*1.
Proof.
  induction members as [|m members IH]; [constructor|]. cbn [last_members].
  case_decide; [done|]. rewrite fmap_cons. constructor; [|done]. by rewrite last_members_keys.
Qed.

Lemma last_members_id {A} (members : list (string * A)) :
  NoDup members.*1 → last_members members = members.
Proof.
  induction members as [|m members IH]; [done|]. rewrite fmap_cons, NoDup_cons.
  intros [Hm Hnd]. cbn [last_members]. by rewrite decide_False, IH.
Qed.

Lemma last_members_fmap {A B} (f : A → B) (members : list (string * A)) :
  last_members ((λ m, (m.1, f m.2)) <$> members) = (λ m, (m.1, f m.2)) <$> last_members members.
Proof.
  induction members as [|m members IH]; [done|]. rewrite fmap_cons. cbn [last_members fst].
  rewrite <-list_fmap_compose. change (fst ∘ _) with (fst (A:=string) (B:=A)).
  case_decide; by rewrite IH.
Qed.

(** ** Lemmas: normal forms *)

Lemma get_normal key value : get key (normal value) = normal <$> get key value.
Proof.
  destruct value as [| | | | | |members]; try done. cbn.
  by rewrite member_last_members, (member_fmap key normal).
Qed.

Lemma truthy_normal value : truthy (normal value) = truthy value.
Proof. by destruct value. Qed.

Lemma trim_normal value : trim (normal value) = trim value.
Proof. by destruct value. Qed.

Lemma has_normal set value : has set (normal value) = has set value.
Proof. by destruct value. Qed.

Lemma is_string_normal value : is_string (normal value) = is_string value.
Proof. by destruct value. Qed.

(** A value that is normal if it is a string, a number or a boolean. *)
Lemma normal_String value s : normal value = String s ↔ value = String s.
Proof. destruct value; naive_solver. Qed.

Lemma normal_Number value n : normal value = Number n ↔ value = Number n.
Proof. destruct value; naive_solver. Qed.

Lemma normal_idemp value : normal (normal value) = normal value.
Proof.
  induction value as [| | | | |items IH|members IH] using Value_ind;
    try done; cbn [normal]; f_equal.
  - rewrite <-list_fmap_compose. apply Forall_fmap_ext_1. by eapply Forall_impl.
  - rewrite (last_members_fmap normal (last_members _)).
    rewrite (last_members_id (last_members _)) by apply last_members_nodup.
    rewrite <-(last_members_fmap normal). f_equal. rewrite <-list_fmap_compose.
    apply Forall_fmap_ext_1. eapply Forall_impl; [done|]. intros [k v] Hv. cbn in *. by rewrite Hv.
Qed.

#[global] Instance Value_equivalence : Equivalence (≡@{Value}).
Proof.
  unfold equiv, Value_equiv. split; [by intros ?|by intros ??|by intros ??? ->].
Qed.

Lemma normal_equiv value : normal value ≡ value.
Proof. apply normal_idemp. Qed.

(** No operation tells two equivalent values apart. *)
#[global] Instance truthy_proper : Proper ((≡) ==> (=)) truthy.
Proof. intros v w Hvw. by rewrite <-(truthy_normal v), Hvw, truthy_normal. Qed.

#[global] Instance trim_proper : Proper ((≡) ==> (=)) trim.
Proof. intros v w Hvw. by rewrite <-(trim_normal v), Hvw, trim_normal. Qed.

#[global] Instance has_proper set : Proper ((≡) ==> (=)) (has set).
Proof. intros v w Hvw. by rewrite <-(has_normal set v), Hvw, has_normal. Qed.

#[global] Instance is_string_proper : Proper ((≡) ==> (=)) is_string.
Proof. intros v w Hvw. by rewrite <-(is_string_normal v), Hvw, is_string_normal. Qed.

(** Reading a property of equivalent values throws for both or gives
    equivalent values. *)
Lemma get_proper key v w : v ≡ w → normal <$> get key v = normal <$> get key w.
Proof.
  intros Hvw. rewrite <-!get_normal. unfold equiv, Value_equiv in Hvw. by rewrite Hvw.
Qed.

(** ** Lemmas: types *)

Lemma conforms_normal t value : conforms t (normal value) = conforms t value.
Proof.
  revert value. induction t as [| | |item IH|properties IH] using Ty_ind; intros value;
    destruct value as [| | | | |items|members]; try done; cbn [conforms normal].
  - induction items as [|v items IHitems]; [done|]. cbn. by rewrite IH, IHitems.
  - induction IH as [|p properties Hp _ IHp]; [done|]. cbn [forallb].
    by rewrite IHp, member_last_members, (member_fmap p.1 normal), Hp.
Qed.

#[global] Instance conforms_proper t : Proper ((≡) ==> (=)) (conforms t).
Proof. intros v w Hvw. by rewrite <-(conforms_normal t v), Hvw, conforms_normal. Qed.

(** What having an interface type gives: the value is an object, and
    each property of the interface reads as a value of its type. *)
Lemma conforms_interface properties value key t :
  conforms (TInterface properties) value = true → (key, t) ∈ properties →
  ∃ v, get key value = Ok v ∧ conforms t v = true.
Proof.
  destruct value as [| | | | | |members]; try done. cbn [conforms get].
  intros Hall%Is_true_true%forallb_True Hin. rewrite Forall_forall in Hall.
  exists (member key members). split; [done|]. by apply Is_true_true, (Hall (key, t)).
Qed.

Lemma conforms_array item value :
  conforms (TArray item) value = true →
  ∃ items, value = Array items ∧ Forall (λ v, conforms item v = true) items.
Proof.
  destruct value as [| | | | |items|]; try done. cbn [conforms].
  intros Hall%Is_true_true%forallb_True. exists items. split; [done|].
  eapply Forall_impl; [done|]. intros v. apply Is_true_true.
Qed.

End Js.
