(* ===== verification/Style.v ===== *)
(** * Style: style sheets, style props and the tree of elements

    The components give every element a [style] prop: an entry of a
    sheet made with [StyleSheet.create], an object written in place, or
    an array of those in which [cond && style] stands for a style that
    applies under a condition.  React Native flattens the array: a
    falsy entry is skipped, and of two entries that set the same
    property the later one wins.

    [Style] has the values, the sheets as finite maps, the flattening
    with its laws, and the colours that the sheets name.  Two style
    props are equivalent when they flatten to the same style; arrays
    can be rewritten with this equivalence.  [Native] has the tree of
    elements that a component renders, as far as the styles go, and the
    check that every text of a tree is drawn in a colour that differs
    from the background behind it. *)

From Stdlib Require Import Ascii QArith Qcanon.
From S2P Require Import Prelude JsString.

Module Style.

(** ** Definitions *)

(** The values of the sheets: numbers, strings (colours, keywords,
    percentages) and the offset of a shadow. *)
Inductive Value : Type :=
| Num (q : Qc)
| Str (s : string)
| Offset (width height : Qc).

#[global] Instance Value_eq_dec : EqDecision Value.
Proof. solve_decision. Defined.

(** A style: an object from property names to values. *)
Abbreviation t := (gmap string Value).

(** The number [n], and the decimal [n / d]. *)
Definition num (n : Z) : Value := Num (Qc_of_Z n).
Definition dec (n : Z) (d : positive) : Value := Num (Q2Qc (n # d)).
Definition offset (width height : Z) : Value := Offset (Qc_of_Z width) (Qc_of_Z height).

(** A style prop: an array of styles and falsy values; a single style
    is the array of one. *)
Definition Prop_ : Type := list (option t).

(** [cond && style] *)
Definition when (cond : bool) (style : t) : option t :=
  if cond then Some style else None.

(** [StyleSheet.flatten]: later entries win. *)
Definition flatten (styles : Prop_) : t :=
  foldl (λ acc style, default ∅ style ∪ acc) ∅ styles.

(** Two style props are equivalent when they flatten to the same
    style. *)
#[global] Instance equiv : Equiv Prop_ := λ l l', flatten l = flatten l'.

(** A colour by its red, green and blue, each from 0 to 255. *)
Record Color : Type := rgb { red : N; green : N; blue : N }.

#[global] Instance Color_eq_dec : EqDecision Color.
Proof. solve_decision. Defined.

Definition hexDigit (c : Ascii.ascii) : option N :=
  let n := Ascii.N_of_ascii c in
  if ((0x30 <=? n) && (n <=? 0x39))%N then Some (n - 0x30)%N
  else if ((0x41 <=? n) && (n <=? 0x46))%N then Some (n - 0x37)%N
  else if ((0x61 <=? n) && (n <=? 0x66))%N then Some (n - 0x57)%N
  else None.

(** The colours that the sheets write: [#rgb] and [#rrggbb], in either
    case. *)
Definition parseColor (s : string) : option Color :=
  match s with
  | String "#"%char digits => mapM hexDigit (String.list_ascii_of_string digits)
  | _ => None
  end ≫= λ digits,
  match digits with
  | [r; g; b] => Some (rgb (17 * r) (17 * g) (17 * b))
  | [r1; r2; g1; g2; b1; b2] => Some (rgb (16 * r1 + r2) (16 * g1 + g2) (16 * b1 + b2))
  | _ => None
  end.

(** The colour that a style gives a property. *)
Definition color (key : string) (style : t) : option Color :=
  match style !! key with
  | Some (Str s) => parseColor s
  | _ => None
  end.

Definition black : Color := rgb 0 0 0.
Definition white : Color := rgb 255 255 255.

(** ** Lemmas *)

Section flatten.
Implicit Types (style : t) (l : Prop_) (key : string).

Lemma flatten_nil : flatten [] = ∅.
Proof. done. Qed.

Lemma flatten_snoc l (o : option t) : flatten (l ++ [o]) = default ∅ o ∪ flatten l.
Proof. unfold flatten. by rewrite foldl_snoc. Qed.

Lemma flatten_app l l' : flatten (l ++ l') = flatten l' ∪ flatten l.
Proof.
  induction l' as [|o l' IH] using rev_ind.
  - by rewrite (right_id_L [] (++)), flatten_nil, (left_id_L ∅ (∪)).
  - by rewrite (assoc_L (++)), !flatten_snoc, IH, (assoc_L (∪)).
Qed.

Lemma flatten_singleton style : flatten [Some style] = style.
Proof. unfold flatten. cbn. by rewrite (right_id_L ∅ (∪)). Qed.

Lemma flatten_cons (o : option t) l : flatten (o :: l) = flatten l ∪ default ∅ o.
Proof.
  change (o :: l) with ([o] ++ l). rewrite flatten_app. f_equal.
  unfold flatten. cbn. by rewrite (right_id_L ∅ (∪)).
Qed.

(** A property of a flattened array: the value that the last entry
    gives it, of those that set it. *)
Lemma lookup_flatten_snoc l (o : option t) key :
  flatten (l ++ [o]) !! key =
  match o ≫= (.!! key) with
  | Some v => Some v
  | None => flatten l !! key
  end.
Proof.
  rewrite flatten_snoc, lookup_union. destruct o as [style|]; cbn.
  - by destruct (style !! key), (flatten l !! key).
  - rewrite lookup_empty. by destruct (flatten l !! key).
Qed.

(** A conditional style applies or is skipped. *)
Lemma flatten_when (cond : bool) style style' :
  flatten [Some style; when cond style'] = if cond then style' ∪ style else style.
Proof.
  change [Some style; when cond style'] with ([Some style] ++ [when cond style']).
  rewrite flatten_snoc, flatten_singleton. destruct cond; [done|apply (left_id_L ∅ (∪))].
Qed.

Lemma lookup_when (cond : bool) style style' key :
  flatten [Some style; when cond style'] !! key =
  if cond then match style' !! key with Some v => Some v | None => style !! key end
  else style !! key.
Proof.
  rewrite flatten_when. destruct cond; [|done]. rewrite lookup_union.
  by destruct (style' !! key), (style !! key).
Qed.

End flatten.

(** ** The equivalence of style props *)

#[global] Instance equiv_equivalence : Equivalence (≡@{Prop_}).
Proof.
  split.
  - by intros l.
  - by intros l l' Hl.
  - intros l1 l2 l3 H12 H23. unfold base.equiv, equiv in *. congruence.
Qed.

#[global] Instance flatten_proper : Proper ((≡) ==> (=)) flatten.
Proof. by intros l l' Hl. Qed.

#[global] Instance app_proper : Proper ((≡) ==> (≡) ==> (≡@{Prop_})) (++).
Proof.
  intros l1 l1' H1 l2 l2' H2. unfold base.equiv, equiv in *.
  by rewrite !flatten_app, H1, H2.
Qed.

Section equiv.
Implicit Types (style : t) (l : Prop_).

(** A falsy entry can be dropped anywhere. *)
Lemma equiv_falsy l l' : l ++ None :: l' ≡ l ++ l'.
Proof.
  apply app_proper; [done|]. unfold base.equiv, equiv.
  rewrite flatten_cons. cbn. apply (right_id_L ∅ (∪)).
Qed.

Lemma equiv_when_false style l : when false style :: l ≡ l.
Proof. apply (equiv_falsy [] l). Qed.

(** An entry that is repeated at once counts once. *)
Lemma equiv_twice (o : option t) : [o; o] ≡ [o].
Proof.
  unfold base.equiv, equiv. change [o; o] with ([o] ++ [o]).
  rewrite flatten_app. apply (idemp_L (∪)).
Qed.

(** An array inside an array is as its entries in place. *)
Lemma equiv_nested l l' : l ++ [Some (flatten l')] ≡ l ++ l'.
Proof.
  apply app_proper; [done|]. unfold base.equiv, equiv. by rewrite flatten_singleton.
Qed.

End equiv.

(** ** Colours *)

Lemma parseColor_short_long :
  parseColor "#FFF" = parseColor "#ffffff" ∧ parseColor "#fff" = Some white ∧
  parseColor "#000" = Some black.
Proof. done. Qed.

End Style.

(** ** The tree of elements *)

Module Native.

(** What a component renders, as far as the styles go: containers
    ([View], [SafeAreaView], [TouchableOpacity], [FlatList]), texts and
    text inputs, images, and native components, whose inside is not
    drawn by React Native. *)
#[warnings="-register-all"] Inductive Element : Type :=
| View (style : Style.t) (children : list Element)
| Text (style : Style.t) (content : jsstring)
| TextInput (style : Style.t) (value : jsstring)
| Image (style : Style.t) (uri : jsstring)
| Component (name : string) (style : Style.t).

Definition style (e : Element) : Style.t :=
  match e with
  | View style _ | Text style _ | TextInput style _ | Image style _ | Component _ style => style
  end.

Definition children (e : Element) : list Element :=
  match e with View _ children => children | _ => [] end.

(** The colour of a text: its [color], black without one. *)
Definition textColor (style : Style.t) : Style.Color :=
  default Style.black (Style.color "color" style).

(** The background behind the children of a container: its own, or the
    one behind it. *)
Definition background (behind : Style.Color) (style : Style.t) : Style.Color :=
  default behind (Style.color "backgroundColor" style).

(** Every text of the tree is drawn in a colour that differs from the
    background behind it. *)
Fixpoint legible (behind : Style.Color) (e : Element) : bool :=
  match e with
  | View style children => forallb (legible (background behind style)) children
  | Text style _ | TextInput style _ =>
      bool_decide (textColor style ≠ background behind style)
  | Image _ _ | Component _ _ => true
  end.

(** The texts of the tree, in order. *)
Fixpoint texts (e : Element) : list jsstring :=
  match e with
  | View _ children => concat (texts <$> children)
  | Text _ content => [content]
  | TextInput _ _ | Image _ _ | Component _ _ => []
  end.

(** ** Lemmas *)

Lemma legible_View behind style children :
  legible behind (View style children) = true ↔
  Forall (λ e, legible (background behind style) e = true) children.
Proof.
  cbn [legible]. induction children as [|e children IH]; cbn [forallb].
  - by split.
  - by rewrite andb_true_iff, Forall_cons, IH.
Qed.

(** A container without background of its own is as legible as its
    children are on the background behind it. *)
Lemma legible_transparent behind style children :
  Style.color "backgroundColor" style = None →
  legible behind (View style children) = forallb (legible behind) children.
Proof. intros Hnone. cbn. unfold background. by rewrite Hnone. Qed.

End Native.
