(* ===== verification/Task.v ===== *)
(** * Task: the domain model (src/src/database/Task.ts)

    The model class [Task] binds three columns of the [tasks] table to
    properties and carries the two business actions of the program.  Here
    a record of the class is a value of [Task.t]; an action is the pure
    function that its [update] callback applies to the record.  Running
    the action inside a write transaction is [Database.update]. *)

From S2P Require Import Prelude JsString.

(** ** The contract of the [@text] decorator

    [@text] is WatermelonDB's decorator for user text: its setter stores
    a normalised copy of what is assigned.  The program relies on one
    fact about it, that a trimmed string is stored as it is. *)
Class TextField : Type := {
  text_set : jsstring → jsstring;
  text_set_trimmed : ∀ s, trimmed s → text_set s = s;
}.

(** WatermelonDB's setter trims. *)
#[export] Program Instance text_trim : TextField := {| text_set := trim |}.
Next Obligation. apply trimmed_trim. Qed.

(** A plain field stores what it is given (the mock of TaskLogic.test.ts). *)
Program Definition text_raw : TextField := {| text_set := λ s, s |}.
Next Obligation. done. Qed.

Module Task.

(** ** Definitions *)

(** A record of the model class: the store-generated [id] and the columns
    bound by [@text('todo')], [@field('completed')] and
    [@text('attachment_uri')].  [None] is JavaScript's [null] in the
    optional column. *)
Record t : Type := mk {
  id : N;
  todo : jsstring;
  completed : bool;
  attachmentUri : option jsstring;
}.

#[global] Instance t_eq_dec : EqDecision t.
Proof. solve_decision. Defined.

(** [task.todo = v] *)
Definition set_todo `{TextField} (v : jsstring) (task : t) : t :=
  mk (id task) (text_set v) (completed task) (attachmentUri task).

(** [task.completed = v] *)
Definition set_completed (v : bool) (task : t) : t :=
  mk (id task) (todo task) v (attachmentUri task).

(** [task.attachmentUri = v] *)
Definition set_attachmentUri `{TextField} (v : jsstring) (task : t) : t :=
  mk (id task) (todo task) (completed task) (Some (text_set v)).

(** The callback of [toggleComplete]: [task.completed = !task.completed]. *)
Definition toggleComplete (task : t) : t :=
  set_completed (negb (completed task)) task.

(** The callback of [addAttachment(uri)]: [task.attachmentUri = uri]. *)
Definition addAttachment `{TextField} (uri : jsstring) (task : t) : t :=
  set_attachmentUri uri task.

(** The two actions the UI can trigger on a record. *)
Inductive Action : Type :=
| ToggleComplete
| AddAttachment (uri : jsstring).

Definition act `{TextField} (a : Action) (task : t) : t :=
  match a with
  | ToggleComplete => toggleComplete task
  | AddAttachment uri => addAttachment uri task
  end.

(** A record as the store may hold it: its title is trimmed and not
    empty. *)
Definition valid (task : t) : Prop :=
  trimmed (todo task) ∧ todo task ≠ [].

#[global] Instance valid_dec task : Decision (valid task).
Proof. unfold valid. apply _. Defined.

(** ** The life cycle of a record (specification, section 4.4)

    A record is [Pending] or [Completed], and independently has an
    attachment or not.  Toggling flips the first; attaching leads to
    [Attached], from which no action leaves. *)
Inductive Completion : Type := Pending | Completed.
Inductive Attachment : Type := NoAttachment | Attached.

Definition completion (task : t) : Completion :=
  if completed task then Completed else Pending.

Definition attachment (task : t) : Attachment :=
  match attachmentUri task with Some _ => Attached | None => NoAttachment end.

Inductive step : Completion * Attachment → Action → Completion * Attachment → Prop :=
| step_complete a : step (Pending, a) ToggleComplete (Completed, a)
| step_reopen a : step (Completed, a) ToggleComplete (Pending, a)
| step_attach c a uri : step (c, a) (AddAttachment uri) (c, Attached).

(** ** Lemmas *)

Section lemmas.
Context `{TextField}.
Implicit Types (task : t) (uri : jsstring) (a : Action).

Lemma toggleComplete_completed task :
  completed (toggleComplete task) = negb (completed task).
Proof. done. Qed.

Lemma toggleComplete_frame task :
  id (toggleComplete task) = id task ∧
  todo (toggleComplete task) = todo task ∧
  attachmentUri (toggleComplete task) = attachmentUri task.
Proof. done. Qed.

Lemma addAttachment_uri uri task :
  attachmentUri (addAttachment uri task) = Some (text_set uri).
Proof. done. Qed.

Lemma addAttachment_frame uri task :
  id (addAttachment uri task) = id task ∧
  todo (addAttachment uri task) = todo task ∧
  completed (addAttachment uri task) = completed task.
Proof. done. Qed.

(** Toggling twice gives the record back. *)
Lemma toggleComplete_involutive task :
  toggleComplete (toggleComplete task) = task.
Proof. by destruct task as [i s [] u]. Qed.

(** The second attachment replaces the first. *)
Lemma addAttachment_last_wins uri1 uri2 task :
  addAttachment uri2 (addAttachment uri1 task) = addAttachment uri2 task.
Proof. done. Qed.

(** The two actions write different columns: they commute. *)
Lemma toggle_attach_commute uri task :
  toggleComplete (addAttachment uri task) = addAttachment uri (toggleComplete task).
Proof. done. Qed.

Lemma act_id a task : id (act a task) = id task.
Proof. by destruct a. Qed.

Lemma act_todo a task : todo (act a task) = todo task.
Proof. by destruct a. Qed.

Lemma act_valid a task : valid task → valid (act a task).
Proof. unfold valid. by rewrite act_todo. Qed.

Lemma acts_todo (l : list Action) task : todo (foldl (flip act) task l) = todo task.
Proof.
  revert task. induction l as [|a l IH]; intros task; simpl; [done|].
  by rewrite IH, act_todo.
Qed.

Lemma set_todo_trim s task : todo (set_todo (trim s) task) = trim s.
Proof. simpl. apply text_set_trimmed, trim_trimmed. Qed.

End lemmas.

#[global] Hint Resolve act_valid : td.
#[global] Hint Rewrite @act_id @act_todo @acts_todo : td.

End Task.

(** ** Properties of the two actions *)

Section actions.
Context `{TextField}.
Implicit Types (task : Task.t) (uri : jsstring) (a : Task.Action).

(** Whatever actions run on a record, in whatever order, its id and
    its title stay what they were at creation. *)
Theorem actions_keep_identity (l : list Task.Action) task :
  Task.id (foldl (flip Task.act) task l) = Task.id task ∧
  Task.todo (foldl (flip Task.act) task l) = Task.todo task.
Proof.
  revert task. induction l as [|a l IH]; intros task; simpl; [done|].
  destruct (IH (Task.act a task)) as [-> ->].
  by rewrite Task.act_id, Task.act_todo.
Qed.

(** the actions implement the life cycle of the specification: each
    action on a record is a step of the state machine between the
    abstractions of the record before and after. *)
Theorem act_refines_step a task :
  Task.step (Task.completion task, Task.attachment task) a
            (Task.completion (Task.act a task), Task.attachment (Task.act a task)).
Proof.
  destruct a as [|uri], task as [i s [] u]; cbn; constructor.
Qed.

(** [Attached] is absorbing: once a record has an attachment, no
    sequence of actions removes it. *)
Theorem attached_forever (l : list Task.Action) task :
  Task.attachment task = Task.Attached →
  Task.attachment (foldl (flip Task.act) task l) = Task.Attached.
Proof.
  revert task. induction l as [|a l IH]; intros task Ht; simpl; [done|].
  apply IH. destruct a; [|done].
  by destruct task as [i s c [u|]].
Qed.

End actions.

Lemma attached_forever_witness :
  Task.attachment
    (foldl (flip Task.act) (Task.mk 1 (js "Buy milk") false (Some (js "file://a")))
       [Task.ToggleComplete; Task.AddAttachment (js "file://b"); Task.ToggleComplete])
  = Task.Attached.
Proof. apply (attached_forever (H := text_trim)). reflexivity. Defined.

(** ** Examples: the unit tests of TaskLogic.test.ts *)

Example test_toggle_once :
  Task.completed (Task.toggleComplete (Task.mk 1 (js "Aprender WatermelonDB") false None)) = true.
Proof. reflexivity. Qed.

Example test_attach_uri :
  Task.attachmentUri
    (Task.addAttachment (js "file://images/photo.jpg")
       (Task.mk 1 (js "Aprender WatermelonDB") false None))
  = Some (js "file://images/photo.jpg").
Proof. reflexivity. Qed.

(** With the trimming setter of WatermelonDB a reference that carries
    surrounding white space is stored without it. *)
Example attach_uri_is_trimmed :
  Task.attachmentUri
    (Task.addAttachment (js " file://a ") (Task.mk 1 (js "t") false None))
  = Some (js "file://a").
Proof. reflexivity. Qed.
