(* ===== verification/Schema.v ===== *)
(** * Schema: the persisted table and the column binding of the model

    src/src/database/schema.ts declares the one table of the application,
    [tasks], with its three columns.  The decorators of
    src/src/database/Task.ts bind each property of the model to one of
    those columns.  This file has the schema as data, the raw record that
    a model instance is stored as, and the theorems that the binding and
    the schema agree. *)

From S2P Require Import Prelude JsString Task.

Module Schema.

(** ** Definitions *)

(** The column types of WatermelonDB. *)
Inductive ColumnType : Type := TString | TBoolean | TNumber.

#[global] Instance ColumnType_eq_dec : EqDecision ColumnType.
Proof. solve_decision. Defined.

(** One entry of [columns]: [{ name, type, isOptional }]; an absent
    [isOptional] is [false]. *)
Record Column : Type := mkColumn {
  name : string;
  type : ColumnType;
  isOptional : bool;
}.

(** [tableSchema({ name, columns })] *)
Record Table : Type := mkTable {
  table_name : string;
  columns : list Column;
}.

(** [appSchema({ version, tables })] *)
Record App : Type := mkApp {
  version : N;
  tables : list Table;
}.

(** The schema of the application (schema.ts). *)
Definition schema : App :=
  {| version := 1;
     tables :=
       [ {| table_name := "tasks";
            columns :=
              [ {| name := "todo"; type := TString; isOptional := false |};
                {| name := "completed"; type := TBoolean; isOptional := false |};
                {| name := "attachment_uri"; type := TString; isOptional := true |} ] |} ] |}.

Definition find_table (app : App) (n : string) : option Table :=
  list_find (λ t, table_name t = n) (tables app) ≫= λ p, Some p.2.

(** A value of a raw record. *)
Inductive Value : Type :=
| VString (s : jsstring)
| VBoolean (b : bool)
| VNumber (z : Z)
| VNull.

#[global] Instance Value_eq_dec : EqDecision Value.
Proof. solve_decision. Defined.

(** [static table = 'tasks'] of the model class. *)
Definition table : string := "tasks".

(** The raw record of a model instance: the object keyed by column name
    that the decorated properties read and write. *)
Definition to_raw (task : Task.t) : gmap string Value :=
  {[ "todo" := VString (Task.todo task);
     "completed" := VBoolean (Task.completed task);
     "attachment_uri" := from_option VString VNull (Task.attachmentUri task) ]}.

(** The model instance that the getters of the decorators present for a
    raw record; [None] if a column is missing or of another type. *)
Definition of_raw (id : N) (raw : gmap string Value) : option Task.t :=
  match raw !! "todo", raw !! "completed", raw !! "attachment_uri" with
  | Some (VString s), Some (VBoolean b), Some (VString u) => Some (Task.mk id s b (Some u))
  | Some (VString s), Some (VBoolean b), Some VNull => Some (Task.mk id s b None)
  | _, _, _ => None
  end.

(** The value of a column of a record, as a query sees it. *)
Definition column_value (column : string) (task : Task.t) : option Value :=
  to_raw task !! column.

(** A value that a column may hold. *)
Definition has_type (c : Column) (v : Value) : bool :=
  match type c, v with
  | TString, VString _ | TBoolean, VBoolean _ | TNumber, VNumber _ => true
  | _, VNull => isOptional c
  | _, _ => false
  end.

(** A raw record that has every column of the table with a value of its
    type, and no other column. *)
Definition conforms (t : Table) (raw : gmap string Value) : bool :=
  forallb (λ c, from_option (has_type c) false (raw !! name c)) (columns t)
  && bool_decide (dom raw = list_to_set (name <$> columns t)).

(** ** Lemmas *)

Lemma column_value_todo task :
  column_value "todo" task = Some (VString (Task.todo task)).
Proof. done. Qed.

Lemma column_value_completed task :
  column_value "completed" task = Some (VBoolean (Task.completed task)).
Proof. done. Qed.

Lemma column_value_attachment task :
  column_value "attachment_uri" task =
  Some (from_option VString VNull (Task.attachmentUri task)).
Proof. done. Qed.

Lemma column_value_toggle column task :
  column ≠ "completed" →
  column_value column (Task.toggleComplete task) = column_value column task.
Proof.
  intros Hc. unfold column_value, to_raw. simpl.
  destruct (decide (column = "todo")) as [->|?]; [done|].
  by rewrite !(lookup_insert_ne _ "todo"), !lookup_insert_ne by done.
Qed.

Lemma of_raw_to_raw_id i task :
  of_raw i (to_raw task) =
  Some (Task.mk i (Task.todo task) (Task.completed task) (Task.attachmentUri task)).
Proof. by destruct task as [j s b [u|]]. Qed.

End Schema.

#[export] Hint Rewrite Schema.column_value_todo Schema.column_value_completed
  Schema.column_value_attachment : td.

(** ** The binding agrees with the schema *)

(** The table that the model class names is a table of the schema,
    and it is the only one. *)
Theorem model_table_declared :
  ∃ t, Schema.find_table Schema.schema Schema.table = Some t ∧
       Schema.tables Schema.schema = [t] ∧
       Schema.version Schema.schema = 1%N.
Proof. eexists. by vm_compute. Qed.

(** C39: whatever the fields of a model instance are, its raw record has
    exactly the columns that the schema declares for [tasks], each with
    a value of the declared type; only [attachment_uri] can be null. *)
Theorem to_raw_conforms task t :
  Schema.find_table Schema.schema Schema.table = Some t →
  Schema.conforms t (Schema.to_raw task) = true.
Proof.
  intros [= <-]. destruct task as [i s b [u|]]; by vm_compute.
Qed.

Lemma to_raw_conforms_witness :
  Schema.conforms
    {| Schema.table_name := "tasks";
       Schema.columns :=
         [ Schema.mkColumn "todo" Schema.TString false;
           Schema.mkColumn "completed" Schema.TBoolean false;
           Schema.mkColumn "attachment_uri" Schema.TString true ] |}
    (Schema.to_raw (Task.mk 7 (js "Buy milk") true None)) = true.
Proof. apply to_raw_conforms. reflexivity. Defined.

(** Reading back the raw record of a model instance through the
    decorated getters gives the instance: the binding loses nothing. *)
Theorem of_raw_to_raw task :
  Schema.of_raw (Task.id task) (Schema.to_raw task) = Some task.
Proof. rewrite Schema.of_raw_to_raw_id. by destruct task. Qed.

(** The raw record determines the columns of the instance: two
    instances with the same raw record differ at most in their id. *)
Theorem to_raw_inj task1 task2 :
  Schema.to_raw task1 = Schema.to_raw task2 →
  Task.todo task1 = Task.todo task2 ∧
  Task.completed task1 = Task.completed task2 ∧
  Task.attachmentUri task1 = Task.attachmentUri task2.
Proof.
  intros Hraw.
  pose proof (Schema.of_raw_to_raw_id 0 task1) as H1.
  rewrite Hraw, Schema.of_raw_to_raw_id in H1. by simplify_eq.
Qed.

Lemma to_raw_inj_witness :
  Task.todo (Task.mk 1 (js "a") true None) = Task.todo (Task.mk 2 (js "a") true None) ∧
  Task.completed (Task.mk 1 (js "a") true None) = Task.completed (Task.mk 2 (js "a") true None) ∧
  Task.attachmentUri (Task.mk 1 (js "a") true None) = Task.attachmentUri (Task.mk 2 (js "a") true None).
Proof. apply to_raw_inj. reflexivity. Defined.
