(* ===== verification/Database.v ===== *)
(** * Database: the local store (src/src/database/index.ts)

    index.ts builds the SQLite adapter from the schema and exports the one
    [database] of the process, with the model class [Task] registered.
    The rest of the program reaches the store through that object:
    [database.get('tasks')] with [query], [fetch] and [prepareCreate],
    [database.write], [database.batch], and [update] on a record.

    The state of the store is the [tasks] collection.  The calls are
    WatermelonDB's; their behaviour here is the contract that the
    specification states for the store: a query returns the rows that
    satisfy all its clauses, a batch is applied as a whole or not at all,
    and a write is a critical section that rolls nothing back.  A storage
    fault is an input of the call that it strikes. *)

From S2P Require Import Prelude JsString Task Schema.

Module Database.

(** ** Definitions *)

(** The options of [new SQLiteAdapter({ schema, jsi, onSetUpError })].
    The error callback only logs. *)
Record Adapter : Type := mkAdapter {
  adapter_schema : Schema.App;
  jsi : bool;
}.

Definition adapter : Adapter :=
  {| adapter_schema := Schema.schema; jsi := true |}.

(** [modelClasses: [Task]], by table name. *)
Definition modelClasses : list string := [Schema.table].

(** The [database]: the rows of its one collection in insertion order,
    and the next identifier that the collection hands out. *)
Record t : Type := mk {
  tasks : list Task.t;
  nextId : N;
}.

#[global] Instance t_eq_dec : EqDecision t.
Proof. solve_decision. Defined.

(** The store of a fresh install. *)
Definition empty : t := mk [] 0.

(** [Q.where(column, value)] *)
Inductive Clause : Type :=
| Where (column : string) (value : Schema.Value).

Definition matches (c : Clause) (task : Task.t) : bool :=
  match c with
  | Where column value => bool_decide (Schema.column_value column task = Some value)
  end.

Definition satisfies (clauses : list Clause) (task : Task.t) : bool :=
  forallb (λ c, matches c task) clauses.

(** The rows that [collection.query(...clauses)] denotes. *)
Definition query (clauses : list Clause) (db : t) : list Task.t :=
  filter (λ task, satisfies clauses task) (tasks db).

(** [await query.fetch()] *)
Definition fetch (ok : bool) (clauses : list Clause) : prog t (list Task.t) :=
  λ db, if ok then (Ok (query clauses db), db) else (Err StoreReadError, db).

(** The record with a given id, as the record cache presents it. *)
Definition find (id : N) (db : t) : option Task.t :=
  snd <$> list_find (λ task, Task.id task = id) (tasks db).

(** [collection.prepareCreate(builder)]: a new record with the defaults
    of the schema (empty text, false, null), handed to the builder.
    Nothing is stored yet. *)
Definition prepareCreate (builder : Task.t → Task.t) (id : N) : Task.t :=
  builder (Task.mk id [] false None).

(** A prepared operation, as [batch] takes them. *)
Inductive Op : Type :=
| Create (task : Task.t)
| Update (task : Task.t).

Definition is_create (op : Op) : bool :=
  match op with Create _ => true | Update _ => false end.

Definition apply_op (rows : list Task.t) (op : Op) : list Task.t :=
  match op with
  | Create task => rows ++ [task]
  | Update task =>
      (λ row, if decide (Task.id row = Task.id task) then task else row) <$> rows
  end.

Definition creates (ops : list Op) : N :=
  N.of_nat (length (filter (λ op, is_create op) ops)).

(** [await database.batch(...ops)]: every operation is applied, in order,
    or none is. *)
Definition batch (ok : bool) (ops : list Op) : prog t unit :=
  λ db, if ok
        then (Ok tt, mk (foldl apply_op (tasks db) ops) (nextId db + creates ops))
        else (Err StoreWriteError, db).

(** [await database.write(work)]: [work] runs alone; what it has stored
    when it throws stays stored. *)
Definition write {A} (work : prog t A) : prog t A := work.

(** [await record.update(builder)], for the record with the given id. *)
Definition update (ok : bool) (id : N) (builder : Task.t → Task.t) : prog t unit :=
  λ db, match find id db with
        | Some task => batch ok [Update (builder task)] db
        | None => (Err StoreWriteError, db)
        end.

(** [@writer async toggleComplete()] of the record with the given id. *)
Definition toggleComplete (ok : bool) (id : N) : prog t unit :=
  write (update ok id Task.toggleComplete).

(** [@writer async addAttachment(uri)] of the record with the given id. *)
Definition addAttachment `{TextField} (ok : bool) (id : N) (uri : jsstring) : prog t unit :=
  write (update ok id (Task.addAttachment uri)).

(** An intent of the UI on the record with the given id: the press
    handlers of TaskItem.tsx call one of the two writers. *)
Definition perform `{TextField} (ok : bool) (id : N) (a : Task.Action) : prog t unit :=
  match a with
  | Task.ToggleComplete => toggleComplete ok id
  | Task.AddAttachment uri => addAttachment ok id uri
  end.

(** The titles of the stored rows, in order. *)
Definition titles (db : t) : list jsstring := Task.todo <$> tasks db.

Definition ids (db : t) : list N := Task.id <$> tasks db.

(** Identifiers are unique and were handed out by the collection. *)
Definition wf (db : t) : Prop :=
  NoDup (ids db) ∧ Forall (λ i, (i < nextId db)%N) (ids db).

(** The invariant of the data model: every stored title is trimmed and
    not empty. *)
Definition titles_ok (db : t) : Prop := Forall Task.valid (tasks db).

(** What an update of the record [id] does to a row. *)
Definition alter_row (id : N) (builder : Task.t → Task.t) (row : Task.t) : Task.t :=
  if decide (Task.id row = id) then builder row else row.

(** A store with a pending and a completed row, for the examples. *)
Definition sample : t :=
  mk [ Task.mk 0 (js "Call mom") false None;
       Task.mk 1 (js "Buy milk") true None ] 2.

(** [db'] has the rows of [db], each in its place and as it was, possibly
    followed by new rows; the id supply has not gone back. *)
Definition extended_by (db db' : t) : Prop :=
  tasks db `prefix_of` tasks db' ∧ (nextId db ≤ nextId db')%N.

#[global] Instance extended_by_preorder : PreOrder extended_by.
Proof.
  split; [by split|]. intros db1 db2 db3 [? ?] [? ?].
  split; [by etrans|lia].
Qed.

#[global] Instance wf_dec db : Decision (wf db).
Proof. unfold wf. apply _. Defined.

#[global] Instance titles_ok_dec db : Decision (titles_ok db).
Proof. unfold titles_ok. apply _. Defined.

(** ** Lemmas: extension *)

Lemma extended_by_ids (db db' : t) : extended_by db db' → ids db `prefix_of` ids db'.
Proof. intros [? _]. by apply prefix_fmap. Qed.

Lemma extended_by_titles (db db' : t) :
  extended_by db db' → titles db `prefix_of` titles db'.
Proof. intros [? _]. by apply prefix_fmap. Qed.

(** ** Lemmas: queries *)

Section query.
Implicit Types (db : t) (task : Task.t) (clauses : list Clause).

Lemma elem_of_query clauses db task :
  task ∈ query clauses db ↔ task ∈ tasks db ∧ satisfies clauses task = true.
Proof.
  unfold query. rewrite list_elem_of_filter, Is_true_true. tauto.
Qed.

Lemma query_nil db : query [] db = tasks db.
Proof.
  unfold query. induction (tasks db) as [|task l IH]; [done|].
  by rewrite filter_cons_True, IH.
Qed.

Lemma query_sublist clauses db : query clauses db `sublist_of` tasks db.
Proof. apply sublist_filter. Qed.

Lemma query_length clauses db : length (query clauses db) ≤ length (tasks db).
Proof. apply sublist_length, query_sublist. Qed.

Lemma query_app clauses rows1 rows2 n1 n2 :
  query clauses (mk (rows1 ++ rows2) n1) =
  query clauses (mk rows1 n2) ++ query clauses (mk rows2 n2).
Proof. unfold query. simpl. apply filter_app. Qed.

Lemma matches_completed (b : bool) task :
  matches (Where "completed" (Schema.VBoolean b)) task = bool_decide (Task.completed task = b).
Proof.
  unfold matches. rewrite Schema.column_value_completed.
  apply bool_decide_ext. naive_solver.
Qed.

Lemma satisfies_completed (b : bool) task :
  satisfies [Where "completed" (Schema.VBoolean b)] task = bool_decide (Task.completed task = b).
Proof. unfold satisfies. cbn [forallb]. by rewrite matches_completed, andb_true_r. Qed.

Lemma query_completed (b : bool) db :
  query [Where "completed" (Schema.VBoolean b)] db =
  filter (λ task, Task.completed task = b) (tasks db).
Proof.
  unfold query. apply filter_ext_in. intros task _.
  by rewrite satisfies_completed, bool_decide_spec.
Qed.

(** A query on [completed] returns exactly the stored rows whose flag
    has the queried value. *)
Lemma elem_of_query_completed (b : bool) db task :
  task ∈ query [Where "completed" (Schema.VBoolean b)] db ↔
  task ∈ tasks db ∧ Task.completed task = b.
Proof. by rewrite query_completed, list_elem_of_filter, (comm (∧)). Qed.

Lemma fetch_ok clauses db : fetch true clauses db = (Ok (query clauses db), db).
Proof. done. Qed.

Lemma fetch_fault clauses db : fetch false clauses db = (Err StoreReadError, db).
Proof. done. Qed.

Lemma fetch_state ok clauses db : (fetch ok clauses db).2 = db.
Proof. by destruct ok. Qed.

End query.

(** ** Lemmas: the record cache *)

Section find.
Implicit Types (db : t) (task : Task.t) (id : N).

Lemma find_Some id db task :
  find id db = Some task → task ∈ tasks db ∧ Task.id task = id.
Proof.
  unfold find. intros Hf. apply fmap_Some in Hf as ([i x] & Hf & ->).
  apply list_find_Some in Hf as (Hi & ? & _). split; [|done].
  by eapply list_elem_of_lookup_2.
Qed.

Lemma find_is_Some id db : id ∈ ids db → is_Some (find id db).
Proof.
  unfold ids, find. intros (task & -> & Hin)%list_elem_of_fmap.
  apply fmap_is_Some. eapply list_find_elem_of; [done|]. done.
Qed.

Lemma find_None id db : find id db = None → id ∉ ids db.
Proof.
  intros Hf Hin. apply find_is_Some in Hin as [task Ht]. congruence.
Qed.

(** With unique identifiers a stored row is found by its id. *)
Lemma find_elem task db :
  NoDup (ids db) → task ∈ tasks db → find (Task.id task) db = Some task.
Proof.
  intros Hnd Hin. destruct (find (Task.id task) db) as [task'|] eqn:Hf.
  - apply find_Some in Hf as [Hin' Hid]. f_equal. by eapply NoDup_fmap_eq.
  - apply find_None in Hf. destruct Hf. by apply list_elem_of_fmap_2.
Qed.

End find.

(** ** Lemmas: batches *)

Section batch.
Implicit Types (db : t) (task : Task.t) (ops : list Op) (rows : list Task.t).

Lemma batch_fault ops db : batch false ops db = (Err StoreWriteError, db).
Proof. done. Qed.

Lemma batch_ok ops db :
  batch true ops db = (Ok tt, mk (foldl apply_op (tasks db) ops) (nextId db + creates ops)).
Proof. done. Qed.

Lemma apply_creates rows (new : list Task.t) :
  foldl apply_op rows (Create <$> new) = rows ++ new.
Proof.
  revert rows. induction new as [|task new IH]; intros rows; simpl.
  - by rewrite app_nil_r.
  - by rewrite IH, <-app_assoc.
Qed.

Lemma creates_fmap_Create (new : list Task.t) :
  creates (Create <$> new) = N.of_nat (length new).
Proof.
  unfold creates. f_equal. induction new as [|task new IH]; [done|].
  rewrite fmap_cons, filter_cons_True by done. simpl. by rewrite IH.
Qed.

Lemma batch_creates (new : list Task.t) db :
  batch true (Create <$> new) db =
  (Ok tt, mk (tasks db ++ new) (nextId db + N.of_nat (length new))).
Proof. by rewrite batch_ok, apply_creates, creates_fmap_Create. Qed.

Lemma batch_state_fault ok ops db e db' :
  batch ok ops db = (Err e, db') → db' = db ∧ e = StoreWriteError.
Proof. destruct ok; simpl; naive_solver. Qed.

Lemma apply_update_ids rows task :
  Task.id <$> apply_op rows (Update task) = Task.id <$> rows.
Proof.
  simpl. rewrite <-list_fmap_compose. apply list_fmap_ext.
  intros _ row _. simpl. by case_decide.
Qed.

Lemma apply_update_length rows task :
  length (apply_op rows (Update task)) = length rows.
Proof. simpl. apply length_fmap. Qed.

Lemma apply_update_lookup rows task i row :
  rows !! i = Some row →
  apply_op rows (Update task) !! i =
  Some (if decide (Task.id row = Task.id task) then task else row).
Proof. intros Hi. simpl. by rewrite list_lookup_fmap, Hi. Qed.

Lemma apply_update_titles rows task task0 :
  task0 ∈ rows → Task.id task0 = Task.id task → Task.todo task0 = Task.todo task →
  NoDup (Task.id <$> rows) →
  Task.todo <$> apply_op rows (Update task) = Task.todo <$> rows.
Proof.
  intros Hin Hid Htodo Hnd. simpl. rewrite <-list_fmap_compose.
  apply list_fmap_ext. intros i row Hi. simpl. case_decide as Heq; [|done].
  rewrite <-Htodo. f_equal. apply list_elem_of_lookup_2 in Hi.
  eapply (NoDup_fmap_eq Task.id); eauto. congruence.
Qed.

End batch.

(** ** Lemmas: updates *)

Section update.
Context (builder : Task.t → Task.t).
Context (builder_id : ∀ task, Task.id (builder task) = Task.id task).
Implicit Types (db : t) (task : Task.t) (id : N).

Lemma update_fault id db : update false id builder db = (Err StoreWriteError, db).
Proof. unfold update. by destruct (find id db). Qed.

Lemma update_missing ok id db :
  id ∉ ids db → update ok id builder db = (Err StoreWriteError, db).
Proof.
  intros Hid. unfold update. destruct (find id db) as [task|] eqn:Hf; [|done].
  apply find_Some in Hf as [Hin <-]. destruct Hid. by apply list_elem_of_fmap_2.
Qed.

Lemma alter_row_id id row : Task.id (alter_row id builder row) = Task.id row.
Proof. unfold alter_row. case_decide; [apply builder_id|done]. Qed.

Lemma update_ok id db :
  NoDup (ids db) → id ∈ ids db →
  update true id builder db = (Ok tt, mk (alter_row id builder <$> tasks db) (nextId db)).
Proof.
  intros Hnd Hid. unfold update.
  destruct (find_is_Some id db Hid) as [task Hf]. rewrite Hf.
  apply find_Some in Hf as [Hin <-].
  rewrite batch_ok. unfold creates. simpl. rewrite N.add_0_r. do 2 f_equal.
  apply list_fmap_ext. intros i row Hi. unfold alter_row.
  rewrite builder_id. case_decide as Heq; [|done]. f_equal. symmetry.
  apply list_elem_of_lookup_2 in Hi. by eapply (NoDup_fmap_eq Task.id).
Qed.

Lemma alter_row_compose id (g : Task.t → Task.t) row :
  alter_row id g (alter_row id builder row) = alter_row id (g ∘ builder) row.
Proof.
  unfold alter_row. destruct (decide (Task.id row = id)) as [Hid|Hid]; simpl.
  - by rewrite decide_True by (by rewrite builder_id).
  - by rewrite decide_False.
Qed.

Lemma alter_row_other id row : Task.id row ≠ id → alter_row id builder row = row.
Proof. intros. unfold alter_row. by rewrite decide_False. Qed.

Lemma alter_row_same id row : Task.id row = id → alter_row id builder row = builder row.
Proof. intros. unfold alter_row. by rewrite decide_True. Qed.

Lemma alter_rows_ids id (rows : list Task.t) :
  Task.id <$> (alter_row id builder <$> rows) = Task.id <$> rows.
Proof.
  rewrite <-list_fmap_compose. apply list_fmap_ext. intros _ row _. simpl.
  apply alter_row_id.
Qed.

End update.

Section perform.
Context `{TextField}.
Implicit Types (db : t) (task : Task.t) (id : N) (a : Task.Action).

Lemma perform_update ok id a db :
  perform ok id a db = update ok id (Task.act a) db.
Proof. by destruct a. Qed.

(** The writers in closed form. *)
Lemma perform_spec ok id a db :
  NoDup (ids db) →
  perform ok id a db =
  if ok && bool_decide (id ∈ ids db)
  then (Ok tt, mk (alter_row id (Task.act a) <$> tasks db) (nextId db))
  else (Err StoreWriteError, db).
Proof.
  intros Hnd. rewrite perform_update. destruct ok; simpl.
  - case_bool_decide.
    + apply update_ok; [apply Task.act_id|done..].
    + by apply update_missing.
  - apply update_fault.
Qed.

(** A writer fails with a store write error only, and then leaves the
    store as it was. *)
Lemma perform_error ok id a db e :
  (perform ok id a db).1 = Err e →
  e = StoreWriteError ∧ (perform ok id a db).2 = db.
Proof.
  rewrite perform_update. unfold update, batch.
  destruct (find id db), ok; simpl; by intros [= <-].
Qed.


Lemma perform_hit id a db :
  NoDup (ids db) → id ∈ ids db →
  perform true id a db = (Ok tt, mk (alter_row id (Task.act a) <$> tasks db) (nextId db)).
Proof. intros. by rewrite perform_spec, bool_decide_eq_true_2. Qed.

(** Two writers in a row on the same record act as the composition of
    their actions on that record. *)
Lemma perform_seq id a1 a2 db :
  NoDup (ids db) → id ∈ ids db →
  (perform true id a1 ≫= λ _, perform true id a2) db =
  (Ok tt, mk (alter_row id (Task.act a2 ∘ Task.act a1) <$> tasks db) (nextId db)).
Proof.
  intros Hnd Hid. rewrite prog_bind_unfold, perform_hit by done. cbn.
  rewrite perform_hit; unfold ids; cbn;
    rewrite ?(alter_rows_ids _ (Task.act_id a1)); [|done..].
  do 2 f_equal. rewrite <-list_fmap_compose. apply list_fmap_ext. intros _ row _.
  apply alter_row_compose, Task.act_id.
Qed.

Lemma alter_rows_titles id a (rows : list Task.t) :
  Task.todo <$> (alter_row id (Task.act a) <$> rows) = Task.todo <$> rows.
Proof.
  rewrite <-list_fmap_compose. apply list_fmap_ext. intros _ row _. simpl.
  unfold alter_row. case_decide; [apply Task.act_todo|done].
Qed.

Lemma alter_rows_valid id a (rows : list Task.t) :
  Forall Task.valid rows → Forall Task.valid (alter_row id (Task.act a) <$> rows).
Proof.
  intros Hv. apply Forall_fmap. eapply Forall_impl; [done|]. intros row Hrow.
  simpl. unfold alter_row. case_decide; [by apply Task.act_valid|done].
Qed.

(** The rows after a toggle: the toggled record, and the rows of the
    other records. *)
Lemma toggle_rows id task db db' :
  NoDup (ids db) → task ∈ tasks db → Task.id task = id →
  toggleComplete true id db = (Ok tt, db') →
  Task.toggleComplete task ∈ tasks db' ∧
  ∀ row, row ∈ tasks db' ↔
         row = Task.toggleComplete task ∨ (row ∈ tasks db ∧ Task.id row ≠ id).
Proof.
  intros Hnd Hin Hid Hrun.
  change (toggleComplete true id db) with (perform true id Task.ToggleComplete db) in Hrun.
  rewrite perform_hit in Hrun by (done || rewrite <-Hid; by apply list_elem_of_fmap_2).
  injection Hrun as <-. cbn.
  assert (∀ row, row ∈ alter_row id Task.toggleComplete <$> tasks db ↔
            row = Task.toggleComplete task ∨ (row ∈ tasks db ∧ Task.id row ≠ id)) as Hrows.
  { intros row. rewrite list_elem_of_fmap. split.
    - intros (r & -> & Hr). unfold alter_row. case_decide as Heq; [left|by right].
      f_equal. eapply (NoDup_fmap_eq Task.id); eauto. congruence.
    - intros [->|[Hr Hne]].
      + exists task. by rewrite alter_row_same.
      + exists row. by rewrite alter_row_other. }
  split; [|done]. apply Hrows. by left.
Qed.

(** Whatever a writer does, the store keeps its invariants, its ids and
    its titles. *)
Lemma perform_keeps ok id a db :
  wf db → titles_ok db →
  let db' := (perform ok id a db).2 in
  wf db' ∧ titles_ok db' ∧ ids db' = ids db ∧ titles db' = titles db.
Proof.
  intros Hwf Hok. pose proof Hwf as [Hnd Hlt].
  rewrite perform_spec by done.
  destruct (ok && bool_decide (id ∈ ids db)); [|done].
  cbn. unfold wf, titles_ok, ids, titles. cbn.
  rewrite (alter_rows_ids _ (Task.act_id a)), alter_rows_titles.
  split_and!; [done..| |done|done]. by apply alter_rows_valid.
Qed.

(** ... and every row but the one it was called on. *)
Lemma perform_others ok id a db task :
  NoDup (ids db) → task ∈ tasks db → Task.id task ≠ id →
  task ∈ tasks (perform ok id a db).2.
Proof.
  intros Hnd Hin Hne. rewrite perform_spec by done.
  destruct (ok && bool_decide (id ∈ ids db)); [|done].
  cbn. apply list_elem_of_fmap. exists task. by rewrite alter_row_other.
Qed.

End perform.

#[global] Hint Rewrite @batch_fault @batch_creates @fetch_ok @fetch_fault @query_nil : td.

End Database.

(** ** Queries by completion state *)

Section queries.
Implicit Types (db : Database.t) (task : Task.t) (b : bool).

(** The pending rows and the completed rows partition the table:
    together they are a permutation of all rows, so each row is in
    exactly one of the two filtered views. *)
Theorem query_partition db :
  Database.query [Database.Where "completed" (Schema.VBoolean true)] db ++
  Database.query [Database.Where "completed" (Schema.VBoolean false)] db
  ≡ₚ Database.query [] db.
Proof.
  rewrite Database.query_nil, !Database.query_completed.
  rewrite <-(filter_app_complement (λ task, Task.completed task = true) (Database.tasks db)) at 3.
  f_equiv. apply reflexive_eq, filter_ext_in. intros task _.
  by destruct (Task.completed task).
Qed.

End queries.

(** ** The two writers on the store *)

Section writers.
Context {text : TextField}.
Implicit Types (db : Database.t) (task : Task.t) (id : N) (a : Task.Action).

(** A writer on a stored record, without a storage fault, succeeds
    and replaces that record by the result of its action; every other
    row, the order of the rows and the id supply are as before. *)
Theorem perform_ok id a db :
  Database.wf db → id ∈ Database.ids db →
  Database.perform true id a db =
  (Ok tt, Database.mk (Database.alter_row id (Task.act a) <$> Database.tasks db)
                      (Database.nextId db)).
Proof.
  intros [Hnd _] Hid. by apply Database.perform_hit.
Qed.


(** C31: whatever a writer does, fault or not, the store stays well
    formed, keeps the invariant of the titles, and has the same ids and
    the same titles in the same order: writers never create, delete,
    reorder or retitle a row. *)
Theorem perform_preserves ok id a db :
  Database.wf db → Database.titles_ok db →
  let db' := (Database.perform ok id a db).2 in
  Database.wf db' ∧ Database.titles_ok db' ∧
  Database.ids db' = Database.ids db ∧ Database.titles db' = Database.titles db.
Proof.
  apply Database.perform_keeps.
Qed.

(** toggling the same stored record twice gives the store back,
    row for row. *)
Theorem toggle_twice_restores id db :
  Database.wf db → id ∈ Database.ids db →
  (Database.toggleComplete true id ≫= λ _, Database.toggleComplete true id) db = (Ok tt, db).
Proof.
  intros [Hnd _] Hid.
  rewrite (Database.perform_seq id Task.ToggleComplete Task.ToggleComplete) by done.
  destruct db as [rows n]. cbn. do 2 f_equal.
  rewrite <-(list_fmap_id rows) at 2. apply list_fmap_ext. intros _ row _.
  unfold Database.alter_row. case_decide; [|done].
  cbn. by rewrite Task.toggleComplete_involutive.
Qed.

(** attaching twice to the same stored record leaves the store as
    the second attachment alone would: last write wins, without error. *)
Theorem attach_twice_last_wins id uri1 uri2 db :
  Database.wf db → id ∈ Database.ids db →
  (Database.addAttachment true id uri1 ≫= λ _, Database.addAttachment true id uri2) db =
  Database.addAttachment true id uri2 db.
Proof.
  intros [Hnd _] Hid.
  rewrite (Database.perform_seq (H := text) id (Task.AddAttachment uri1) (Task.AddAttachment uri2))
    by done.
  change (Database.addAttachment true id uri2 db)
    with (Database.perform true id (Task.AddAttachment uri2) db).
  by rewrite Database.perform_hit.
Qed.

End writers.

(** ** Witnesses *)

Lemma perform_ok_witness :
  Database.perform true 1 Task.ToggleComplete Database.sample =
  (Ok tt, Database.mk (Database.alter_row 1 (Task.act Task.ToggleComplete) <$> Database.tasks Database.sample)
                      (Database.nextId Database.sample)).
Proof. apply perform_ok; by_compute. Defined.


Lemma perform_preserves_witness :
  let db' := (Database.perform true 0 (Task.AddAttachment (js "file://a")) Database.sample).2 in
  Database.wf db' ∧ Database.titles_ok db' ∧
  Database.ids db' = Database.ids Database.sample ∧ Database.titles db' = Database.titles Database.sample.
Proof. apply perform_preserves; by_compute. Defined.

Lemma toggle_twice_restores_witness :
  (Database.toggleComplete true 1 ≫= λ _, Database.toggleComplete true 1) Database.sample = (Ok tt, Database.sample).
Proof. apply toggle_twice_restores; by_compute. Defined.

Lemma attach_twice_last_wins_witness :
  (Database.addAttachment true 0 (js "file://a") ≫=
     λ _, Database.addAttachment true 0 (js "file://b")) Database.sample =
  Database.addAttachment true 0 (js "file://b") Database.sample.
Proof. apply attach_twice_last_wins; by_compute. Defined.

(** ** Examples: the views of the sample store *)

Example sample_pending :
  Database.query [Database.Where "completed" (Schema.VBoolean false)] Database.sample
  = [Task.mk 0 (js "Call mom") false None].
Proof. by vm_compute. Qed.

Example sample_after_toggle :
  (Database.toggleComplete true 0 Database.sample).2 =
  Database.mk [ Task.mk 0 (js "Call mom") true None;
                Task.mk 1 (js "Buy milk") true None ] 2.
Proof. by vm_compute. Qed.

Example toggle_fault_changes_nothing :
  Database.toggleComplete false 0 Database.sample = (Err StoreWriteError, Database.sample).
Proof. by vm_compute. Qed.
