(* ===== verification/Fetch.v ===== *)
(** * Fetch: the network as the program sees it

    The sources reach the remote API through the global [fetch]:
    SyncService.ts (line 35) and api/client.ts (line 22).  A call either
    rejects (no connectivity, DNS, TLS) or resolves to a response with a
    status, the [ok] flag and a body that [response.json()] decodes or
    fails to decode.  The network is an input of the model: a function
    from the requested URL to that outcome. *)

From S2P Require Import Prelude.

Module Fetch.

(** ** Definitions *)

(** A resolved response whose decoded body has type [B]. *)
Record Response (B : Type) : Type := mkResponse {
  ok : bool;
  status : N;
  json : result B;
}.
Arguments mkResponse {B} ok status json.
Arguments ok {B} r.
Arguments status {B} r.
Arguments json {B} r.

(** [fetch(url)] *)
Definition Network (B : Type) : Type := string → result (Response B).

(** A server that answers every request with status 200 and the same
    body. *)
Definition serve {B} (body : B) : Network B :=
  λ _, Ok (mkResponse true 200 (Ok body)).

(** No connectivity. *)
Definition offline {B} : Network B := λ _, Err NetworkError.

(** The [ok] flag as [fetch] defines it: status 200 to 299. *)
Definition status_ok (status : N) : bool :=
  (200 <=? status)%N && (status <=? 299)%N.

(** A response as a conforming [fetch] builds it. *)
Definition respond {B} (status : N) (body : result B) : Response B :=
  mkResponse (status_ok status) status body.

(** ** Lemmas *)

Lemma serve_ok {B} (body : B) url :
  serve body url = Ok (respond 200 (Ok body)).
Proof. done. Qed.

Lemma status_ok_spec status :
  status_ok status = true ↔ (200 ≤ status ≤ 299)%N.
Proof. unfold status_ok. rewrite andb_true_iff, !N.leb_le. done. Qed.

End Fetch.
