(* ===== verification/Sync.v ===== *)
(** * Sync: the synchronisation service (src/src/services/SyncService.ts)

    [syncTaskFromApi] downloads the remote collection, reads the titles
    that the store already has, and creates, in one batch, a row for each
    remote item whose title is not blank and not among those titles.  An
    error on the way is logged and rethrown.

    [Sync.syncTaskFromApi] is that function.  Its inputs are the
    environment of one call ([Sync.Env]: the network and whether the
    read and the write meet a storage fault) and the store; its outputs
    are the result of the promise, the store afterwards and the lines
    written to the console.  [Sync.reconcile] is the reconciler that the
    specification describes; the last part of the file compares the two. *)

From S2P Require Import Prelude JsString Task Schema Database Fetch.

(** The interface [RemoteTask]: an item of the remote collection. *)
Module RemoteTask.

Record t : Type := mk {
  id : Z;
  todo : jsstring;
  completed : bool;
  userId : Z;
}.

#[global] Instance t_eq_dec : EqDecision t.
Proof. solve_decision. Defined.

End RemoteTask.

Module Sync.

(** ** Definitions *)

(** The decoded body, as far as the service reads it: [data.todos], which
    is [undefined] ([None]) when the body has no such member. *)
Record Data : Type := mkData {
  todos : option (list RemoteTask.t);
}.

(** The request of the service: the whole collection, [limit=0]. *)
Definition url : string := "https://dummyjson.com/todos?limit=0".

(** What one call meets: the network, and whether the read of the local
    rows and the batch succeed. *)
Record Env : Type := mkEnv {
  network : Fetch.Network Data;
  read_ok : bool;
  write_ok : bool;
}.

(** [new Set(localTasks.map(t => t.todo))] *)
Definition localTodoTexts (localTasks : list Task.t) : gset jsstring :=
  list_to_set (Task.todo <$> localTasks).

(** The predicate of the filter:
    [raw.todo && raw.todo.trim().length > 0 && !localTodoTexts.has(raw.todo)] *)
Definition keep (localTodoTexts : gset jsstring) (raw : RemoteTask.t) : bool :=
  truthy (RemoteTask.todo raw)
  && bool_decide (0 < length (trim (RemoteTask.todo raw)))
  && negb (bool_decide (RemoteTask.todo raw ∈ localTodoTexts)).

(** [apiTasks.filter(...)] *)
Definition tasksToCreate (localTodoTexts : gset jsstring) (apiTasks : list RemoteTask.t)
  : list RemoteTask.t :=
  filter (λ raw, keep localTodoTexts raw) apiTasks.

(** The callback of [prepareCreate]:
    [task.todo = raw.todo.trim(); task.completed = raw.completed]. *)
Definition builder `{TextField} (raw : RemoteTask.t) (task : Task.t) : Task.t :=
  Task.set_completed (RemoteTask.completed raw)
    (Task.set_todo (trim (RemoteTask.todo raw)) task).

(** [tasksToCreate.map(raw => tasksCollection.prepareCreate(...))]; the
    collection numbers the records from its next id. *)
Definition batchActions `{TextField} (nextId : N) (tasksToCreate : list RemoteTask.t)
  : list Database.Op :=
  imap (λ i raw, Database.Create
                   (Database.prepareCreate (builder raw) (nextId + N.of_nat i)))
       tasksToCreate.

(** The callback of [database.write]: filter, prepare, and one batch if
    there is anything to create.  Filtering [undefined] throws. *)
Definition writer `{TextField} (write_ok : bool)
    (apiTasks : option (list RemoteTask.t)) (localTodoTexts : gset jsstring)
  : prog Database.t unit :=
  match apiTasks with
  | None => throw TypeError
  | Some apiTasks =>
      db ← get;
      let actions := batchActions (Database.nextId db) (tasksToCreate localTodoTexts apiTasks) in
      if bool_decide (0 < length actions)
      then Database.batch write_ok actions
      else mret tt
  end.

(** Everything up to the write: the request, the decoding and the read
    of the local titles.  The store is only read. *)
Definition readPhase (env : Env)
  : prog Database.t (option (list RemoteTask.t) * gset jsstring) :=
  response ← lift (network env url);
  data ← lift (Fetch.json response);
  let apiTasks := todos data in
  localTasks ← Database.fetch (read_ok env) [];
  mret (apiTasks, localTodoTexts localTasks).

(** [await database.write(async () => { ... })] *)
Definition writePhase `{TextField} (env : Env)
    (r : option (list RemoteTask.t) * gset jsstring) : prog Database.t unit :=
  Database.write (writer (write_ok env) r.1 r.2).

(** The [try] block from the write on; its value is [apiTasks.length],
    which the log line prints. *)
Definition afterRead `{TextField} (env : Env)
    (r : option (list RemoteTask.t) * gset jsstring) : prog Database.t nat :=
  _ ← writePhase env r;
  match r.1 with
  | Some apiTasks => mret (length apiTasks)
  | None => throw TypeError
  end.

(** The [try] block. *)
Definition body `{TextField} (env : Env) : prog Database.t nat :=
  r ← readPhase env;
  afterRead env r.

(** The lines of the console. *)
Inductive LogEvent : Type :=
| SyncComplete (processed : nat)
| SyncServiceError (e : Error).

#[global] Instance LogEvent_eq_dec : EqDecision LogEvent.
Proof. solve_decision. Defined.

(** The outcome of a call: the promise, the store, the console. *)
Record Outcome : Type := mkOutcome {
  result_of : result unit;
  store : Database.t;
  console : list LogEvent;
}.

#[global] Instance Outcome_eq_dec : EqDecision Outcome.
Proof. solve_decision. Defined.

(** How the call settles once the [try] block has ended: the line of
    [console.log] after it, or the [catch] block, which logs the error
    and throws it again. *)
Definition settled (r : result nat * Database.t) : Outcome :=
  match r with
  | (Ok processed, db') => mkOutcome (Ok tt) db' [SyncComplete processed]
  | (Err e, db') => mkOutcome (Err e) db' [SyncServiceError e]
  end.

(** [export const syncTaskFromApi = async () => { try {...} catch {...} }] *)
Definition syncTaskFromApi `{TextField} (env : Env) (db : Database.t) : Outcome :=
  settled (body env db).

(** ** The creation set in closed form *)

(** A remote item that is created: its title is not blank and is not,
    as it stands, a local title. *)
Definition fresh_title (local : gset jsstring) (raw : RemoteTask.t) : Prop :=
  ¬ blank (RemoteTask.todo raw) ∧ RemoteTask.todo raw ∉ local.

#[global] Instance fresh_title_dec local raw : Decision (fresh_title local raw).
Proof. unfold fresh_title. apply _. Defined.

(** The row that an item becomes. *)
Definition row_of (id : N) (raw : RemoteTask.t) : Task.t :=
  Task.mk id (trim (RemoteTask.todo raw)) (RemoteTask.completed raw) None.

(** The rows that a write stages for [apiTasks], given the set of local
    titles that the pass has read and the next id of the collection. *)
Definition created_from (local : gset jsstring) (nextId : N)
    (apiTasks : list RemoteTask.t) : list Task.t :=
  imap (λ i raw, row_of (nextId + N.of_nat i) raw) (filter (fresh_title local) apiTasks).

(** The rows that a pass over [apiTasks] adds to [db], when nothing comes
    between its read and its write. *)
Definition created (db : Database.t) (apiTasks : list RemoteTask.t) : list Task.t :=
  created_from (localTodoTexts (Database.tasks db)) (Database.nextId db) apiTasks.

(** An environment without faults that serves [apiTasks]. *)
Definition healthy (apiTasks : list RemoteTask.t) : Env :=
  mkEnv (Fetch.serve (mkData (Some apiTasks))) true true.

(** ** The reconciler of the specification (section 4.2)

    For each remote item in order: skip it if its trimmed title is empty,
    or is a local title, or was staged earlier in the pass; otherwise
    stage the trimmed title with the remote flag. *)
Fixpoint reconcile (remoteItems : list RemoteTask.t) (seen : gset jsstring)
  : list (jsstring * bool) :=
  match remoteItems with
  | [] => []
  | raw :: rest =>
      let title := trim (RemoteTask.todo raw) in
      if bool_decide (title = []) || bool_decide (title ∈ seen)
      then reconcile rest seen
      else (title, RemoteTask.completed raw) :: reconcile rest ({[title]} ∪ seen)
  end.

(** What a row was staged as. *)
Definition staged (task : Task.t) : jsstring * bool :=
  (Task.todo task, Task.completed task).

(** The rows that [db'] has after those of [db]. *)
Definition added (db db' : Database.t) : list Task.t :=
  drop (length (Database.tasks db)) (Database.tasks db').

(** The two ways a call ends. *)
Definition failed (e : Error) (db : Database.t) : Outcome :=
  mkOutcome (Err e) db [SyncServiceError e].

Definition completed (processed : nat) (db : Database.t) : Outcome :=
  mkOutcome (Ok tt) db [SyncComplete processed].

(** The store with new rows appended. *)
Definition append (db : Database.t) (new : list Task.t) : Database.t :=
  Database.mk (Database.tasks db ++ new) (Database.nextId db + N.of_nat (length new)).

(** The outcome of a call, path by path. *)
Definition outcome_of (env : Env) (db : Database.t) : Outcome :=
  match network env url with
  | Err e => failed e db
  | Ok response =>
      match Fetch.json response with
      | Err e => failed e db
      | Ok data =>
          if read_ok env then
            match todos data with
            | None => failed TypeError db
            | Some apiTasks =>
                let new := created db apiTasks in
                if decide (new = []) then completed (length apiTasks) db
                else if write_ok env then completed (length apiTasks) (append db new)
                else failed StoreWriteError db
            end
          else failed StoreReadError db
      end
  end.

(** The request of the service is answered with a body that decodes
    and has [apiTasks] as its [todos], whatever the status. *)
Definition delivers (env : Env) (apiTasks : list RemoteTask.t) : Prop :=
  ∃ response, network env url = Ok response ∧
              Fetch.json response = Ok (mkData (Some apiTasks)).

(** A pass that is served and meets no storage fault. *)
Definition served (env : Env) (apiTasks : list RemoteTask.t) : Prop :=
  delivers env apiTasks ∧ read_ok env = true ∧ write_ok env = true.

(** What the code stages for an item that it keeps. *)
Definition stage (raw : RemoteTask.t) : jsstring * bool :=
  (trim (RemoteTask.todo raw), RemoteTask.completed raw).

(** ** Sample inputs *)

(** A store with one row, and a payload with that title as it is, the
    same title followed by white space, a new title, and two blanks. *)
Definition call_mom : Database.t :=
  Database.mk [Task.mk 0 (js "Call mom") false None] 1.

Definition payload : list RemoteTask.t :=
  [ RemoteTask.mk 1 (js "Call mom") false 5;
    RemoteTask.mk 2 (js "Call mom   ") true 5;
    RemoteTask.mk 3 (js "Buy milk") false 5;
    RemoteTask.mk 4 (js "   ") false 5;
    RemoteTask.mk 5 [] true 5 ].

(** The same payload as a well-behaved server would send it. *)
Definition trimmed_payload : list RemoteTask.t :=
  [ RemoteTask.mk 1 (js "Call mom") false 5;
    RemoteTask.mk 3 (js "Buy milk") false 5;
    RemoteTask.mk 6 (js "Water plants") true 7 ].

(** ** Lemmas: the filter *)

Section filter.
Implicit Types (local : gset jsstring) (raw : RemoteTask.t) (l : list RemoteTask.t).

(** The filter keeps the items with a fresh title; the truthiness test
    in front adds nothing to the length test. *)
Lemma keep_fresh local raw : keep local raw = bool_decide (fresh_title local raw).
Proof.
  unfold keep. apply Bool.eq_iff_eq_true.
  rewrite !andb_true_iff, negb_true_iff, !bool_decide_eq_true, bool_decide_eq_false.
  rewrite trim_length_pos. unfold fresh_title.
  split; [tauto|]. intros [Hb Hn]. split_and!; [|done..].
  by apply trim_nonempty_truthy, trim_length_pos.
Qed.

Lemma tasksToCreate_fresh local l :
  tasksToCreate local l = filter (fresh_title local) l.
Proof.
  unfold tasksToCreate. apply filter_ext_in. intros raw _.
  by rewrite keep_fresh, bool_decide_spec.
Qed.

Lemma elem_of_localTodoTexts (s : jsstring) (rows : list Task.t) :
  s ∈ localTodoTexts rows ↔ s ∈ Task.todo <$> rows.
Proof. unfold localTodoTexts. apply elem_of_list_to_set. Qed.

Lemma localTodoTexts_app (rows1 rows2 : list Task.t) :
  localTodoTexts (rows1 ++ rows2) = localTodoTexts rows1 ∪ localTodoTexts rows2.
Proof. unfold localTodoTexts. by rewrite fmap_app, list_to_set_app_L. Qed.

End filter.

(** ** Lemmas: the created rows *)

Section created.
Context `{TextField}.
Implicit Types (db : Database.t) (raw : RemoteTask.t) (l : list RemoteTask.t).

Lemma prepareCreate_builder raw id :
  Database.prepareCreate (builder raw) id = row_of id raw.
Proof.
  unfold Database.prepareCreate, builder, row_of, Task.set_completed, Task.set_todo.
  simpl. by rewrite text_set_trimmed by apply trim_trimmed.
Qed.

Lemma batchActions_created_from local next l :
  batchActions next (tasksToCreate local l) = Database.Create <$> created_from local next l.
Proof.
  unfold batchActions, created_from. rewrite tasksToCreate_fresh, fmap_imap.
  apply imap_ext. intros i raw _. simpl. by rewrite prepareCreate_builder.
Qed.

Lemma created_from_length local next l :
  length (created_from local next l) = length (filter (fresh_title local) l).
Proof. apply length_imap. Qed.

Lemma created_from_ids local next l :
  Task.id <$> created_from local next l =
  (λ i, (next + N.of_nat i)%N) <$> seq 0 (length (created_from local next l)).
Proof.
  rewrite created_from_length. unfold created_from. rewrite fmap_imap. simpl.
  apply (imap_seq_0 _ (λ i, (next + N.of_nat i)%N)).
Qed.

Lemma created_from_titles local next l :
  Task.todo <$> created_from local next l =
  (trim ∘ RemoteTask.todo) <$> filter (fresh_title local) l.
Proof. unfold created_from. rewrite fmap_imap. simpl. apply imap_const. Qed.

Lemma created_from_staged local next l :
  staged <$> created_from local next l = stage <$> filter (fresh_title local) l.
Proof.
  unfold created_from. rewrite fmap_imap.
  by rewrite <-imap_const; apply imap_ext.
Qed.

Lemma elem_of_created_from local next l task :
  task ∈ created_from local next l →
  ∃ raw, raw ∈ l ∧ fresh_title local raw ∧
         Task.todo task = trim (RemoteTask.todo raw) ∧
         Task.completed task = RemoteTask.completed raw ∧
         Task.attachmentUri task = None ∧
         (next ≤ Task.id task)%N.
Proof.
  unfold created_from. intros (i & raw & -> & Hi)%elem_of_lookup_imap_1.
  apply list_elem_of_lookup_2, list_elem_of_filter in Hi as [Hf Hin].
  exists raw. split_and!; try done. simpl. lia.
Qed.

Lemma created_from_valid local next l : Forall Task.valid (created_from local next l).
Proof.
  apply Forall_forall. intros task (raw & _ & [Hb _] & Ht & _)%elem_of_created_from.
  unfold Task.valid. rewrite Ht. split; [apply trim_trimmed|].
  by rewrite trim_nil_iff.
Qed.

Lemma batchActions_created db l :
  batchActions (Database.nextId db) (tasksToCreate (localTodoTexts (Database.tasks db)) l)
  = Database.Create <$> created db l.
Proof. apply batchActions_created_from. Qed.

Lemma created_length db l :
  length (created db l) =
  length (filter (fresh_title (localTodoTexts (Database.tasks db))) l).
Proof. apply created_from_length. Qed.

Lemma created_nil db l :
  created db l = [] ↔
  filter (fresh_title (localTodoTexts (Database.tasks db))) l = [].
Proof.
  rewrite <-!length_zero_iff_nil, created_length. done.
Qed.

Lemma created_ids db l :
  Task.id <$> created db l =
  (λ i, (Database.nextId db + N.of_nat i)%N) <$> seq 0 (length (created db l)).
Proof. apply created_from_ids. Qed.

Lemma created_titles db l :
  Task.todo <$> created db l =
  (trim ∘ RemoteTask.todo) <$> filter (fresh_title (localTodoTexts (Database.tasks db))) l.
Proof. apply created_from_titles. Qed.

Lemma created_staged db l :
  staged <$> created db l =
  stage <$> filter (fresh_title (localTodoTexts (Database.tasks db))) l.
Proof. apply created_from_staged. Qed.

Lemma elem_of_created db l task :
  task ∈ created db l →
  ∃ raw, raw ∈ l ∧ fresh_title (localTodoTexts (Database.tasks db)) raw ∧
         Task.todo task = trim (RemoteTask.todo raw) ∧
         Task.completed task = RemoteTask.completed raw ∧
         Task.attachmentUri task = None ∧
         (Database.nextId db ≤ Task.id task)%N.
Proof. apply elem_of_created_from. Qed.

Lemma created_valid db l : Forall Task.valid (created db l).
Proof. apply created_from_valid. Qed.

End created.

(** ** Lemmas: the two phases *)

Section phases.
Context `{TextField}.
Implicit Types (db : Database.t) (env : Env) (l : list RemoteTask.t).

Lemma readPhase_run env db :
  readPhase env db =
  match network env url with
  | Err e => (Err e, db)
  | Ok response =>
      match Fetch.json response with
      | Err e => (Err e, db)
      | Ok data =>
          if read_ok env
          then (Ok (todos data, localTodoTexts (Database.tasks db)), db)
          else (Err StoreReadError, db)
      end
  end.
Proof.
  unfold readPhase. rewrite prog_bind_unfold. unfold lift at 1.
  destruct (network env url) as [response|e]; [|done].
  rewrite prog_bind_unfold. unfold lift at 1.
  destruct (Fetch.json response) as [data|e]; [|done].
  rewrite prog_bind_unfold. destruct (read_ok env); [|done].
  by rewrite Database.fetch_ok, Database.query_nil.
Qed.

(** What a read that succeeds has read. *)
Lemma readPhase_read env db read db' :
  readPhase env db = (Ok read, db') →
  db' = db ∧ read.2 = localTodoTexts (Database.tasks db) ∧
  ∃ response data, network env url = Ok response ∧ Fetch.json response = Ok data ∧
                   read.1 = todos data.
Proof.
  rewrite readPhase_run. repeat case_match; intros; simplify_eq. eauto 10.
Qed.

Lemma readPhase_store env db : (readPhase env db).2 = db.
Proof. rewrite readPhase_run. by repeat case_match. Qed.

Lemma writer_undefined ok local db : writer ok None local db = (Err TypeError, db).
Proof. done. Qed.

Lemma writer_run_from ok l local db :
  writer ok (Some l) local db =
  let new := created_from local (Database.nextId db) l in
  if decide (new = []) then (Ok tt, db)
  else if ok then (Ok tt, append db new)
  else (Err StoreWriteError, db).
Proof.
  unfold writer. rewrite prog_bind_unfold. unfold get. cbn zeta.
  rewrite batchActions_created_from, length_fmap.
  destruct (decide (created_from local (Database.nextId db) l = [])) as [->|Hne].
  - by rewrite bool_decide_eq_false_2 by (simpl; lia).
  - rewrite bool_decide_eq_true_2
      by (destruct (created_from local (Database.nextId db) l); simpl; [done|lia]).
    destruct ok; [|done]. by rewrite Database.batch_creates.
Qed.

(** The write of a pass with the titles it has read, whatever the store
    has become since. *)
Lemma afterRead_run env l local db :
  afterRead env (Some l, local) db =
  let new := created_from local (Database.nextId db) l in
  if decide (new = []) then (Ok (length l), db)
  else if write_ok env then (Ok (length l), append db new)
  else (Err StoreWriteError, db).
Proof.
  unfold afterRead, writePhase, Database.write. rewrite prog_bind_unfold. cbn [fst snd].
  rewrite writer_run_from. cbn zeta. destruct (decide _); [done|].
  by destruct (write_ok env).
Qed.

Lemma afterRead_undefined env local db :
  afterRead env (None, local) db = (Err TypeError, db).
Proof. done. Qed.

Lemma writer_run ok l db :
  writer ok (Some l) (localTodoTexts (Database.tasks db)) db =
  if decide (created db l = []) then (Ok tt, db)
  else if ok then (Ok tt, append db (created db l))
  else (Err StoreWriteError, db).
Proof. apply writer_run_from. Qed.

End phases.

(** ** Lemmas: the store after a pass *)

Section store.
Implicit Types (db : Database.t) (env : Env) (l : list RemoteTask.t) (new : list Task.t).

Lemma append_nil db : append db [] = db.
Proof. destruct db. unfold append. simpl. by rewrite app_nil_r, N.add_0_r. Qed.

Lemma append_tasks db new : Database.tasks (append db new) = Database.tasks db ++ new.
Proof. done. Qed.

Lemma healthy_delivers l : delivers (healthy l) l.
Proof. by eexists. Qed.

(** The store after a call is the old store or the old store followed by
    the created rows of some payload. *)
Lemma outcome_store env db :
  ∃ l, store (outcome_of env db) = append db (created db l).
Proof.
  assert (∃ l, db = append db (created db l)) as Hsame
    by (exists []; by rewrite append_nil).
  unfold outcome_of. repeat case_match; try done. by eexists.
Qed.

(** A pass that is served and meets no fault. *)
Lemma outcome_delivers env l db :
  delivers env l → read_ok env = true → write_ok env = true →
  outcome_of env db = completed (length l) (append db (created db l)).
Proof.
  intros (response & Hn & Hj) Hr Hw. unfold outcome_of.
  rewrite Hn, Hj, Hr, Hw. cbn. destruct (decide _) as [->|]; [|done].
  by rewrite append_nil.
Qed.

Lemma outcome_served env l db :
  served env l → outcome_of env db = completed (length l) (append db (created db l)).
Proof. intros (? & ? & ?). by apply outcome_delivers. Qed.

Lemma healthy_served l : served (healthy l) l.
Proof. split_and!; [apply healthy_delivers|done..]. Qed.

Lemma created_title_elem db l raw :
  raw ∈ l → fresh_title (localTodoTexts (Database.tasks db)) raw →
  trim (RemoteTask.todo raw) ∈ Task.todo <$> created db l.
Proof.
  intros Hin Hf. rewrite created_titles.
  apply (list_elem_of_fmap_2 (trim ∘ RemoteTask.todo)). by apply list_elem_of_filter.
Qed.

Lemma created_titles_trimmed db l (s : jsstring) :
  s ∈ Task.todo <$> created db l → trimmed s.
Proof.
  rewrite created_titles. intros (raw & -> & _)%list_elem_of_fmap. apply trim_trimmed.
Qed.

(** Freshness of a title of the payload in the store after a served
    pass over that payload. *)
Lemma fresh_after_pass db l raw :
  raw ∈ l →
  fresh_title (localTodoTexts (Database.tasks (append db (created db l)))) raw ↔
  fresh_title (localTodoTexts (Database.tasks db)) raw ∧ ¬ trimmed (RemoteTask.todo raw).
Proof.
  intros Hin. unfold fresh_title at 1. rewrite append_tasks, localTodoTexts_app.
  rewrite not_elem_of_union, (elem_of_localTodoTexts _ (created db l)).
  split.
  - intros (Hb & Hl & Hc). split; [done|]. intros Ht. apply Hc.
    rewrite <-(trimmed_trim _ Ht). by apply created_title_elem.
  - intros [[Hb Hl] Ht]. split_and!; [done..|].
    intros Hc%created_titles_trimmed. done.
Qed.

Lemma filter_blank_complement l :
  length (filter (λ raw, ¬ blank (RemoteTask.todo raw)) l)
  + length (filter (λ raw, blank (RemoteTask.todo raw)) l) = length l.
Proof.
  rewrite Nat.add_comm, <-length_app.
  apply Permutation_length, filter_app_complement.
Qed.

Lemma created_length_le db l :
  length (created db l) ≤ length (filter (λ raw, ¬ blank (RemoteTask.todo raw)) l).
Proof.
  rewrite created_length. apply sublist_length, filter_sublist_impl.
  by intros raw [? _].
Qed.

(** A payload of trimmed, pairwise distinct titles keeps the stored
    titles pairwise distinct. *)
Lemma append_titles_unique db l :
  Forall (λ raw, trimmed (RemoteTask.todo raw)) l →
  NoDup (RemoteTask.todo <$> filter (λ raw, ¬ blank (RemoteTask.todo raw)) l) →
  NoDup (Database.titles db) →
  NoDup (Database.titles (append db (created db l))).
Proof.
  intros Htr Hnd Hdb. unfold Database.titles. rewrite append_tasks, fmap_app, created_titles.
  assert ((trim ∘ RemoteTask.todo) <$> filter (fresh_title (localTodoTexts (Database.tasks db))) l
          = RemoteTask.todo <$> filter (fresh_title (localTodoTexts (Database.tasks db))) l) as ->.
  { apply list_fmap_ext. intros i raw Hi%list_elem_of_lookup_2%list_elem_of_filter. simpl.
    apply trimmed_trim. rewrite Forall_forall in Htr. apply Htr, Hi. }
  apply NoDup_app. split_and!; [done| |].
  - intros s Hs (raw & -> & [[_ Hn] _]%list_elem_of_filter)%list_elem_of_fmap.
    by apply Hn, elem_of_localTodoTexts.
  - apply (sublist_NoDup _ _ Hnd), fmap_sublist, filter_sublist_impl.
    by intros raw [? _].
Qed.

Lemma added_append db new : added db (append db new) = new.
Proof. unfold added. cbn. by rewrite drop_app_length. Qed.

Lemma append_from_wf db local l :
  Database.wf db → Database.wf (append db (created_from local (Database.nextId db) l)).
Proof.
  intros [Hnd Hlt]. unfold Database.wf, Database.ids, append. cbn.
  rewrite fmap_app, created_from_ids. split.
  - apply NoDup_app. split_and!; [done| |].
    + intros i Hi (j & -> & _)%list_elem_of_fmap.
      rewrite Forall_forall in Hlt. apply Hlt in Hi. lia.
    + apply NoDup_fmap_2; [|apply NoDup_seq]. intros i j ?. lia.
  - apply Forall_app. split.
    + eapply Forall_impl; [done|]. intros i Hi. simpl in Hi. lia.
    + apply Forall_fmap, Forall_forall. intros i Hi%elem_of_seq. simpl. lia.
Qed.

Lemma append_from_titles_ok db local next l :
  Database.titles_ok db → Database.titles_ok (append db (created_from local next l)).
Proof. intros Hok. apply Forall_app. split; [done|apply created_from_valid]. Qed.

Lemma append_wf db l : Database.wf db → Database.wf (append db (created db l)).
Proof. apply append_from_wf. Qed.

Lemma append_titles_ok db l :
  Database.titles_ok db → Database.titles_ok (append db (created db l)).
Proof. apply append_from_titles_ok. Qed.

End store.

(** ** Lemmas: a call *)

Section run.
Context `{TextField}.
Implicit Types (db : Database.t) (env : Env) (l : list RemoteTask.t).

Lemma run_outcome env db : syncTaskFromApi env db = outcome_of env db.
Proof.
  unfold syncTaskFromApi, settled, body, outcome_of.
  rewrite prog_bind_unfold, readPhase_run.
  destruct (network env url) as [response|e]; [|done].
  destruct (Fetch.json response) as [data|e]; [|done].
  destruct (read_ok env); [|done].
  unfold afterRead. rewrite prog_bind_unfold. unfold writePhase, Database.write. cbn [fst snd].
  destruct (todos data) as [l|]; [|done].
  rewrite writer_run.
  destruct (decide _); [done|]. by destruct (write_ok env).
Qed.

Lemma run_served env l db :
  served env l →
  syncTaskFromApi env db = completed (length l) (append db (created db l)).
Proof. intros. by rewrite run_outcome, (outcome_served _ l). Qed.

Lemma run_store env db :
  ∃ l, store (syncTaskFromApi env db) = append db (created db l).
Proof. rewrite run_outcome. apply outcome_store. Qed.

Lemma settled_store (r : result nat * Database.t) : store (settled r) = r.2.
Proof. by destruct r as [[n|e] db]. Qed.

Lemma readPhase_served env l db :
  served env l →
  readPhase env db = (Ok (Some l, localTodoTexts (Database.tasks db)), db).
Proof.
  intros ((response & Hn & Hj) & Hr & _). by rewrite readPhase_run, Hn, Hj, Hr.
Qed.

Lemma afterRead_served env l local db :
  write_ok env = true →
  afterRead env (Some l, local) db =
  (Ok (length l), append db (created_from local (Database.nextId db) l)).
Proof.
  intros Hw. rewrite afterRead_run, Hw. cbn zeta.
  destruct (decide _) as [->|]; [|done]. by rewrite append_nil.
Qed.

Lemma run_failed env db e :
  result_of (syncTaskFromApi env db) = Err e →
  store (syncTaskFromApi env db) = db ∧ console (syncTaskFromApi env db) = [SyncServiceError e].
Proof.
  rewrite run_outcome. unfold outcome_of.
  repeat case_match; simpl; intros; by simplify_eq.
Qed.

Lemma run_extends env db : Database.extended_by db (store (syncTaskFromApi env db)).
Proof. destruct (run_store env db) as [l ->]. split; [by eexists|]. simpl. lia. Qed.

(** The write of a pass keeps the invariants of the store and only
    appends, whatever titles the pass has read. *)
Lemma afterRead_keeps env r db :
  Database.wf db → Database.titles_ok db →
  Database.wf (afterRead env r db).2 ∧ Database.titles_ok (afterRead env r db).2.
Proof.
  intros Hwf Hok. destruct r as [[l|] local]; [|done].
  rewrite afterRead_run. cbn zeta. repeat case_match; cbn; try done.
  split; [by apply append_from_wf|by apply append_from_titles_ok].
Qed.

Lemma afterRead_extends env r db : Database.extended_by db (afterRead env r db).2.
Proof.
  destruct r as [[l|] local]; [|done].
  rewrite afterRead_run. cbn zeta. repeat case_match; cbn; try done.
  split; [by eexists|]. cbn. lia.
Qed.

Lemma run_added env l db :
  served env l →
  added db (store (syncTaskFromApi env db)) = created db l.
Proof. intros. rewrite (run_served _ l) by done. apply added_append. Qed.

End run.

(** ** Lemmas: the reconciler of the specification *)

Section reconcile.
Implicit Types (l : list RemoteTask.t) (raw : RemoteTask.t) (seen local : gset jsstring).

Lemma reconcile_skip raw l seen :
  trim (RemoteTask.todo raw) = [] ∨ trim (RemoteTask.todo raw) ∈ seen →
  reconcile (raw :: l) seen = reconcile l seen.
Proof.
  intros Hs. simpl. destruct Hs.
  - by rewrite bool_decide_eq_true_2.
  - by rewrite (bool_decide_eq_true_2 (_ ∈ _)), orb_true_r.
Qed.

Lemma reconcile_stage raw l seen :
  trim (RemoteTask.todo raw) ≠ [] → trim (RemoteTask.todo raw) ∉ seen →
  reconcile (raw :: l) seen =
  stage raw :: reconcile l ({[trim (RemoteTask.todo raw)]} ∪ seen).
Proof. intros. simpl. by rewrite !bool_decide_eq_false_2. Qed.

Lemma reconcile_cases raw l seen :
  (reconcile (raw :: l) seen = reconcile l seen ∧
   (trim (RemoteTask.todo raw) = [] ∨ trim (RemoteTask.todo raw) ∈ seen)) ∨
  (reconcile (raw :: l) seen = stage raw :: reconcile l ({[trim (RemoteTask.todo raw)]} ∪ seen) ∧
   trim (RemoteTask.todo raw) ≠ [] ∧ trim (RemoteTask.todo raw) ∉ seen).
Proof.
  destruct (decide (trim (RemoteTask.todo raw) = [])) as [?|?];
    [left; split; [apply reconcile_skip|]; auto|].
  destruct (decide (trim (RemoteTask.todo raw) ∈ seen)) as [?|?];
    [left; split; [apply reconcile_skip|]; auto|].
  right. split; [by apply reconcile_stage|done].
Qed.

(** The reconciler stages no more than the code creates, as long as the
    stored titles are trimmed. *)
Lemma reconcile_sublist_stage l seen local :
  local ⊆ seen → (∀ s, s ∈ local → trimmed s) →
  reconcile l seen `sublist_of` stage <$> filter (fresh_title local) l.
Proof.
  revert seen. induction l as [|raw l IH]; intros seen Hsub Htr; [done|].
  destruct (reconcile_cases raw l seen) as [[-> _]|(-> & Hne & Hseen)].
  - rewrite filter_cons. case_decide; [apply sublist_cons|]; by apply IH.
  - rewrite filter_cons_True.
    + apply sublist_skip, IH; [set_solver|done].
    + split; [by rewrite <-trim_nil_iff|]. intros Hl. apply Hseen, Hsub.
      by rewrite trimmed_trim by auto.
Qed.

(** They agree on a payload of trimmed, pairwise distinct titles. *)
Lemma reconcile_eq_stage l seen local :
  Forall (λ raw, trimmed (RemoteTask.todo raw)) l →
  NoDup (RemoteTask.todo <$> filter (λ raw, ¬ blank (RemoteTask.todo raw)) l) →
  (∀ raw, raw ∈ l → RemoteTask.todo raw ∈ seen ↔ RemoteTask.todo raw ∈ local) →
  reconcile l seen = stage <$> filter (fresh_title local) l.
Proof.
  revert seen. induction l as [|raw l IH]; intros seen Htr Hnd Hseen; [done|].
  apply Forall_cons in Htr as [Hraw Htr].
  pose proof (trimmed_trim _ Hraw) as Ht.
  assert (∀ seen', (∀ r, r ∈ l → RemoteTask.todo r ∈ seen' ↔ RemoteTask.todo r ∈ local) →
            NoDup (RemoteTask.todo <$> filter (λ r, ¬ blank (RemoteTask.todo r)) l) →
            reconcile l seen' = stage <$> filter (fresh_title local) l) as IH'
    by (intros; by apply IH).
  destruct (reconcile_cases raw l seen) as [[-> Hskip]|(-> & Hne & Hnew)].
  - rewrite filter_cons_False.
    + apply IH'; [intros; apply Hseen; by right|].
      rewrite filter_cons in Hnd. case_decide; [by apply NoDup_cons in Hnd as [_ ?]|done].
    + intros [Hb Hl]. destruct Hskip as [He|Hin]; [by apply Hb, trim_nil_iff|].
      rewrite Ht in Hin. by apply Hl, Hseen; [left|].
  - assert (¬ blank (RemoteTask.todo raw)) as Hb by (by rewrite <-trim_nil_iff).
    rewrite filter_cons_True in Hnd by done. apply NoDup_cons in Hnd as [Hfresh Hnd].
    rewrite filter_cons_True.
    + rewrite fmap_cons. f_equal. apply IH'; [|done]. intros r Hr.
      rewrite elem_of_union, elem_of_singleton, Ht, <-Hseen by (by right).
      split; [intros [Heq|?]; [|done]|by right].
      destruct (decide (blank (RemoteTask.todo r))) as [Hbr|Hbr].
      * destruct Hb. by rewrite <-Heq.
      * destruct Hfresh. rewrite <-Heq.
        apply (list_elem_of_fmap_2 RemoteTask.todo). by apply list_elem_of_filter.
    + split; [done|]. rewrite <-Hseen by left. by rewrite <-Ht.
Qed.

End reconcile.

End Sync.

(** ** The service, path by path *)

Section service.
Context `{TextField}.
Implicit Types (db : Database.t) (env : Sync.Env) (l : list RemoteTask.t).

(** C1: the service does what [Sync.outcome_of] says on every path: a
    rejected request, an undecodable body, a failed read, a body without
    [todos] and a failed batch each end in that error, logged once and
    rethrown, with the store untouched; otherwise the call succeeds,
    logs the number of remote items, and the store is the old store
    followed by the rows of [Sync.created], or the old store itself when
    there is nothing to create (no batch is issued then). *)
Theorem sync_functional env db :
  Sync.syncTaskFromApi env db = Sync.outcome_of env db.
Proof.
  apply Sync.run_outcome.
Qed.

(** C2: offline-first: a call that ends in an error leaves the store
    exactly as it was, and logs that error once.  No failure of the
    network, of the decoding or of the storage engine costs a row. *)
Theorem sync_error_keeps_store env db e :
  Sync.result_of (Sync.syncTaskFromApi env db) = Err e →
  Sync.store (Sync.syncTaskFromApi env db) = db ∧
  Sync.console (Sync.syncTaskFromApi env db) = [Sync.SyncServiceError e].
Proof.
  apply Sync.run_failed.
Qed.

(** A call only ever appends: whatever the environment does, the
    rows that were in the store are still there afterwards, unchanged
    and in the same positions, and the id supply has not gone back. *)
Theorem sync_only_appends env db :
  Database.tasks db `prefix_of` Database.tasks (Sync.store (Sync.syncTaskFromApi env db)) ∧
  (Database.nextId db ≤ Database.nextId (Sync.store (Sync.syncTaskFromApi env db)))%N.
Proof.
  apply Sync.run_extends.
Qed.

(** C3: a call preserves the invariants of the store: ids stay unique
    and below the supply, and every stored title stays trimmed and
    non-empty. *)
Theorem sync_preserves_invariants env db :
  Database.wf db → Database.titles_ok db →
  Database.wf (Sync.store (Sync.syncTaskFromApi env db)) ∧
  Database.titles_ok (Sync.store (Sync.syncTaskFromApi env db)).
Proof.
  intros Hwf Hok. destruct (Sync.run_store env db) as [l ->].
  split; [by apply Sync.append_wf | by apply Sync.append_titles_ok].
Qed.

(** C20: after a served pass every row is an old row or the row of a
    remote item with a non-blank title: it has that item's title,
    trimmed and not empty, that item's completion flag, and no
    attachment. *)
Theorem sync_rows_origin env l db task :
  Sync.served env l →
  task ∈ Database.tasks (Sync.store (Sync.syncTaskFromApi env db)) →
  task ∈ Database.tasks db ∨
  ∃ raw, raw ∈ l ∧ Task.todo task = trim (RemoteTask.todo raw) ∧ Task.todo task ≠ [] ∧
         Task.completed task = RemoteTask.completed raw ∧ Task.attachmentUri task = None.
Proof.
  intros Hs. rewrite (Sync.run_served _ l) by done. cbn.
  intros [?|Hnew]%elem_of_app; [by left|right].
  apply Sync.elem_of_created in Hnew as (raw & ? & [Hb _] & Ht & ? & ? & _).
  exists raw. split_and!; try done. by rewrite Ht, trim_nil_iff.
Qed.

(** C19: a served pass misses nothing: every remote item whose title is
    not blank and is not, as written, the title of a stored row gets a
    row with its trimmed title and its flag. *)
Theorem sync_creates_every_fresh env l db raw :
  Sync.served env l → raw ∈ l →
  ¬ blank (RemoteTask.todo raw) → RemoteTask.todo raw ∉ Database.titles db →
  ∃ task, task ∈ Database.tasks (Sync.store (Sync.syncTaskFromApi env db)) ∧
          Task.todo task = trim (RemoteTask.todo raw) ∧
          Task.completed task = RemoteTask.completed raw.
Proof.
  intros Hs Hin Hb Hl. rewrite (Sync.run_served _ l) by done. cbn.
  assert (Sync.fresh_title (Sync.localTodoTexts (Database.tasks db)) raw) as Hf.
  { split; [done|]. by rewrite Sync.elem_of_localTodoTexts. }
  assert ((trim (RemoteTask.todo raw), RemoteTask.completed raw)
          ∈ Sync.staged <$> Sync.created db l) as (task & Hst & Ht)%list_elem_of_fmap.
  { rewrite Sync.created_staged.
    apply (list_elem_of_fmap_2 (λ raw, (trim (RemoteTask.todo raw), RemoteTask.completed raw))).
    by apply list_elem_of_filter. }
  injection Hst as Htodo Hc. exists task. split_and!; [|done..].
  apply elem_of_app. by right.
Qed.

(** blank titles never become rows: after a served pass over [N]
    remote items of which [K] have a blank title, at most [N - K] rows
    were added. *)
Theorem sync_count_bound env l db :
  Sync.served env l →
  length (Database.tasks (Sync.store (Sync.syncTaskFromApi env db)))
  + length (filter (λ raw, blank (RemoteTask.todo raw)) l)
  ≤ length (Database.tasks db) + length l.
Proof.
  intros Hs. rewrite (Sync.run_served _ l) by done. cbn.
  rewrite length_app. pose proof (Sync.created_length_le db l).
  pose proof (Sync.filter_blank_complement l). lia.
Qed.

(** C12: idempotence on trimmed payloads: when no remote title carries
    surrounding white space, a second served pass over the same payload
    creates nothing: it succeeds and leaves the store of the first pass
    as it is. *)
Theorem sync_idempotent_trimmed env l db :
  Sync.served env l → Forall (λ raw, trimmed (RemoteTask.todo raw)) l →
  Sync.syncTaskFromApi env (Sync.store (Sync.syncTaskFromApi env db)) =
  Sync.completed (length l) (Sync.store (Sync.syncTaskFromApi env db)).
Proof.
  intros Hs Htr. rewrite !(Sync.run_served _ l) by done. cbn.
  rewrite (proj2 (Sync.created_nil (Sync.append db (Sync.created db l)) l)),
    Sync.append_nil; [done|].
  apply filter_none, Forall_forall. intros raw Hin Hf%Sync.fresh_after_pass; [|done].
  rewrite Forall_forall in Htr. destruct Hf as [_ []]. by apply Htr.
Qed.

(** C13: uniqueness of titles, the invariant that the specification asks
    for when a batch commits: if the stored titles are pairwise
    distinct, and the payload has trimmed titles of which the non-blank
    ones are pairwise distinct, the titles are pairwise distinct after a
    served pass.  Nothing is assumed of the stored titles but their
    distinctness. *)
Theorem sync_keeps_titles_unique env l db :
  Sync.served env l →
  Forall (λ raw, trimmed (RemoteTask.todo raw)) l →
  NoDup (RemoteTask.todo <$> filter (λ raw, ¬ blank (RemoteTask.todo raw)) l) →
  NoDup (Database.titles db) →
  NoDup (Database.titles (Sync.store (Sync.syncTaskFromApi env db))).
Proof.
  intros Hs Htr Hnd Hdb. rewrite (Sync.run_served _ l) by done.
  by apply Sync.append_titles_unique.
Qed.

(** C9: what a second served pass over the same payload creates, in
    general: exactly one more row for every remote item whose title is
    not blank and carries surrounding white space.  The filter looks the
    untrimmed title up among stored titles, which are trimmed, so such an
    item is never recognised. *)
Theorem second_pass_creates_untrimmed env l db :
  Sync.served env l → Database.titles_ok db →
  Database.titles (Sync.store (Sync.syncTaskFromApi env (Sync.store (Sync.syncTaskFromApi env db)))) =
  Database.titles (Sync.store (Sync.syncTaskFromApi env db)) ++
  ((trim ∘ RemoteTask.todo) <$>
     filter (λ raw, ¬ blank (RemoteTask.todo raw) ∧ ¬ trimmed (RemoteTask.todo raw)) l).
Proof.
  intros Hs Hok. rewrite !(Sync.run_served _ l) by done. cbn.
  unfold Database.titles. rewrite (fmap_app _ (_ ++ _)).
  f_equal. rewrite Sync.created_titles. f_equal. apply filter_ext_in.
  intros raw Hin. rewrite Sync.fresh_after_pass by done. unfold Sync.fresh_title.
  split; [tauto|]. intros [Hb Ht]. split_and!; [done| |done].
  rewrite Sync.elem_of_localTodoTexts. intros (task & Heq & Htask)%list_elem_of_fmap.
  unfold Database.titles_ok in Hok. rewrite Forall_forall in Hok.
  destruct (Hok task Htask) as [Hv _]. by rewrite <-Heq in Hv.
Qed.

(** The service asks for the whole collection and for nothing
    else: its outcome depends on the network only through the answer to
    the request for [Sync.url], the endpoint with [limit=0]. *)
Theorem sync_requests_full_collection env1 env2 db :
  Sync.network env1 Sync.url = Sync.network env2 Sync.url →
  Sync.read_ok env1 = Sync.read_ok env2 → Sync.write_ok env1 = Sync.write_ok env2 →
  Sync.syncTaskFromApi env1 db = Sync.syncTaskFromApi env2 db.
Proof.
  intros Hn Hr Hw. rewrite !Sync.run_outcome. unfold Sync.outcome_of.
  by rewrite Hn, Hr, Hw.
Qed.

(** The code covers the reconciler of the specification: on a store
    whose titles are trimmed, whatever the reconciler would stage is
    among the rows that a served pass adds, in the same order. *)
Theorem sync_covers_reconcile env l db :
  Sync.served env l → Database.titles_ok db →
  Sync.reconcile l (Sync.localTodoTexts (Database.tasks db)) `sublist_of`
  Sync.staged <$> Sync.added db (Sync.store (Sync.syncTaskFromApi env db)).
Proof.
  intros Hs Hok. rewrite (Sync.run_served _ l) by done. cbn [Sync.store Sync.completed].
  rewrite Sync.added_append, Sync.created_staged.
  apply Sync.reconcile_sublist_stage; [done|].
  intros s (task & -> & Hin)%Sync.elem_of_localTodoTexts%list_elem_of_fmap.
  unfold Database.titles_ok in Hok. rewrite Forall_forall in Hok. by apply Hok.
Qed.

(** C18: the code implements the reconciler of the specification on
    well-behaved payloads: if no remote title carries surrounding white
    space and the non-blank remote titles are pairwise distinct, the
    rows that a served pass adds are exactly what the reconciler
    stages, in its order. *)
Theorem sync_refines_reconcile env l db :
  Sync.served env l →
  Forall (λ raw, trimmed (RemoteTask.todo raw)) l →
  NoDup (RemoteTask.todo <$> filter (λ raw, ¬ blank (RemoteTask.todo raw)) l) →
  Sync.staged <$> Sync.added db (Sync.store (Sync.syncTaskFromApi env db)) =
  Sync.reconcile l (Sync.localTodoTexts (Database.tasks db)).
Proof.
  intros Hs Htr Hnd. rewrite (Sync.run_served _ l) by done.
  cbn [Sync.store Sync.completed]. rewrite Sync.added_append, Sync.created_staged.
  symmetry. by apply Sync.reconcile_eq_stage.
Qed.

End service.

(** ** Witnesses and the scenarios of the specification *)

Lemma payload_served : Sync.served (Sync.healthy Sync.payload) Sync.payload.
Proof. split_and!; [eexists; split; reflexivity|reflexivity..]. Defined.

Lemma trimmed_payload_served : Sync.served (Sync.healthy Sync.trimmed_payload) Sync.trimmed_payload.
Proof. split_and!; [eexists; split; reflexivity|reflexivity..]. Defined.

Lemma sync_error_keeps_store_witness :
  Sync.store (Sync.syncTaskFromApi (Sync.mkEnv (Fetch.serve (Sync.mkData (Some Sync.payload))) true false) Sync.call_mom)
    = Sync.call_mom ∧
  Sync.console (Sync.syncTaskFromApi (Sync.mkEnv (Fetch.serve (Sync.mkData (Some Sync.payload))) true false) Sync.call_mom)
    = [Sync.SyncServiceError StoreWriteError].
Proof. apply sync_error_keeps_store. reflexivity. Defined.

Lemma sync_preserves_invariants_witness :
  Database.wf (Sync.store (Sync.syncTaskFromApi (Sync.healthy Sync.payload) Sync.call_mom)) ∧
  Database.titles_ok (Sync.store (Sync.syncTaskFromApi (Sync.healthy Sync.payload) Sync.call_mom)).
Proof. apply sync_preserves_invariants; by_compute. Defined.

Lemma sync_rows_origin_witness :
  Task.mk 2 (js "Buy milk") false None ∈ Database.tasks Sync.call_mom ∨
  ∃ raw, raw ∈ Sync.payload ∧
         Task.todo (Task.mk 2 (js "Buy milk") false None) = trim (RemoteTask.todo raw) ∧
         Task.todo (Task.mk 2 (js "Buy milk") false None) ≠ [] ∧
         Task.completed (Task.mk 2 (js "Buy milk") false None) = RemoteTask.completed raw ∧
         Task.attachmentUri (Task.mk 2 (js "Buy milk") false None) = None.
Proof.
  apply (sync_rows_origin (Sync.healthy Sync.payload)); [exact payload_served|].
  by_compute.
Defined.

Lemma sync_creates_every_fresh_witness :
  ∃ task, task ∈ Database.tasks (Sync.store (Sync.syncTaskFromApi (Sync.healthy Sync.payload) Sync.call_mom)) ∧
          Task.todo task = trim (js "Buy milk") ∧ Task.completed task = false.
Proof.
  apply (sync_creates_every_fresh (Sync.healthy Sync.payload) Sync.payload Sync.call_mom
           (RemoteTask.mk 3 (js "Buy milk") false 5)).
  - exact payload_served.
  - by_compute.
  - by_compute.
  - by_compute.
Defined.

Lemma sync_count_bound_witness :
  length (Database.tasks (Sync.store (Sync.syncTaskFromApi (Sync.healthy Sync.payload) Sync.call_mom)))
  + length (filter (λ raw, blank (RemoteTask.todo raw)) Sync.payload)
  ≤ length (Database.tasks Sync.call_mom) + length Sync.payload.
Proof. apply sync_count_bound. exact payload_served. Defined.

Lemma sync_idempotent_trimmed_witness :
  Sync.syncTaskFromApi (Sync.healthy Sync.trimmed_payload)
    (Sync.store (Sync.syncTaskFromApi (Sync.healthy Sync.trimmed_payload) Sync.call_mom)) =
  Sync.completed (length Sync.trimmed_payload)
    (Sync.store (Sync.syncTaskFromApi (Sync.healthy Sync.trimmed_payload) Sync.call_mom)).
Proof.
  apply sync_idempotent_trimmed; [exact trimmed_payload_served|].
  by_compute.
Defined.

Lemma sync_keeps_titles_unique_witness :
  NoDup (Database.titles
           (Sync.store (Sync.syncTaskFromApi (Sync.healthy Sync.trimmed_payload) Sync.call_mom))).
Proof.
  apply (sync_keeps_titles_unique _ Sync.trimmed_payload);
    [exact trimmed_payload_served|..]; by_compute.
Defined.

Lemma second_pass_creates_untrimmed_witness :
  Database.titles (Sync.store (Sync.syncTaskFromApi (Sync.healthy Sync.payload)
                     (Sync.store (Sync.syncTaskFromApi (Sync.healthy Sync.payload) Sync.call_mom)))) =
  Database.titles (Sync.store (Sync.syncTaskFromApi (Sync.healthy Sync.payload) Sync.call_mom)) ++
  ((trim ∘ RemoteTask.todo) <$>
     filter (λ raw, ¬ blank (RemoteTask.todo raw) ∧ ¬ trimmed (RemoteTask.todo raw)) Sync.payload).
Proof.
  apply second_pass_creates_untrimmed; [exact payload_served|].
  by_compute.
Defined.

Lemma sync_requests_full_collection_witness :
  Sync.syncTaskFromApi (Sync.healthy Sync.payload) Sync.call_mom =
  Sync.syncTaskFromApi
    (Sync.mkEnv (λ u, if decide (u = Sync.url) then Fetch.serve (Sync.mkData (Some Sync.payload)) u
                      else Err NetworkError) true true) Sync.call_mom.
Proof. apply sync_requests_full_collection; reflexivity. Defined.

Lemma sync_covers_reconcile_witness :
  Sync.reconcile Sync.payload (Sync.localTodoTexts (Database.tasks Sync.call_mom)) `sublist_of`
  Sync.staged <$> Sync.added Sync.call_mom (Sync.store (Sync.syncTaskFromApi (Sync.healthy Sync.payload) Sync.call_mom)).
Proof.
  apply sync_covers_reconcile; [exact payload_served|].
  by_compute.
Defined.

Lemma sync_refines_reconcile_witness :
  Sync.staged <$> Sync.added Sync.call_mom
    (Sync.store (Sync.syncTaskFromApi (Sync.healthy Sync.trimmed_payload) Sync.call_mom)) =
  Sync.reconcile Sync.trimmed_payload (Sync.localTodoTexts (Database.tasks Sync.call_mom)).
Proof.
  apply sync_refines_reconcile; [exact trimmed_payload_served|..];
    by_compute.
Defined.

(** ** Where the code and the specification part *)

(** the duplicate-suppression scenario of the specification.  The
    store holds "Call mom"; the payload has "Call mom", "Call mom"
    followed by spaces, and "Buy milk".  The reconciler of the
    specification stages one record, "Buy milk".  The code creates two:
    it also creates a second "Call mom", because it looked up the
    untrimmed title. *)
Theorem spec_scenario_diverges :
  Sync.reconcile Sync.payload (Sync.localTodoTexts (Database.tasks Sync.call_mom))
    = [(js "Buy milk", false)] ∧
  Database.titles (Sync.store (Sync.syncTaskFromApi (Sync.healthy Sync.payload) Sync.call_mom))
    = [js "Call mom"; js "Call mom"; js "Buy milk"].
Proof. split; by vm_compute. Qed.

(** The service is not idempotent on that payload: every further
    pass adds another "Call mom". *)
Theorem sync_not_idempotent :
  let pass := λ db, Sync.store (Sync.syncTaskFromApi (Sync.healthy Sync.payload) db) in
  length (Database.tasks (pass Sync.call_mom)) = 3 ∧
  length (Database.tasks (pass (pass Sync.call_mom))) = 4 ∧
  length (Database.tasks (pass (pass (pass Sync.call_mom)))) = 5.
Proof. by vm_compute. Qed.

(** The service does not deduplicate inside a batch: two remote
    items with the same new title become two rows in one pass. *)
Theorem batch_keeps_duplicates :
  Database.titles
    (Sync.store (Sync.syncTaskFromApi
       (Sync.healthy [RemoteTask.mk 1 (js "Buy milk") false 5;
                      RemoteTask.mk 2 (js "Buy milk") true 9])
       Database.empty))
  = [js "Buy milk"; js "Buy milk"].
Proof. by vm_compute. Qed.

(** the service does not look at the status of the response: a
    response with status 500 whose body decodes and has [todos] is
    synchronised like a success. *)
Theorem sync_ignores_status :
  Sync.syncTaskFromApi
    (Sync.mkEnv (λ _, Ok (Fetch.respond 500 (Ok (Sync.mkData (Some Sync.trimmed_payload))))) true true)
    Sync.call_mom
  = Sync.syncTaskFromApi (Sync.healthy Sync.trimmed_payload) Sync.call_mom.
Proof. by vm_compute. Qed.
