(* ===== verification/Payload.v ===== *)
(** * Payload: the synchronisation service on the body as it arrives

    [Sync] reads the body of the response as the interface [RemoteTask]
    of src/src/services/SyncService.ts (lines 21 to 26) types it.  The
    interface is erased when the program is compiled: [data] is what
    [response.json()] resolved to, and lines 37 to 82 run on it with
    the operations of JavaScript ([Js] in Json.v), whatever it is.

    [Dyn] is the service written that way: every property read and
    every method call of lines 37, 56 to 58, 65 to 69 and 82 is the
    operation of [Js], with the [TypeError] that it throws on the
    values that have no such property or method.  What [@field] stores
    for a value that is not a boolean is decided by WatermelonDB; the
    class [FlagField] states the one law that the program relies on.

    The theorems relate the two.  [Dyn.typed] reads a body as the
    interface: an item counts as the title that the filter sees and the
    flag that the store keeps.  On every body, the service does what
    [Sync.syncTaskFromApi] does on the body read that way, so that what
    [Sync] proves holds of the program whatever the server sends; the
    bodies on which it throws a [TypeError] are characterised; and a
    payload of the interface, written as JSON, is read back as it was. *)

From S2P Require Import Prelude JsString Json Task Schema Database Fetch Sync.

(** ** The contract of [@field] on a boolean column

    The setter of [@field('completed')] (src/src/database/Task.ts)
    stores a boolean as it is, and does not look at members that are
    never read. *)
Class FlagField : Type := {
  flag_set : Js.Value → bool;
  flag_set_bool : ∀ b, flag_set (Js.Bool b) = b;
  flag_set_proper :: Proper ((≡) ==> (=)) flag_set;
}.

(** WatermelonDB's setter keeps a boolean, reads the numbers 1 and 0 as
    SQLite stores booleans, and stores false for anything else. *)
Definition sanitize (value : Js.Value) : bool :=
  match value with
  | Js.Bool b => b
  | _ => bool_decide (value = Js.int 1)
  end.

Lemma sanitize_normal value : sanitize (Js.normal value) = sanitize value.
Proof. by destruct value. Qed.

#[export] Instance sanitize_proper : Proper ((≡) ==> (=)) sanitize.
Proof. intros v w Hvw. by rewrite <-(sanitize_normal v), Hvw, sanitize_normal. Qed.

#[export] Instance flag_sanitized : FlagField :=
  {| flag_set := sanitize; flag_set_bool := λ b, eq_refl |}.

(** ** The interfaces on the wire

    A type of the program that describes a JSON value: how its values
    are written, how a value is read as one, and that what was written
    is read back. *)
Class Wire (A : Type) : Type := {
  to_json : A → Js.Value;
  of_json : Js.Value → option A;
  of_to_json : ∀ x, of_json (to_json x) = Some x;
}.

Module Wires.

Definition string_of (value : Js.Value) : option jsstring :=
  match value with Js.String s => Some s | _ => None end.

Definition bool_of (value : Js.Value) : option bool :=
  match value with Js.Bool b => Some b | _ => None end.

Definition array_of (value : Js.Value) : option (list Js.Value) :=
  match value with Js.Array items => Some items | _ => None end.

(** [interface RemoteTask] as a type. *)
Definition RemoteTaskT : Js.Ty :=
  Js.TInterface [ ("id", Js.TNumber); ("todo", Js.TString);
                  ("completed", Js.TBoolean); ("userId", Js.TNumber) ].

(** [RemoteTask[]], the annotation of [apiTasks]. *)
Definition apiTasksT : Js.Ty := Js.TArray RemoteTaskT.

(** [interface RemoteTask] *)
Definition item_to_json (raw : RemoteTask.t) : Js.Value :=
  Js.Object [ ("id", Js.int (RemoteTask.id raw));
              ("todo", Js.String (RemoteTask.todo raw));
              ("completed", Js.Bool (RemoteTask.completed raw));
              ("userId", Js.int (RemoteTask.userId raw)) ].

Definition item_of_json (value : Js.Value) : option RemoteTask.t :=
  match value with
  | Js.Object members =>
      id ← Js.as_int (Js.member "id" members);
      todo ← string_of (Js.member "todo" members);
      completed ← bool_of (Js.member "completed" members);
      userId ← Js.as_int (Js.member "userId" members);
      Some (RemoteTask.mk id todo completed userId)
  | _ => None
  end.

(** The body as far as the service reads it: an object with [todos], or
    without. *)
Definition data_to_json (data : Sync.Data) : Js.Value :=
  match Sync.todos data with
  | Some apiTasks => Js.Object [("todos", Js.Array (item_to_json <$> apiTasks))]
  | None => Js.Object []
  end.

Definition data_of_json (value : Js.Value) : option Sync.Data :=
  match value with
  | Js.Object members =>
      match Js.member "todos" members with
      | Js.Undefined => Some (Sync.mkData None)
      | Js.Array items => Sync.mkData ∘ Some <$> mapM item_of_json items
      | _ => None
      end
  | _ => None
  end.

Lemma item_of_to_json raw : item_of_json (item_to_json raw) = Some raw.
Proof. by destruct raw. Qed.

Lemma data_of_to_json data : data_of_json (data_to_json data) = Some data.
Proof.
  destruct data as [[apiTasks|]]; [|done]. unfold data_to_json, data_of_json.
  cbn [Sync.todos]. by rewrite Js.member_singleton, (mapM_fmap_Some _ _ _ item_of_to_json).
Qed.

End Wires.

#[export] Instance item_wire : Wire RemoteTask.t :=
  {| to_json := Wires.item_to_json; of_json := Wires.item_of_json;
     of_to_json := Wires.item_of_to_json |}.

#[export] Instance data_wire : Wire Sync.Data :=
  {| to_json := Wires.data_to_json; of_json := Wires.data_of_json;
     of_to_json := Wires.data_of_to_json |}.

Module Dyn.

(** ** Definitions *)

(** What one call meets: the network, whose bodies are any values, and
    whether the read of the local rows and the batch succeed. *)
Record Env : Type := mkEnv {
  network : Fetch.Network Js.Value;
  read_ok : bool;
  write_ok : bool;
}.

(** The predicate of the filter:
    [raw.todo && raw.todo.trim().length > 0 && !localTodoTexts.has(raw.todo)] *)
Definition keep (localTodoTexts : gset jsstring) (raw : Js.Value) : result bool :=
  todo ← Js.get "todo" raw;
  if Js.truthy todo then
    trimmed ← Js.trim todo;
    if bool_decide (0 < length trimmed)
    then Ok (negb (Js.has localTodoTexts todo))
    else Ok false
  else Ok false.

(** [apiTasks.filter(...)] *)
Definition tasksToCreate (localTodoTexts : gset jsstring) (apiTasks : Js.Value)
  : result (list Js.Value) :=
  Js.filter (keep localTodoTexts) apiTasks.

(** The callback of [prepareCreate]:
    [task.todo = raw.todo.trim(); task.completed = raw.completed]. *)
Definition builder `{TextField, FlagField} (raw : Js.Value) (task : Task.t) : result Task.t :=
  todo ← Js.get "todo" raw;
  trimmed ← Js.trim todo;
  let task := Task.set_todo trimmed task in
  completed ← Js.get "completed" raw;
  Ok (Task.set_completed (flag_set completed) task).

(** [collection.prepareCreate(builder)] for a builder that can throw. *)
Definition prepareCreate (builder : Task.t → result Task.t) (id : N) : result Task.t :=
  builder (Task.mk id [] false None).

(** [tasksToCreate.map(raw => tasksCollection.prepareCreate(...))] *)
Definition batchActions `{TextField, FlagField} (nextId : N) (tasksToCreate : list Js.Value)
  : result (list Database.Op) :=
  Js.imapM (λ i raw, Database.Create <$> prepareCreate (builder raw) (nextId + N.of_nat i))
           tasksToCreate.

(** The callback of [database.write]. *)
Definition writer `{TextField, FlagField} (write_ok : bool)
    (apiTasks : Js.Value) (localTodoTexts : gset jsstring) : prog Database.t unit :=
  tasksToCreate ← lift (tasksToCreate localTodoTexts apiTasks);
  db ← get;
  actions ← lift (batchActions (Database.nextId db) tasksToCreate);
  if bool_decide (0 < length actions)
  then Database.batch write_ok actions
  else mret tt.

(** Everything up to the write: the request, the decoding, [data.todos]
    and the read of the local titles. *)
Definition readPhase (env : Env) : prog Database.t (Js.Value * gset jsstring) :=
  response ← lift (network env Sync.url);
  data ← lift (Fetch.json response);
  apiTasks ← lift (Js.get "todos" data);
  localTasks ← Database.fetch (read_ok env) [];
  mret (apiTasks, Sync.localTodoTexts localTasks).

(** [await database.write(async () => { ... })] *)
Definition writePhase `{TextField, FlagField} (env : Env)
    (r : Js.Value * gset jsstring) : prog Database.t unit :=
  Database.write (writer (write_ok env) r.1 r.2).

(** [apiTasks.length] in the log line.  The line is reached only after
    a write that has not thrown, and then [apiTasks] is an array
    ([write_array]): the number printed is the number of its items.
    The other branch is never taken by [afterRead]. *)
Definition processed (apiTasks : Js.Value) : result nat :=
  match apiTasks with
  | Js.Array items => Ok (length items)
  | _ => Err TypeError
  end.

(** The [try] block from the write on. *)
Definition afterRead `{TextField, FlagField} (env : Env)
    (r : Js.Value * gset jsstring) : prog Database.t nat :=
  _ ← writePhase env r;
  lift (processed r.1).

(** The [try] block. *)
Definition body `{TextField, FlagField} (env : Env) : prog Database.t nat :=
  r ← readPhase env;
  afterRead env r.

(** [export const syncTaskFromApi = async () => { try {...} catch {...} }] *)
Definition syncTaskFromApi `{TextField, FlagField} (env : Env) (db : Database.t)
  : Sync.Outcome :=
  Sync.settled (body env db).

(** ** A value read as the interface *)

(** A value from which the filter does not throw: an object, or a
    primitive that is not [null], whose [todo] is falsy or a string. *)
Definition well_typed (raw : Js.Value) : bool :=
  match Js.get "todo" raw with
  | Ok todo => negb (Js.truthy todo) || Js.is_string todo
  | Err _ => false
  end.

(** The title that the filter sees. *)
Definition title (raw : Js.Value) : jsstring :=
  match Js.get "todo" raw with
  | Ok (Js.String s) => s
  | _ => []
  end.

(** The flag that the store keeps. *)
Definition flag `{FlagField} (raw : Js.Value) : bool :=
  match Js.get "completed" raw with
  | Ok completed => flag_set completed
  | Err _ => false
  end.

Definition number (key : string) (raw : Js.Value) : Z :=
  match Js.get key raw with
  | Ok value => default 0%Z (Js.as_int value)
  | Err _ => 0%Z
  end.

(** The item of the interface that a value is to the service. *)
Definition coerce `{FlagField} (raw : Js.Value) : RemoteTask.t :=
  RemoteTask.mk (number "id" raw) (title raw) (flag raw) (number "userId" raw).

(** [data.todos] as the writer takes it: the items, or nothing when
    filtering it throws. *)
Definition typed_todos `{FlagField} (apiTasks : Js.Value) : option (list RemoteTask.t) :=
  match apiTasks with
  | Js.Array items => if forallb well_typed items then Some (coerce <$> items) else None
  | _ => None
  end.

(** The body as the typed service takes it. *)
Definition typed_body `{FlagField} (body : result Js.Value) : result Sync.Data :=
  data ← body;
  apiTasks ← Js.get "todos" data;
  Ok (Sync.mkData (typed_todos apiTasks)).

(** The environment as the typed service takes it. *)
Definition typed `{FlagField} (env : Env) : Sync.Env :=
  Sync.mkEnv
    (λ url, (λ response, Fetch.mkResponse (Fetch.ok response) (Fetch.status response)
                           (typed_body (Fetch.json response))) <$> network env url)
    (read_ok env) (write_ok env).





(** ** Sample inputs *)

(** A server whose body decodes to [data], with a store that works. *)
Definition healthy (data : Js.Value) : Env := mkEnv (Fetch.serve data) true true.

Definition item (todo completed : Js.Value) : Js.Value :=
  Js.Object [("todo", todo); ("completed", completed)].

(** A body that the interface does not describe and that the service
    gets through: items without [id] and [userId], a flag sent as 1, a
    flag sent as text, a title sent as 0, an item without a title, an
    item that is a string. *)
Definition mixed : Js.Value :=
  Js.Object [("todos", Js.Array [
    item (Js.String (js "Buy milk")) (Js.int 1);
    item (Js.int 0) (Js.Bool true);
    Js.Object [("completed", Js.Bool true)];
    Js.String (js "Feed cat");
    item (Js.String (js "Call mom")) (Js.Bool false);
    item (Js.String (js " Water plants ")) (Js.String (js "yes")) ])].


(** A body with one item whose title is a number that is not 0. *)
Definition poisoned : Js.Value :=
  Js.Object [("todos", Js.Array [
    item (Js.String (js "Buy milk")) (Js.Bool false);
    item (Js.int 42) (Js.Bool false) ])].

(** ** Lemmas *)

Section lemmas.
Context `{TextField, FlagField}.
Implicit Types (raw apiTasks : Js.Value) (items : list Js.Value) (local : gset jsstring).
Implicit Types (db : Database.t) (env : Env).

(** On a value that is well typed the filter decides as the typed
    filter does on the item that the value is read as. *)
Lemma keep_typed local raw :
  well_typed raw = true → keep local raw = Ok (Sync.keep local (coerce raw)).
Proof.
  unfold well_typed, keep, Sync.keep, coerce, title. cbn [RemoteTask.todo].
  destruct (Js.get "todo" raw) as [todo|]; [|done]. cbn.
  destruct todo as [| |[]|n|s| |]; cbn; try done.
  - by case_bool_decide.
  - destruct (truthy s); [|done]. cbn. by case_bool_decide.
Qed.

(** On any other value it throws. *)
Lemma keep_ill_typed local raw : well_typed raw = false → keep local raw = Err TypeError.
Proof.
  unfold well_typed, keep. destruct (Js.get "todo" raw) as [todo|e] eqn:Hget; cbn.
  - destruct todo as [| |[]|n|s| |]; cbn; try done.
    + by destruct (bool_decide _).
    + by rewrite orb_true_r.
  - intros _. destruct raw; by simplify_eq/=.
Qed.

(** The callback of [prepareCreate] does not throw on a value that the
    filter has kept, and builds what the typed callback builds. *)
Lemma builder_typed local raw task :
  keep local raw = Ok true → builder raw task = Ok (Sync.builder (coerce raw) task).
Proof.
  unfold keep, builder, Sync.builder, coerce, title, flag. cbn [RemoteTask.todo RemoteTask.completed].
  destruct raw as [| | | | | |members]; cbn; try done.
  destruct (Js.member "todo" members) as [| |[]|n|s| |]; cbn; try done.
  all: by destruct (negb _).
Qed.

Lemma filterM_typed local items :
  forallb well_typed items = true →
  Js.filterM (keep local) items = Ok (filter (λ raw, Sync.keep local (coerce raw)) items).
Proof.
  intros Hall%Is_true_true%forallb_True. apply Js.filterM_Ok.
  eapply Forall_impl; [done|]. intros raw Hraw. by apply keep_typed, Is_true_true.
Qed.

Lemma filterM_ill_typed local items :
  forallb well_typed items = false → Js.filterM (keep local) items = Err TypeError.
Proof.
  intros Hex. apply Js.filterM_Err.
  - apply Forall_forall. intros raw _. destruct (well_typed raw) eqn:Hraw.
    + left. by rewrite keep_typed.
    + right. by apply keep_ill_typed.
  - apply not_true_iff_false in Hex. rewrite <-Is_true_true, forallb_True in Hex.
    apply not_Forall_Exists in Hex; [|apply _].
    eapply Exists_impl; [exact Hex|]. intros raw Hraw. apply keep_ill_typed.
    apply not_true_iff_false. by rewrite <-Is_true_true.
Qed.

Lemma batchActions_typed local next items :
  Forall (λ raw, keep local raw = Ok true) items →
  batchActions next items = Ok (Sync.batchActions next (coerce <$> items)).
Proof.
  intros Hall. unfold batchActions, Sync.batchActions. rewrite imap_fmap.
  apply Js.imapM_Ok. intros i raw Hi. unfold prepareCreate, Database.prepareCreate.
  by rewrite (builder_typed local raw) by exact (Forall_lookup_1 _ _ _ _ Hall Hi).
Qed.

(** The writer on a value is the typed writer on the value read as
    the interface. *)
Lemma writer_typed ok apiTasks local db :
  writer ok apiTasks local db = Sync.writer ok (typed_todos apiTasks) local db.
Proof.
  unfold writer, tasksToCreate, typed_todos.
  destruct apiTasks as [| | | | |items|]; try done. cbn [Js.filter].
  destruct (forallb well_typed items) eqn:Hall; [|by rewrite filterM_ill_typed].
  rewrite filterM_typed by done. unfold Sync.writer, Sync.tasksToCreate.
  rewrite filter_fmap. unfold mbind, prog_bind, get, lift. cbn.
  rewrite (batchActions_typed local); [done|].
  apply Forall_forall. intros raw [Hkeep Hin]%list_elem_of_filter.
  apply Is_true_true in Hall. rewrite forallb_True, Forall_forall in Hall.
  rewrite keep_typed by (by apply Is_true_true, Hall). f_equal. by apply Is_true_true.
Qed.

Lemma processed_typed apiTasks l :
  typed_todos apiTasks = Some l → processed apiTasks = Ok (length l).
Proof.
  destruct apiTasks as [| | | | |items|]; try done. cbn.
  destruct (forallb _ _); [|done]. intros [= <-]. by rewrite length_fmap.
Qed.

(** A write that does not throw has filtered an array. *)
Lemma write_array env apiTasks local db db' :
  writePhase env (apiTasks, local) db = (Ok tt, db') → ∃ items, apiTasks = Js.Array items.
Proof. destruct apiTasks; by eauto. Qed.

Lemma afterRead_typed env apiTasks local db :
  afterRead env (apiTasks, local) db =
  Sync.afterRead (typed env) (typed_todos apiTasks, local) db.
Proof.
  unfold afterRead, Sync.afterRead, writePhase, Sync.writePhase, Database.write.
  rewrite !prog_bind_unfold. cbn [fst snd typed Sync.write_ok]. rewrite writer_typed.
  destruct (typed_todos apiTasks) as [l|] eqn:Htyped; [|done].
  destruct (Sync.writer _ _ _ _) as [[[]|e] db']; [|done].
  by rewrite (processed_typed _ l).
Qed.

Lemma readPhase_typed env db :
  Sync.readPhase (typed env) db =
  match readPhase env db with
  | (Ok r, db') => (Ok (typed_todos r.1, r.2), db')
  | (Err e, db') => (Err e, db')
  end.
Proof.
  unfold readPhase, Sync.readPhase, typed. cbn [Sync.network Sync.read_ok].
  unfold mbind, prog_bind, lift, Database.fetch.
  destruct (network env Sync.url) as [response|e]; cbn; [|done].
  destruct (Fetch.json response) as [data|e]; cbn; [|done].
  destruct (Js.get "todos" data) as [apiTasks|e]; cbn; [|done].
  by destruct (read_ok env).
Qed.

(** The service on any body is the typed service on the body read as
    the interface. *)
Lemma run_typed env db : syncTaskFromApi env db = Sync.syncTaskFromApi (typed env) db.
Proof.
  unfold syncTaskFromApi, Sync.syncTaskFromApi, body, Sync.body. f_equal.
  rewrite !prog_bind_unfold, readPhase_typed.
  destruct (readPhase env db) as [[[apiTasks local]|e] db']; [|done].
  apply afterRead_typed.
Qed.





(** The bodies on which the service throws a [TypeError], if the read
    of the local rows does not fail first. *)
Lemma typed_todos_None apiTasks :
  typed_todos apiTasks = None ↔
  ∀ items, apiTasks = Js.Array items → ∃ raw, raw ∈ items ∧ well_typed raw = false.
Proof.
  destruct apiTasks as [| | | | |items|]; try (split; [by intros _ ?|done]).
  unfold typed_todos. destruct (forallb well_typed items) eqn:Hall.
  - split; [done|]. intros Hex. destruct (Hex items eq_refl) as (raw & Hin & Hraw).
    apply Is_true_true in Hall. rewrite forallb_True, Forall_forall in Hall.
    apply Hall, Is_true_true in Hin. congruence.
  - split; [|done]. intros _ ? [= <-].
    apply not_true_iff_false in Hall. rewrite <-Is_true_true, forallb_True in Hall.
    apply not_Forall_Exists, Exists_exists in Hall as (raw & Hin & Hraw); [|apply _].
    exists raw. split; [done|]. apply not_true_iff_false. by rewrite <-Is_true_true.
Qed.

(** *** Members that are never read *)






(** *** Values that have the type of the interface *)

(** A value of type [RemoteTask] is an item from which the filter does
    not throw, with a string as its title and a boolean as its flag. *)
Lemma conforms_item raw :
  Js.conforms Wires.RemoteTaskT raw = true →
  well_typed raw = true ∧
  Js.get "todo" raw = Ok (Js.String (title raw)) ∧
  Js.get "completed" raw = Ok (Js.Bool (flag raw)).
Proof.
  intros Hraw.
  destruct (Js.conforms_interface _ _ "todo" Js.TString Hraw) as (todo & Htodo & Hs);
    [set_solver|].
  destruct (Js.conforms_interface _ _ "completed" Js.TBoolean Hraw) as (completed & Hcompleted & Hb);
    [set_solver|].
  destruct todo as [| | | |s| |]; try done. destruct completed as [| |b| | | |]; try done.
  unfold well_typed, title, flag. rewrite Htodo, Hcompleted, flag_set_bool.
  split_and!; [apply orb_true_r|done..].
Qed.

(** A value of type [RemoteTask[]] is read as the items that it has. *)
Lemma conforms_todos apiTasks :
  Js.conforms Wires.apiTasksT apiTasks = true →
  ∃ items, apiTasks = Js.Array items ∧ typed_todos apiTasks = Some (coerce <$> items) ∧
           Forall (λ raw, Js.conforms Wires.RemoteTaskT raw = true) items.
Proof.
  intros (items & -> & Hall)%Js.conforms_array. exists items. split_and!; [done| |done].
  unfold typed_todos. assert (forallb well_typed items = true) as ->; [|done].
  apply Is_true_true, forallb_True. eapply Forall_impl; [exact Hall|].
  intros raw Hraw. by apply Is_true_true, conforms_item.
Qed.

(** What is written for a value of the interface has its type. *)
Lemma to_json_conforms (l : list RemoteTask.t) :
  Js.conforms Wires.apiTasksT (Js.Array (to_json <$> l)) = true.
Proof.
  cbn [Wires.apiTasksT Js.conforms]. apply Is_true_true, forallb_True, Forall_fmap, Forall_true.
  by intros [].
Qed.

End lemmas.

End Dyn.

(** ** The service and the interface *)

Section payload.
Context `{TextField, FlagField}.
Implicit Types (env : Dyn.Env) (db : Database.t).

(** C4: refinement of the typed service.  Whatever the network answers
    and whatever value the body decodes to, the service does what the
    typed service of [Sync] does on the body read as the interface:
    the same promise, the same store, the same console.  The same holds
    of the part of a pass after its read, which is the step that other
    passes interleave with.  So every theorem on
    [Sync.syncTaskFromApi] is a theorem on the program as it runs on
    unchecked bodies. *)
Theorem sync_typed env db (apiTasks : Js.Value) (local : gset jsstring) :
  Dyn.syncTaskFromApi env db = Sync.syncTaskFromApi (Dyn.typed env) db ∧
  Dyn.afterRead env (apiTasks, local) db =
    Sync.afterRead (Dyn.typed env) (Dyn.typed_todos apiTasks, local) db.
Proof. split; [apply Dyn.run_typed|apply Dyn.afterRead_typed]. Qed.

(** whatever the server sends, the store is safe.  On any body, a
    call keeps the invariants of the store (ids unique and below the
    supply, titles trimmed and not empty), keeps every row that was
    stored as it was and where it was, and, if it ends in an error,
    leaves the store exactly as it was and logs the error once. *)
Theorem sync_any_body env db :
  Database.wf db → Database.titles_ok db →
  let outcome := Dyn.syncTaskFromApi env db in
  Database.wf (Sync.store outcome) ∧ Database.titles_ok (Sync.store outcome) ∧
  Database.extended_by db (Sync.store outcome) ∧
  ∀ e, Sync.result_of outcome = Err e →
       Sync.store outcome = db ∧ Sync.console outcome = [Sync.SyncServiceError e].
Proof.
  intros Hwf Hok. cbn zeta. rewrite Dyn.run_typed. split_and!.
  - destruct (Sync.run_store (Dyn.typed env) db) as [l ->]. by apply Sync.append_wf.
  - destruct (Sync.run_store (Dyn.typed env) db) as [l ->]. by apply Sync.append_titles_ok.
  - apply Sync.run_extends.
  - intros e. apply Sync.run_failed.
Qed.

(** C10: the type errors of the service.  When the request is answered
    with a body that decodes to [data], the call ends in a [TypeError]
    in exactly these cases: [data] is [null], so that reading
    [data.todos] throws, before the store is read; or the store is read
    and [data.todos] is not an array, or is an array with an item that
    is [null] or whose [todo] is truthy and not a string.  One such
    item fails the whole pass: nothing is created, also not for the
    items that are well formed. *)
Theorem sync_type_error env response (data : Js.Value) db :
  Dyn.network env Sync.url = Ok response → Fetch.json response = Ok data →
  (Sync.result_of (Dyn.syncTaskFromApi env db) = Err TypeError ↔
   match Js.get "todos" data with
   | Err _ => True
   | Ok apiTasks =>
       Dyn.read_ok env = true ∧
       ∀ items, apiTasks = Js.Array items →
                ∃ raw, raw ∈ items ∧ Dyn.well_typed raw = false
   end) ∧
  (Sync.result_of (Dyn.syncTaskFromApi env db) = Err TypeError →
   Sync.store (Dyn.syncTaskFromApi env db) = db).
Proof.
  intros Hnet Hjson. split; [|rewrite Dyn.run_typed; by intros [? _]%Sync.run_failed].
  rewrite Dyn.run_typed, Sync.run_outcome. unfold Sync.outcome_of, Dyn.typed.
  cbn [Sync.network Sync.read_ok Sync.write_ok]. rewrite Hnet. cbn. rewrite Hjson. cbn.
  destruct (Js.get "todos" data) as [apiTasks|e] eqn:Hget; cbn.
  - rewrite <-Dyn.typed_todos_None.
    destruct (Dyn.read_ok env); [|by split; [|intros []]].
    destruct (Dyn.typed_todos apiTasks) as [l|]; [|done].
    split; [|by intros []]. by repeat case_match.
  - split; [done|]. intros _. destruct data; by simplify_eq/=.
Qed.


(** C11: the annotation [RemoteTask[]] is sound on the bodies that have
    it.  The compiler takes [data.todos] for a [RemoteTask[]] without a
    check.  When the value has that type (an array of objects that have
    [id], [todo], [completed] and [userId] as two numbers, a string and
    a boolean, and may have more), the call does not end in a
    [TypeError], and the typed model reads the payload right: item for
    item, the title is the string that [raw.todo] is and the flag the
    boolean that [raw.completed] is. *)
Theorem annotation_sound env response (data apiTasks : Js.Value) db :
  Dyn.network env Sync.url = Ok response → Fetch.json response = Ok data →
  Js.get "todos" data = Ok apiTasks → Js.conforms Wires.apiTasksT apiTasks = true →
  Sync.result_of (Dyn.syncTaskFromApi env db) ≠ Err TypeError ∧
  ∃ items, apiTasks = Js.Array items ∧
    Dyn.typed_todos apiTasks = Some (Dyn.coerce <$> items) ∧
    Forall (λ raw,
      Js.get "todo" raw = Ok (Js.String (RemoteTask.todo (Dyn.coerce raw))) ∧
      Js.get "completed" raw = Ok (Js.Bool (RemoteTask.completed (Dyn.coerce raw)))) items.
Proof.
  intros Hnet Hjson Hget (items & -> & Htyped & Hall)%Dyn.conforms_todos. split.
  - assert (Dyn.typed_body (Fetch.json response)
            = Ok (Sync.mkData (Some (Dyn.coerce <$> items)))) as Hbody.
    { rewrite Hjson. unfold Dyn.typed_body. cbn -[Dyn.typed_todos]. rewrite Hget.
      cbn -[Dyn.typed_todos]. by rewrite Htyped. }
    rewrite Dyn.run_typed, Sync.run_outcome. unfold Sync.outcome_of, Dyn.typed.
    cbn [Sync.network Sync.read_ok Sync.write_ok]. rewrite Hnet. cbn -[Dyn.typed_body].
    rewrite Hbody. cbn. by repeat case_match.
  - exists items. split_and!; [done..|]. eapply Forall_impl; [exact Hall|].
    intros raw Hraw. by destruct (Dyn.conforms_item raw Hraw) as (_ & ? & ?).
Qed.


End payload.

(** ** Witnesses and scenarios *)

Lemma sync_any_body_witness :
  Database.wf (Sync.store (Dyn.syncTaskFromApi (Dyn.healthy Dyn.mixed) Sync.call_mom)) ∧
  Database.titles_ok (Sync.store (Dyn.syncTaskFromApi (Dyn.healthy Dyn.mixed) Sync.call_mom)) ∧
  Database.extended_by Sync.call_mom
    (Sync.store (Dyn.syncTaskFromApi (Dyn.healthy Dyn.mixed) Sync.call_mom)) ∧
  ∀ e, Sync.result_of (Dyn.syncTaskFromApi (Dyn.healthy Dyn.mixed) Sync.call_mom) = Err e →
       Sync.store (Dyn.syncTaskFromApi (Dyn.healthy Dyn.mixed) Sync.call_mom) = Sync.call_mom ∧
       Sync.console (Dyn.syncTaskFromApi (Dyn.healthy Dyn.mixed) Sync.call_mom) =
         [Sync.SyncServiceError e].
Proof. apply (sync_any_body (Dyn.healthy Dyn.mixed) Sync.call_mom); by_compute. Defined.

Lemma sync_type_error_witness :
  Sync.result_of (Dyn.syncTaskFromApi (Dyn.healthy Dyn.poisoned) Sync.call_mom) = Err TypeError ∧
  Sync.store (Dyn.syncTaskFromApi (Dyn.healthy Dyn.poisoned) Sync.call_mom) = Sync.call_mom.
Proof.
  destruct (sync_type_error (Dyn.healthy Dyn.poisoned) _ Dyn.poisoned Sync.call_mom
              eq_refl eq_refl) as [Herr Hstore].
  assert (Sync.result_of (Dyn.syncTaskFromApi (Dyn.healthy Dyn.poisoned) Sync.call_mom)
          = Err TypeError) as Hthrows.
  { apply Herr. split; [done|]. intros items [= <-].
    exists (Dyn.item (Js.int 42) (Js.Bool false)). split; [|done].
    apply list_elem_of_lookup. by exists 1. }
  split; [exact Hthrows|exact (Hstore Hthrows)].
Defined.

Lemma annotation_sound_witness :
  Sync.result_of (Dyn.syncTaskFromApi
                    (Dyn.healthy (to_json (Sync.mkData (Some Sync.payload)))) Sync.call_mom)
    ≠ Err TypeError ∧
  ∃ items, Js.Array (to_json <$> Sync.payload) = Js.Array items ∧
    Dyn.typed_todos (Js.Array (to_json <$> Sync.payload)) = Some (Dyn.coerce <$> items) ∧
    Forall (λ raw,
      Js.get "todo" raw = Ok (Js.String (RemoteTask.todo (Dyn.coerce raw))) ∧
      Js.get "completed" raw = Ok (Js.Bool (RemoteTask.completed (Dyn.coerce raw)))) items.
Proof.
  eapply (annotation_sound (Dyn.healthy (to_json (Sync.mkData (Some Sync.payload)))));
    [reflexivity..|].
  apply Dyn.to_json_conforms.
Defined.


(** What the service makes of [Dyn.mixed]: the flag sent as 1 is
    stored as true and the flag sent as text as false; the items whose
    title is 0, is missing, or that are strings are passed over; the
    line of the log counts all six. *)
Example mixed_outcome :
  Dyn.syncTaskFromApi (Dyn.healthy Dyn.mixed) Sync.call_mom =
  Sync.completed 6
    (Database.mk [ Task.mk 0 (js "Call mom") false None;
                   Task.mk 1 (js "Buy milk") true None;
                   Task.mk 2 (js "Water plants") false None ] 3).
Proof. by_compute. Qed.

(** One item whose title is a number fails the pass: the item before
    it, which is well formed, is not created either. *)
Example poisoned_outcome :
  Dyn.syncTaskFromApi (Dyn.healthy Dyn.poisoned) Sync.call_mom =
  Sync.failed TypeError Sync.call_mom.
Proof. by_compute. Qed.

(** A body that is [null] throws at [data.todos], before the store is
    read; a body that is a string does not, and the failing read is the
    error. *)
Example null_body_before_read :
  Sync.result_of (Dyn.syncTaskFromApi (Dyn.mkEnv (Fetch.serve Js.Null) false true) Sync.call_mom)
    = Err TypeError ∧
  Sync.result_of (Dyn.syncTaskFromApi
                    (Dyn.mkEnv (Fetch.serve (Js.String (js "busy"))) false true) Sync.call_mom)
    = Err StoreReadError.
Proof. split; by_compute. Qed.

(** Of two members named [todos] the service reads the second. *)
Example duplicate_member :
  Js.get "todos" (Js.Object [("todos", Js.Null); ("todos", Js.Array [])]) = Ok (Js.Array []).
Proof. by_compute. Qed.
