(* ===== verification/Api.v ===== *)
(** * Api: the HTTP client and the task endpoint

    src/src/api/client.ts is the client of the remote API: [apiClient.get]
    requests [BASE_URL] followed by the endpoint, refuses a response whose
    [ok] flag is false, decodes the body, and logs and rethrows whatever
    fails.  src/src/api/taskApi.ts wraps it for the task collection, and
    src/src/types/api.ts declares the shape of the answer.

    The state of these functions is the console.  The synchronisation
    service does not call them (it calls [fetch] itself); the last part
    of the file says what would change if it did. *)

From S2P Require Import Prelude JsString Fetch.

(** ** Definitions *)

(** [interface TodoFromApi] *)
Module TodoFromApi.

Record t : Type := mk {
  id : Z;
  todo : jsstring;
  completed : bool;
  userId : Z;
}.

#[global] Instance t_eq_dec : EqDecision t.
Proof. solve_decision. Defined.

End TodoFromApi.

(** [interface TodoResponse]: the page and its pagination data. *)
Module TodoResponse.

Record t : Type := mk {
  todos : list TodoFromApi.t;
  total : Z;
  skip : Z;
  limit : Z;
}.

#[global] Instance t_eq_dec : EqDecision t.
Proof. solve_decision. Defined.

End TodoResponse.

Module ApiClient.

Definition BASE_URL : string := "https://dummyjson.com".

(** The lines of the console: [console.error('[API_CLIENT_ERROR]:', error)]. *)
Inductive LogEvent : Type :=
| ApiClientError (error : Error).

#[global] Instance LogEvent_eq_dec : EqDecision LogEvent.
Proof. solve_decision. Defined.

Definition console_error (error : Error) : prog (list LogEvent) unit :=
  λ console, (Ok tt, console ++ [ApiClientError error]).

(** [apiClient.get(endpoint)] against a network whose bodies decode to
    [B]. *)
Definition get {B} (network : Fetch.Network B) (endpoint : string)
  : prog (list LogEvent) B :=
  try{
    response ← lift (network (BASE_URL +:+ endpoint));
    if negb (Fetch.ok response)
    then throw (HttpError (Fetch.status response))
    else lift (Fetch.json response)
  }catch error ⇒
    (console_error error;; throw error).

(** The outcome of [get], path by path. *)
Definition outcome_of {B} (network : Fetch.Network B) (endpoint : string)
    (console : list LogEvent) : result B * list LogEvent :=
  let failed error := (Err error, console ++ [ApiClientError error]) in
  match network (BASE_URL +:+ endpoint) with
  | Err error => failed error
  | Ok response =>
      if Fetch.ok response then
        match Fetch.json response with
        | Ok body => (Ok body, console)
        | Err error => failed error
        end
      else failed (HttpError (Fetch.status response))
  end.

End ApiClient.

Module TaskApi.

(** [taskApi.fetchAllTasks()] *)
Definition fetchAllTasks (network : Fetch.Network TodoResponse.t)
  : prog (list ApiClient.LogEvent) TodoResponse.t :=
  try{ ApiClient.get network "/todos" }catch error ⇒ throw error.

End TaskApi.

(** The remote API as its documentation describes it: the collection is
    served in pages of [pageSize] items unless the request says
    [limit=0]; any other path is not found. *)
Module Dummyjson.

Definition page (all : list TodoFromApi.t) (limit : nat) : TodoResponse.t :=
  let items := if decide (limit = 0) then all else take limit all in
  TodoResponse.mk items (Z.of_nat (length all)) 0 (Z.of_nat (length items)).

Definition server (pageSize : nat) (all : list TodoFromApi.t)
  : Fetch.Network TodoResponse.t :=
  λ url,
    if decide (url = "https://dummyjson.com/todos?limit=0")
    then Ok (Fetch.respond 200 (Ok (page all 0)))
    else if decide (url = "https://dummyjson.com/todos")
    then Ok (Fetch.respond 200 (Ok (page all pageSize)))
    else Ok (Fetch.respond 404 (Err JsonParseError)).

(** Sample data: [n] items titled "1", "2", ... *)
Definition items (n : nat) : list TodoFromApi.t :=
  (λ i, TodoFromApi.mk (Z.of_nat i) [N.of_nat (48 + i mod 10)] false 1) <$> seq 1 n.

End Dummyjson.

(** ** Lemmas *)

Section client.
Context {B : Type}.
Implicit Types (network : Fetch.Network B) (endpoint : string)
  (console : list ApiClient.LogEvent).

Lemma get_run network endpoint console :
  ApiClient.get network endpoint console = ApiClient.outcome_of network endpoint console.
Proof.
  unfold ApiClient.get, ApiClient.outcome_of, try_catch.
  rewrite prog_bind_unfold. unfold lift at 1.
  destruct (network _) as [response|error]; [|done].
  destruct (Fetch.ok response); simpl; [|done].
  unfold lift. by destruct (Fetch.json response).
Qed.

(** The console only grows, by at most one line. *)
Lemma get_console network endpoint console :
  (ApiClient.get network endpoint console).2 = console ∨
  ∃ error, ApiClient.get network endpoint console
           = (Err error, console ++ [ApiClient.ApiClientError error]).
Proof.
  rewrite get_run. unfold ApiClient.outcome_of.
  repeat case_match; eauto.
Qed.

End client.

Lemma fetchAllTasks_get network console :
  TaskApi.fetchAllTasks network console = ApiClient.get network "/todos" console.
Proof. unfold TaskApi.fetchAllTasks. apply try_catch_rethrow. Qed.

Lemma server_default pageSize all :
  Dummyjson.server pageSize all "https://dummyjson.com/todos"
  = Ok (Fetch.respond 200 (Ok (Dummyjson.page all pageSize))).
Proof. done. Qed.

(** ** The client *)

Section properties.
Context {B : Type}.
Implicit Types (network : Fetch.Network B) (endpoint : string)
  (console : list ApiClient.LogEvent).

(** [apiClient.get] resolves exactly when the request is answered
    with a response whose [ok] flag is set and whose body decodes, with
    the decoded body and a silent console.  On every other path it
    rejects and logs the error once: with the rejection of [fetch], with
    the decoding error, or, for a response that is not [ok], with the
    status, whatever the body holds. *)
Theorem get_functional network endpoint console :
  ApiClient.get network endpoint console =
  match network (ApiClient.BASE_URL +:+ endpoint) with
  | Ok (Fetch.mkResponse true _ (Ok body)) => (Ok body, console)
  | Ok (Fetch.mkResponse true _ (Err error)) =>
      (Err error, console ++ [ApiClient.ApiClientError error])
  | Ok (Fetch.mkResponse false status _) =>
      (Err (HttpError status), console ++ [ApiClient.ApiClientError (HttpError status)])
  | Err error => (Err error, console ++ [ApiClient.ApiClientError error])
  end.
Proof.
  rewrite get_run. unfold ApiClient.outcome_of.
  destruct (network _) as [[[] status [body|error]]|error]; done.
Qed.

(** An error of [apiClient.get] is never silent and never logged
    twice: the call rejects with [error] if and only if it adds the one
    line of that error to the console, and it resolves if and only if it
    adds nothing. *)
Theorem get_logs_iff_fails network endpoint console error :
  (ApiClient.get network endpoint console).1 = Err error ↔
  (ApiClient.get network endpoint console).2 = console ++ [ApiClient.ApiClientError error].
Proof.
  rewrite get_run. unfold ApiClient.outcome_of.
  assert (∀ e, console ++ [ApiClient.ApiClientError e] ≠ console) as Hne.
  { intros e Heq. apply (f_equal length) in Heq. rewrite length_app in Heq. simpl in Heq. lia. }
  repeat case_match; simpl; split; intros Heq; simplify_eq; try done.
  by destruct (Hne error).
Qed.

End properties.

(** C33: [taskApi.fetchAllTasks] asks for [/todos] without [limit=0]:
    against the remote API it resolves with the first page only.  Of a
    collection larger than the page, the items after the page are never
    seen, and the call gives no error. *)
Theorem fetchAllTasks_first_page pageSize all console :
  0 < pageSize →
  TaskApi.fetchAllTasks (Dummyjson.server pageSize all) console =
  (Ok (TodoResponse.mk (take pageSize all) (Z.of_nat (length all)) 0
         (Z.of_nat (pageSize `min` length all))), console).
Proof.
  intros Hp. rewrite fetchAllTasks_get, get_run.
  unfold ApiClient.outcome_of. cbn -[Dummyjson.server].
  rewrite server_default. cbn. unfold Dummyjson.page.
  rewrite decide_False by lia. by rewrite length_take.
Qed.

Lemma fetchAllTasks_first_page_witness :
  TaskApi.fetchAllTasks (Dummyjson.server 30 (Dummyjson.items 150)) [] =
  (Ok (TodoResponse.mk (take 30 (Dummyjson.items 150)) (Z.of_nat (length (Dummyjson.items 150))) 0
         (Z.of_nat (30 `min` length (Dummyjson.items 150)))), []).
Proof. apply fetchAllTasks_first_page. lia. Defined.

(** ** Examples *)

(** A response with status 500 is refused even though its body decodes. *)
Example get_refuses_500 :
  ApiClient.get (λ _, Ok (Fetch.respond 500 (Ok 7))) "/todos" []
  = (Err (HttpError 500), [ApiClient.ApiClientError (HttpError 500)]).
Proof. reflexivity. Qed.

(** Of 150 remote items the wrapper sees 30. *)
Example fetchAllTasks_misses_120 :
  (λ r, length (TodoResponse.todos r)) <$> (TaskApi.fetchAllTasks (Dummyjson.server 30 (Dummyjson.items 150)) []).1
  = Ok 30.
Proof. by vm_compute. Qed.
