(* ===== verification/UiStore.v ===== *)
(** * UiStore: the ephemeral state of the interface (src/src/store/useUiStore.ts)

    A zustand store with two fields, [userName] and [isOnline], and one
    setter for each.  [set] merges a partial state into the current one;
    the two setters are [set] with one field given. *)

From S2P Require Import Prelude JsString.

Module UiStore.

(** ** Definitions *)

(** The data of [interface UiState]; its two actions are the functions
    below. *)
Record UiState : Type := mk {
  userName : jsstring;
  isOnline : bool;
}.

#[global] Instance UiState_eq_dec : EqDecision UiState.
Proof. solve_decision. Defined.

(** A partial state, as [set] takes it: a field is given or absent. *)
Record Partial : Type := mkPartial {
  given_userName : option jsstring;
  given_isOnline : option bool;
}.

(** zustand's [set(partial)]: the given fields replace the current ones. *)
Definition set (partial : Partial) (state : UiState) : UiState :=
  mk (default (userName state) (given_userName partial))
     (default (isOnline state) (given_isOnline partial)).

(** The initial state of [create]: no name, on line. *)
Definition initial : UiState := mk [] true.

(** [setUserName: (name) => set({ userName: name })] *)
Definition setUserName (name : jsstring) : UiState → UiState :=
  set (mkPartial (Some name) None).

(** [setOnlineStatus: (status) => set({ isOnline: status })] *)
Definition setOnlineStatus (status : bool) : UiState → UiState :=
  set (mkPartial None (Some status)).

(** The actions of the store. *)
Inductive Action : Type :=
| SetUserName (name : jsstring)
| SetOnlineStatus (status : bool).

Definition act (a : Action) : UiState → UiState :=
  match a with
  | SetUserName name => setUserName name
  | SetOnlineStatus status => setOnlineStatus status
  end.

(** The last value that a sequence of actions gave a field, if any. *)
Definition last_userName (l : list Action) : option jsstring :=
  last (omap (λ a, match a with SetUserName name => Some name | _ => None end) l).

Definition last_isOnline (l : list Action) : option bool :=
  last (omap (λ a, match a with SetOnlineStatus status => Some status | _ => None end) l).

(** ** Lemmas *)

Section lemmas.
Implicit Types (state : UiState) (name : jsstring) (status : bool).

Lemma set_empty state : set (mkPartial None None) state = state.
Proof. by destruct state. Qed.

Lemma userName_setUserName name state : userName (setUserName name state) = name.
Proof. done. Qed.

Lemma isOnline_setUserName name state : isOnline (setUserName name state) = isOnline state.
Proof. done. Qed.

Lemma userName_setOnlineStatus status state :
  userName (setOnlineStatus status state) = userName state.
Proof. done. Qed.

Lemma isOnline_setOnlineStatus status state : isOnline (setOnlineStatus status state) = status.
Proof. done. Qed.

Lemma setters_commute name status state :
  setUserName name (setOnlineStatus status state) = setOnlineStatus status (setUserName name state).
Proof. done. Qed.

Lemma last_snoc_omap {A B} (f : A → option B) (l : list A) (a : A) :
  last (omap f (l ++ [a])) = match f a with Some b => Some b | None => last (omap f l) end.
Proof.
  rewrite omap_app. simpl. destruct (f a) as [b|]; simpl.
  - by rewrite last_snoc.
  - by rewrite app_nil_r.
Qed.

End lemmas.

#[global] Hint Rewrite userName_setUserName isOnline_setUserName userName_setOnlineStatus
  isOnline_setOnlineStatus : td.

End UiStore.

(** ** The store after any sequence of actions *)

(** The store is two independent cells: after any sequence of its
    actions each field holds the last value that the sequence set it
    to, or its old value if the sequence never set it; actions on the
    other field do not matter. *)
Theorem store_fields_last (l : list UiStore.Action) (state : UiStore.UiState) :
  foldl (flip UiStore.act) state l =
  UiStore.mk (default (UiStore.userName state) (UiStore.last_userName l))
             (default (UiStore.isOnline state) (UiStore.last_isOnline l)).
Proof.
  induction l as [|a l IH] using rev_ind; [by destruct state|].
  rewrite foldl_app. simpl. rewrite IH.
  unfold UiStore.last_userName, UiStore.last_isOnline.
  rewrite !UiStore.last_snoc_omap. by destruct a.
Qed.

(** ** Examples *)

Example store_after_three_actions :
  foldl (flip UiStore.act) UiStore.initial
    [UiStore.SetUserName (js "Ana"); UiStore.SetOnlineStatus false; UiStore.SetUserName (js "Luis")]
  = UiStore.mk (js "Luis") false.
Proof. reflexivity. Qed.
