(* ===== verification/Hooks.v ===== *)
(** * Hooks: the hooks between the screens and the services

    - src/src/hooks/useTasks.ts: the loading flag [isSyncing] and
      [handleRefresh], which runs the synchronisation service between
      setting and clearing the flag and keeps its error from the screen.
    - src/src/hooks/useFilter.ts: the filter of the dashboard.
    - src/src/hooks/useCamera.ts: the choice of the camera device and the
      permission request.

    A hook is its state and the functions it returns.  The state of
    [useTasks] is put together with the store and the console, which
    [handleRefresh] changes through the service. *)

From S2P Require Import Prelude JsString Task Schema Database Fetch Sync.

(** ** Definitions *)

(** [type FilterType = 'all' | 'pending' | 'completed'] *)
Inductive FilterType : Type := all | pending | completed.

#[export] Instance FilterType_eq_dec : EqDecision FilterType.
Proof. solve_decision. Defined.

Module UseFilter.

(** The state of the hook: [useState<FilterType>('all')]. *)
Record State : Type := mk { filter : FilterType }.

Definition initial : State := mk all.

(** [changeFilter(newFilter)] *)
Definition changeFilter (newFilter : FilterType) (_ : State) : State :=
  mk newFilter.

End UseFilter.

Module UseCamera.

(** What the hook reads of a camera device. *)
Inductive Position : Type := back | front | external.

#[global] Instance Position_eq_dec : EqDecision Position.
Proof. solve_decision. Defined.

Record CameraDevice : Type := mkDevice {
  deviceId : N;
  position : Position;
}.

#[global] Instance CameraDevice_eq_dec : EqDecision CameraDevice.
Proof. solve_decision. Defined.

(** The answers of [Camera.requestCameraPermission()]. *)
Inductive CameraPermissionRequestResult : Type := granted | denied.

#[global] Instance Permission_eq_dec : EqDecision CameraPermissionRequestResult.
Proof. solve_decision. Defined.

(** [devices.find((d) => d.position === 'back')] *)
Definition device (devices : list CameraDevice) : option CameraDevice :=
  snd <$> list_find (λ d, position d = back) devices.

(** [requestPermissions()], given the answer of the system. *)
Definition requestPermissions (permission : result CameraPermissionRequestResult)
  : result bool :=
  p ← permission; mret (bool_decide (p = granted)).

End UseCamera.

Module UseTasks.

(** The lines of the console: those of the service, and
    [console.error("[SYNC_ERROR]: ...", error)] of the hook. *)
Inductive LogLine : Type :=
| Service (line : Sync.LogEvent)
| SyncError (error : Error).

#[global] Instance LogLine_eq_dec : EqDecision LogLine.
Proof. solve_decision. Defined.

(** The state that a refresh works on: the store, the flag of the hook
    and the console. *)
Record State : Type := mk {
  database : Database.t;
  isSyncing : bool;
  console : list LogLine;
}.

#[global] Instance State_eq_dec : EqDecision State.
Proof. solve_decision. Defined.

(** [useState(false)] over a given store. *)
Definition initial (db : Database.t) : State := mk db false [].

Definition setIsSyncing (value : bool) : prog State unit :=
  λ s, (Ok tt, mk (database s) value (console s)).

Definition console_error (error : Error) : prog State unit :=
  λ s, (Ok tt, mk (database s) (isSyncing s) (console s ++ [SyncError error])).

(** [await syncTaskFromApi()] in that state. *)
Definition syncTaskFromApi `{TextField} (env : Sync.Env) : prog State unit :=
  λ s, let outcome := Sync.syncTaskFromApi env (database s) in
       (Sync.result_of outcome,
        mk (Sync.store outcome) (isSyncing s)
           (console s ++ (Service <$> Sync.console outcome))).

(** [handleRefresh]: the flag, then [try], [catch] and [finally]. *)
Definition handleRefresh `{TextField} (env : Sync.Env) : prog State unit :=
  setIsSyncing true;;
  try{
    try{ syncTaskFromApi env }catch error ⇒ console_error error
  }finally
    setIsSyncing false.

(** What the hook adds to the console for an outcome of the service. *)
Definition report (outcome : Sync.Outcome) : list LogLine :=
  (Service <$> Sync.console outcome) ++
  match Sync.result_of outcome with Ok _ => [] | Err error => [SyncError error] end.

End UseTasks.

(** ** Lemmas *)

Section camera.
Implicit Types (devices : list UseCamera.CameraDevice) (d : UseCamera.CameraDevice).

Lemma device_Some devices d :
  UseCamera.device devices = Some d →
  d ∈ devices ∧ UseCamera.position d = UseCamera.back.
Proof.
  unfold UseCamera.device. intros ([i d'] & Hf & [= <-])%fmap_Some.
  apply list_find_Some in Hf as (Hi & Hp & _). split; [|done].
  by eapply list_elem_of_lookup_2.
Qed.

Lemma device_None devices :
  UseCamera.device devices = None ↔
  Forall (λ d, UseCamera.position d ≠ UseCamera.back) devices.
Proof. unfold UseCamera.device. by rewrite fmap_None, list_find_None. Qed.

End camera.

Section refresh.
Context `{TextField}.
Implicit Types (env : Sync.Env) (s : UseTasks.State).

Lemma handleRefresh_run env s :
  UseTasks.handleRefresh env s =
  let outcome := Sync.syncTaskFromApi env (UseTasks.database s) in
  (Ok tt, UseTasks.mk (Sync.store outcome) false
            (UseTasks.console s ++ UseTasks.report outcome)).
Proof.
  unfold UseTasks.handleRefresh, UseTasks.report. rewrite prog_bind_unfold. cbn.
  unfold try_finally, try_catch, UseTasks.syncTaskFromApi. cbn.
  destruct (Sync.result_of _) as [[]|error]; cbn.
  - by rewrite app_nil_r.
  - by rewrite <-(assoc_L (++)).
Qed.

End refresh.

(** ** The refresh *)

Section properties.
Context `{TextField}.
Implicit Types (env : Sync.Env) (s : UseTasks.State).

(** C22: [handleRefresh] always resolves, whatever the service does, and
    always leaves [isSyncing] cleared.  The store afterwards is the store
    that the service left, and the console has the lines of the service
    followed, when the service failed, by the line of the hook for the
    same error. *)
Theorem handleRefresh_functional env s :
  UseTasks.handleRefresh env s =
  (Ok tt,
   UseTasks.mk (Sync.store (Sync.syncTaskFromApi env (UseTasks.database s))) false
     (UseTasks.console s ++
      UseTasks.report (Sync.syncTaskFromApi env (UseTasks.database s)))).
Proof. apply handleRefresh_run. Qed.

(** the offline-first guarantee at the level of the screen: when the
    service fails with [error], the refresh still resolves, the rows on
    disk are exactly those from before, the loading flag is cleared, and
    the error was logged by the service and then by the hook. *)
Theorem handleRefresh_failure_harmless env s error :
  Sync.result_of (Sync.syncTaskFromApi env (UseTasks.database s)) = Err error →
  UseTasks.handleRefresh env s =
  (Ok tt,
   UseTasks.mk (UseTasks.database s) false
     (UseTasks.console s ++
      [UseTasks.Service (Sync.SyncServiceError error); UseTasks.SyncError error])).
Proof.
  intros Herr. rewrite handleRefresh_run. cbn zeta. unfold UseTasks.report.
  destruct (Sync.run_failed env _ error Herr) as [Hs Hc]. by rewrite Herr, Hs, Hc.
Qed.

(** A stored row survives any number of refreshes, whatever each of
    them meets: it keeps its position and its fields. *)
Theorem refreshes_keep_rows (envs : list Sync.Env) s :
  Database.extended_by (UseTasks.database s)
    (UseTasks.database (foldl (λ s env, (UseTasks.handleRefresh env s).2) s envs)).
Proof.
  revert s. induction envs as [|env envs IH]; intros s; simpl; [done|].
  etrans; [|apply IH]. rewrite handleRefresh_run. cbn.
  apply Sync.run_extends.
Qed.

End properties.

(** The hook picks a back camera when there is one: the device it
    returns is one of the devices, faces back, and is the first such
    device; it returns none exactly when no device faces back. *)
Theorem device_is_first_back (devices : list UseCamera.CameraDevice) :
  match UseCamera.device devices with
  | Some d => ∃ before after, devices = before ++ d :: after ∧
                UseCamera.position d = UseCamera.back ∧
                Forall (λ d', UseCamera.position d' ≠ UseCamera.back) before
  | None => Forall (λ d, UseCamera.position d ≠ UseCamera.back) devices
  end.
Proof.
  destruct (UseCamera.device devices) as [d|] eqn:Hd; [|by apply device_None].
  unfold UseCamera.device in Hd. apply fmap_Some in Hd as ([i d'] & Hf & [= <-]).
  apply list_find_Some in Hf as (Hi & Hp & Hbefore).
  exists (take i devices), (drop (S i) devices). split_and!; [|done|].
  - by rewrite take_drop_middle.
  - apply Forall_forall. intros d' (j & Hj)%list_elem_of_lookup.
    pose proof (lookup_lt_Some _ _ _ Hj) as Hlt. rewrite length_take in Hlt.
    rewrite lookup_take_lt in Hj by lia. eapply Hbefore; [done|lia].
Qed.

Lemma handleRefresh_failure_harmless_witness :
  UseTasks.handleRefresh (Sync.mkEnv Fetch.offline true true) (UseTasks.initial Sync.call_mom) =
  (Ok tt,
   UseTasks.mk (UseTasks.database (UseTasks.initial Sync.call_mom)) false
     (UseTasks.console (UseTasks.initial Sync.call_mom) ++
      [UseTasks.Service (Sync.SyncServiceError NetworkError); UseTasks.SyncError NetworkError])).
Proof. apply handleRefresh_failure_harmless. reflexivity. Defined.

(** ** Examples *)

Example refresh_creates_and_clears_flag :
  (UseTasks.handleRefresh (Sync.healthy Sync.trimmed_payload) (UseTasks.initial Sync.call_mom)).2
  = UseTasks.mk
      (Database.mk [ Task.mk 0 (js "Call mom") false None;
                     Task.mk 1 (js "Buy milk") false None;
                     Task.mk 2 (js "Water plants") true None ] 3)
      false [UseTasks.Service (Sync.SyncComplete 3)].
Proof. by vm_compute. Qed.

Example back_camera_chosen :
  UseCamera.device [UseCamera.mkDevice 0 UseCamera.front; UseCamera.mkDevice 1 UseCamera.back;
                    UseCamera.mkDevice 2 UseCamera.back]
  = Some (UseCamera.mkDevice 1 UseCamera.back).
Proof. reflexivity. Qed.

Example permission_denied_is_false :
  UseCamera.requestPermissions (Ok UseCamera.denied) = Ok false.
Proof. reflexivity. Qed.
