(* ===== verification/TaskItem.v ===== *)
(** * TaskItem: one row of the list (src/src/components/TaskItem.tsx)

    The component shows one observed record and has two handlers: the
    check box calls [task.toggleComplete()], the camera button runs
    [handleCamera], which attaches the URI of the captured photo.  Here
    the rendering is the record of what the JSX tree depends on (the
    tree and the style sheet are in Views.v), and a handler is a program
    on the store. *)

From S2P Require Import Prelude JsString Task Schema Database.

Module TaskItem.

(** ** Definitions *)

(** What [launchCamera] resolves to, as far as the handler reads it:
    [assets] is absent when the user cancels or the capture fails; an
    asset may lack its [uri]. *)
Record Asset : Type := mkAsset {
  uri : option jsstring;
}.

Record ImagePickerResponse : Type := mkResponse {
  didCancel : bool;
  assets : option (list Asset);
}.

(** [result.assets[0].uri]: reading a property of [undefined] throws. *)
Definition first_uri (assets : list Asset) : result (option jsstring) :=
  match assets with
  | [] => Err TypeError
  | asset :: _ => Ok (uri asset)
  end.

(** [handleCamera] on the row of the record [id]; [camera] is what
    [launchCamera] settles to, [ok] whether the store can write. *)
Definition handleCamera `{TextField} (ok : bool) (id : N)
    (camera : result ImagePickerResponse) : prog Database.t unit :=
  result ← lift camera;
  match assets result with
  | None => mret tt
  | Some assets =>
      first ← lift (first_uri assets);
      match first with
      | Some uri => if truthy uri then Database.addAttachment ok id uri else mret tt
      | None => mret tt
      end
  end.

(** The press on the check box. *)
Definition onPress (ok : bool) (id : N) : prog Database.t unit :=
  Database.toggleComplete ok id.

(** What the JSX tree shows of a record. *)
Record View : Type := mkView {
  cardCompleted : bool;
  checkIcon : bool;
  todoText : jsstring;
  completedText : bool;
  image : option jsstring;
}.

#[global] Instance View_eq_dec : EqDecision View.
Proof. solve_decision. Defined.

(** The title shown for a record without one. *)
Definition untitled : jsstring :=
  js "Tarea sin t" ++ [0xED%N] ++ js "tulo en DB".

(** The rendering of a record. *)
Definition render (task : Task.t) : View :=
  {| cardCompleted := Task.completed task;
     checkIcon := Task.completed task;
     todoText := if truthy (Task.todo task) then Task.todo task else untitled;
     completedText := Task.completed task;
     image := match Task.attachmentUri task with
              | Some uri => if truthy uri then Some uri else None
              | None => None
              end |}.

(** ** Lemmas *)

Section lemmas.
Context `{TextField}.
Implicit Types (db : Database.t) (id : N) (task : Task.t).

Lemma handleCamera_rejected ok id e db :
  handleCamera ok id (Err e) db = (Err e, db).
Proof. done. Qed.

Lemma handleCamera_no_assets ok id cancel db :
  handleCamera ok id (Ok (mkResponse cancel None)) db = (Ok tt, db).
Proof. done. Qed.

Lemma handleCamera_uri ok id cancel uri rest db :
  truthy uri = true →
  handleCamera ok id (Ok (mkResponse cancel (Some (mkAsset (Some uri) :: rest)))) db
  = Database.addAttachment ok id uri db.
Proof. by destruct uri. Qed.

(** The handler throws a type error of its own only on an empty
    [assets] array. *)
Lemma handleCamera_type_error ok id response db :
  (handleCamera ok id (Ok response) db).1 = Err TypeError → assets response = Some [].
Proof.
  destruct response as [cancel [[|[[uri|]] rest]|]]; [done|..]; try by intros [=].
  replace (handleCamera _ _ _ _) with
    (if truthy uri then Database.perform ok id (Task.AddAttachment uri) db else (Ok tt, db))
    by by destruct uri.
  destruct (truthy uri); [|by intros [=]].
  by intros [[=] _]%Database.perform_error.
Qed.

(** The handler attaches or leaves the store alone. *)
Lemma handleCamera_cases ok id camera db :
  (handleCamera ok id camera db).2 = db ∨
  ∃ uri, truthy uri = true ∧ handleCamera ok id camera db = Database.addAttachment ok id uri db.
Proof.
  destruct camera as [[cancel [[|[[[|c uri]|]] rest]|]]|e]; cbn; auto.
  right. by exists (c :: uri).
Qed.

(** Whatever the camera returns, the store keeps its invariants, its ids
    and its titles. *)
Lemma handleCamera_keeps ok id camera db :
  Database.wf db → Database.titles_ok db →
  let db' := (handleCamera ok id camera db).2 in
  Database.wf db' ∧ Database.titles_ok db' ∧
  Database.ids db' = Database.ids db ∧ Database.titles db' = Database.titles db.
Proof.
  intros Hwf Hok. cbn zeta.
  destruct (handleCamera_cases ok id camera db) as [->|(uri & _ & ->)]; [done|].
  apply (Database.perform_keeps ok id (Task.AddAttachment uri) db Hwf Hok).
Qed.

Lemma render_title task : Task.valid task → todoText (render task) = Task.todo task.
Proof. intros [_ Hne]. cbn. by destruct (Task.todo task). Qed.

End lemmas.

End TaskItem.

(** ** The camera handler *)

Section camera.
Context {text : TextField}.
Implicit Types (db : Database.t) (id : N) (task : Task.t)
  (camera : result TaskItem.ImagePickerResponse).

(** whatever the camera returns and whether or not the store can
    write, [handleCamera] keeps the store well formed with the same ids
    and the same titles in the same order: it can only change the
    attachment of the record it was pressed on. *)
Theorem handleCamera_preserves ok id camera db :
  Database.wf db → Database.titles_ok db →
  let db' := (TaskItem.handleCamera ok id camera db).2 in
  Database.wf db' ∧ Database.titles_ok db' ∧
  Database.ids db' = Database.ids db ∧ Database.titles db' = Database.titles db ∧
  ∀ task, task ∈ Database.tasks db → Task.id task ≠ id → task ∈ Database.tasks db'.
Proof.
  intros Hwf Hok. cbn zeta.
  destruct (TaskItem.handleCamera_keeps ok id camera db Hwf Hok) as (? & ? & ? & ?).
  split_and!; [done..|]. intros task Hin Hne.
  destruct (TaskItem.handleCamera_cases ok id camera db) as [->|(uri & _ & ->)]; [done|].
  apply (Database.perform_others ok id (Task.AddAttachment uri)); [apply Hwf|done..].
Qed.

(** A capture that yields a URI is attached to the pressed record:
    with a store that can write and the record stored, the handler
    resolves and the record has that URI, as the text setter stores it,
    as its attachment. *)
Theorem handleCamera_attaches id cancel uri rest task db :
  Database.wf db → task ∈ Database.tasks db → Task.id task = id →
  truthy uri = true →
  let run := TaskItem.handleCamera true id
               (Ok (TaskItem.mkResponse cancel (Some (TaskItem.mkAsset (Some uri) :: rest)))) db in
  run.1 = Ok tt ∧ Task.addAttachment uri task ∈ Database.tasks run.2.
Proof.
  intros [Hnd _] Hin Hid Hu. cbn zeta. rewrite TaskItem.handleCamera_uri by done.
  change (Database.addAttachment true id uri db)
    with (Database.perform true id (Task.AddAttachment uri) db).
  rewrite Database.perform_hit; [|done|rewrite <-Hid; by apply list_elem_of_fmap_2].
  split; [done|]. cbn. apply list_elem_of_fmap. exists task.
  by rewrite Database.alter_row_same.
Qed.

(** C34: the handler reads [result.assets[0].uri] after testing only that
    [assets] is there.  Whatever else the capture holds and whether or
    not the store can write, the promise of [handleCamera] rejects with
    a type error, which nothing catches, exactly when [assets] is an
    empty array; the store is then as it was. *)
Theorem handleCamera_empty_assets ok id response db :
  let run := TaskItem.handleCamera ok id (Ok response) db in
  (run.1 = Err TypeError ↔ TaskItem.assets response = Some []) ∧
  (TaskItem.assets response = Some [] → run = (Err TypeError, db)).
Proof.
  cbn zeta. split; [split|]; [apply TaskItem.handleCamera_type_error|..];
    destruct response as [cancel assets]; cbn [TaskItem.assets]; by intros ->.
Qed.

End camera.

(** A row of a store that satisfies the invariant of the titles is
    shown with its own title, which is not empty: the fallback text for
    a record without title is dead code on such a store. *)
Theorem render_shows_title (db : Database.t) (task : Task.t) :
  Database.titles_ok db → task ∈ Database.tasks db →
  TaskItem.todoText (TaskItem.render task) = Task.todo task ∧
  TaskItem.todoText (TaskItem.render task) ≠ [].
Proof.
  unfold Database.titles_ok. rewrite Forall_forall. intros Hok Hin.
  pose proof (Hok task Hin) as Hv. rewrite TaskItem.render_title by done.
  split; [done|apply Hv].
Qed.

Lemma handleCamera_preserves_witness :
  let db' := (TaskItem.handleCamera true 0
                (Ok (TaskItem.mkResponse false (Some [TaskItem.mkAsset (Some (js "file://a"))])))
                Database.sample).2 in
  Database.wf db' ∧ Database.titles_ok db' ∧
  Database.ids db' = Database.ids Database.sample ∧
  Database.titles db' = Database.titles Database.sample ∧
  ∀ task, task ∈ Database.tasks Database.sample → Task.id task ≠ 0%N → task ∈ Database.tasks db'.
Proof. apply handleCamera_preserves; by_compute. Defined.

Lemma handleCamera_attaches_witness :
  let run := TaskItem.handleCamera true 0
               (Ok (TaskItem.mkResponse false (Some [TaskItem.mkAsset (Some (js "file://a"))])))
               Database.sample in
  run.1 = Ok tt ∧
  Task.addAttachment (js "file://a") (Task.mk 0 (js "Call mom") false None) ∈ Database.tasks run.2.
Proof.
  apply (handleCamera_attaches 0 false (js "file://a") []); [by_compute|by_compute|done|done].
Defined.

Lemma render_shows_title_witness :
  TaskItem.todoText (TaskItem.render (Task.mk 0 (js "Call mom") false None))
    = Task.todo (Task.mk 0 (js "Call mom") false None) ∧
  TaskItem.todoText (TaskItem.render (Task.mk 0 (js "Call mom") false None)) ≠ [].
Proof. apply (render_shows_title Database.sample); by_compute. Defined.

(** ** Examples *)

Example cancelled_capture_changes_nothing :
  TaskItem.handleCamera true 0 (Ok (TaskItem.mkResponse true None)) Database.sample
  = (Ok tt, Database.sample).
Proof. reflexivity. Qed.

Example render_completed_row :
  TaskItem.render (Task.mk 1 (js "Buy milk") true (Some (js "file://a")))
  = TaskItem.mkView true true (js "Buy milk") true (Some (js "file://a")).
Proof. reflexivity. Qed.
