(* ===== verification/FilterTabs.v ===== *)
(** * FilterTabs: the tab bar of the filter (src/src/components/filterTabs.tsx)

    A stateless component: it shows one tab for each filter, marks the
    tab of the current filter, and reports a press to its parent.  The
    tree and the style sheet are in Views.v. *)

From S2P Require Import Prelude JsString Hooks.

Module FilterTabs.

(** ** Definitions *)

(** The props: the current filter; [onFilterChange] is the function that
    the parent passes, here the state transformer of the parent. *)
Record FilterTabsProps (S : Type) : Type := mkProps {
  currentFilter : FilterType;
  onFilterChange : FilterType → S → S;
}.
Arguments mkProps {S} currentFilter onFilterChange.
Arguments currentFilter {S} _.
Arguments onFilterChange {S} _ _ _.

(** The table [filters]: label and value of each tab, in order. *)
Definition filters : list (jsstring * FilterType) :=
  [ (js "Todas", all); (js "Pendientes", pending); (js "Hechas", completed) ].

(** One rendered tab. *)
Record Tab : Type := mkTab {
  label : jsstring;
  value : FilterType;
  selected : bool;
}.

#[global] Instance Tab_eq_dec : EqDecision Tab.
Proof. solve_decision. Defined.

(** [filters.map((f) => <TouchableOpacity ... />)] *)
Definition render (currentFilter : FilterType) : list Tab :=
  (λ f, mkTab f.1 f.2 (bool_decide (currentFilter = f.2))) <$> filters.

(** [onPress={() => onFilterChange(f.value)}] of the tab at a position. *)
Definition onPress {S} (props : FilterTabsProps S) (i : nat) (s : S) : S :=
  match filters !! i with
  | Some f => onFilterChange props f.2 s
  | None => s
  end.

(** ** Lemmas *)

Lemma values_all : (λ f, f.2) <$> filters = [all; pending; completed].
Proof. done. Qed.

Lemma value_listed (f : FilterType) : f ∈ (λ f, f.2) <$> filters.
Proof. rewrite values_all. destruct f; set_solver. Qed.

End FilterTabs.

(** ** The tab bar *)

(** Whatever the current filter is, the bar shows the three tabs in
    the order all, pending, completed, and exactly one of them is
    selected: the tab of the current filter. *)
Theorem render_selects_current (currentFilter : FilterType) :
  FilterTabs.value <$> FilterTabs.render currentFilter = [all; pending; completed] ∧
  FilterTabs.value <$> filter (λ tab, FilterTabs.selected tab = true) (FilterTabs.render currentFilter)
  = [currentFilter].
Proof. by destruct currentFilter. Qed.

(** Pressing a tab reports the value of that tab: with the setter of
    [useFilter] as the callback, the bar rendered for the new state has
    the pressed tab selected. *)
Theorem press_then_render (s : UseFilter.State) (i : nat) (tab : FilterTabs.Tab) :
  FilterTabs.render (UseFilter.filter s) !! i = Some tab →
  let props := FilterTabs.mkProps (UseFilter.filter s) UseFilter.changeFilter in
  let s' := FilterTabs.onPress props i s in
  UseFilter.filter s' = FilterTabs.value tab ∧
  FilterTabs.selected <$> FilterTabs.render (UseFilter.filter s') !! i = Some true.
Proof.
  unfold FilterTabs.render, FilterTabs.onPress. rewrite list_lookup_fmap.
  destruct i as [|[|[|i]]]; cbn; intros [= <-]; done.
Qed.

Lemma press_then_render_witness :
  let s := UseFilter.initial in
  let props := FilterTabs.mkProps (UseFilter.filter s) UseFilter.changeFilter in
  let s' := FilterTabs.onPress props 1 s in
  UseFilter.filter s' = FilterTabs.value (FilterTabs.mkTab (js "Pendientes") pending false) ∧
  FilterTabs.selected <$> FilterTabs.render (UseFilter.filter s') !! 1 = Some true.
Proof. apply (press_then_render UseFilter.initial 1). reflexivity. Defined.
