(* ===== verification/Dashboard.v ===== *)
(** * Dashboard: the screen (src/src/screens/DashboardScreen.tsx)

    The screen has three parts with logic: the header, where the user
    name is edited and saved into the UI store; the filter bar; and the
    list, which observes the query that the filter selects.  The list
    is [Dashboard.tasks]: the snapshot that the observed query delivers
    for a state of the store.  The header is a small state machine,
    [Dashboard.step], whose events are the ones that the rendered tree
    offers in each state.  The tree and the style sheet are in Views.v,
    the effects of the component in Screen.v. *)

From S2P Require Import Prelude Machine JsString Task Schema Database UiStore Hooks TaskItem FilterTabs.

Module Dashboard.

(** ** Definitions *)

(** The clauses that [enhance] builds for a filter. *)
Definition clauses (filter : FilterType) : list Database.Clause :=
  (if decide (filter = pending)
   then [Database.Where "completed" (Schema.VBoolean false)] else [])
  ++
  (if decide (filter = completed)
   then [Database.Where "completed" (Schema.VBoolean true)] else []).

(** [database.get('tasks').query(...clauses).observe()], at a state of
    the store. *)
Definition tasks (filter : FilterType) (db : Database.t) : list Task.t :=
  Database.query (clauses filter) db.

(** The rows that a filter is meant to show. *)
Definition shows (filter : FilterType) (task : Task.t) : Prop :=
  match filter with
  | all => True
  | pending => Task.completed task = false
  | completed => Task.completed task = true
  end.

#[global] Instance shows_dec filter task : Decision (shows filter task).
Proof. destruct filter; cbn; apply _. Defined.

(** The local state of the component: the text of the input and whether
    the header is in edit mode. *)
Record State : Type := mk {
  tempName : jsstring;
  isEditing : bool;
}.

#[global] Instance State_eq_dec : EqDecision State.
Proof. solve_decision. Defined.

(** [useState(userName)] and [useState(!userName)] at mount. *)
Definition mount (ui : UiStore.UiState) : State :=
  mk (UiStore.userName ui) (negb (truthy (UiStore.userName ui))).

(** [saveName] *)
Definition saveName (s : State) (ui : UiStore.UiState) : State * UiStore.UiState :=
  if truthy (trim (tempName s))
  then (mk (tempName s) false, UiStore.setUserName (trim (tempName s)) ui)
  else (s, ui).

(** [name={userName || "User"}] *)
Definition avatarName (userName : jsstring) : jsstring :=
  if truthy userName then userName else js "User".

(** The filter bar: the chips in order, the text of each, and whether it
    is the active one. *)
Definition chips : list FilterType := [all; pending; completed].

Definition chipText (f : FilterType) : jsstring :=
  if decide (f = all) then js "Todas"
  else if decide (f = pending) then js "Pendientes"
  else js "Hechas".

Definition chipActive (filter f : FilterType) : bool := bool_decide (filter = f).

(** The events of the header.  The input and its button are rendered in
    edit mode only, the name only outside it; the component can be
    mounted again at any time. *)
Inductive Event : Type :=
| ChangeText (text : jsstring)
| SaveName
| EditName
| Remount.

Inductive step : State * UiStore.UiState → Event → State * UiStore.UiState → Prop :=
| step_change s ui text :
    isEditing s = true →
    step (s, ui) (ChangeText text) (mk text true, ui)
| step_save s ui :
    isEditing s = true →
    step (s, ui) SaveName (saveName s ui)
| step_edit s ui :
    isEditing s = false →
    step (s, ui) EditName (mk (tempName s) true, ui)
| step_remount s ui :
    step (s, ui) Remount (mount ui, ui).

(** The same, as a function. *)
Definition handle (e : Event) (σ : State * UiStore.UiState)
  : option (State * UiStore.UiState) :=
  let '(s, ui) := σ in
  match e with
  | ChangeText text => if isEditing s then Some (mk text true, ui) else None
  | SaveName => if isEditing s then Some (saveName s ui) else None
  | EditName => if isEditing s then None else Some (mk (tempName s) true, ui)
  | Remount => Some (mount ui, ui)
  end.

(** The header of a fresh start: mounted over the initial UI store. *)
Definition initial (σ : State * UiStore.UiState) : Prop :=
  σ = (mount UiStore.initial, UiStore.initial).

(** The states that the header can be in. *)
Definition reachable : State * UiStore.UiState → Prop :=
  Machine.reachable step initial.

(** A sequence of events from a state, if each is offered when it
    comes. *)
Definition run (l : list Event) (σ : State * UiStore.UiState)
  : option (State * UiStore.UiState) :=
  Machine.run handle l σ.

(** Typing " Ana ", saving, editing again, clearing the input and saving:
    the stored name is "Ana" from the first save on. *)
Definition ana_session : list Event :=
  [ ChangeText (js " Ana "); SaveName; EditName; ChangeText (js "  "); SaveName ].

(** The stored name is trimmed, and outside edit mode it is not empty. *)
Definition name_ok (σ : State * UiStore.UiState) : Prop :=
  trimmed (UiStore.userName σ.2) ∧
  (isEditing σ.1 = false → UiStore.userName σ.2 ≠ []).

(** What the header shows. *)
Inductive Header : Type :=
| Input (value : jsstring)
| Welcome (name : jsstring).

(** What the JSX tree depends on: the header, the name given to the
    native avatar, the chips with their texts and marks, the rows, and
    the spinner of the refresh control. *)
Record View : Type := mkView {
  header : Header;
  avatar : jsstring;
  filterBar : list (jsstring * bool);
  rows : list TaskItem.View;
  refreshing : bool;
}.

(** The rendering of [Dashboard] for its props and state. *)
Definition render (tasks : list Task.t) (filter : FilterType) (isSyncing : bool)
    (ui : UiStore.UiState) (s : State) : View :=
  {| header := if isEditing s then Input (tempName s) else Welcome (UiStore.userName ui);
     avatar := avatarName (UiStore.userName ui);
     filterBar := (λ f, (chipText f, chipActive filter f)) <$> chips;
     rows := TaskItem.render <$> tasks;
     refreshing := isSyncing |}.

(** ** Lemmas *)

Section views.
Implicit Types (db : Database.t) (task : Task.t) (filter : FilterType).

Lemma tasks_all db : tasks all db = Database.tasks db.
Proof. apply Database.query_nil. Qed.

Lemma clauses_cases filter :
  clauses filter =
  match filter with
  | all => []
  | pending => [Database.Where "completed" (Schema.VBoolean false)]
  | completed => [Database.Where "completed" (Schema.VBoolean true)]
  end.
Proof. by destruct filter. Qed.

Lemma tasks_filter filter db :
  tasks filter db = base.filter (shows filter) (Database.tasks db).
Proof.
  unfold tasks. rewrite clauses_cases. destruct filter.
  - rewrite Database.query_nil. symmetry. by apply filter_all, Forall_forall.
  - by rewrite Database.query_completed.
  - by rewrite Database.query_completed.
Qed.

Lemma elem_of_tasks filter db task :
  task ∈ tasks filter db ↔ task ∈ Database.tasks db ∧ shows filter task.
Proof. by rewrite tasks_filter, list_elem_of_filter, (comm (∧)). Qed.

End views.

Section header.
Implicit Types (s : State) (ui : UiStore.UiState) (σ : State * UiStore.UiState) (e : Event).

Lemma step_handle σ e σ' : step σ e σ' ↔ handle e σ = Some σ'.
Proof.
  split.
  - intros Hstep. destruct Hstep as [s ui text He|s ui He|s ui He|s ui]; cbn; by rewrite ?He.
  - destruct σ as [s ui], e; cbn; destruct (isEditing s) eqn:He; intros [= <-];
      by constructor.
Qed.

Lemma saveName_blank s ui : blank (tempName s) → saveName s ui = (s, ui).
Proof. intros Hb. unfold saveName. by rewrite trim_blank. Qed.

Lemma saveName_name s ui :
  ¬ blank (tempName s) →
  saveName s ui = (mk (tempName s) false, UiStore.setUserName (trim (tempName s)) ui).
Proof.
  intros Hb. unfold saveName. rewrite <-trim_nil_iff in Hb.
  by destruct (trim (tempName s)).
Qed.

Lemma mount_name_ok ui : trimmed (UiStore.userName ui) → name_ok (mount ui, ui).
Proof. intros Ht. split; [done|]. cbn. by destruct (UiStore.userName ui). Qed.

Lemma saveName_name_ok s ui : name_ok (s, ui) → name_ok (saveName s ui).
Proof.
  intros Hok. destruct (decide (blank (tempName s))) as [Hb|Hb].
  - by rewrite saveName_blank.
  - rewrite saveName_name by done. split; cbn; [apply trim_trimmed|].
    intros _. by rewrite trim_nil_iff.
Qed.

Lemma step_name_ok σ e σ' : step σ e σ' → name_ok σ → name_ok σ'.
Proof.
  intros Hstep Hok. destruct Hstep as [s ui text He|s ui He|s ui He|s ui].
  - split; [apply Hok|done].
  - by apply saveName_name_ok.
  - split; [apply Hok|done].
  - apply mount_name_ok, Hok.
Qed.

Lemma header_run_reachable l σ σ' : reachable σ → run l σ = Some σ' → reachable σ'.
Proof. apply Machine.run_reachable, step_handle. Qed.

Lemma name_ok_invariant : Machine.invariant step initial name_ok.
Proof.
  split.
  - intros σ ->. by apply mount_name_ok.
  - intros σ e σ' Hok Hstep. by eapply step_name_ok.
Qed.

Lemma avatarName_nonempty (userName : jsstring) : avatarName userName ≠ [].
Proof. by destruct userName. Qed.

End header.

End Dashboard.

(** ** The list *)

Section list.
Implicit Types (db : Database.t) (task : Task.t) (filter : FilterType).

(** C23: the list shows what its filter says and nothing else: the rows
    of the observed query are the stored rows that the filter is meant
    to show (all of them, the pending ones or the completed ones), in
    the order of the table. *)
Theorem tasks_correct filter db :
  Dashboard.tasks filter db `sublist_of` Database.tasks db ∧
  ∀ task, task ∈ Dashboard.tasks filter db ↔
          task ∈ Database.tasks db ∧ Dashboard.shows filter task.
Proof.
  split; [apply Database.query_sublist|]. intros task. apply Dashboard.elem_of_tasks.
Qed.

(** The pending view and the completed view partition the table:
    together they are a permutation of the view of all tasks, so every
    stored row is in exactly one of the two. *)
Theorem views_partition db :
  Dashboard.tasks completed db ++ Dashboard.tasks pending db ≡ₚ Dashboard.tasks all db.
Proof.
  rewrite !Dashboard.tasks_filter. cbn.
  rewrite (filter_all (Dashboard.shows all)) by (by apply Forall_forall).
  rewrite <-(filter_app_complement (λ task, Task.completed task = true) (Database.tasks db)) at 3.
  f_equiv; apply reflexive_eq, filter_ext_in; intros task _; cbn;
    by destruct (Task.completed task).
Qed.

(** C24: a toggle moves a row between the views at once: after
    [toggleComplete] succeeds on a stored record, the record is in the
    view of its new state and not in the view of its old state, it stays
    in the view of all tasks, and every view keeps its other rows. *)
Theorem toggle_updates_views {text : TextField} id task db db' :
  Database.wf db → task ∈ Database.tasks db → Task.id task = id →
  TaskItem.onPress true id db = (Ok tt, db') →
  let was := if Task.completed task then completed else pending in
  let now := if Task.completed task then pending else completed in
  Task.toggleComplete task ∈ Dashboard.tasks now db' ∧
  Task.toggleComplete task ∈ Dashboard.tasks all db' ∧
  (∀ row, row ∈ Dashboard.tasks was db' → Task.id row ≠ id) ∧
  (∀ filter row, Task.id row ≠ id →
     row ∈ Dashboard.tasks filter db' ↔ row ∈ Dashboard.tasks filter db).
Proof.
  intros Hwf Hin Hid Hrun. cbn zeta.
  destruct (Database.toggle_rows id task db db' (proj1 Hwf) Hin Hid Hrun) as [Hnew Hrows].
  split_and!.
  - rewrite Dashboard.elem_of_tasks. split; [done|]. by destruct task as [? ? [] ?].
  - by rewrite Dashboard.elem_of_tasks.
  - intros row [Hrow Hshow]%Dashboard.elem_of_tasks Heq.
    apply Hrows in Hrow as [->|[_ ?]]; [|done].
    by destruct task as [? ? [] ?]; cbn in Hshow.
  - intros filter row Hne. rewrite !Dashboard.elem_of_tasks, Hrows.
    split; [intros [[->|[? _]] ?]; [by rewrite <-Hid in Hne|done] |].
    intros [? ?]. split; [by right|done].
Qed.

End list.

(** ** The header *)

(** in every state that the header can reach, by typing, saving,
    editing again and remounting in any order, the name in the UI store
    is trimmed, the welcome line never shows an empty name, and the
    native avatar is never given an empty name. *)
Theorem header_name_invariant (σ : Dashboard.State * UiStore.UiState) :
  Dashboard.reachable σ →
  Dashboard.name_ok σ ∧
  Dashboard.avatarName (UiStore.userName σ.2) ≠ [] ∧
  ∀ tasks filter isSyncing name,
    Dashboard.header (Dashboard.render tasks filter isSyncing σ.2 σ.1) = Dashboard.Welcome name →
    name ≠ [] ∧ Dashboard.avatarName (UiStore.userName σ.2) = name.
Proof.
  intros Hreach.
  pose proof (invariant_reachable _ _ _ _ Dashboard.name_ok_invariant Hreach) as Hok.
  split_and!; [done|apply Dashboard.avatarName_nonempty|].
  intros tasks filter isSyncing name. destruct Hok as [_ Hne]. cbn.
  destruct (Dashboard.isEditing σ.1); [done|]. intros [= <-].
  split; [by apply Hne|]. unfold Dashboard.avatarName.
  destruct (UiStore.userName σ.2); [by destruct Hne|done].
Qed.

(** [saveName] saves the trimmed input and leaves edit mode, unless
    the input is blank: then nothing changes, and the header stays in
    edit mode.  The connectivity flag of the store is never touched. *)
Theorem saveName_functional (s : Dashboard.State) (ui : UiStore.UiState) :
  Dashboard.saveName s ui =
  if decide (blank (Dashboard.tempName s)) then (s, ui)
  else (Dashboard.mk (Dashboard.tempName s) false,
        UiStore.mk (trim (Dashboard.tempName s)) (UiStore.isOnline ui)).
Proof.
  case_decide.
  - by apply Dashboard.saveName_blank.
  - by rewrite Dashboard.saveName_name.
Qed.

(** the filter bar of the screen and the component [FilterTabs] are
    the same bar: the same filters in the same order with the same
    texts, and the same one marked for every current filter. *)
Theorem filterBar_agrees_with_tabs tasks filter isSyncing ui s :
  Dashboard.filterBar (Dashboard.render tasks filter isSyncing ui s) =
  (λ tab, (FilterTabs.label tab, FilterTabs.selected tab)) <$> FilterTabs.render filter.
Proof. by destruct filter. Qed.

(** ** Witnesses and examples *)

Lemma toggle_updates_views_witness :
  let task := Task.mk 0 (js "Call mom") false None in
  let db' := Database.mk [ Task.mk 0 (js "Call mom") true None;
                           Task.mk 1 (js "Buy milk") true None ] 2 in
  let was := if Task.completed task then completed else pending in
  let now := if Task.completed task then pending else completed in
  Task.toggleComplete task ∈ Dashboard.tasks now db' ∧
  Task.toggleComplete task ∈ Dashboard.tasks all db' ∧
  (∀ row, row ∈ Dashboard.tasks was db' → Task.id row ≠ 0%N) ∧
  (∀ filter row, Task.id row ≠ 0%N →
     row ∈ Dashboard.tasks filter db' ↔ row ∈ Dashboard.tasks filter Database.sample).
Proof.
  apply (toggle_updates_views 0 (Task.mk 0 (js "Call mom") false None) Database.sample);
    [by_compute|by_compute|reflexivity|reflexivity].
Defined.

Lemma header_name_invariant_witness :
  let σ := (Dashboard.mk (js "  ") true, UiStore.mk (js "Ana") true) in
  Dashboard.name_ok σ ∧
  Dashboard.avatarName (UiStore.userName σ.2) ≠ [] ∧
  ∀ tasks filter isSyncing name,
    Dashboard.header (Dashboard.render tasks filter isSyncing σ.2 σ.1) = Dashboard.Welcome name →
    name ≠ [] ∧ Dashboard.avatarName (UiStore.userName σ.2) = name.
Proof.
  apply header_name_invariant.
  apply (Dashboard.header_run_reachable Dashboard.ana_session
           (Dashboard.mount UiStore.initial, UiStore.initial));
    [by constructor|reflexivity].
Defined.

Example blank_name_is_refused :
  Dashboard.saveName (Dashboard.mk (js "   ") true) UiStore.initial
  = (Dashboard.mk (js "   ") true, UiStore.initial).
Proof. reflexivity. Qed.

Example avatar_before_a_name : Dashboard.avatarName [] = js "User".
Proof. reflexivity. Qed.
