(* ===== verification/Avatar.v ===== *)
(** * Avatar: the native avatar view and its bridge

    - src/src/components/AvatarView.tsx: the React component that hands
      [name] and the merged style to the native component registered as
      "AvatarView".
    - src/android/app/src/main/java/com/taskdashboard/AvatarViewManager.kt:
      the view manager that Android registers (AvatarPackage.kt); its
      [setName] writes the initials and the colour into a [TextView].
    - src/android/app/src/main/java/com/taskdashboard/AvatarView.kt: a
      custom view with the same purpose, which the manager does not
      instantiate.
    - src/ios/TaskDashboard/AvatarView.swift and AvatarViewManager.swift:
      the view of iOS and its manager.

    A string of Kotlin is its list of UTF-16 code units, like a string
    of JavaScript; a string of Swift is modelled by the same list (one
    unit per character: names inside the basic plane without combining
    marks).  An [Int] of Kotlin is a [Z] kept in the 32-bit range by
    [Int32.wrap] after every operation that can leave it.  Case mappings
    are those of the platform: the class [CaseMapping] states what is
    used of them. *)

From S2P Require Import Prelude Machine JsString Style UiStore Dashboard.

Local Open Scope Z_scope.

(** ** Definitions *)

(** The [Int] of the JVM. *)
Module Int32.

Definition MIN_VALUE : Z := - 2 ^ 31.
Definition MAX_VALUE : Z := 2 ^ 31 - 1.

(** The value that the 32 low bits of [z] stand for. *)
Definition wrap (z : Z) : Z := (z + 2 ^ 31) `mod` 2 ^ 32 - 2 ^ 31.

Definition in_range (z : Z) : Prop := MIN_VALUE ≤ z ≤ MAX_VALUE.

#[global] Instance in_range_dec z : Decision (in_range z).
Proof. unfold in_range. apply _. Defined.

(** [Math.abs(x)]: the negation overflows on [MIN_VALUE]. *)
Definition abs (x : Z) : Z := if decide (x < 0) then wrap (- x) else x.

(** [x % y]: the remainder of the division that truncates. *)
Definition rem (x y : Z) : Z := x `rem` y.

(** [x shr n], [x and y], [x or y], [x shl n] *)
Definition shr (x n : Z) : Z := x ≫ n.
Definition and (x y : Z) : Z := Z.land x y.
Definition or (x y : Z) : Z := wrap (Z.lor x y).
Definition shl (x n : Z) : Z := wrap (x ≪ n).

End Int32.

(** What the views use of the strings of their platforms. *)
Module Str.

(** [String.hashCode()] of the JVM: [s[0]*31^(n-1) + ... + s[n-1]] in
    32-bit arithmetic. *)
Definition hashCode (s : jsstring) : Z :=
  foldl (λ h c, Int32.wrap (31 * h + Z.of_N c)) 0 s.

(** The same sum without overflow. *)
Definition polynomial (s : jsstring) : Z :=
  foldl (λ h c, 31 * h + Z.of_N c) 0 s.

(** [s.split(" ")] of Kotlin and [s.components(separatedBy: " ")] of
    Swift: the pieces between the separators, empty pieces included. *)
Fixpoint split (sep : N) (s : jsstring) : list jsstring :=
  match s with
  | [] => [[]]
  | c :: s =>
      if decide (c = sep) then [] :: split sep s
      else match split sep s with
           | piece :: pieces => (c :: piece) :: pieces
           | [] => [[c]]
           end
  end.

(** [pieces.joinToString(sep)] *)
Fixpoint join (sep : jsstring) (pieces : list jsstring) : jsstring :=
  match pieces with
  | [] => []
  | [piece] => piece
  | piece :: pieces => piece ++ sep ++ join sep pieces
  end.

Definition SPACE : N := 0x20%N.

(** [Char.isWhitespace()] of Kotlin: the space separators, the line and
    paragraph separators, and the controls U+0009 to U+000D and U+001C
    to U+001F. *)
Definition isWhitespace (c : N) : bool :=
  ((0x0009 <=? c)%N && (c <=? 0x000D)%N) || ((0x001C <=? c)%N && (c <=? 0x0020)%N)
  || (c =? 0x00A0)%N || (c =? 0x1680)%N || ((0x2000 <=? c)%N && (c <=? 0x200A)%N)
  || (c =? 0x2028)%N || (c =? 0x2029)%N || (c =? 0x202F)%N || (c =? 0x205F)%N
  || (c =? 0x3000)%N.

Definition isNotBlank (s : jsstring) : bool := negb (forallb isWhitespace s).
Definition isNotEmpty (s : jsstring) : bool := truthy s.

(** The pieces of a name that are not empty. *)
Definition words (name : jsstring) : list jsstring :=
  filter (λ piece, isNotEmpty piece = true) (split SPACE name).

End Str.

(** The case mappings of the platforms: [Char.uppercaseChar()] maps a
    character to a character, [String.uppercase()] and [uppercased()]
    map a string to a string that may be longer.  A string is mapped to
    the empty string only if it is empty. *)
Class CaseMapping : Type := {
  uppercaseChar : N → N;
  uppercase : jsstring → jsstring;
  uppercase_nil : uppercase [] = [];
  uppercase_nonempty s : s ≠ [] → uppercase s ≠ [];
}.

(** The mapping on the letters of ASCII, for running the examples. *)
Definition ascii_upper (c : N) : N :=
  if ((0x61 <=? c) && (c <=? 0x7A))%N then (c - 0x20)%N else c.

#[export, refine] Instance ascii_case : CaseMapping :=
  {| uppercaseChar := ascii_upper; uppercase := fmap ascii_upper |}.
Proof. - done. - by intros [|]. Defined.

(** [android.graphics.Color]: a colour is an [Int], alpha in the high
    byte. *)
Module Color.

Definition rgb (red green blue : Z) : Z :=
  Int32.or (Int32.or (Int32.or 0xff000000 (Int32.shl red 16)) (Int32.shl green 8)) blue.

(** [Color.parseColor("#RRGGBB")] of a six-digit colour. *)
Definition parseColor (rrggbb : Z) : Z := Int32.wrap (Z.lor rrggbb 0xff000000).

Definition WHITE : Z := Int32.wrap 0xFFFFFFFF.
Definition GRAY : Z := Int32.wrap 0xFF888888.
Definition LTGRAY : Z := Int32.wrap 0xFFCCCCCC.

Definition alpha (color : Z) : Z := Z.land (color ≫ 24) 0xFF.
Definition red (color : Z) : Z := Z.land (color ≫ 16) 0xFF.
Definition green (color : Z) : Z := Z.land (color ≫ 8) 0xFF.
Definition blue (color : Z) : Z := Z.land color 0xFF.

End Color.

(** A text view of Android, as far as the avatar sets it. *)
Module TextView.

Record t : Type := mk {
  text : jsstring;
  textColor : Z;
  textSize : Z;
  bold : bool;
  background : option Z;
}.

#[global] Instance t_eq_dec : EqDecision t.
Proof. solve_decision. Defined.

Definition set_text (text : jsstring) (view : t) : t :=
  mk text (textColor view) (textSize view) (bold view) (background view).

Definition set_background (color : Z) (view : t) : t :=
  mk (text view) (textColor view) (textSize view) (bold view) (Some color).

End TextView.

(** AvatarViewManager.kt *)
Module AvatarViewManager.

Definition getName : string := "AvatarView".

(** [createViewInstance] *)
Definition createViewInstance : TextView.t :=
  TextView.mk [] Color.WHITE 20 false None.

(** The initials that [setName] computes before it maps them to upper
    case: the first character of every word; "?" without a name. *)
Definition initials (name : option jsstring) : jsstring :=
  match name with
  | Some name => Str.join [] (omap (λ word, (λ c, [c]) <$> head word) (Str.words name))
  | None => js "?"
  end.

(** The colour: the three low bytes of the hash of the name. *)
Definition color (name : option jsstring) : Z :=
  match name with
  | Some ((_ :: _) as name) =>
      let hash := Str.hashCode name in
      Color.rgb (Int32.and (Int32.shr hash 16) 0xFF)
                (Int32.and (Int32.shr hash 8) 0xFF)
                (Int32.and hash 0xFF)
  | _ => Color.GRAY
  end.

(** [setName(view, name)] *)
Definition setName `{CaseMapping} (view : TextView.t) (name : option jsstring) : TextView.t :=
  TextView.set_background (color name) (TextView.set_text (uppercase (initials name)) view).

End AvatarViewManager.

(** AvatarPackage.kt: what Android registers. *)
Module AvatarPackage.

Definition createNativeModules : list string := [].
Definition createViewManagers : list string := [AvatarViewManager.getName].

End AvatarPackage.

(** AvatarView.kt *)
Module AvatarViewKt.

(** The view after [init]. *)
Definition init : TextView.t := TextView.mk [] Color.WHITE 18 true (Some Color.LTGRAY).

Definition colors : list Z := [0x2196F3; 0x9C27B0; 0x009688; 0xFF9800; 0xE91E63].

(** [colors[index]]: a read outside the list throws. *)
Definition get (index : Z) : result Z :=
  if decide (0 ≤ index)
  then match colors !! Z.to_nat index with
       | Some color => Ok color
       | None => Err (IndexOutOfBounds index)
       end
  else Err (IndexOutOfBounds index).

(** [generateColor(name)] *)
Definition generateColor (name : jsstring) : result Z :=
  let index := Int32.rem (Int32.abs (Str.hashCode name)) (Z.of_nat (length colors)) in
  color ← get index; mret (Color.parseColor color).

(** The initials: of the first two words that are not blank. *)
Definition initials `{CaseMapping} (name : jsstring) : jsstring :=
  Str.join []
    (omap (λ word, (λ c, [uppercaseChar c]) <$> head word)
       (take 2 (filter (λ piece, Str.isNotBlank piece = true) (Str.split Str.SPACE name)))).

(** [setAvatarName(name)]: the text is set before the colour is
    computed. *)
Definition setAvatarName `{CaseMapping} (name : jsstring) : prog TextView.t unit :=
  λ view,
    let view := TextView.set_text (initials name) view in
    match generateColor name with
    | Ok color => (Ok tt, TextView.set_background color view)
    | Err e => (Err e, view)
    end.

End AvatarViewKt.

(** AvatarView.swift *)
Module AvatarViewSwift.

(** A [UIColor], by the numerators of its components over 255. *)
Record UIColor : Type := mkColor { r : Z; g : Z; b : Z }.

#[global] Instance UIColor_eq_dec : EqDecision UIColor.
Proof. solve_decision. Defined.

Definition white : UIColor := mkColor 255 255 255.

Record t : Type := mk {
  name : jsstring;
  label_text : jsstring;
  label_textColor : UIColor;
  backgroundColor : option UIColor;
}.

(** [setupView]: a white label, and light gray until a name arrives. *)
Definition setupView : t := mk [] [] white None.

(** [generateColor(from:)], given the hash of the text.  [hashValue] is
    seeded when the process starts, so it is an input. *)
Definition generateColor (hash : Z) : UIColor :=
  {| r := Z.land hash 0xFF0000 ≫ 16;
     g := Z.land hash 0x00FF00 ≫ 8;
     b := Z.land hash 0x0000FF |}.

Definition initials `{CaseMapping} (name : jsstring) : jsstring :=
  Str.join [] ((λ part, uppercase (take 1 part)) <$> take 2 (Str.words name)).

(** [name.didSet], that is [updateAvatar]. *)
Definition set_name `{CaseMapping} (hashValue : jsstring → Z) (name : jsstring) (view : t) : t :=
  let initials := initials name in
  mk name (if truthy initials then initials else js "?") (label_textColor view)
     (Some (generateColor (hashValue name))).

End AvatarViewSwift.

(** AvatarViewManager.swift: the manager of iOS hands out a new view and
    asks to be set up on the main queue. *)
Module AvatarViewManagerSwift.

Definition view : AvatarViewSwift.t := AvatarViewSwift.setupView.

Definition requiresMainQueueSetup : bool := true.

End AvatarViewManagerSwift.

(** AvatarView.tsx *)
Module AvatarBridge.

(** [interface AvatarViewProps] *)
Record AvatarViewProps : Type := mkProps {
  name : jsstring;
  style : option Style.t;
}.

(** [styles.defaultStyle] *)
Definition defaultStyle : Style.t :=
  {[ "width" := Style.num 50; "height" := Style.num 50; "borderRadius" := Style.num 25;
     "overflow" := Style.Str "hidden" ]}.

(** The component: the props of the native component. *)
Definition AvatarView (props : AvatarViewProps) : string * jsstring * Style.t :=
  (AvatarViewManager.getName, name props, Style.flatten [Some defaultStyle; style props]).

End AvatarBridge.

(** ** Lemmas *)

Ltac int32_range :=
  unfold Int32.in_range, Int32.MIN_VALUE, Int32.MAX_VALUE in *; lia.

Section int32.
Implicit Types x z : Z.

Lemma wrap_in_range z : Int32.in_range (Int32.wrap z).
Proof.
  unfold Int32.in_range, Int32.wrap, Int32.MIN_VALUE, Int32.MAX_VALUE.
  pose proof (Z.mod_pos_bound (z + 2 ^ 31) (2 ^ 32)). lia.
Qed.

Lemma wrap_id z : Int32.in_range z → Int32.wrap z = z.
Proof.
  unfold Int32.in_range, Int32.wrap, Int32.MIN_VALUE, Int32.MAX_VALUE. intros Hz.
  rewrite Z.mod_small; lia.
Qed.

Lemma wrap_high z : 2 ^ 31 ≤ z < 2 ^ 32 → Int32.wrap z = z - 2 ^ 32.
Proof.
  intros Hz. unfold Int32.wrap. rewrite <-(Z.mod_unique _ _ 1 (z - 2 ^ 31)); lia.
Qed.

(** Wrapping keeps the 32 low bits. *)
Lemma wrap_mod z : Int32.wrap z `mod` 2 ^ 32 = z `mod` 2 ^ 32.
Proof.
  unfold Int32.wrap.
  rewrite <-(Z.add_0_r (_ - _)), <-(Z_mod_same_full (2 ^ 32)), Zplus_mod_idemp_r.
  replace ((z + 2 ^ 31) `mod` 2 ^ 32 - 2 ^ 31 + 2 ^ 32) with ((z + 2 ^ 31) `mod` 2 ^ 32 + 2 ^ 31) by lia.
  rewrite Zplus_mod_idemp_l. replace (z + 2 ^ 31 + 2 ^ 31) with (z + 1 * 2 ^ 32) by lia.
  apply Z_mod_plus_full.
Qed.

Lemma wrap_wrap_add z c : Int32.wrap (31 * Int32.wrap z + c) = Int32.wrap (31 * z + c).
Proof.
  unfold Int32.wrap at 1 3. f_equal.
  replace (31 * Int32.wrap z + c + 2 ^ 31) with (Int32.wrap z * 31 + (c + 2 ^ 31)) by lia.
  replace (31 * z + c + 2 ^ 31) with (z * 31 + (c + 2 ^ 31)) by lia.
  rewrite Zplus_mod, Zmult_mod, wrap_mod, <-Zmult_mod, <-Zplus_mod. done.
Qed.

(** [Math.abs] is not negative, except on [MIN_VALUE], which it
    returns. *)
Lemma abs_MIN_VALUE : Int32.abs Int32.MIN_VALUE = Int32.MIN_VALUE.
Proof. reflexivity. Qed.

Lemma abs_nonneg x :
  Int32.in_range x → x ≠ Int32.MIN_VALUE → 0 ≤ Int32.abs x ≤ Int32.MAX_VALUE.
Proof.
  unfold Int32.in_range, Int32.abs, Int32.MIN_VALUE, Int32.MAX_VALUE. intros Hx Hne.
  case_decide; [|lia]. rewrite wrap_id; unfold Int32.in_range, Int32.MIN_VALUE, Int32.MAX_VALUE; lia.
Qed.

(** The bytes of an integer, by arithmetic. *)
Lemma byte_of z n : 0 ≤ n → Z.land (z ≫ n) 0xFF = (z / 2 ^ n) `mod` 2 ^ 8.
Proof. intros Hn. by rewrite Z.shiftr_div_pow2, (Z.land_ones _ 8) by lia. Qed.

Lemma byte_range z n : 0 ≤ n → 0 ≤ Z.land (z ≫ n) 0xFF ≤ 255.
Proof. intros Hn. rewrite byte_of by done. pose proof (Z.mod_pos_bound (z / 2 ^ n) (2 ^ 8)). lia. Qed.

(** The byte at bit [n] of [z], from a decomposition of [z]. *)
Lemma byte_at z hi byte n lo b :
  0 ≤ n → 0 ≤ lo < 2 ^ n → 0 ≤ b < 2 ^ 8 →
  z = (hi * 2 ^ 8 + byte) * 2 ^ n + lo → byte = b →
  Z.land (z ≫ n) 0xFF = b.
Proof.
  intros Hn Hlo Hb -> ->. rewrite byte_of by done.
  rewrite <-(Z.div_unique_pos _ (2 ^ n) (hi * 2 ^ 8 + b) lo) by lia.
  symmetry. apply (Z.mod_unique _ _ hi); lia.
Qed.

(** A value shifted left and the bits below the shift: [or] adds. *)
Lemma lor_shiftl_low hi lo n :
  0 ≤ n → 0 ≤ lo < 2 ^ n → Z.lor (hi ≪ n) lo = hi * 2 ^ n + lo.
Proof.
  intros Hn Hlo. rewrite <-Z.shiftl_mul_pow2 by done.
  assert (Z.land (hi ≪ n) lo = 0) as Hland.
  { apply Z.bits_inj'; intros i Hi. rewrite Z.land_spec, Z.bits_0.
    destruct (decide (i < n)); [by rewrite Z.shiftl_spec_low|].
    rewrite <-(Z.mod_small lo (2 ^ n)), Z.mod_pow2_bits_high, andb_false_r; [done|lia..]. }
  by rewrite Z.add_nocarry_lxor, Z.lxor_lor.
Qed.

(** A byte under its mask: [(z & 0xFF0000) >> 16] is the byte at bit
    16. *)
Lemma masked_byte z n : 0 ≤ n → Z.land z (0xFF ≪ n) ≫ n = Z.land (z ≫ n) 0xFF.
Proof. intros Hn. by rewrite Z.shiftr_land, Z.shiftr_shiftl_l, Z.sub_diag by done. Qed.

(** An integer is its bytes: the three low ones. *)
Lemma low_bytes z :
  z `mod` 2 ^ 24 =
  Z.land (z ≫ 16) 0xFF * 2 ^ 16 + Z.land (z ≫ 8) 0xFF * 2 ^ 8 + Z.land z 0xFF.
Proof.
  rewrite <-(Z.shiftr_0_r z) at 4. rewrite !byte_of by lia.
  rewrite Z.pow_0_r, Z.div_1_r.
  replace (z / 2 ^ 16) with (z / 2 ^ 8 / 2 ^ 8) by (rewrite Z.div_div by lia; done).
  pose proof (Z.div_mod z (2 ^ 8)) as H1.
  pose proof (Z.div_mod (z / 2 ^ 8) (2 ^ 8)) as H2.
  pose proof (Z.div_mod (z / 2 ^ 8 / 2 ^ 8) (2 ^ 8)) as H3.
  pose proof (Z.mod_pos_bound z (2 ^ 8)).
  pose proof (Z.mod_pos_bound (z / 2 ^ 8) (2 ^ 8)).
  pose proof (Z.mod_pos_bound (z / 2 ^ 8 / 2 ^ 8) (2 ^ 8)).
  symmetry. apply (Z.mod_unique _ _ (z / 2 ^ 8 / 2 ^ 8 / 2 ^ 8)); lia.
Qed.

End int32.

#[export] Hint Resolve wrap_in_range : td.

Section color.
Implicit Types red green blue : Z.

(** [Color.rgb] of three bytes: an opaque colour, in closed form. *)
Lemma rgb_value red green blue :
  0 ≤ red ≤ 255 → 0 ≤ green ≤ 255 → 0 ≤ blue ≤ 255 →
  Color.rgb red green blue = red * 2 ^ 16 + green * 2 ^ 8 + blue - 2 ^ 24.
Proof.
  intros Hr Hg Hb. unfold Color.rgb, Int32.or, Int32.shl.
  rewrite (wrap_id (red ≪ 16)), (wrap_id (green ≪ 8))
    by (rewrite Z.shiftl_mul_pow2 by lia; int32_range).
  replace (Z.lor 0xff000000 (red ≪ 16)) with ((0xff00 + red) * 2 ^ 16).
  2:{ change 0xff000000 with ((0xff ≪ 8) ≪ 16).
      by rewrite <-Z.shiftl_lor, lor_shiftl_low, Z.shiftl_mul_pow2 by lia. }
  rewrite (wrap_high ((0xff00 + red) * 2 ^ 16)) by lia.
  replace ((0xff00 + red) * 2 ^ 16 - 2 ^ 32) with (((red - 256) ≪ 8) ≪ 8)
    by (rewrite !Z.shiftl_mul_pow2 by lia; lia).
  rewrite <-Z.shiftl_lor, (lor_shiftl_low (red - 256)) by lia.
  rewrite (wrap_id (_ ≪ 8)) by (rewrite Z.shiftl_mul_pow2 by lia; int32_range).
  rewrite lor_shiftl_low by lia. rewrite wrap_id by int32_range. lia.
Qed.

(** The components of such a colour are the bytes it was made of. *)
Lemma rgb_components red green blue :
  0 ≤ red ≤ 255 → 0 ≤ green ≤ 255 → 0 ≤ blue ≤ 255 →
  let color := Color.rgb red green blue in
  Color.alpha color = 255 ∧ Color.red color = red ∧
  Color.green color = green ∧ Color.blue color = blue.
Proof.
  intros Hr Hg Hb. cbn zeta. rewrite rgb_value by done.
  unfold Color.alpha, Color.red, Color.green, Color.blue.
  rewrite <-(Z.shiftr_0_r (_ - _)) at 4.
  rewrite (byte_at _ (-1) 255 24 (red * 2 ^ 16 + green * 2 ^ 8 + blue) 255),
    (byte_at _ (-1) red 16 (green * 2 ^ 8 + blue) red),
    (byte_at _ (red - 256) green 8 blue green),
    (byte_at _ ((red - 256) * 2 ^ 8 + green) blue 0 0 blue); [done|lia..].
Qed.

End color.

Section strings.
Implicit Types (s name piece : jsstring) (pieces : list jsstring) (c sep : N).

Lemma hashCode_snoc s c :
  Str.hashCode (s ++ [c]) = Int32.wrap (31 * Str.hashCode s + Z.of_N c).
Proof. unfold Str.hashCode. by rewrite foldl_snoc. Qed.

Lemma hashCode_in_range s : Int32.in_range (Str.hashCode s).
Proof.
  induction s as [|c s _] using rev_ind; [by vm_compute|].
  rewrite hashCode_snoc. apply wrap_in_range.
Qed.

(** The hash is the polynomial of the JVM's documentation, cut to 32
    bits once at the end. *)
Lemma hashCode_polynomial s : Str.hashCode s = Int32.wrap (Str.polynomial s).
Proof.
  induction s as [|c s IH] using rev_ind; [done|].
  rewrite hashCode_snoc, IH, wrap_wrap_add. unfold Str.polynomial. by rewrite foldl_snoc.
Qed.

Lemma split_cons sep c s :
  Str.split sep (c :: s) =
  if decide (c = sep) then [] :: Str.split sep s
  else match Str.split sep s with
       | piece :: pieces => (c :: piece) :: pieces
       | [] => [[c]]
       end.
Proof. done. Qed.

Lemma split_nonempty sep s : Str.split sep s ≠ [].
Proof. destruct s as [|c s]; [done|]. rewrite split_cons. by repeat case_match. Qed.

(** No piece holds the separator. *)
Lemma split_pieces sep s : Forall (λ piece, sep ∉ piece) (Str.split sep s).
Proof.
  induction s as [|c s IH]; [by repeat constructor; intros ?%elem_of_nil|].
  rewrite split_cons. case_decide; [by constructor; [intros ?%elem_of_nil|]|].
  destruct (Str.split sep s) as [|piece pieces];
    [by repeat constructor; intros [?|?%elem_of_nil]%elem_of_cons|].
  apply Forall_cons in IH as [? ?]. constructor; [|done].
  by intros [?|?]%elem_of_cons.
Qed.

(** Joining the pieces with the separator gives the string back. *)
Lemma join_split sep s : Str.join [sep] (Str.split sep s) = s.
Proof.
  induction s as [|c s IH]; [done|]. rewrite split_cons.
  pose proof (split_nonempty sep s) as Hne. case_decide as Hc.
  - subst c. destruct (Str.split sep s); [done|]. simpl in *. by rewrite IH.
  - destruct (Str.split sep s) as [|piece [|piece' pieces]]; [done|..]; simpl in *; by rewrite <-IH.
Qed.

Lemma join_nil_cons piece pieces : Str.join [] (piece :: pieces) = piece ++ Str.join [] pieces.
Proof. destruct pieces; simpl; [by rewrite app_nil_r|done]. Qed.

(** A name that starts with a character other than the space starts
    with a word, and that word starts with that character. *)
Lemma words_head c s :
  c ≠ Str.SPACE → ∃ word pieces, Str.words (c :: s) = (c :: word) :: pieces.
Proof.
  intros Hc. unfold Str.words. rewrite split_cons, decide_False by done.
  pose proof (split_nonempty Str.SPACE s).
  destruct (Str.split Str.SPACE s) as [|piece pieces]; [done|].
  rewrite filter_cons_True by done. eauto.
Qed.

Lemma words_nonempty name : Forall (λ word, word ≠ []) (Str.words name).
Proof. apply Forall_forall. intros word [Hw _]%list_elem_of_filter. by destruct word. Qed.

End strings.

Section views.
Context `{CaseMapping}.
Implicit Types (name : jsstring) (c : N).

(** The index into the palette is inside it unless the hash is
    [MIN_VALUE]. *)
Lemma palette_index name :
  Str.hashCode name ≠ Int32.MIN_VALUE →
  0 ≤ Int32.rem (Int32.abs (Str.hashCode name)) 5 < 5.
Proof.
  intros Hne. pose proof (abs_nonneg _ (hashCode_in_range name) Hne).
  unfold Int32.rem. apply Z.rem_bound_pos; lia.
Qed.

Lemma get_inside index :
  0 ≤ index < 5 → ∃ color, AvatarViewKt.get index = Ok color ∧ color ∈ AvatarViewKt.colors.
Proof.
  intros Hi. unfold AvatarViewKt.get. rewrite decide_True by lia.
  destruct (lookup_lt_is_Some_2 AvatarViewKt.colors (Z.to_nat index)) as [color Hc];
    [simpl; lia|].
  rewrite Hc. eauto using list_elem_of_lookup_2.
Qed.

(** The initials of the manager for a name that starts with a word. *)
Lemma manager_initials_head c s :
  c ≠ Str.SPACE → ∃ more, AvatarViewManager.initials (Some (c :: s)) = c :: more.
Proof.
  intros Hc. destruct (words_head c s Hc) as (word & pieces & Hw).
  unfold AvatarViewManager.initials. rewrite Hw. simpl omap. rewrite join_nil_cons. eauto.
Qed.

Lemma swift_initials_head c s :
  c ≠ Str.SPACE → ∃ more, AvatarViewSwift.initials (c :: s) = uppercase [c] ++ more.
Proof.
  intros Hc. destruct (words_head c s Hc) as (word & pieces & Hw).
  unfold AvatarViewSwift.initials. rewrite Hw.
  change (take 2 (?x :: ?l)) with (x :: take 1 l). rewrite fmap_cons, join_nil_cons. eauto.
Qed.

(** The name that the screen passes starts with a character that is
    not a space. *)
Lemma avatarName_head (σ : Dashboard.State * UiStore.UiState) :
  Dashboard.name_ok σ →
  ∃ c s, Dashboard.avatarName (UiStore.userName σ.2) = c :: s ∧ c ≠ Str.SPACE.
Proof.
  intros [[Hhead _] _]. unfold Dashboard.avatarName.
  destruct (UiStore.userName σ.2) as [|c s]; simpl.
  - eexists _, _. split; [reflexivity|done].
  - exists c, s. split; [done|]. intros ->. by specialize (Hhead _ eq_refl).
Qed.

End views.

(** ** The colour *)

(** C35: the palette of AvatarView.kt is read at
    [Math.abs(name.hashCode()) % colors.size].  [Math.abs] returns
    [MIN_VALUE] for [MIN_VALUE], and the remainder of a negative number
    is negative: the read is inside the palette, and [generateColor]
    returns one of its five colours, exactly when the hash of the name
    is not [MIN_VALUE]; for a name whose hash is [MIN_VALUE] the index
    is -3 and the read throws. *)
Theorem generateColor_overflow (name : jsstring) :
  match AvatarViewKt.generateColor name with
  | Ok color =>
      Str.hashCode name ≠ Int32.MIN_VALUE ∧
      color ∈ Color.parseColor <$> AvatarViewKt.colors
  | Err e => Str.hashCode name = Int32.MIN_VALUE ∧ e = IndexOutOfBounds (-3)
  end.
Proof.
  unfold AvatarViewKt.generateColor.
  change (Z.of_nat (length AvatarViewKt.colors)) with 5.
  destruct (decide (Str.hashCode name = Int32.MIN_VALUE)) as [->|Hne]; [done|].
  destruct (get_inside _ (palette_index name Hne)) as (color & -> & Hin).
  split; [done|]. by apply list_elem_of_fmap_2.
Qed.

(** The colour of a name that is not empty, as an [Int]. *)
Lemma color_nonempty (c : N) (s : jsstring) :
  AvatarViewManager.color (Some (c :: s)) = Str.hashCode (c :: s) `mod` 2 ^ 24 - 2 ^ 24.
Proof.
  unfold AvatarViewManager.color, Int32.and, Int32.shr.
  generalize (Str.hashCode (c :: s)). intros hash.
  pose proof (byte_range hash 16 ltac:(lia)) as Hr.
  pose proof (byte_range hash 8 ltac:(lia)) as Hg.
  pose proof (byte_range hash 0 ltac:(lia)) as Hb. rewrite Z.shiftr_0_r in Hb.
  rewrite rgb_value, low_bytes by lia. lia.
Qed.

(** The colour that the view manager of Android gives the avatar.
    For a name that is not empty it is opaque and its red, green and
    blue are the three low bytes of the hash of the name: as an [Int],
    the hash modulo [2^24], minus [2^24].  Without a name, or for the
    empty name, it is gray.  It is always an [Int] with alpha 255. *)
Theorem manager_color (name : option jsstring) :
  AvatarViewManager.color name =
    match name with
    | Some ((_ :: _) as name) => Str.hashCode name `mod` 2 ^ 24 - 2 ^ 24
    | _ => Color.GRAY
    end ∧
  Int32.in_range (AvatarViewManager.color name) ∧
  Color.alpha (AvatarViewManager.color name) = 255.
Proof.
  destruct name as [[|c s]|]; [by vm_compute| |by vm_compute].
  split; [apply color_nonempty|].
  unfold AvatarViewManager.color, Int32.and, Int32.shr.
  generalize (Str.hashCode (c :: s)). intros hash.
  pose proof (byte_range hash 16 ltac:(lia)) as Hr.
  pose proof (byte_range hash 8 ltac:(lia)) as Hg.
  pose proof (byte_range hash 0 ltac:(lia)) as Hb. rewrite Z.shiftr_0_r in Hb.
  split.
  - rewrite rgb_value by lia. int32_range.
  - by destruct (rgb_components _ _ _ Hr Hg Hb) as [? _].
Qed.

(** The three low bytes are all set exactly in the integers that end in
    twenty-four ones. *)
Lemma low_bytes_set z :
  Z.land (z ≫ 16) 0xFF = 255 ∧ Z.land (z ≫ 8) 0xFF = 255 ∧ Z.land z 0xFF = 255 ↔
  z `mod` 2 ^ 24 = 2 ^ 24 - 1.
Proof.
  pose proof (byte_range z 16 ltac:(lia)) as Hr.
  pose proof (byte_range z 8 ltac:(lia)) as Hg.
  pose proof (byte_range z 0 ltac:(lia)) as Hb. rewrite Z.shiftr_0_r in Hb.
  rewrite low_bytes. lia.
Qed.

(** The colour that the view of iOS gives the avatar: the three low
    bytes of the hash. *)
Lemma swift_color hash :
  AvatarViewSwift.generateColor hash =
  AvatarViewSwift.mkColor (Z.land (hash ≫ 16) 0xFF) (Z.land (hash ≫ 8) 0xFF) (Z.land hash 0xFF).
Proof.
  unfold AvatarViewSwift.generateColor.
  change 0xFF0000 with (0xFF ≪ 16). change 0x00FF00 with (0xFF ≪ 8).
  by rewrite !masked_byte by lia.
Qed.

(** C36: white on white.  Both platforms draw the initials in white on a
    colour made of the three low bytes of a hash of the name, and
    nothing keeps that colour from being white.  On Android the text
    has the colour of its background exactly for the names whose
    [hashCode] ends in twenty-four ones; on iOS, from the view that the
    manager creates, exactly when the hash of the process does. *)
Theorem avatar_white_on_white `{CaseMapping} (c : N) (s : jsstring) (hashValue : jsstring → Z) :
  let android :=
    AvatarViewManager.setName AvatarViewManager.createViewInstance (Some (c :: s)) in
  let ios := AvatarViewSwift.set_name hashValue (c :: s) AvatarViewManagerSwift.view in
  (TextView.background android = Some (TextView.textColor android) ↔
   Str.hashCode (c :: s) `mod` 2 ^ 24 = 2 ^ 24 - 1) ∧
  (AvatarViewSwift.backgroundColor ios = Some (AvatarViewSwift.label_textColor ios) ↔
   hashValue (c :: s) `mod` 2 ^ 24 = 2 ^ 24 - 1).
Proof.
  cbn zeta. split.
  - unfold AvatarViewManager.setName.
    cbn [TextView.background TextView.textColor TextView.set_background TextView.set_text
         AvatarViewManager.createViewInstance].
    rewrite color_nonempty. change Color.WHITE with (-1).
    split; [intros [= Heq]; lia|intros ->; done].
  - unfold AvatarViewSwift.set_name.
    cbn [AvatarViewSwift.backgroundColor AvatarViewSwift.label_textColor].
    rewrite swift_color, <-low_bytes_set. unfold AvatarViewManagerSwift.view. cbn.
    split; [by intros [= -> -> ->]|by intros (-> & -> & ->)].
Qed.

(** ** The initials *)

Section initials.
Context `{CaseMapping}.

(** what the avatar shows for the names that the screen gives it.
    In every state that the header can reach the name starts with a
    character that is not a space; then the text view of Android shows
    the upper case of a string that starts with that character, the
    label of iOS shows its own initials, which start with the upper case
    of that character, and neither text is empty: the question mark of
    the views is never shown. *)
Theorem screen_avatar_initials (σ : Dashboard.State * UiStore.UiState)
    (hashValue : jsstring → Z) (view : TextView.t) (swift : AvatarViewSwift.t) :
  Dashboard.reachable σ →
  let name := Dashboard.avatarName (UiStore.userName σ.2) in
  let android := TextView.text (AvatarViewManager.setName view (Some name)) in
  let ios := AvatarViewSwift.label_text (AvatarViewSwift.set_name hashValue name swift) in
  ∃ c rest more more',
    name = c :: rest ∧ c ≠ Str.SPACE ∧
    android = uppercase (c :: more) ∧ android ≠ [] ∧
    ios = uppercase [c] ++ more' ∧ ios = AvatarViewSwift.initials name ∧ ios ≠ [].
Proof.
  intros Hreach. cbn zeta.
  pose proof (invariant_reachable _ _ _ _ Dashboard.name_ok_invariant Hreach) as Hok.
  destruct (avatarName_head σ Hok) as (c & rest & -> & Hc).
  destruct (manager_initials_head c rest Hc) as [more Hm].
  destruct (swift_initials_head c rest Hc) as [more' Hs].
  pose proof (uppercase_nonempty [c] ltac:(done)) as Hne.
  exists c, rest, more, more'.
  unfold AvatarViewManager.setName, AvatarViewSwift.set_name.
  cbn [TextView.text TextView.set_text TextView.set_background AvatarViewSwift.label_text].
  rewrite Hm, Hs.
  assert (truthy (uppercase [c] ++ more') = true) as -> by by destruct (uppercase [c]).
  split_and!; [done..|by apply uppercase_nonempty|done|done|by destruct (uppercase [c])].
Qed.

End initials.

(** ** The bridge *)

(** The native component gets the name it was given; of the styles, the
    one of the caller wins over the default where both say something. *)
Theorem bridge_style_later_wins (name : jsstring) (style : Style.t) (key : string) :
  let '(component, name', style') :=
    AvatarBridge.AvatarView (AvatarBridge.mkProps name (Some style)) in
  component = "AvatarView" ∧ name' = name ∧
  style' !! key = match style !! key with
                  | Some value => Some value
                  | None => AvatarBridge.defaultStyle !! key
                  end.
Proof.
  cbn [AvatarBridge.AvatarView AvatarBridge.name AvatarBridge.style]. split_and!; [done..|].
  apply (Style.lookup_when true).
Qed.

Lemma screen_avatar_initials_witness :
  let name := Dashboard.avatarName (UiStore.userName (UiStore.mk (js "Ana") true)) in
  let android := TextView.text (AvatarViewManager.setName AvatarViewManager.createViewInstance (Some name)) in
  let ios := AvatarViewSwift.label_text
               (AvatarViewSwift.set_name (λ _, 0) name AvatarViewSwift.setupView) in
  ∃ c rest more more',
    name = c :: rest ∧ c ≠ Str.SPACE ∧
    android = uppercase (c :: more) ∧ android ≠ [] ∧
    ios = uppercase [c] ++ more' ∧ ios = AvatarViewSwift.initials name ∧ ios ≠ [].
Proof.
  apply (screen_avatar_initials (Dashboard.mk (js "  ") true, UiStore.mk (js "Ana") true)).
  apply (Dashboard.header_run_reachable Dashboard.ana_session
           (Dashboard.mount UiStore.initial, UiStore.initial));
    [by constructor|reflexivity].
Defined.

(** ** Examples *)

(** A name whose hash is [MIN_VALUE]. *)
Example hash_of_polygenelubricants :
  Str.hashCode (js "polygenelubricants") = Int32.MIN_VALUE.
Proof. reflexivity. Qed.

(** [setAvatarName] on it writes the initial and then throws: the
    background stays light gray. *)
Example setAvatarName_throws :
  AvatarViewKt.setAvatarName (js "polygenelubricants") AvatarViewKt.init
  = (Err (IndexOutOfBounds (-3)),
     TextView.mk (js "P") Color.WHITE 18 true (Some Color.LTGRAY)).
Proof. reflexivity. Qed.

(** The manager of Android shows every initial, the view of iOS and
    AvatarView.kt the first two. *)
Example platforms_differ_on_three_words :
  TextView.text (AvatarViewManager.setName AvatarViewManager.createViewInstance
                   (Some (js "ana maria lopez"))) = js "AML" ∧
  AvatarViewSwift.label_text
    (AvatarViewSwift.set_name (λ _, 0) (js "ana maria lopez") AvatarViewSwift.setupView) = js "AM" ∧
  (AvatarViewKt.setAvatarName (js "ana maria lopez") AvatarViewKt.init).2.(TextView.text) = js "AM".
Proof. by vm_compute. Qed.

(** The empty name: nothing on Android, a question mark on iOS. *)
Example platforms_differ_on_empty_name :
  TextView.text (AvatarViewManager.setName AvatarViewManager.createViewInstance (Some [])) = [] ∧
  AvatarViewSwift.label_text (AvatarViewSwift.set_name (λ _, 0) [] AvatarViewSwift.setupView) = js "?".
Proof. by vm_compute. Qed.

(** A name that the user can type and whose avatar shows nothing: the
    hash of "Wssfn" ends in twenty-four ones, so the initial "W" is
    white on a white circle, in a header that is white as well. *)
Example invisible_avatar :
  let view := AvatarViewManager.setName AvatarViewManager.createViewInstance (Some (js "Wssfn")) in
  TextView.text view = js "W" ∧
  TextView.background view = Some Color.WHITE ∧ TextView.textColor view = Color.WHITE.
Proof. by vm_compute. Qed.
