(* ===== verification/Views.v ===== *)
(** * Views: the style sheets of the components and the trees they render

    Every component ends with a sheet made by [StyleSheet.create] and
    returns a tree of elements styled from it:

    - src/src/components/TaskItem.tsx, lines 42 to 78 and 92 to 140
      ([TaskItemStyles]);
    - src/src/components/filterTabs.tsx, lines 40 to 64 and 70 to 99
      ([FilterTabsStyles]);
    - src/src/screens/DashboardScreen.tsx, lines 64 to 127, 152 to 160
      and 164 to 199 ([DashboardStyles]).

    The sheets are translated entry by entry.  A tree is what the JSX
    evaluates to for given props and state, with every style array
    flattened.  The records [TaskItem.View] and [Dashboard.View] of the
    other files say what a tree depends on; here each tree is shown to
    be drawn from its record, and different records to give different
    trees, so that what the other files prove of the records is seen on
    the screen.  Every text of every tree is legible. *)

From S2P Require Import Prelude JsString Style Task UiStore Hooks TaskItem FilterTabs Dashboard.
From S2P Require Import Avatar.

(** ** Definitions *)

Module TaskItemStyles.

Definition card : Style.t :=
  {[ "backgroundColor" := Style.Str "#FFF";
     "marginHorizontal" := Style.num 20;
     "marginVertical" := Style.num 8;
     "padding" := Style.num 16;
     "borderRadius" := Style.num 22;
     "flexDirection" := Style.Str "row";
     "alignItems" := Style.Str "center";
     "elevation" := Style.num 3;
     "shadowColor" := Style.Str "#000";
     "shadowOffset" := Style.offset 0 2;
     "shadowOpacity" := Style.dec 5 100;
     "shadowRadius" := Style.num 8 ]}.

Definition cardCompleted : Style.t :=
  {[ "backgroundColor" := Style.Str "#F8F9FA"; "elevation" := Style.num 0 ]}.

Definition checkbox : Style.t :=
  {[ "width" := Style.num 26;
     "height" := Style.num 26;
     "borderRadius" := Style.num 13;
     "borderWidth" := Style.num 2;
     "borderColor" := Style.Str "#6366F1";
     "alignItems" := Style.Str "center";
     "justifyContent" := Style.Str "center";
     "marginRight" := Style.num 12 ]}.

Definition checkboxActive : Style.t := {[ "backgroundColor" := Style.Str "#6366F1" ]}.

Definition checkIcon : Style.t :=
  {[ "color" := Style.Str "#FFF"; "fontWeight" := Style.Str "bold" ]}.

Definition content : Style.t := {[ "flex" := Style.num 1 ]}.

Definition todoText : Style.t :=
  {[ "fontSize" := Style.num 16; "color" := Style.Str "#1E293B";
     "fontWeight" := Style.Str "600" ]}.

Definition completedText : Style.t :=
  {[ "textDecorationLine" := Style.Str "line-through"; "color" := Style.Str "#94A3B8" ]}.

Definition attachmentImg : Style.t :=
  {[ "width" := Style.Str "100%"; "height" := Style.num 120;
     "borderRadius" := Style.num 14; "marginTop" := Style.num 10 ]}.

Definition cameraBtn : Style.t :=
  {[ "backgroundColor" := Style.Str "#F1F5F9"; "padding" := Style.num 10;
     "borderRadius" := Style.num 14 ]}.

(** The check mark and the camera, as code units. *)
Definition check : jsstring := [0x2713%N].
Definition camera : jsstring := [0xD83D%N; 0xDCF8%N].

(** The three style arrays of a row:
    [[styles.card, task.completed && styles.cardCompleted]] and the
    like for the check box and the title. *)
Definition cardStyle (completed : bool) : Style.t :=
  Style.flatten [Some card; Style.when completed cardCompleted].

Definition checkboxStyle (completed : bool) : Style.t :=
  Style.flatten [Some checkbox; Style.when completed checkboxActive].

Definition titleStyle (completed : bool) : Style.t :=
  Style.flatten [Some todoText; Style.when completed completedText].

(** The tree that [TaskItem] returns for a record. *)
Definition tree (task : Task.t) : Native.Element :=
  Native.View (cardStyle (Task.completed task))
    [ Native.View (checkboxStyle (Task.completed task))
        (if Task.completed task then [Native.Text checkIcon check] else []);
      Native.View content
        (Native.Text (titleStyle (Task.completed task))
           (if truthy (Task.todo task) then Task.todo task else TaskItem.untitled)
         :: match Task.attachmentUri task with
            | Some uri => if truthy uri then [Native.Image attachmentImg uri] else []
            | None => []
            end);
      Native.View cameraBtn [Native.Text {[ "fontSize" := Style.num 18 ]} camera] ].

(** The same tree, drawn from what [TaskItem.render] records. *)
Definition draw (view : TaskItem.View) : Native.Element :=
  Native.View (cardStyle (TaskItem.cardCompleted view))
    [ Native.View (checkboxStyle (TaskItem.checkIcon view))
        (if TaskItem.checkIcon view then [Native.Text checkIcon check] else []);
      Native.View content
        (Native.Text (titleStyle (TaskItem.completedText view)) (TaskItem.todoText view)
         :: match TaskItem.image view with
            | Some uri => [Native.Image attachmentImg uri]
            | None => []
            end);
      Native.View cameraBtn [Native.Text {[ "fontSize" := Style.num 18 ]} camera] ].

End TaskItemStyles.

Module FilterTabsStyles.

Definition container : Style.t :=
  {[ "flexDirection" := Style.Str "row";
     "backgroundColor" := Style.Str "#f0f0f0";
     "borderRadius" := Style.num 8;
     "margin" := Style.num 16;
     "elevation" := Style.num 2;
     "shadowColor" := Style.Str "#000";
     "shadowOffset" := Style.offset 0 1;
     "shadowOpacity" := Style.dec 1 10;
     "shadowRadius" := Style.num 2 ]}.

Definition tab : Style.t :=
  {[ "flex" := Style.num 1; "paddingVertical" := Style.num 12;
     "alignItems" := Style.Str "center"; "borderRadius" := Style.num 8 ]}.

Definition activeTab : Style.t := {[ "backgroundColor" := Style.Str "#007aff" ]}.

Definition text : Style.t :=
  {[ "color" := Style.Str "#666"; "fontWeight" := Style.Str "600" ]}.

Definition activeText : Style.t := {[ "color" := Style.Str "#fff" ]}.

(** One tab, drawn from what [FilterTabs.render] records of it. *)
Definition draw (tab_ : FilterTabs.Tab) : Native.Element :=
  Native.View (Style.flatten [Some tab; Style.when (FilterTabs.selected tab_) activeTab])
    [ Native.Text (Style.flatten [Some text; Style.when (FilterTabs.selected tab_) activeText])
        (FilterTabs.label tab_) ].

(** The tree that [FilterTabs] returns. *)
Definition tree (currentFilter : FilterType) : Native.Element :=
  Native.View container
    ((λ f, Native.View
             (Style.flatten [Some tab; Style.when (bool_decide (currentFilter = f.2)) activeTab])
             [ Native.Text
                 (Style.flatten
                    [Some text; Style.when (bool_decide (currentFilter = f.2)) activeText])
                 f.1 ])
       <$> FilterTabs.filters).

End FilterTabsStyles.

Module DashboardStyles.

Definition container : Style.t := {[ "flex" := Style.num 1 ]}.

Definition header : Style.t :=
  {[ "flexDirection" := Style.Str "row";
     "justifyContent" := Style.Str "space-between";
     "paddingHorizontal" := Style.num 25;
     "paddingTop" := Style.num 20;
     "paddingBottom" := Style.num 20;
     "alignItems" := Style.Str "center";
     "backgroundColor" := Style.Str "#FFF";
     "borderBottomLeftRadius" := Style.num 30;
     "borderBottomRightRadius" := Style.num 30;
     "elevation" := Style.num 4 ]}.

Definition welcome : Style.t :=
  {[ "fontSize" := Style.num 14; "color" := Style.Str "#64748B";
     "fontWeight" := Style.Str "500" ]}.

Definition name : Style.t :=
  {[ "fontSize" := Style.num 24; "fontWeight" := Style.Str "800";
     "color" := Style.Str "#0F172A" ]}.

Definition avatar : Style.t :=
  {[ "width" := Style.num 60; "height" := Style.num 60; "borderRadius" := Style.num 30 ]}.

Definition inputRow : Style.t :=
  {[ "flexDirection" := Style.Str "row"; "alignItems" := Style.Str "center" ]}.

Definition input : Style.t :=
  {[ "flex" := Style.num 1;
     "fontSize" := Style.num 18;
     "fontWeight" := Style.Str "700";
     "color" := Style.Str "#0F172A";
     "borderBottomWidth" := Style.num 2;
     "borderBottomColor" := Style.Str "#6366F1";
     "marginRight" := Style.num 10 ]}.

Definition saveBtn : Style.t :=
  {[ "backgroundColor" := Style.Str "#6366F1"; "padding" := Style.num 8;
     "borderRadius" := Style.num 8 ]}.

Definition saveBtnText : Style.t :=
  {[ "color" := Style.Str "#FFF"; "fontWeight" := Style.Str "bold" ]}.

Definition filterBar : Style.t :=
  {[ "flexDirection" := Style.Str "row"; "paddingHorizontal" := Style.num 20;
     "gap" := Style.num 10; "marginTop" := Style.num 20; "marginBottom" := Style.num 10 ]}.

Definition chip : Style.t :=
  {[ "flex" := Style.num 1; "paddingVertical" := Style.num 12;
     "borderRadius" := Style.num 16; "backgroundColor" := Style.Str "#FFF";
     "alignItems" := Style.Str "center"; "elevation" := Style.num 2 ]}.

Definition chipActive : Style.t := {[ "backgroundColor" := Style.Str "#6366F1" ]}.

Definition chipText : Style.t :=
  {[ "fontSize" := Style.num 13; "fontWeight" := Style.Str "700";
     "color" := Style.Str "#64748B" ]}.

Definition chipTextActive : Style.t := {[ "color" := Style.Str "#FFF" ]}.

Definition listContent : Style.t := {[ "paddingBottom" := Style.num 40 ]}.

(** The style of the root view of [DashboardScreen]. *)
Definition screen : Style.t :=
  {[ "flex" := Style.num 1; "backgroundColor" := Style.Str "#F8F9FE" ]}.

(** The header, in edit mode and outside it. *)
Definition headerTree (userName : jsstring) (s : Dashboard.State) : Native.Element :=
  Native.View header
    [ Native.View {[ "flex" := Style.num 1 ]}
        [ if Dashboard.isEditing s
          then Native.View inputRow
                 [ Native.TextInput input (Dashboard.tempName s);
                   Native.View saveBtn [Native.Text saveBtnText (js "OK")] ]
          else Native.View ∅
                 [ Native.Text welcome (js "Bienvenido,"); Native.Text name userName ] ];
      Native.Component AvatarViewManager.getName
        (AvatarBridge.AvatarView
           (AvatarBridge.mkProps (Dashboard.avatarName userName) (Some avatar))).2 ].

(** One chip of the filter bar. *)
Definition chipTree (filter f : FilterType) : Native.Element :=
  Native.View (Style.flatten [Some chip; Style.when (bool_decide (filter = f)) chipActive])
    [ Native.Text
        (Style.flatten [Some chipText; Style.when (bool_decide (filter = f)) chipTextActive])
        (Dashboard.chipText f) ].

(** The tree that [DashboardScreen] returns, with [Dashboard] and its
    rows inside. *)
Definition tree (tasks : list Task.t) (filter : FilterType) (ui : UiStore.UiState)
    (s : Dashboard.State) : Native.Element :=
  Native.View screen
    [ Native.View container
        [ headerTree (UiStore.userName ui) s;
          Native.View filterBar (chipTree filter <$> Dashboard.chips);
          Native.View listContent (TaskItemStyles.tree <$> tasks) ] ].

End DashboardStyles.

(** ** Lemmas *)

Section rows.
Implicit Types (task : Task.t) (view : TaskItem.View).

(** The tree of a row is drawn from its record. *)
Lemma tree_draw task : TaskItemStyles.tree task = TaskItemStyles.draw (TaskItem.render task).
Proof.
  unfold TaskItemStyles.tree, TaskItemStyles.draw. cbn. do 4 f_equal.
  by destruct (Task.attachmentUri task) as [[|c uri]|].
Qed.

(** The conditional styles of a row change what they are added to. *)
Lemma row_styles_differ :
  TaskItemStyles.cardCompleted ∪ TaskItemStyles.card ≠ TaskItemStyles.card ∧
  TaskItemStyles.checkboxActive ∪ TaskItemStyles.checkbox ≠ TaskItemStyles.checkbox ∧
  TaskItemStyles.completedText ∪ TaskItemStyles.todoText ≠ TaskItemStyles.todoText.
Proof. split_and!; by_compute. Qed.

(** Different records are drawn as different trees. *)
Lemma draw_inj view view' :
  TaskItemStyles.draw view = TaskItemStyles.draw view' → view = view'.
Proof.
  destruct row_styles_differ as (Hcard & Hbox & Htext).
  destruct view as [c1 i1 t1 x1 m1], view' as [c2 i2 t2 x2 m2].
  unfold TaskItemStyles.draw.
  cbn [TaskItem.cardCompleted TaskItem.checkIcon TaskItem.todoText TaskItem.completedText
       TaskItem.image].
  unfold TaskItemStyles.cardStyle, TaskItemStyles.checkboxStyle, TaskItemStyles.titleStyle.
  rewrite !Style.flatten_when. intros [= H1 H2 H3 H4 H5 H6].
  assert (c1 = c2) as -> by (destruct c1, c2; congruence).
  assert (i1 = i2) as -> by (destruct i1, i2; congruence).
  assert (x1 = x2) as -> by (destruct x1, x2; congruence).
  assert (m1 = m2) as -> by (destruct m1, m2; congruence).
  by rewrite H5.
Qed.

(** A row is legible on any background: the card brings its own. *)
Lemma row_legible behind task : Native.legible behind (TaskItemStyles.tree task) = true.
Proof. by destruct task as [id todo [|] [[|c uri]|]]. Qed.

End rows.

Section bars.
Implicit Types (filter f : FilterType).

(** The tabs are drawn from what [FilterTabs.render] records. *)
Lemma tabs_draw filter :
  FilterTabsStyles.tree filter =
  Native.View FilterTabsStyles.container (FilterTabsStyles.draw <$> FilterTabs.render filter).
Proof. done. Qed.

(** The chips of the dashboard are drawn from what [Dashboard.render]
    records of the filter bar. *)
Lemma chips_draw tasks filter isSyncing ui s :
  (λ e, (Native.texts e, bool_decide (Native.style e ≠ DashboardStyles.chip)))
    <$> (DashboardStyles.chipTree filter <$> Dashboard.chips)
  = (λ chip, ([chip.1], chip.2))
      <$> Dashboard.filterBar (Dashboard.render tasks filter isSyncing ui s).
Proof. by destruct filter. Qed.

Lemma chip_legible behind filter f :
  Native.legible behind (DashboardStyles.chipTree filter f) = true.
Proof. unfold DashboardStyles.chipTree. by case_bool_decide. Qed.

Lemma header_legible behind userName s :
  Native.legible behind (DashboardStyles.headerTree userName s) = true.
Proof. unfold DashboardStyles.headerTree. by destruct (Dashboard.isEditing s). Qed.

End bars.

(** ** The rows *)

(** The tree of a row shows what the record of the row says, no more
    and no less: two records are drawn as the same tree exactly when
    [TaskItem.render] gives them the same view.  So a toggle is seen:
    the tree of the toggled record is another one.  The title of a
    completed record is struck through and gray and otherwise as the
    title of a pending one, and the check box holds the check mark
    exactly when the record is completed. *)
Theorem row_shows_record (task task' : Task.t) :
  (TaskItemStyles.tree task = TaskItemStyles.tree task' ↔
   TaskItem.render task = TaskItem.render task') ∧
  TaskItemStyles.tree (Task.toggleComplete task) ≠ TaskItemStyles.tree task ∧
  (∀ completed key,
     TaskItemStyles.titleStyle completed !! key =
       if completed && bool_decide (key = "textDecorationLine") then Some (Style.Str "line-through")
       else if completed && bool_decide (key = "color") then Some (Style.Str "#94A3B8")
       else TaskItemStyles.todoText !! key) ∧
  Native.texts <$> head (Native.children (TaskItemStyles.tree task)) =
    Some (if Task.completed task then [TaskItemStyles.check] else []).
Proof.
  split_and!.
  - rewrite !tree_draw. split; [apply draw_inj|by intros ->].
  - rewrite !tree_draw. intros Heq%draw_inj. by destruct task as [? ? [|] ?].
  - intros completed key. unfold TaskItemStyles.titleStyle. rewrite Style.lookup_when.
    destruct completed; [|done]. unfold TaskItemStyles.completedText. cbn [andb].
    repeat case_bool_decide; simplify_eq; [done..|].
    by rewrite lookup_insert_ne, lookup_singleton_ne by done.
  - by destruct task as [id todo [|] ?].
Qed.

(** ** The screen *)

(** Every text of the screen can be read, in every state: whatever the
    rows, the filter, the name and the mode of the header, each text
    and the input are drawn in a colour that differs from the
    background behind them, and the same holds of the tab bar. *)
Theorem screen_legible (tasks : list Task.t) (filter : FilterType) (ui : UiStore.UiState)
    (s : Dashboard.State) (behind : Style.Color) :
  Native.legible behind (DashboardStyles.tree tasks filter ui s) = true ∧
  Native.legible behind (FilterTabsStyles.tree filter) = true.
Proof.
  split; [|by destruct filter].
  unfold DashboardStyles.tree. apply Native.legible_View, Forall_singleton.
  apply Native.legible_View. repeat apply Forall_cons_2; [| | |constructor].
  - apply header_legible.
  - apply Native.legible_View, Forall_fmap, Forall_forall. intros f _. apply chip_legible.
  - apply Native.legible_View, Forall_fmap, Forall_forall. intros task _. apply row_legible.
Qed.

(** The filter bar marks the current filter and nothing else: the chip
    of the current filter has the active background and the active
    text colour, every other chip has those of the sheet. *)
Theorem chips_mark_filter (filter f : FilterType) :
  let chip := DashboardStyles.chipTree filter f in
  Style.color "backgroundColor" (Native.style chip) =
    Style.parseColor (if decide (filter = f) then "#6366F1" else "#FFF") ∧
  (Native.textColor ∘ Native.style <$> Native.children chip) =
    [default Style.black (Style.parseColor (if decide (filter = f) then "#FFF" else "#64748B"))].
Proof. by destruct filter, f. Qed.

(** ** Examples *)

(** A pending row and the same row completed. *)
Example pending_and_completed_rows :
  let row completed := TaskItemStyles.tree (Task.mk 0 (js "Call mom") completed None) in
  Native.texts (row false) = [js "Call mom"; TaskItemStyles.camera] ∧
  Native.texts (row true) = [TaskItemStyles.check; js "Call mom"; TaskItemStyles.camera] ∧
  Style.color "backgroundColor" (Native.style (row false)) = Style.parseColor "#FFF" ∧
  Style.color "backgroundColor" (Native.style (row true)) = Style.parseColor "#F8F9FA" ∧
  Native.style (row true) !! "elevation" = Some (Style.num 0) ∧
  Native.style (row true) !! "padding" = Some (Style.num 16).
Proof. by vm_compute. Qed.

(** The avatar of the dashboard keeps the clipping of the default
    style under the size that the screen gives it. *)
Example dashboard_avatar_style :
  let style := Native.style <$> Native.children (DashboardStyles.headerTree (js "Ana")
                 (Dashboard.mk [] false)) !! 1 in
  (.!! "width") <$> style = Some (Some (Style.num 60)) ∧
  (.!! "overflow") <$> style = Some (Some (Style.Str "hidden")).
Proof. by vm_compute. Qed.

(** The check box and the avatar are circles: as wide as high, with
    half of that as the radius of the corners. *)
Example circles :
  Forall (λ style : Style.t, ∃ side radius : Z,
            style !! "width" = Some (Style.num side) ∧
            style !! "height" = Some (Style.num side) ∧
            style !! "borderRadius" = Some (Style.num radius) ∧ (side = 2 * radius)%Z)
    [ TaskItemStyles.checkbox; AvatarBridge.defaultStyle;
      Style.flatten [Some AvatarBridge.defaultStyle; Some DashboardStyles.avatar] ].
Proof.
  repeat apply Forall_cons_2;
    [exists 26%Z, 13%Z|exists 50%Z, 25%Z|exists 60%Z, 30%Z|constructor]; by vm_compute.
Qed.

(** The component [FilterTabs] and the filter bar of the dashboard
    show the same filters with the same labels, in different colours. *)
Example tabs_and_chips :
  Native.texts (FilterTabsStyles.tree pending)
    = concat (Native.texts <$> (DashboardStyles.chipTree pending <$> Dashboard.chips)) ∧
  Style.color "backgroundColor" FilterTabsStyles.activeTab
    ≠ Style.color "backgroundColor" DashboardStyles.chipActive.
Proof. split; [by vm_compute|by_compute]. Qed.
