(* ===== verification/Navigation.v ===== *)
(** * Navigation: the navigator and the entry point

    - src/src/navigation/types.ts: the routes of the application and the
      parameters of each ([RootStackParamList]).
    - src/src/navigation/MainNavigator.tsx: the stack navigator and the
      screens it registers.
    - src/App.tsx: the root component.

    These files are declarations: the model has them as data, a
    navigator as its table of screens with the stack of routes as its
    state, the root component as the tree it renders. *)

From S2P Require Import Prelude JsString.

(** ** Definitions *)

Module Navigation.

(** The keys of [RootStackParamList]. *)
Inductive RouteName : Type := Dashboard | Camera.

#[global] Instance RouteName_eq_dec : EqDecision RouteName.
Proof. solve_decision. Defined.

(** [RootStackParamList]: the parameters of each route; [Camera] takes
    the id of a task. *)
Definition RootStackParamList (name : RouteName) : Type :=
  match name with
  | Dashboard => unit
  | Camera => jsstring
  end.

(** A route with its parameters. *)
Record Route : Type := mkRoute {
  name : RouteName;
  params : RootStackParamList name;
}.

(** The components that a screen can show. *)
Inductive Component : Type := DashboardScreen.

#[global] Instance Component_eq_dec : EqDecision Component.
Proof. solve_decision. Defined.

(** [<Stack.Screen name=... component=... />] *)
Record Screen : Type := mkScreen {
  screenName : RouteName;
  component : Component;
}.

(** [screenOptions] *)
Record ScreenOptions : Type := mkOptions {
  headerShown : bool;
  animation : string;
}.

(** [<Stack.Navigator>] with its screens. *)
Record Navigator : Type := mkNavigator {
  initialRouteName : RouteName;
  screenOptions : ScreenOptions;
  screens : list Screen;
}.

(** [MainNavigator]: the screen of [Camera] is commented out. *)
Definition MainNavigator : Navigator :=
  {| initialRouteName := Dashboard;
     screenOptions := {| headerShown := false; animation := "slide_from_right" |};
     screens := [ {| screenName := Dashboard; component := DashboardScreen |} ] |}.

(** The screen that a navigator has for a route. *)
Definition screen_of (navigator : Navigator) (route : RouteName) : option Component :=
  component <$> head (filter (λ screen, screenName screen = route) (screens navigator)).

(** The stack of a navigator when it mounts: the initial route, if it
    has a screen; otherwise the first screen. *)
Definition mount (navigator : Navigator) : list RouteName :=
  match screen_of navigator (initialRouteName navigator) with
  | Some _ => [initialRouteName navigator]
  | None => take 1 (screenName <$> screens navigator)
  end.

(** [navigation.navigate(name, params)]: a route without a screen is
    not handled, and the stack stays as it is; the route on top is not
    pushed again. *)
Definition navigate (navigator : Navigator) (route : Route) (stack : list RouteName)
  : list RouteName :=
  match screen_of navigator (name route) with
  | Some _ => if decide (head stack = Some (name route)) then stack else name route :: stack
  | None => stack
  end.

(** [navigation.goBack()]: the first screen is never popped. *)
Definition goBack (stack : list RouteName) : list RouteName :=
  match stack with
  | _ :: (_ :: _) as rest => rest
  | _ => stack
  end.

(** The component on top of the stack. *)
Definition shown (navigator : Navigator) (stack : list RouteName) : option Component :=
  head stack ≫= screen_of navigator.

End Navigation.

(** src/App.tsx *)
Module Root.

(** The tree that a component renders, as far as the roots go. *)
Inductive Element : Type :=
| DatabaseProvider (children : Element)
| NavigatorElement (navigator : Navigation.Navigator)
| ScreenElement (component : Navigation.Component).

(** [App]: the provider is given the one [database] of
    src/src/database/index.ts. *)
Definition App : Element :=
  DatabaseProvider (ScreenElement Navigation.DashboardScreen).

(** The screens that a tree renders under a database provider. *)
Fixpoint provided (inside : bool) (e : Element) : list (Navigation.Component * bool) :=
  match e with
  | DatabaseProvider children => provided true children
  | NavigatorElement navigator =>
      from_option (λ c, [(c, inside)]) []
        (Navigation.shown navigator (Navigation.mount navigator))
  | ScreenElement component => [(component, inside)]
  end.

(** The navigators that a tree mounts. *)
Fixpoint navigators (e : Element) : list Navigation.Navigator :=
  match e with
  | DatabaseProvider children => navigators children
  | NavigatorElement navigator => [navigator]
  | ScreenElement _ => []
  end.

End Root.

(** ** Lemmas *)

Section navigation.
Implicit Types (navigator : Navigation.Navigator) (route : Navigation.Route)
  (stack : list Navigation.RouteName).

Lemma screen_of_Some navigator name c :
  Navigation.screen_of navigator name = Some c →
  Navigation.mkScreen name c ∈ Navigation.screens navigator.
Proof.
  unfold Navigation.screen_of. intros ([name' c'] & Hhead & [= <-])%fmap_Some.
  apply head_Some_elem_of, list_elem_of_filter in Hhead as [Hname Hin].
  cbn in Hname. by subst.
Qed.

(** Every route on the stack has a screen. *)
Definition handled navigator stack : Prop :=
  stack ≠ [] ∧ Forall (λ name, is_Some (Navigation.screen_of navigator name)) stack.

Lemma navigate_handled navigator route stack :
  handled navigator stack → handled navigator (Navigation.navigate navigator route stack).
Proof.
  intros [Hne Hall]. unfold Navigation.navigate.
  destruct (Navigation.screen_of navigator (Navigation.name route)) as [c|] eqn:Hs; [|done].
  case_decide; [done|]. split; [done|]. constructor; [by rewrite Hs|done].
Qed.

Lemma goBack_handled navigator stack :
  handled navigator stack → handled navigator (Navigation.goBack stack).
Proof.
  intros [Hne Hall]. destruct stack as [|name [|name' stack]]; [done..|].
  cbn. split; [done|]. by apply Forall_cons in Hall as [_ ?].
Qed.

End navigation.

(** ** The navigator *)

(** The stack of [MainNavigator] always shows the dashboard: whatever is
    navigated to, with whatever parameters, and however often one goes
    back, the route on top is [Dashboard] and the stack has that one
    entry.  The route [Camera] of the types has no screen. *)
Theorem main_navigator_shows_dashboard (events : list (option Navigation.Route)) :
  let step stack event :=
    match event with
    | Some route => Navigation.navigate Navigation.MainNavigator route stack
    | None => Navigation.goBack stack
    end in
  let stack := foldl step (Navigation.mount Navigation.MainNavigator) events in
  stack = [Navigation.Dashboard] ∧
  Navigation.shown Navigation.MainNavigator stack = Some Navigation.DashboardScreen ∧
  ∀ taskId, Navigation.navigate Navigation.MainNavigator
              (Navigation.mkRoute Navigation.Camera taskId) stack = stack.
Proof.
  cbn zeta. induction events as [|event events IH] using rev_ind; [done|].
  rewrite foldl_snoc. destruct IH as (-> & _ & _).
  by destruct event as [[[] ?]|].
Qed.

(** ** Examples *)

(** The root renders the dashboard under the database provider, and
    mounts no navigator: [MainNavigator] is not used. *)
Example App_renders_dashboard :
  Root.provided false Root.App = [(Navigation.DashboardScreen, true)] ∧
  Root.navigators Root.App = [].
Proof. done. Qed.
