(* ===== verification/App.v ===== *)
(** * App: the application as a state machine

    The screen of src/src/screens/DashboardScreen.tsx puts the parts
    together: the hook [useTasks] with the synchronisation service, the
    filter, the header with the UI store, and one [TaskItem] per shown
    row.  Between two events everything runs to completion, but an
    [async] function gives way at each [await]: a refresh that has
    started is in flight until its last continuation has run, and other
    events, a second refresh among them, come in between.

    A state of the machine is the state of the hook (store, [isSyncing],
    console), the refreshes in flight with the point each waits at, the
    filter, and the header.  A refresh waits at two points: for the
    network and the read of the local titles ([Reading]), and for
    [database.write] ([Writing], with what it has read).  [handleRefresh]
    in src/src/hooks/useTasks.ts tests nothing before it starts; the
    machine takes the condition under which a refresh may start as a
    parameter, so that the code ([App.unguarded]) and the discipline that
    the specification asks of the caller ([App.single_flight]) are two
    instances of the same machine.  Which calls the screen really makes,
    and when, is in Screen.v.

    The theorems: safety under every interleaving; the schedule of two
    overlapping refreshes that duplicates; under single flight,
    refreshes take turns, each is atomic, and titles stay unique;
    continuations terminate, and every refresh settles. *)

From S2P Require Import Prelude Machine JsString Task Schema Database Fetch Sync.
From S2P Require Import UiStore Hooks TaskItem FilterTabs Dashboard.

Module App.

(** ** Definitions *)

(** Where a refresh in flight waits. *)
Inductive Pc : Type :=
| Reading
| Writing (read : option (list RemoteTask.t) * gset jsstring).

(** A call of [handleRefresh] in flight: what it meets, where it waits. *)
Record Refresh : Type := mkRefresh {
  env : Sync.Env;
  pc : Pc;
}.

Record State : Type := mk {
  hook : UseTasks.State;
  inflight : list Refresh;
  filter : FilterType;
  header : Dashboard.State;
  ui : UiStore.UiState;
}.

Definition database (s : State) : Database.t := UseTasks.database (hook s).

(** The application started over a store: nothing in flight, all tasks
    shown, the header mounted over the initial UI store. *)
Definition start (db : Database.t) : State :=
  mk (UseTasks.initial db) [] all (Dashboard.mount UiStore.initial) UiStore.initial.

(** The end of [handleRefresh] once the service has settled: [catch],
    which logs the error, and [finally], which clears the flag. *)
Definition settle (outcome : Sync.Outcome) (w : UseTasks.State) : UseTasks.State :=
  UseTasks.mk (Sync.store outcome) false (UseTasks.console w ++ UseTasks.report outcome).

(** A refresh resumes from where it waits and runs to its next [await]
    or to its end. *)
Definition resume `{TextField} (r : Refresh) (w : UseTasks.State)
  : UseTasks.State * option Refresh :=
  match pc r with
  | Reading =>
      match Sync.readPhase (env r) (UseTasks.database w) with
      | (Ok read, _) => (w, Some (mkRefresh (env r) (Writing read)))
      | (Err e, db) => (settle (Sync.settled (Err e, db)) w, None)
      end
  | Writing read =>
      (settle (Sync.settled (Sync.afterRead (env r) read (UseTasks.database w))) w, None)
  end.

(** The state after each event. *)
Definition pull (env : Sync.Env) (s : State) : State :=
  mk (UseTasks.setIsSyncing true (hook s)).2 (inflight s ++ [mkRefresh env Reading])
     (filter s) (header s) (ui s).

Definition resumed `{TextField} (i : nat) (r : Refresh) (s : State) : State :=
  mk (resume r (hook s)).1
     (match (resume r (hook s)).2 with
      | Some r' => <[i := r']> (inflight s)
      | None => delete i (inflight s)
      end)
     (filter s) (header s) (ui s).

Definition set_database (db : Database.t) (s : State) : State :=
  mk (UseTasks.mk db (UseTasks.isSyncing (hook s)) (UseTasks.console (hook s)))
     (inflight s) (filter s) (header s) (ui s).

Definition set_filter (f : FilterType) (s : State) : State :=
  mk (hook s) (inflight s) f (header s) (ui s).

Definition set_header (σ : Dashboard.State * UiStore.UiState) (s : State) : State :=
  mk (hook s) (inflight s) (filter s) σ.1 σ.2.

(** A row is on the screen when the current filter shows it. *)
Definition displayed (id : N) (s : State) : Prop :=
  id ∈ Task.id <$> Dashboard.tasks (filter s) (database s).

#[global] Instance displayed_dec id s : Decision (displayed id s).
Proof. unfold displayed. apply _. Defined.

(** The events: a call of [handleRefresh] (the effect at mount, the
    pull gesture); a refresh in flight resumes; the check box or the
    camera button of a shown row; a chip of the filter bar; an event of
    the header. *)
Inductive Label : Type :=
| Pull (env : Sync.Env)
| Resume (i : nat)
| PressCheck (id : N) (ok : bool)
| PressCamera (id : N) (camera : result TaskItem.ImagePickerResponse) (ok : bool)
| SetFilter (f : FilterType)
| Header (e : Dashboard.Event).

(** When a refresh may start. *)
Definition Policy : Type := State → bool.

(** The code: always. *)
Definition unguarded : Policy := λ _, true.

(** The discipline of the specification, with the flag of the hook as
    the guard: not while [isSyncing]. *)
Definition single_flight : Policy := λ s, negb (UseTasks.isSyncing (hook s)).

Inductive step `{TextField} (policy : Policy) : State → Label → State → Prop :=
| step_pull s env :
    policy s = true →
    step policy s (Pull env) (pull env s)
| step_resume s i r :
    inflight s !! i = Some r →
    step policy s (Resume i) (resumed i r s)
| step_check s id ok :
    displayed id s →
    step policy s (PressCheck id ok) (set_database (TaskItem.onPress ok id (database s)).2 s)
| step_camera s id camera ok :
    displayed id s →
    step policy s (PressCamera id camera ok)
      (set_database (TaskItem.handleCamera ok id camera (database s)).2 s)
| step_filter s f :
    step policy s (SetFilter f) (set_filter f s)
| step_header s e σ :
    Dashboard.step (header s, ui s) e σ →
    step policy s (Header e) (set_header σ s).

(** The same, as a function. *)
Definition next `{TextField} (policy : Policy) (l : Label) (s : State) : option State :=
  match l with
  | Pull env => if policy s then Some (pull env s) else None
  | Resume i => r ← inflight s !! i; Some (resumed i r s)
  | PressCheck id ok =>
      if decide (displayed id s)
      then Some (set_database (TaskItem.onPress ok id (database s)).2 s) else None
  | PressCamera id camera ok =>
      if decide (displayed id s)
      then Some (set_database (TaskItem.handleCamera ok id camera (database s)).2 s) else None
  | SetFilter f => Some (set_filter f s)
  | Header e => σ ← Dashboard.handle e (header s, ui s); Some (set_header σ s)
  end.

(** A refresh from its start to its end with nothing in between. *)
Definition refresh_alone `{TextField} (env : Sync.Env) (w : UseTasks.State) : UseTasks.State :=
  let w1 := (UseTasks.setIsSyncing true w).2 in
  match resume (mkRefresh env Reading) w1 with
  | (w2, Some r) => (resume r w2).1
  | (w2, None) => w2
  end.

(** The refresh that the effect of the dashboard starts when it mounts,
    with nothing in between. *)
Definition launch (env : Sync.Env) : list Label := [Pull env; Resume 0; Resume 0].

(** Two refreshes that overlap: both start, both read, both write. *)
Definition overlap (env : Sync.Env) : list Label :=
  [Pull env; Pull env; Resume 0; Resume 1; Resume 0; Resume 0].

(** The store keeps its invariants, the header its own, and the rows
    that the application started with are still there: same ids, same
    titles, same places. *)
Definition safe (db0 : Database.t) (s : State) : Prop :=
  Database.wf (database s) ∧ Database.titles_ok (database s) ∧
  Dashboard.name_ok (header s, ui s) ∧
  Database.ids db0 `prefix_of` Database.ids (database s) ∧
  Database.titles db0 `prefix_of` Database.titles (database s).

(** A payload of trimmed titles, the non-blank ones pairwise distinct. *)
Definition tidy (l : list RemoteTask.t) : Prop :=
  Forall (λ raw, trimmed (RemoteTask.todo raw)) l ∧
  NoDup (RemoteTask.todo <$> base.filter (λ raw, ¬ blank (RemoteTask.todo raw)) l).

(** A remote source that only ever serves such payloads. *)
Definition tidy_env (env : Sync.Env) : Prop :=
  ∀ response data l,
    Sync.network env Sync.url = Ok response → Fetch.json response = Ok data →
    Sync.todos data = Some l → tidy l.

Definition tidy_label (l : Label) : Prop :=
  match l with Pull env => tidy_env env | _ => True end.

(** What a refresh in flight has read is what it would read now. *)
Definition fresh (db : Database.t) (r : Refresh) : Prop :=
  match pc r with
  | Reading => True
  | Writing read => Sync.readPhase (env r) db = (Ok read, db)
  end.

(** Refreshes take turns: at most one is in flight, the flag is set
    exactly while it is, and what it has read is still what the store
    holds. *)
Definition in_turn (s : State) : Prop :=
  length (inflight s) ≤ 1 ∧
  (UseTasks.isSyncing (hook s) = true ↔ inflight s ≠ []) ∧
  Forall (fresh (database s)) (inflight s).

(** The invariant of single flight with a tidy remote source: refreshes
    take turns, and the stored titles are pairwise distinct. *)
Definition alone (s : State) : Prop :=
  in_turn s ∧
  Forall (λ r, tidy_env (env r)) (inflight s) ∧
  NoDup (Database.titles (database s)).

(** The operations on the store when nothing overlaps: a call of the
    service from its start to its end, a toggle, a capture. *)
Inductive Atomic : Type :=
| Synchronise (env : Sync.Env)
| Toggle (id : N) (ok : bool)
| Capture (id : N) (camera : result TaskItem.ImagePickerResponse) (ok : bool).

Definition atomic `{TextField} (op : Atomic) (db : Database.t) : Database.t :=
  match op with
  | Synchronise env => Sync.store (Sync.syncTaskFromApi env db)
  | Toggle id ok => (TaskItem.onPress ok id db).2
  | Capture id camera ok => (TaskItem.handleCamera ok id camera db).2
  end.

(** The [await]s that a refresh in flight has before its end: the
    request with the read, and the write. *)
Definition remaining (r : Refresh) : nat :=
  match pc r with Reading => 2 | Writing _ => 1 end.

Definition pending (s : State) : nat := sum_list_with remaining (inflight s).

(** The continuations of refreshes, among the events. *)
Definition is_resume (l : Label) : Prop :=
  match l with Resume _ => True | _ => False end.

#[global] Instance is_resume_dec l : Decision (is_resume l).
Proof. destruct l; apply _. Defined.

(** Nothing is in flight and the loading indicator is off. *)
Definition quiescent (s : State) : Prop :=
  inflight s = [] ∧ UseTasks.isSyncing (hook s) = false.

(** The flag is off when nothing is in flight. *)
Definition idle_flag (s : State) : Prop :=
  inflight s = [] → UseTasks.isSyncing (hook s) = false.

(** The event loop left to itself: the oldest refresh in flight resumes,
    until there is none; [fuel] bounds the number of continuations. *)
Fixpoint settle_all `{TextField} (policy : Policy) (fuel : nat) (s : State) : State :=
  match fuel with
  | 0 => s
  | S fuel =>
      match next policy (Resume 0) s with
      | Some s' => settle_all policy fuel s'
      | None => s
      end
  end.

(** ** Lemmas: steps *)

Section steps.
Context {text : TextField} (policy : Policy).
Implicit Types (s : State) (l : Label) (r : Refresh) (w : UseTasks.State).

Lemma step_next s l s' : step policy s l s' ↔ next policy l s = Some s'.
Proof.
  split.
  - intros Hstep.
    destruct Hstep as [s env Hp|s i r Hi|s id ok Hd|s id camera ok Hd|s f|s e σ He]; cbn [next].
    + by rewrite Hp.
    + by rewrite Hi.
    + by rewrite decide_True.
    + by rewrite decide_True.
    + done.
    + apply Dashboard.step_handle in He. by rewrite He.
  - destruct l as [env|i|id ok|id camera ok|f|e]; cbn [next].
    + destruct (policy s) eqn:Hp; intros [= <-]. by constructor.
    + intros (r & Hi & [= <-])%bind_Some. by constructor.
    + case_decide; intros [= <-]. by constructor.
    + case_decide; intros [= <-]. by constructor.
    + intros [= <-]. constructor.
    + intros (σ & He%Dashboard.step_handle & [= <-])%bind_Some. by constructor.
Qed.

(** A step under a policy is a step of the code, which has none. *)
Lemma step_unguarded s l s' : step policy s l s' → step unguarded s l s'.
Proof. destruct 1; by constructor. Qed.

(** The store after a refresh resumes. *)
Lemma resume_database r w :
  UseTasks.database (resume r w).1 =
  match pc r with
  | Reading => UseTasks.database w
  | Writing read => (Sync.afterRead (env r) read (UseTasks.database w)).2
  end.
Proof.
  unfold resume. destruct (pc r) as [|read]; cbn.
  - pose proof (Sync.readPhase_store (env r) (UseTasks.database w)) as Hdb.
    by destruct (Sync.readPhase _ _) as [[read|e] db]; cbn in *.
  - apply Sync.settled_store.
Qed.

Lemma resume_keeps r w :
  Database.wf (UseTasks.database w) → Database.titles_ok (UseTasks.database w) →
  Database.wf (UseTasks.database (resume r w).1) ∧
  Database.titles_ok (UseTasks.database (resume r w).1) ∧
  Database.extended_by (UseTasks.database w) (UseTasks.database (resume r w).1).
Proof.
  intros Hwf Hok. rewrite resume_database. destruct (pc r) as [|read]; [done|].
  destruct (Sync.afterRead_keeps (env r) read _ Hwf Hok). split_and!; [done..|].
  apply Sync.afterRead_extends.
Qed.

(** A refresh that resumes at its write ends there. *)
Lemma resume_writing r w read :
  pc r = Writing read →
  resume r w =
  (settle (Sync.settled (Sync.afterRead (env r) read (UseTasks.database w))) w, None).
Proof. intros Hpc. unfold resume. by rewrite Hpc. Qed.

(** The writers of a row keep the store safe. *)
Lemma press_keeps db0 s db' :
  Database.wf db' → Database.titles_ok db' →
  Database.ids db' = Database.ids (database s) →
  Database.titles db' = Database.titles (database s) →
  safe db0 s → safe db0 (set_database db' s).
Proof.
  intros ? ? Hids Htitles (_ & _ & ? & ? & ?). unfold safe, database. cbn.
  by rewrite Hids, Htitles.
Qed.

(** A refresh that waits for its read, is served and resumes: it has
    read the titles that the store has now. *)
Lemma next_resume_read s i e apiTasks :
  inflight s !! i = Some (mkRefresh e Reading) → Sync.served e apiTasks →
  next policy (Resume i) s =
  Some (mk (hook s)
          (<[i := mkRefresh e (Writing (Some apiTasks,
                                        Sync.localTodoTexts (Database.tasks (database s))))]>
             (inflight s))
          (filter s) (header s) (ui s)).
Proof.
  intros Hi Hs. cbn [next]. rewrite Hi. cbn [mbind option_bind].
  unfold resumed, resume. cbn [pc env]. fold (database s).
  by rewrite (Sync.readPhase_served e apiTasks).
Qed.

(** A refresh that waits for its write and resumes with a store that
    can write: its rows are appended, whatever it had read, and it ends. *)
Lemma next_resume_write s i e apiTasks local :
  inflight s !! i = Some (mkRefresh e (Writing (Some apiTasks, local))) →
  Sync.write_ok e = true →
  next policy (Resume i) s =
  Some (mk (settle (Sync.completed (length apiTasks)
                      (Sync.append (database s)
                         (Sync.created_from local (Database.nextId (database s)) apiTasks)))
                   (hook s))
          (delete i (inflight s)) (filter s) (header s) (ui s)).
Proof.
  intros Hi Hw. cbn [next]. rewrite Hi. cbn [mbind option_bind].
  unfold resumed, resume. cbn [pc env]. fold (database s).
  by rewrite Sync.afterRead_served.
Qed.

Lemma step_safe db0 s l s' : safe db0 s → step policy s l s' → safe db0 s'.
Proof.
  intros Hs Hstep. pose proof Hs as (Hwf & Hok & Hname & Hids & Htitles).
  destruct Hstep as [s env Hp|s i r Hi|s id ok Hd|s id camera ok Hd|s f|s e σ He]; try done.
  - destruct (resume_keeps r (hook s) Hwf Hok) as (? & ? & Hext).
    split_and!; [done..| |].
    + etrans; [exact Hids|]. apply Database.extended_by_ids, Hext.
    + etrans; [exact Htitles|]. apply Database.extended_by_titles, Hext.
  - destruct (Database.perform_keeps ok id Task.ToggleComplete _ Hwf Hok) as (? & ? & ? & ?).
    by apply press_keeps.
  - destruct (TaskItem.handleCamera_keeps ok id camera _ Hwf Hok) as (? & ? & ? & ?).
    by apply press_keeps.
  - destruct σ as [h u]. split_and!; [done..| |done|done].
    by eapply Dashboard.step_name_ok.
Qed.

Lemma start_safe db0 : Database.wf db0 → Database.titles_ok db0 → safe db0 (start db0).
Proof.
  intros. split_and!; [done..| |done|done]. by apply Dashboard.mount_name_ok.
Qed.

Lemma safe_invariant db0 :
  Database.wf db0 → Database.titles_ok db0 →
  Machine.invariant (step policy) (λ s, s = start db0) (safe db0).
Proof.
  intros Hwf Hok. split.
  - intros s ->. by apply start_safe.
  - intros s l s' Hs Hstep. by eapply step_safe.
Qed.

End steps.

(** ** Lemmas: a refresh alone *)

Section alone.
Context {text : TextField}.
Implicit Types (s : State) (l : Label) (r : Refresh) (w : UseTasks.State)
  (apiTasks : list RemoteTask.t).

Lemma refresh_alone_run env w :
  refresh_alone env w = (UseTasks.handleRefresh env w).2.
Proof.
  rewrite handleRefresh_run. unfold refresh_alone, resume, Sync.syncTaskFromApi, Sync.body.
  cbn. rewrite prog_bind_unfold.
  pose proof (Sync.readPhase_store (env) (UseTasks.database w)) as Hdb.
  destruct (Sync.readPhase env (UseTasks.database w)) as [[read|e] db]; cbn in *; by subst.
Qed.

(** What the one refresh in flight has read stays true when a row is
    toggled or gets an attachment. *)
(** The read of the local titles sees the titles only. *)
Lemma readPhase_titles env db db' read :
  Database.titles db' = Database.titles db →
  Sync.readPhase env db = (Ok read, db) → Sync.readPhase env db' = (Ok read, db').
Proof.
  unfold Database.titles. intros Ht. rewrite !Sync.readPhase_run.
  unfold Sync.localTodoTexts. rewrite Ht.
  repeat case_match; intros; by simplify_eq.
Qed.

Lemma fresh_titles db db' r :
  Database.titles db' = Database.titles db → fresh db r → fresh db' r.
Proof. unfold fresh. destruct (pc r); [done|]. apply readPhase_titles. Qed.

(** What a tidy source has served to a refresh whose read is fresh. *)
Lemma fresh_tidy db r apiTasks local :
  tidy_env (env r) → fresh db r → pc r = Writing (Some apiTasks, local) →
  tidy apiTasks ∧ local = Sync.localTodoTexts (Database.tasks db).
Proof.
  unfold fresh. intros Henv Hfresh Hpc. rewrite Hpc in Hfresh.
  apply Sync.readPhase_read in Hfresh as (_ & Hlocal & response & data & Hn & Hj & Hl).
  split; [by eapply Henv|done].
Qed.

(** In turn, the refresh that resumes is the only one. *)
Lemma in_turn_lookup s i r :
  in_turn s → inflight s !! i = Some r → i = 0 ∧ inflight s = [r].
Proof.
  intros (Hlen & _) Hi. destruct (inflight s) as [|r0 [|? ?]]; [done| |cbn in Hlen; lia].
  destruct i; [|done]. by injection Hi as ->.
Qed.

Lemma in_turn_idle s : in_turn s → single_flight s = true → inflight s = [].
Proof.
  intros (_ & Hflag & _) Hp%negb_true_iff.
  destruct (inflight s); [done|]. destruct Hflag as [_ Hflag]. by rewrite Hflag in Hp.
Qed.

Lemma press_in_turn s db' :
  Database.titles db' = Database.titles (database s) →
  in_turn s → in_turn (set_database db' s).
Proof.
  intros Ht (? & ? & Hfresh). unfold in_turn, database. cbn. split_and!; [done..|].
  eapply Forall_impl; [done|]. intros r. by apply fresh_titles.
Qed.

Lemma resume_in_turn s r :
  inflight s = [r] → in_turn s → in_turn (resumed 0 r s).
Proof.
  intros Hr (_ & Hflag & _). rewrite Hr in Hflag.
  assert (UseTasks.isSyncing (hook s) = true) as Hon by (by apply Hflag).
  unfold in_turn, resumed, database, resume, fresh. rewrite Hr.
  destruct (pc r) as [|read] eqn:Hr'; cbn; [|by split_and!; [lia|split|]].
  pose proof (Sync.readPhase_store (env r) (UseTasks.database (hook s))) as Hdb.
  destruct (Sync.readPhase _ _) as [[read|e] db] eqn:Hread; cbn in *; subst db.
  - split_and!; [done|done|]. by apply Forall_singleton.
  - by split_and!; [lia|split|].
Qed.

Lemma step_in_turn s l s' :
  Database.wf (database s) → Database.titles_ok (database s) →
  in_turn s → step single_flight s l s' → in_turn s'.
Proof.
  intros Hwf Hok Hs Hstep.
  destruct Hstep as [s env Hp|s i r Hi|s id ok Hd|s id camera ok Hd|s f|s e σ He]; try done.
  - unfold in_turn, pull, database. cbn. rewrite (in_turn_idle s Hs Hp). cbn.
    split_and!; [done|done|]. by apply Forall_singleton.
  - destruct (in_turn_lookup s i r Hs Hi) as [-> Hr]. by apply resume_in_turn.
  - apply press_in_turn; [|done].
    by destruct (Database.perform_keeps ok id Task.ToggleComplete _ Hwf Hok) as (_ & _ & _ & ?).
  - apply press_in_turn; [|done].
    by destruct (TaskItem.handleCamera_keeps ok id camera _ Hwf Hok) as (_ & _ & _ & ?).
Qed.

Lemma start_in_turn db : in_turn (start db).
Proof. split_and!; [cbn; lia|by split|done]. Qed.

(** Under single flight refreshes take turns, in every state that is
    reached. *)
Lemma in_turn_reachable db0 s :
  Database.wf db0 → Database.titles_ok db0 →
  Machine.reachable (step single_flight) (λ s, s = start db0) s →
  safe db0 s ∧ in_turn s.
Proof.
  intros Hwf Hok. apply (invariant_reachable _ _ (λ s, safe db0 s ∧ in_turn s)).
  split; [intros ? ->; split; [by apply start_safe|apply start_in_turn]|].
  intros s1 l s2 [Hsafe ?] ?. split; [by eapply step_safe|].
  destruct Hsafe as (? & ? & _). by eapply step_in_turn.
Qed.

(** The refresh that resumes in its turn, and whether this ends it. *)
Lemma in_turn_resume s i r :
  in_turn s → inflight s !! i = Some r →
  i = 0 ∧ inflight s = [r] ∧ fresh (database s) r ∧
  hook (resumed i r s) = (resume r (hook s)).1 ∧
  inflight (resumed i r s) = option_list (resume r (hook s)).2.
Proof.
  intros Hturn Hi. destruct (in_turn_lookup s i r Hturn Hi) as [-> Hr].
  destruct Hturn as (_ & _ & Hfresh). rewrite Hr in Hfresh.
  apply Forall_cons in Hfresh as [Hfresh _]. split_and!; [done..|].
  unfold resumed. cbn [inflight]. rewrite Hr. by destruct (resume r (hook s)).2.
Qed.

(** A refresh that takes its turn is the service called when it ends:
    the continuation that ends it leaves the hook as [handleRefresh]
    does when it runs without interruption from the state before. *)
Lemma resume_atomic r w :
  fresh (UseTasks.database w) r → (resume r w).2 = None →
  (resume r w).1 = (UseTasks.handleRefresh (env r) w).2.
Proof.
  rewrite handleRefresh_run. unfold fresh, resume, settle, Sync.syncTaskFromApi, Sync.body.
  cbn zeta. rewrite prog_bind_unfold. destruct (pc r) as [|read]; [|by intros ->].
  intros _. pose proof (Sync.readPhase_store (env r) (UseTasks.database w)) as Hdb.
  destruct (Sync.readPhase _ _) as [[read|e] db]; cbn in *; [done|by subst].
Qed.

(** A continuation that does not end its refresh has read, and leaves
    the hook as it was. *)
Lemma resume_continues r w r' :
  (resume r w).2 = Some r' →
  pc r = Reading ∧ (resume r w).1 = w ∧ ∃ read, r' = mkRefresh (env r) (Writing read).
Proof.
  unfold resume. destruct (pc r); [|done].
  destruct (Sync.readPhase _ _) as [[read|e] db]; [|done]. intros [= <-]. eauto.
Qed.

(** The store after the continuation that ends a refresh in its turn. *)
Lemma resume_atomic_store r w :
  fresh (UseTasks.database w) r → (resume r w).2 = None →
  UseTasks.database (resume r w).1 = atomic (Synchronise (env r)) (UseTasks.database w).
Proof. intros Hf Hend. rewrite resume_atomic, handleRefresh_run by done. done. Qed.

(** The write of the one refresh in flight keeps the titles distinct. *)
Lemma write_alone env apiTasks db :
  tidy apiTasks → NoDup (Database.titles db) →
  NoDup (Database.titles
           (Sync.afterRead env (Some apiTasks, Sync.localTodoTexts (Database.tasks db)) db).2).
Proof.
  intros [Htr Hnd] Hdb. rewrite Sync.afterRead_run. cbn zeta.
  repeat case_match; cbn; try done. by apply Sync.append_titles_unique.
Qed.

Lemma press_alone s db' :
  Database.titles db' = Database.titles (database s) →
  alone s → alone (set_database db' s).
Proof.
  intros Ht (? & ? & Hnd). split_and!; [by apply press_in_turn|done|].
  unfold database. cbn. by rewrite Ht.
Qed.

Lemma resume_alone s r :
  inflight s = [r] → alone s → alone (resumed 0 r s).
Proof.
  intros Hr (Hturn & Henv & Hnd). split_and!; [by apply resume_in_turn| |].
  - rewrite Hr in Henv. apply Forall_cons in Henv as [Henv _].
    unfold resumed, resume. rewrite Hr. cbn [inflight].
    destruct (pc r); [destruct (Sync.readPhase _ _) as [[?|?] ?]|]; cbn;
      [by apply Forall_singleton|constructor..].
  - unfold database, resumed. cbn [hook]. rewrite resume_database.
    destruct (pc r) as [|[[apiTasks|] local]] eqn:Hpc; [done| |by rewrite Sync.afterRead_undefined].
    destruct Hturn as (_ & _ & Hfresh). rewrite Hr in Hfresh, Henv.
    apply Forall_cons in Hfresh as [Hfresh _]. apply Forall_cons in Henv as [Henv _].
    destruct (fresh_tidy _ r apiTasks local Henv Hfresh Hpc) as [Hl ->]. by apply write_alone.
Qed.

Lemma step_alone s l s' :
  Database.wf (database s) → Database.titles_ok (database s) →
  alone s → tidy_label l → step single_flight s l s' → alone s'.
Proof.
  intros Hwf Hok Hs Hl Hstep. pose proof Hs as (Hturn & Henv & Hnd).
  pose proof (step_in_turn s l s' Hwf Hok Hturn Hstep) as Hturn'.
  destruct Hstep as [s env Hp|s i r Hi|s id ok Hd|s id camera ok Hd|s f|s e σ He]; try done.
  - split_and!; [done| |done]. cbn. rewrite (in_turn_idle s Hturn Hp). by apply Forall_singleton.
  - destruct (in_turn_lookup s i r Hturn Hi) as [-> Hr]. by apply resume_alone.
  - apply press_alone; [|done].
    by destruct (Database.perform_keeps ok id Task.ToggleComplete _ Hwf Hok) as (_ & _ & _ & ?).
  - apply press_alone; [|done].
    by destruct (TaskItem.handleCamera_keeps ok id camera _ Hwf Hok) as (_ & _ & _ & ?).
Qed.

Lemma start_alone db : NoDup (Database.titles db) → alone (start db).
Proof. intros. split_and!; [apply start_in_turn|done|done]. Qed.

(** Under single flight with a tidy remote source, every state that is
    reached is safe and has its refreshes alone. *)
Lemma alone_reachable db0 s :
  Database.wf db0 → Database.titles_ok db0 → NoDup (Database.titles db0) →
  Machine.reachable (λ s l s', step single_flight s l s' ∧ tidy_label l)
    (λ s, s = start db0) s →
  safe db0 s ∧ alone s.
Proof.
  intros Hwf Hok Hnd. apply (invariant_reachable _ _ (λ s, safe db0 s ∧ alone s)). split.
  - intros ? ->. split; [by apply start_safe|by apply start_alone].
  - intros s1 l s2 [Hsafe Halone] [Hstep Hl]. split; [by eapply step_safe|].
    destruct Hsafe as (? & ? & _). by eapply step_alone.
Qed.

(** A refresh alone, as steps of the machine. *)
Lemma resume_reading e w w' r' :
  resume (mkRefresh e Reading) w = (w', Some r') →
  w' = w ∧ ∃ read, r' = mkRefresh e (Writing read).
Proof.
  unfold resume. cbn. destruct (Sync.readPhase _ _) as [[read|?] ?]; intros; simplify_eq.
  eauto.
Qed.

Lemma refresh_alone_trace policy e s :
  policy s = true → inflight s = [] →
  ∃ ls s', Machine.trace (step policy) s (Pull e :: ls) s' ∧
           Forall (λ l, l = Resume 0) ls ∧
           inflight s' = [] ∧ hook s' = refresh_alone e (hook s) ∧
           filter s' = filter s ∧ header s' = header s ∧ ui s' = ui s.
Proof.
  intros Hp Hnone. unfold refresh_alone. cbn zeta.
  assert (inflight (pull e s) !! 0 = Some (mkRefresh e Reading)) as H0
    by (cbn; by rewrite Hnone).
  pose proof (step_resume policy _ _ _ H0) as Hstep. unfold resumed in Hstep.
  cbn [pull hook inflight filter header ui] in Hstep. rewrite Hnone in Hstep.
  destruct (resume (mkRefresh e Reading) (UseTasks.setIsSyncing true (hook s)).2)
    as [w2 [r'|]] eqn:Hres; cbn [fst snd app insert list_insert delete list_delete] in Hstep.
  - destruct (resume_reading _ _ _ _ Hres) as [-> [read ->]].
    eexists [Resume 0; Resume 0], _. split_and!; [|by repeat constructor|..].
    { econstructor; [by constructor|]. econstructor; [done|].
      econstructor; [by apply (step_resume policy _ 0)|constructor]. }
    all: done.
  - eexists [Resume 0], _. split_and!; [|by repeat constructor|..].
    { econstructor; [by constructor|]. econstructor; [done|constructor]. }
    all: done.
Qed.

(** The first refresh that is served, step by step. *)
Lemma launch_run policy e apiTasks db :
  policy (start db) = true → Sync.served e apiTasks →
  Machine.run (next policy) (launch e) (start db) =
  Some (mk (UseTasks.mk (Sync.append db (Sync.created db apiTasks)) false
              [UseTasks.Service (Sync.SyncComplete (length apiTasks))])
           [] all (Dashboard.mount UiStore.initial) UiStore.initial).
Proof.
  intros Hp Hs. pose proof Hs as (_ & _ & Hw). unfold launch.
  rewrite (run_cons _ _ _ _ (pull e (start db))) by (cbn; by rewrite Hp).
  erewrite run_cons by (by apply (next_resume_read _ _ 0 e apiTasks)).
  erewrite run_cons by (by apply (next_resume_write _ _ 0 e apiTasks)).
  done.
Qed.

(** Two refreshes that have both started and are both served: both
    read, then both write. *)
Lemma overlap_resumes policy e e' apiTasks s :
  inflight s = [mkRefresh e Reading; mkRefresh e' Reading] →
  Sync.served e apiTasks → Sync.served e' apiTasks →
  let T := Sync.created_from (Sync.localTodoTexts (Database.tasks (database s))) in
  let db1 := Sync.append (database s) (T (Database.nextId (database s)) apiTasks) in
  let db2 := Sync.append db1 (T (Database.nextId db1) apiTasks) in
  Machine.run (next policy) [Resume 0; Resume 1; Resume 0; Resume 0] s =
  Some (mk (UseTasks.mk db2 false
              (UseTasks.console (hook s) ++
               [UseTasks.Service (Sync.SyncComplete (length apiTasks))] ++
               [UseTasks.Service (Sync.SyncComplete (length apiTasks))]))
           [] (filter s) (header s) (ui s)).
Proof.
  intros Hin Hs Hs'. pose proof Hs as (_ & _ & Hw). pose proof Hs' as (_ & _ & Hw').
  cbn zeta.
  erewrite run_cons by (apply (next_resume_read _ _ 0 e apiTasks); [by rewrite Hin|done]).
  erewrite run_cons by (apply (next_resume_read _ _ 1 e' apiTasks); [by rewrite Hin|done]).
  erewrite run_cons by (apply (next_resume_write _ _ 0 e apiTasks); [by rewrite Hin|done]).
  erewrite run_cons by (apply (next_resume_write _ _ 0 e' apiTasks); [by rewrite Hin|done]).
  rewrite Hin. unfold database, settle. cbn. by rewrite <-(assoc_L (++)).
Qed.

(** The overlap, step by step. *)
Lemma overlap_run e apiTasks db :
  Sync.served e apiTasks →
  let T := Sync.created_from (Sync.localTodoTexts (Database.tasks db)) in
  let db1 := Sync.append db (T (Database.nextId db) apiTasks) in
  let db2 := Sync.append db1 (T (Database.nextId db1) apiTasks) in
  Machine.run (next unguarded) (overlap e) (start db) =
  Some (mk (UseTasks.mk db2 false
              [UseTasks.Service (Sync.SyncComplete (length apiTasks));
               UseTasks.Service (Sync.SyncComplete (length apiTasks))])
           [] all (Dashboard.mount UiStore.initial) UiStore.initial).
Proof.
  intros Hs. cbn zeta. unfold overlap.
  rewrite (run_cons _ _ _ _ (pull e (start db))) by done.
  rewrite (run_cons _ _ _ _ (pull e (pull e (start db)))) by done.
  by rewrite (overlap_resumes unguarded e e apiTasks).
Qed.

End alone.

(** ** Lemmas: every refresh ends *)

Section progress.
Context {text : TextField} (policy : Policy).
Implicit Types (s : State) (l : Label) (r : Refresh) (w : UseTasks.State).


Lemma pending_nil s : pending s = 0 ↔ inflight s = [].
Proof.
  unfold pending. destruct (inflight s) as [|r rs]; [done|].
  cbn. unfold remaining at 1. split; [destruct (pc r); lia|done].
Qed.

(** A continuation leaves its refresh with fewer [await]s, or ends it. *)
Lemma resume_remaining r w :
  match (resume r w).2 with
  | Some r' => remaining r' < remaining r
  | None => True
  end.
Proof.
  unfold resume, remaining. destruct (pc r) as [|read]; [|done].
  destruct (Sync.readPhase _ _) as [[read|e] db]; cbn; [lia|done].
Qed.

Lemma pending_resumed i r s :
  inflight s !! i = Some r → pending (resumed i r s) < pending s.
Proof.
  intros Hi. unfold pending, resumed. cbn [inflight].
  pose proof (resume_remaining r (hook s)) as Hr.
  destruct (resume r (hook s)).2 as [r'|].
  - pose proof (sum_list_with_insert remaining _ _ _ r' Hi). lia.
  - pose proof (sum_list_with_delete remaining _ _ _ Hi).
    assert (0 < remaining r) by (unfold remaining; destruct (pc r); lia). lia.
Qed.


(** A continuation is offered as long as something is in flight. *)
Lemma resume_offered s :
  inflight s = [] ∨ ∃ l s', is_resume l ∧ step policy s l s'.
Proof.
  destruct (inflight s) as [|r rs] eqn:Hin; [by left|right].
  exists (Resume 0), (resumed 0 r s). split; [done|]. constructor. by rewrite Hin.
Qed.

Lemma idle_flag_invariant db0 :
  Machine.invariant (step policy) (λ s, s = start db0) idle_flag.
Proof.
  split; [by intros ? ->|]. intros s l s' Hidle Hstep.
  destruct Hstep as [s env Hp|s i r Hi|s id ok Hd|s id camera ok Hd|s f|s e σ He]; try done.
  - intros Hnil. by apply app_nil in Hnil as [_ ?].
  - unfold idle_flag, resumed. cbn [inflight hook].
    pose proof (lookup_lt_Some _ _ _ Hi) as Hlt. unfold resume.
    destruct (pc r) as [|read]; [|done].
    destruct (Sync.readPhase _ _) as [[read|e] db]; cbn; [|done].
    intros Hnil. apply (f_equal length) in Hnil. rewrite length_insert in Hnil.
    cbn in Hnil. lia.
Qed.

(** The continuations keep every row of the store. *)
Lemma resumes_extend s ls s' :
  Forall is_resume ls → Machine.trace (step policy) s ls s' →
  Database.extended_by (database s) (database s').
Proof.
  intros Hls Ht. induction Ht as [|s l s1 ls s2 Hstep _ IH]; [done|].
  apply Forall_cons in Hls as [Hl Hls]. etrans; [|by apply IH].
  destruct Hstep; try done. unfold database, resumed. cbn [hook].
  rewrite resume_database. destruct (pc r); [done|apply Sync.afterRead_extends].
Qed.

(** [settle_all] follows the steps of the machine, and with fuel for
    every [await] in flight it ends with nothing in flight. *)
Lemma settle_all_trace fuel s :
  ∃ ls, Forall is_resume ls ∧ length ls ≤ fuel ∧
        Machine.trace (step policy) s ls (settle_all policy fuel s).
Proof.
  revert s. induction fuel as [|fuel IH]; intros s; cbn [settle_all].
  { exists []. split_and!; [done..|constructor]. }
  destruct (next policy (Resume 0) s) as [s1|] eqn:Hnext.
  - destruct (IH s1) as (ls & Hls & Hlen & Ht). exists (Resume 0 :: ls).
    split_and!; [by constructor|cbn; lia|]. econstructor; [by apply step_next|done].
  - exists []. split_and!; [done|cbn; lia|constructor].
Qed.

Lemma settle_all_inflight fuel s :
  pending s ≤ fuel → inflight (settle_all policy fuel s) = [].
Proof.
  revert s. induction fuel as [|fuel IH]; intros s Hfuel; cbn [settle_all].
  { apply pending_nil. lia. }
  destruct (inflight s) as [|r rs] eqn:Hin; cbn [next]; rewrite Hin; [done|]. cbn.
  apply IH. assert (inflight s !! 0 = Some r) as Hi by by rewrite Hin.
  pose proof (pending_resumed 0 r s Hi). lia.
Qed.

End progress.

End App.

(** ** The application *)

Section application.
Context {text : TextField}.
Implicit Types (s : App.State) (db : Database.t) (env : Sync.Env).

(** C5: safety of the whole application, under any interleaving.  From a
    store that satisfies its invariants, whatever the user does and in
    whatever order the parts of overlapping refreshes run, with any
    network and any storage faults: ids stay unique, every stored title
    stays trimmed and non-empty, the saved user name stays trimmed and
    is not empty outside edit mode, and the rows that were there at the
    start keep their ids, their titles and their places. *)
Theorem reachable_safe (policy : App.Policy) db0 s :
  Database.wf db0 → Database.titles_ok db0 →
  Machine.reachable (App.step policy) (λ s, s = App.start db0) s →
  Database.wf (App.database s) ∧ Database.titles_ok (App.database s) ∧
  Dashboard.name_ok (App.header s, App.ui s) ∧
  Database.ids db0 `prefix_of` Database.ids (App.database s) ∧
  Database.titles db0 `prefix_of` Database.titles (App.database s).
Proof.
  intros Hwf Hok. apply (invariant_reachable _ _ (App.safe db0)).
  by apply App.safe_invariant.
Qed.

(** C8: [handleRefresh] does not test [isSyncing], so two refreshes can
    overlap, and then the service duplicates: when both have read the
    local titles before either writes, each creates every new remote
    item.  Started on any store with any served payload, that schedule
    ends with each created title stored twice, even on a payload of
    trimmed and pairwise distinct titles. *)
Theorem overlapping_refreshes_duplicate env (apiTasks : list RemoteTask.t) db :
  Sync.served env apiTasks →
  ∃ s, Machine.trace (App.step App.unguarded) (App.start db) (App.overlap env) s ∧
       App.inflight s = [] ∧
       Database.titles (App.database s) =
       Database.titles db ++
       ((trim ∘ RemoteTask.todo) <$>
          filter (Sync.fresh_title (Sync.localTodoTexts (Database.tasks db))) apiTasks) ++
       ((trim ∘ RemoteTask.todo) <$>
          filter (Sync.fresh_title (Sync.localTodoTexts (Database.tasks db))) apiTasks).
Proof.
  intros Hs. eexists. split_and!.
  - apply (run_trace _ _ (App.step_next App.unguarded)). by apply App.overlap_run.
  - done.
  - unfold App.database, Database.titles. cbn.
    by rewrite !fmap_app, !Sync.created_from_titles, <-(assoc_L (++)).
Qed.

(** C14: the discipline that the specification asks of the caller, with
    the flag of the hook as the guard.  If a refresh starts only while
    [isSyncing] is false and the remote source serves payloads of
    trimmed, pairwise distinct titles, then at most one refresh is in
    flight, the flag is set exactly while one is, and the stored titles
    stay pairwise distinct, whatever else happens in between. *)
Theorem single_flight_unique_titles db0 s :
  Database.wf db0 → Database.titles_ok db0 → NoDup (Database.titles db0) →
  Machine.reachable (λ s l s', App.step App.single_flight s l s' ∧ App.tidy_label l)
    (λ s, s = App.start db0) s →
  NoDup (Database.titles (App.database s)) ∧
  length (App.inflight s) ≤ 1 ∧
  (UseTasks.isSyncing (App.hook s) = true ↔ App.inflight s ≠ []).
Proof.
  intros Hwf Hok Hnd Hreach.
  by destruct (App.alone_reachable db0 s Hwf Hok Hnd Hreach) as [_ ((? & ? & _) & _ & ?)].
Qed.

(** the machine and the hook agree on a refresh that runs alone: from
    a state with nothing in flight, the steps of one refresh, with no
    other event in between, end in the state that [handleRefresh] of
    useTasks.ts computes, with nothing in flight. *)
Theorem refresh_alone_refines (policy : App.Policy) env s :
  policy s = true → App.inflight s = [] →
  ∃ ls s', Machine.trace (App.step policy) s (App.Pull env :: ls) s' ∧
           Forall (λ l, l = App.Resume 0) ls ∧
           App.inflight s' = [] ∧
           App.hook s' = (UseTasks.handleRefresh env (App.hook s)).2.
Proof.
  intros Hp Hnone. rewrite <-App.refresh_alone_run.
  destruct (App.refresh_alone_trace policy env s Hp Hnone) as (ls & s' & ? & ? & ? & ? & _).
  by exists ls, s'.
Qed.

(** C17: under single flight a refresh is atomic.  If a refresh starts
    only while [isSyncing] is false, then in every state that the
    application reaches, whatever the network serves and whatever
    fails, the refresh that resumes is the only one in flight, and the
    continuation that ends it leaves the store, the flag and the console
    exactly as [handleRefresh] of useTasks.ts leaves them when it runs
    without interruption from the state before that continuation: what
    the refresh read earlier is what it would read now.  A continuation
    that does not end it has only read. *)
Theorem single_flight_atomic db0 s i s' :
  Database.wf db0 → Database.titles_ok db0 →
  Machine.reachable (App.step App.single_flight) (λ s, s = App.start db0) s →
  App.step App.single_flight s (App.Resume i) s' →
  ∃ r, App.inflight s = [r] ∧ i = 0 ∧
    ((App.inflight s' = [] ∧
      App.hook s' = (UseTasks.handleRefresh (App.env r) (App.hook s)).2) ∨
     (App.pc r = App.Reading ∧ App.hook s' = App.hook s ∧
      ∃ read, App.inflight s' = [App.mkRefresh (App.env r) (App.Writing read)])).
Proof.
  intros Hwf Hok Hreach Hstep.
  destruct (App.in_turn_reachable db0 s Hwf Hok Hreach) as [_ Hturn].
  inversion Hstep as [|? ? r Hi| | | |]; subst.
  destruct (App.in_turn_resume s i r Hturn Hi) as (-> & Hr & Hfresh & -> & ->).
  exists r. split_and!; [done..|].
  destruct (App.resume r (App.hook s)).2 as [r'|] eqn:Hend.
  - right. apply App.resume_continues in Hend as (? & ? & read & ->). eauto.
  - left. split; [done|]. by apply App.resume_atomic.
Qed.

(** Under single flight every store that the application reaches is the
    result of operations that did not overlap: calls of the service
    from start to end, toggles and captures, one after the other. *)
Theorem single_flight_serial db0 s :
  Database.wf db0 → Database.titles_ok db0 →
  Machine.reachable (App.step App.single_flight) (λ s, s = App.start db0) s →
  ∃ ops, App.database s = foldl (λ db op, App.atomic op db) db0 ops.
Proof.
  intros Hwf Hok Hreach.
  induction Hreach as [s ->|s l s' Hreach [ops Hops] Hstep]; [by exists []|].
  destruct (App.in_turn_reachable db0 s Hwf Hok Hreach) as [_ Hturn].
  destruct Hstep as [s env Hp|s i r Hi|s id ok Hd|s id camera ok Hd|s f|s e σ He];
    try by exists ops.
  - destruct (App.in_turn_resume s i r Hturn Hi) as (-> & Hr & Hfresh & Hhook & _).
    unfold App.database. rewrite Hhook.
    destruct (App.resume r (App.hook s)).2 as [r'|] eqn:Hend.
    + apply App.resume_continues in Hend as (_ & -> & _). by exists ops.
    + exists (ops ++ [App.Synchronise (App.env r)]).
      by rewrite foldl_snoc, <-Hops, App.resume_atomic_store.
  - exists (ops ++ [App.Toggle id ok]). by rewrite foldl_snoc, <-Hops.
  - exists (ops ++ [App.Capture id camera ok]). by rewrite foldl_snoc, <-Hops.
Qed.


(** C28: every refresh that was started settles.  In every state that the
    application can reach, the event loop left to itself ([settle_all]
    with fuel for the pending [await]s) resumes the refreshes in flight
    until nothing is in flight and the loading indicator is off, losing
    no row of the store; and in whatever order the continuations run,
    once none is offered any more, nothing is in flight and the indicator
    is off. *)
Theorem refreshes_settle (policy : App.Policy) db0 s :
  Machine.reachable (App.step policy) (λ s, s = App.start db0) s →
  let s' := App.settle_all policy (App.pending s) s in
  (∃ ls, Forall App.is_resume ls ∧ length ls ≤ App.pending s ∧
         Machine.trace (App.step policy) s ls s') ∧
  App.quiescent s' ∧
  Database.extended_by (App.database s) (App.database s') ∧
  ∀ ls s'', Forall App.is_resume ls → Machine.trace (App.step policy) s ls s'' →
            (∀ i, App.next policy (App.Resume i) s'' = None) → App.quiescent s''.
Proof.
  intros Hreach. cbn zeta.
  pose proof (App.idle_flag_invariant policy db0) as Hinv.
  destruct (App.settle_all_trace policy (App.pending s) s) as (ls & Hls & Hlen & Ht).
  split_and!; [by exists ls| |by eapply App.resumes_extend|].
  - pose proof (App.settle_all_inflight policy _ s (le_n _)) as Hnil. split; [done|].
    by apply (invariant_reachable _ _ _ _ Hinv (trace_reachable _ _ _ _ _ Hreach Ht)).
  - intros ls' s'' Hls' Ht' Hnone.
    assert (App.inflight s'' = []) as Hnil.
    { destruct (App.resume_offered policy s'') as [?|(l & s3 & Hl & Hstep)]; [done|].
      destruct l as [|i| | | |]; try done. apply App.step_next in Hstep.
      by rewrite Hnone in Hstep. }
    split; [done|].
    by apply (invariant_reachable _ _ _ _ Hinv (trace_reachable _ _ _ _ _ Hreach Ht')).
Qed.

End application.

(** ** Witnesses and examples *)

Lemma reachable_safe_witness :
  let s := App.pull (Sync.healthy Sync.payload) (App.start Sync.call_mom) in
  Database.wf (App.database s) ∧ Database.titles_ok (App.database s) ∧
  Dashboard.name_ok (App.header s, App.ui s) ∧
  Database.ids Sync.call_mom `prefix_of` Database.ids (App.database s) ∧
  Database.titles Sync.call_mom `prefix_of` Database.titles (App.database s).
Proof.
  apply (reachable_safe App.unguarded Sync.call_mom); [by_compute|by_compute|].
  eapply reachable_step; [by apply reachable_initial|]. by apply App.step_pull.
Defined.

Lemma overlapping_refreshes_duplicate_witness :
  ∃ s, Machine.trace (App.step App.unguarded) (App.start Database.empty)
         (App.overlap (Sync.healthy Sync.trimmed_payload)) s ∧
       App.inflight s = [] ∧
       Database.titles (App.database s) =
       Database.titles Database.empty ++
       ((trim ∘ RemoteTask.todo) <$>
          filter (Sync.fresh_title (Sync.localTodoTexts (Database.tasks Database.empty)))
            Sync.trimmed_payload) ++
       ((trim ∘ RemoteTask.todo) <$>
          filter (Sync.fresh_title (Sync.localTodoTexts (Database.tasks Database.empty)))
            Sync.trimmed_payload).
Proof. apply overlapping_refreshes_duplicate. apply Sync.healthy_served. Defined.

Lemma single_flight_unique_titles_witness :
  let s := App.pull (Sync.healthy Sync.trimmed_payload) (App.start Sync.call_mom) in
  NoDup (Database.titles (App.database s)) ∧
  length (App.inflight s) ≤ 1 ∧
  (UseTasks.isSyncing (App.hook s) = true ↔ App.inflight s ≠ []).
Proof.
  apply (single_flight_unique_titles Sync.call_mom); [by_compute|by_compute|by_compute|].
  eapply reachable_step; [by apply reachable_initial|]. split; [by apply App.step_pull|].
  intros response data l [= <-] [= <-] [= <-]. split; by_compute.
Defined.

Lemma refresh_alone_refines_witness :
  ∃ ls s', Machine.trace (App.step App.unguarded) (App.start Sync.call_mom)
             (App.Pull (Sync.healthy Sync.payload) :: ls) s' ∧
           Forall (λ l, l = App.Resume 0) ls ∧
           App.inflight s' = [] ∧
           App.hook s' =
           (UseTasks.handleRefresh (Sync.healthy Sync.payload) (App.hook (App.start Sync.call_mom))).2.
Proof. by apply refresh_alone_refines. Defined.

Lemma single_flight_atomic_witness :
  let s := App.pull (Sync.healthy Sync.payload) (App.start Sync.call_mom) in
  let s' := App.resumed 0 (App.mkRefresh (Sync.healthy Sync.payload) App.Reading) s in
  ∃ r, App.inflight s = [r] ∧ 0 = 0 ∧
    ((App.inflight s' = [] ∧
      App.hook s' = (UseTasks.handleRefresh (App.env r) (App.hook s)).2) ∨
     (App.pc r = App.Reading ∧ App.hook s' = App.hook s ∧
      ∃ read, App.inflight s' = [App.mkRefresh (App.env r) (App.Writing read)])).
Proof.
  apply (single_flight_atomic Sync.call_mom); [by_compute|by_compute| |by constructor].
  eapply reachable_step; [by apply reachable_initial|]. by apply App.step_pull.
Defined.


Lemma refreshes_settle_witness :
  let s := App.pull (Sync.healthy Sync.payload) (App.start Sync.call_mom) in
  let s' := App.settle_all App.unguarded (App.pending s) s in
  (∃ ls, Forall App.is_resume ls ∧ length ls ≤ App.pending s ∧
         Machine.trace (App.step App.unguarded) s ls s') ∧
  App.quiescent s' ∧
  Database.extended_by (App.database s) (App.database s') ∧
  ∀ ls s'', Forall App.is_resume ls → Machine.trace (App.step App.unguarded) s ls s'' →
            (∀ i, App.next App.unguarded (App.Resume i) s'' = None) → App.quiescent s''.
Proof.
  apply (refreshes_settle App.unguarded Sync.call_mom).
  eapply reachable_step; [by apply reachable_initial|]. by apply App.step_pull.
Defined.

(** A refresh that meets an offline network ends at its first
    continuation; one that is served takes two. *)
Example settle_all_two_refreshes :
  let s := App.pull (Sync.healthy Sync.trimmed_payload)
             (App.pull (Sync.mkEnv Fetch.offline true true) (App.start Database.empty)) in
  App.pending s = 4 ∧
  (λ s', (length (App.inflight s'), UseTasks.isSyncing (App.hook s'),
          Database.titles (App.database s'))) (App.settle_all App.unguarded 3 s)
  = (0, false, [js "Call mom"; js "Buy milk"; js "Water plants"]).
Proof. by vm_compute. Qed.

(** Two overlapping refreshes of a fresh install, with a payload of
    three distinct trimmed titles: six rows. *)
Example overlap_on_fresh_install :
  (λ s, Database.titles (App.database s)) <$>
    Machine.run (App.next App.unguarded) (App.overlap (Sync.healthy Sync.trimmed_payload))
      (App.start Database.empty)
  = Some [js "Call mom"; js "Buy milk"; js "Water plants";
          js "Call mom"; js "Buy milk"; js "Water plants"].
Proof. by vm_compute. Qed.

(** The same two refreshes one after the other: three rows. *)
Example refreshes_in_turn :
  (λ s, Database.titles (App.database s)) <$>
    Machine.run (App.next App.single_flight)
      [ App.Pull (Sync.healthy Sync.trimmed_payload); App.Resume 0; App.Resume 0;
        App.Pull (Sync.healthy Sync.trimmed_payload); App.Resume 0; App.Resume 0 ]
      (App.start Database.empty)
  = Some [js "Call mom"; js "Buy milk"; js "Water plants"].
Proof. by vm_compute. Qed.

(** The guard refuses the second refresh while the first is in flight. *)
Example guard_refuses_overlap :
  Machine.run (App.next App.single_flight) (App.overlap (Sync.healthy Sync.trimmed_payload))
    (App.start Database.empty) = None.
Proof. reflexivity. Qed.

(** While the second of two overlapping refreshes still waits for its
    write, the first has cleared the flag: the spinner is off with a
    refresh in flight. *)
Example flag_cleared_in_flight :
  (λ s, (UseTasks.isSyncing (App.hook s), length (App.inflight s))) <$>
    Machine.run (App.next App.unguarded)
      (take 5 (App.overlap (Sync.healthy Sync.trimmed_payload))) (App.start Database.empty)
  = Some (false, 1).
Proof. by vm_compute. Qed.
