(* ===== verification/DynApp.v ===== *)
(** * DynApp: the application on the bodies as they arrive

    [App] runs the refreshes of src/src/hooks/useTasks.ts with the typed
    service of [Sync]: a refresh in flight holds a payload of the
    interface [RemoteTask].  The program holds what [data.todos] was,
    any value, and filters it when the write starts.  [DynApp] is the
    machine of [App] with the service of [Payload]: the same events,
    the same hook, and refreshes that wait with the value they have
    read.

    [DynApp.typed] reads a state as a state of [App]: each refresh in
    flight with its environment and its payload read as the interface.
    Every event of [DynApp] is then the event of [App] between the
    states read that way, so that what [App] proves of the states that
    it reaches holds of the application whatever the server sends. *)

From S2P Require Import Prelude Machine JsString Json Task Schema Database Fetch Sync Payload.
From S2P Require Import UiStore Hooks TaskItem FilterTabs Dashboard App.

Module DynApp.

(** ** Definitions *)

(** Where a refresh in flight waits: [Writing] with [data.todos] as it
    is and the local titles. *)
Inductive Pc : Type :=
| Reading
| Writing (read : Js.Value * gset jsstring).

Record Refresh : Type := mkRefresh {
  env : Dyn.Env;
  pc : Pc;
}.

Record State : Type := mk {
  hook : UseTasks.State;
  inflight : list Refresh;
  filter : FilterType;
  header : Dashboard.State;
  ui : UiStore.UiState;
}.

Definition database (s : State) : Database.t := UseTasks.database (hook s).

Definition start (db : Database.t) : State :=
  mk (UseTasks.initial db) [] all (Dashboard.mount UiStore.initial) UiStore.initial.

(** A refresh resumes from where it waits and runs to its next [await]
    or to its end. *)
Definition resume `{TextField, FlagField} (r : Refresh) (w : UseTasks.State)
  : UseTasks.State * option Refresh :=
  match pc r with
  | Reading =>
      match Dyn.readPhase (env r) (UseTasks.database w) with
      | (Ok read, _) => (w, Some (mkRefresh (env r) (Writing read)))
      | (Err e, db) => (App.settle (Sync.settled (Err e, db)) w, None)
      end
  | Writing read =>
      (App.settle (Sync.settled (Dyn.afterRead (env r) read (UseTasks.database w))) w, None)
  end.

Definition pull (env : Dyn.Env) (s : State) : State :=
  mk (UseTasks.setIsSyncing true (hook s)).2 (inflight s ++ [mkRefresh env Reading])
     (filter s) (header s) (ui s).

Definition resumed `{TextField, FlagField} (i : nat) (r : Refresh) (s : State) : State :=
  mk (resume r (hook s)).1
     (match (resume r (hook s)).2 with
      | Some r' => <[i := r']> (inflight s)
      | None => delete i (inflight s)
      end)
     (filter s) (header s) (ui s).

Definition set_database (db : Database.t) (s : State) : State :=
  mk (UseTasks.mk db (UseTasks.isSyncing (hook s)) (UseTasks.console (hook s)))
     (inflight s) (filter s) (header s) (ui s).

Definition set_filter (f : FilterType) (s : State) : State :=
  mk (hook s) (inflight s) f (header s) (ui s).

Definition set_header (σ : Dashboard.State * UiStore.UiState) (s : State) : State :=
  mk (hook s) (inflight s) (filter s) σ.1 σ.2.

Definition displayed (id : N) (s : State) : Prop :=
  id ∈ Task.id <$> Dashboard.tasks (filter s) (database s).

#[global] Instance displayed_dec id s : Decision (displayed id s).
Proof. unfold displayed. apply _. Defined.

(** The events of [App], a refresh meeting a network of any bodies. *)
Inductive Label : Type :=
| Pull (env : Dyn.Env)
| Resume (i : nat)
| PressCheck (id : N) (ok : bool)
| PressCamera (id : N) (camera : result TaskItem.ImagePickerResponse) (ok : bool)
| SetFilter (f : FilterType)
| Header (e : Dashboard.Event).

Definition Policy : Type := State → bool.

(** The code: a refresh starts whenever [handleRefresh] is called. *)
Definition unguarded : Policy := λ _, true.

(** Not while [isSyncing]. *)
Definition single_flight : Policy := λ s, negb (UseTasks.isSyncing (hook s)).

(** The state after an event, if the event is offered. *)
Definition next `{TextField, FlagField} (policy : Policy) (l : Label) (s : State) : option State :=
  match l with
  | Pull env => if policy s then Some (pull env s) else None
  | Resume i => r ← inflight s !! i; Some (resumed i r s)
  | PressCheck id ok =>
      if decide (displayed id s)
      then Some (set_database (TaskItem.onPress ok id (database s)).2 s) else None
  | PressCamera id camera ok =>
      if decide (displayed id s)
      then Some (set_database (TaskItem.handleCamera ok id camera (database s)).2 s) else None
  | SetFilter f => Some (set_filter f s)
  | Header e => σ ← Dashboard.handle e (header s, ui s); Some (set_header σ s)
  end.

Definition step `{TextField, FlagField} (policy : Policy) (s : State) (l : Label) (s' : State)
  : Prop :=
  next policy l s = Some s'.

(** ** A state read as a state of [App] *)

Definition typed_pc `{FlagField} (p : Pc) : App.Pc :=
  match p with
  | Reading => App.Reading
  | Writing read => App.Writing (Dyn.typed_todos read.1, read.2)
  end.

Definition typed_refresh `{FlagField} (r : Refresh) : App.Refresh :=
  App.mkRefresh (Dyn.typed (env r)) (typed_pc (pc r)).

Definition typed `{FlagField} (s : State) : App.State :=
  App.mk (hook s) (typed_refresh <$> inflight s) (filter s) (header s) (ui s).

Definition typed_label `{FlagField} (l : Label) : App.Label :=
  match l with
  | Pull env => App.Pull (Dyn.typed env)
  | Resume i => App.Resume i
  | PressCheck id ok => App.PressCheck id ok
  | PressCamera id camera ok => App.PressCamera id camera ok
  | SetFilter f => App.SetFilter f
  | Header e => App.Header e
  end.

(** A policy of [App] that decides as the policy does. *)
Definition agree `{FlagField} (policy : Policy) (policy' : App.Policy) : Prop :=
  ∀ s, policy s = policy' (typed s).

(** A remote source whose bodies, read as the interface, have trimmed
    titles of which the non-blank ones are pairwise distinct. *)
Definition tidy_env `{FlagField} (env : Dyn.Env) : Prop := App.tidy_env (Dyn.typed env).

Definition tidy_label `{FlagField} (l : Label) : Prop :=
  match l with Pull env => tidy_env env | _ => True end.

(** The refresh that the effect of the dashboard starts when it mounts,
    with nothing in between. *)
Definition launch (env : Dyn.Env) : list Label := [Pull env; Resume 0; Resume 0].

(** Two refreshes that overlap: both start, both read, both write. *)
Definition overlap (env : Dyn.Env) : list Label :=
  [Pull env; Pull env; Resume 0; Resume 1; Resume 0; Resume 0].

(** ** Lemmas *)

Section lemmas.
Context `{TextField, FlagField}.
Implicit Types (s : State) (l : Label) (r : Refresh) (w : UseTasks.State).

Lemma agree_unguarded : agree unguarded App.unguarded.
Proof. done. Qed.

Lemma agree_single_flight : agree single_flight App.single_flight.
Proof. done. Qed.

Lemma typed_start db : typed (start db) = App.start db.
Proof. done. Qed.

(** A continuation of a refresh is the continuation of the refresh
    read as the interface. *)
Lemma resume_typed r w :
  (resume r w).1 = (App.resume (typed_refresh r) w).1 ∧
  typed_refresh <$> (resume r w).2 = (App.resume (typed_refresh r) w).2.
Proof.
  destruct r as [e [|[apiTasks local]]]; unfold resume, App.resume; cbn.
  - rewrite Dyn.readPhase_typed. by destruct (Dyn.readPhase _ _) as [[[apiTasks local]|?] ?].
  - by rewrite Dyn.afterRead_typed.
Qed.

Lemma resumed_typed i r s :
  typed (resumed i r s) = App.resumed i (typed_refresh r) (typed s).
Proof.
  destruct (resume_typed r (hook s)) as [Hw Hr]. unfold resumed, App.resumed, typed. cbn.
  rewrite <-Hw, <-Hr. f_equal.
  destruct (resume r (hook s)).2 as [r'|]; cbn; [apply list_fmap_insert|apply list_fmap_delete].
Qed.

(** Every event is the event of [App] on the state read as a state of
    [App]: it is offered there exactly when it is offered here, and
    leads to the state read that way. *)
Lemma next_typed policy policy' l s :
  agree policy policy' →
  typed <$> next policy l s = App.next policy' (typed_label l) (typed s).
Proof.
  intros Hp. destruct l as [e|i|id ok|id camera ok|f|e]; cbn [next App.next typed_label].
  - rewrite <-Hp. destruct (policy s); [|done]. cbn. unfold typed, pull, App.pull. cbn.
    by rewrite fmap_app.
  - cbn [typed App.inflight]. rewrite list_lookup_fmap.
    destruct (inflight s !! i) as [r|]; [|done]. cbn. by rewrite resumed_typed.
  - change (App.displayed id (typed s)) with (displayed id s).
    by destruct (decide (displayed id s)).
  - change (App.displayed id (typed s)) with (displayed id s).
    by destruct (decide (displayed id s)).
  - done.
  - cbn [typed App.header App.ui]. by destruct (Dashboard.handle _ _).
Qed.

Lemma runs_typed policy policy' ls s :
  agree policy policy' →
  typed <$> Machine.run (next policy) ls s =
  Machine.run (App.next policy') (typed_label <$> ls) (typed s).
Proof.
  intros Hp. revert s. induction ls as [|l ls IH]; intros s; [done|]. cbn.
  rewrite <-(next_typed policy policy') by done.
  destruct (next policy l s) as [s1|]; [apply IH|done].
Qed.

(** [App] simulates the application, step by step. *)
Lemma typed_simulation policy policy' db :
  agree policy policy' →
  Machine.simulation (step policy) (λ s, s = start db)
    (App.step policy') (λ a, a = App.start db) typed (λ _, True).
Proof.
  intros Hp. split.
  - intros s ->. split; [done|]. by apply Machine.reachable_initial.
  - intros s l s' _ Hstep. split; [done|]. exists [typed_label l].
    apply (run_trace _ _ (App.step_next policy')). cbn.
    rewrite <-(next_typed policy policy') by done. unfold step in Hstep. by rewrite Hstep.
Qed.

Lemma typed_reachable policy policy' db s :
  agree policy policy' →
  Machine.reachable (step policy) (λ s, s = start db) s →
  Machine.reachable (App.step policy') (λ a, a = App.start db) (typed s).
Proof.
  intros Hp Hs.
  by destruct (simulation_reachable _ _ _ _ _ _ _ (typed_simulation policy policy' db Hp) Hs).
Qed.

(** A step under a policy is a step of the code, which has none. *)
Lemma step_any_policy policy s l s' : step policy s l s' → step unguarded s l s'.
Proof.
  unfold step. destruct l; cbn [next]; [|done..]. by destruct (policy s).
Qed.

(** A step is a step of [App] between the states read as states of
    [App]. *)
Lemma step_typed policy policy' s l s' :
  agree policy policy' → step policy s l s' →
  App.step policy' (typed s) (typed_label l) (typed s').
Proof.
  intros Hp Hstep. apply App.step_next.
  rewrite <-(next_typed policy policy') by done. unfold step in Hstep. by rewrite Hstep.
Qed.

(** The states that are safe as states of [App] are an invariant. *)
Lemma typed_safe_invariant policy db0 :
  Database.wf db0 → Database.titles_ok db0 →
  Machine.invariant (step policy) (λ s, s = start db0) (λ s, App.safe db0 (typed s)).
Proof.
  intros Hwf Hok. split.
  - intros s ->. by apply App.start_safe.
  - intros s l s' Hs Hstep%step_any_policy.
    eapply App.step_safe; [exact Hs|]. by apply (step_typed unguarded App.unguarded).
Qed.

(** [App] under single flight with a tidy source simulates the
    application under single flight with a tidy source. *)
Lemma tidy_simulation db :
  Machine.simulation
    (λ s l s', step single_flight s l s' ∧ tidy_label l) (λ s, s = start db)
    (λ a e a', App.step App.single_flight a e a' ∧ App.tidy_label e) (λ a, a = App.start db)
    typed (λ _, True).
Proof.
  split.
  - intros s ->. split; [done|]. by apply Machine.reachable_initial.
  - intros s l s' _ [Hstep Hl]. split; [done|]. exists [typed_label l].
    econstructor; [|constructor]. split; [by apply (step_typed single_flight)|].
    by destruct l.
Qed.

End lemmas.

End DynApp.

(** ** The application on unchecked bodies *)

Section unchecked.
Context `{TextField, FlagField}.
Implicit Types (s : DynApp.State) (db : Database.t).

(** C6: the machine of [App] is the application on unchecked bodies.
    For a policy of [App] that decides as the policy does, every
    sequence of events (refreshes that meet any network and any body,
    their continuations in any order, presses, captures, filter changes,
    events of the header) is offered to the application exactly when
    the same sequence, with every body read as the interface, is
    offered to [App], and leads to the state that [App] reaches, read
    the same way: same store, same flag, same console, same header, and
    the refreshes in flight with their payloads read as the
    interface. *)
Theorem unchecked_refines (policy : DynApp.Policy) (policy' : App.Policy) ls s :
  DynApp.agree policy policy' →
  DynApp.typed <$> Machine.run (DynApp.next policy) ls s =
  Machine.run (App.next policy') (DynApp.typed_label <$> ls) (DynApp.typed s).
Proof. apply DynApp.runs_typed. Qed.

(** C7: safety of the application whatever the server sends.  From a
    store that satisfies its invariants, under any interleaving of
    events and continuations of overlapping refreshes, with any storage
    faults and with bodies that are any values (not objects, without
    [todos], with items of any shape): ids stay unique, every stored
    title stays trimmed and non-empty, the saved user name stays
    trimmed, and the rows that were there at the start keep their ids,
    their titles and their places. *)
Theorem unchecked_safe (policy : DynApp.Policy) db0 s :
  Database.wf db0 → Database.titles_ok db0 →
  Machine.reachable (DynApp.step policy) (λ s, s = DynApp.start db0) s →
  Database.wf (DynApp.database s) ∧ Database.titles_ok (DynApp.database s) ∧
  Dashboard.name_ok (DynApp.header s, DynApp.ui s) ∧
  Database.ids db0 `prefix_of` Database.ids (DynApp.database s) ∧
  Database.titles db0 `prefix_of` Database.titles (DynApp.database s).
Proof.
  intros Hwf Hok.
  apply (invariant_reachable _ _ (λ s, App.safe db0 (DynApp.typed s))).
  by apply DynApp.typed_safe_invariant.
Qed.

(** Single flight on unchecked bodies: if a refresh starts only while
    [isSyncing] is false and the bodies, read as the interface, have
    trimmed titles of which the non-blank ones are pairwise distinct,
    then at most one refresh is in flight, the flag is set exactly
    while one is, and the stored titles stay pairwise distinct. *)
Theorem unchecked_single_flight db0 s :
  Database.wf db0 → Database.titles_ok db0 → NoDup (Database.titles db0) →
  Machine.reachable (λ s l s', DynApp.step DynApp.single_flight s l s' ∧ DynApp.tidy_label l)
    (λ s, s = DynApp.start db0) s →
  NoDup (Database.titles (DynApp.database s)) ∧
  length (DynApp.inflight s) ≤ 1 ∧
  (UseTasks.isSyncing (DynApp.hook s) = true ↔ DynApp.inflight s ≠ []).
Proof.
  intros Hwf Hok Hnd Hs.
  destruct (simulation_reachable _ _ _ _ _ _ _ (DynApp.tidy_simulation db0) Hs) as [_ Ha].
  destruct (App.alone_reachable db0 _ Hwf Hok Hnd Ha) as [_ ((Hlen & Hflag & _) & _ & Hnd')].
  cbn in Hlen, Hflag. rewrite length_fmap in Hlen. split_and!; [done..|].
  rewrite Hflag. split; intros Hne Hnil; apply Hne; [by rewrite Hnil|by eapply fmap_nil_inv].
Qed.

End unchecked.

(** ** Witnesses and scenarios *)

Lemma unchecked_refines_witness :
  DynApp.typed <$> Machine.run (DynApp.next DynApp.unguarded)
                     (DynApp.overlap (Dyn.healthy Dyn.mixed)) (DynApp.start Sync.call_mom) =
  Machine.run (App.next App.unguarded)
    (DynApp.typed_label <$> DynApp.overlap (Dyn.healthy Dyn.mixed))
    (DynApp.typed (DynApp.start Sync.call_mom)).
Proof. apply unchecked_refines. exact DynApp.agree_unguarded. Defined.

Lemma unchecked_safe_witness :
  let s := DynApp.pull (Dyn.healthy Dyn.poisoned) (DynApp.start Sync.call_mom) in
  Database.wf (DynApp.database s) ∧ Database.titles_ok (DynApp.database s) ∧
  Dashboard.name_ok (DynApp.header s, DynApp.ui s) ∧
  Database.ids Sync.call_mom `prefix_of` Database.ids (DynApp.database s) ∧
  Database.titles Sync.call_mom `prefix_of` Database.titles (DynApp.database s).
Proof.
  apply (unchecked_safe DynApp.unguarded Sync.call_mom); [by_compute|by_compute|].
  by eapply (reachable_step _ (DynApp.Pull (Dyn.healthy Dyn.poisoned)));
    [apply reachable_initial|].
Defined.

(** Two overlapping refreshes on [Dyn.mixed]: both read before either
    writes, and the two titles that the body adds are stored twice. *)
Example overlap_on_mixed :
  (Database.titles ∘ DynApp.database) <$>
    Machine.run (DynApp.next DynApp.unguarded) (DynApp.overlap (Dyn.healthy Dyn.mixed))
      (DynApp.start Sync.call_mom) =
  Some [js "Call mom"; js "Buy milk"; js "Water plants"; js "Buy milk"; js "Water plants"].
Proof. by vm_compute. Qed.

(** A launch that meets [Dyn.poisoned]: the refresh ends with the store
    as it was, the flag cleared, and the error on the console twice,
    once from the service and once from the hook. *)
Example launch_on_poisoned :
  DynApp.hook <$>
    Machine.run (DynApp.next DynApp.unguarded) (DynApp.launch (Dyn.healthy Dyn.poisoned))
      (DynApp.start Sync.call_mom) =
  Some (UseTasks.mk Sync.call_mom false
          (UseTasks.report (Sync.failed TypeError Sync.call_mom))).
Proof. by vm_compute. Qed.
