(* ===== verification/Observe.v ===== *)
(** * Observe: the live queries behind the screen

    The list of the dashboard is not fetched: [enhance] in
    src/src/screens/DashboardScreen.tsx subscribes the screen to
    [query(...clauses).observe()], and [enhance] in
    src/src/components/TaskItem.tsx subscribes every mounted row to
    [task.observe()].  WatermelonDB notifies after a write has
    committed: the observer of a query gets the new list when the
    records that match have changed, the observer of a record gets the
    record when it was updated.

    Here the screen is what the observers have delivered: the rows that
    are mounted, and the emissions so far.  The theorems show that this
    screen is always the query on the store as it is, which is how the
    other files read the list ([Dashboard.tasks]), that a commit is
    seen at most once, and what the list shows after the refresh of the
    first launch. *)

From S2P Require Import Prelude Machine JsString Task Schema Database Fetch Sync.
From S2P Require Import UiStore Hooks TaskItem FilterTabs Dashboard App.

Module Observe.

(** ** Definitions *)

(** What the observers have delivered: the props [tasks] of the
    dashboard and [task] of each row (the rows as they are rendered),
    the lists that the query has emitted (by the ids of their records,
    newest last), and the records that the observers of rows have
    emitted after mounting. *)
Record Screen : Type := mk {
  filter : FilterType;
  rows : list Task.t;
  queryEmissions : list (list N);
  recordEmissions : list Task.t;
}.

#[global] Instance Screen_eq_dec : EqDecision Screen.
Proof. solve_decision. Defined.

(** [withObservables(['filter'], ...)] of the dashboard when it mounts
    or [filter] changes: the query is observed anew and emits the list
    as it is; every row mounts with its record as it is. *)
Definition subscribe (filter : FilterType) (db : Database.t) : Screen :=
  mk filter (Dashboard.tasks filter db) [Task.id <$> Dashboard.tasks filter db] [].

(** [task.observe()] of a mounted row after a commit: the record as it
    is stored now. *)
Definition current (db : Database.t) (row : Task.t) : Task.t :=
  default row (Database.find (Task.id row) db).

(** The records that the observers of the given rows emit: those that
    the commit has changed. *)
Definition changed (db : Database.t) (rows : list Task.t) : list Task.t :=
  current db <$> base.filter (λ row, current db row ≠ row) rows.

(** The row for an id of an emitted list: an item that is mounted
    keeps its place and its observer, a new item mounts with the record
    as it is. *)
Definition mount (db : Database.t) (mounted : list Task.t) (id : N) : option Task.t :=
  match list_find (λ row, Task.id row = id) mounted with
  | Some (_, row) => Some (current db row)
  | None => Database.find id db
  end.

(** The notifications after a write has committed and left the store
    [db]: the query emits if the records that match are not the ones it
    emitted last; the observers of the rows that stay emit if their
    record changed. *)
Definition notify (db : Database.t) (screen : Screen) : Screen :=
  let ids := Task.id <$> Dashboard.tasks (filter screen) db in
  if decide (ids = Task.id <$> rows screen)
  then mk (filter screen) (current db <$> rows screen) (queryEmissions screen)
          (recordEmissions screen ++ changed db (rows screen))
  else mk (filter screen) (omap (mount db (rows screen)) ids)
          (queryEmissions screen ++ [ids])
          (recordEmissions screen ++
           changed db (base.filter (λ row, Task.id row ∈ ids) (rows screen))).

(** The screen along a sequence of commits. *)
Definition follow (dbs : list Database.t) (screen : Screen) : Screen :=
  foldl (λ screen db, notify db screen) screen dbs.

(** The screen after an event of the application that led to the state
    [s']: a new value of [filter] subscribes anew, anything else is
    followed by the notifications of the store. *)
Definition track (l : App.Label) (s' : App.State) (screen : Screen) : Screen :=
  match l with
  | App.SetFilter f =>
      if decide (f = filter screen) then screen else subscribe f (App.database s')
  | _ => notify (App.database s') screen
  end.

(** The application and its screen along a sequence of events. *)
Fixpoint observe `{TextField} (policy : App.Policy) (ls : list App.Label)
    (s : App.State) (screen : Screen) : option (App.State * Screen) :=
  match ls with
  | [] => Some (s, screen)
  | l :: ls => s' ← App.next policy l s; observe policy ls s' (track l s' screen)
  end.

(** The screen shows the query on the store. *)
Definition faithful (db : Database.t) (screen : Screen) : Prop :=
  rows screen = Dashboard.tasks (filter screen) db.

(** ** Lemmas *)

Section lemmas.
Implicit Types (db : Database.t) (screen : Screen) (row task : Task.t) (f : FilterType).

Lemma current_elem db task :
  NoDup (Database.ids db) → task ∈ Database.tasks db → current db task = task.
Proof. intros Hnd Hin. unfold current. by rewrite Database.find_elem. Qed.

(** The observer of a row delivers the stored record with the id of the
    row. *)
Lemma current_same_id db row task :
  NoDup (Database.ids db) → task ∈ Database.tasks db → Task.id row = Task.id task →
  current db row = task.
Proof. intros Hnd Hin Hid. unfold current. by rewrite Hid, Database.find_elem. Qed.

Lemma mount_elem db mounted task :
  NoDup (Database.ids db) → task ∈ Database.tasks db →
  mount db mounted (Task.id task) = Some task.
Proof.
  intros Hnd Hin. unfold mount.
  destruct (list_find _ mounted) as [[i row]|] eqn:Hf; [|by apply Database.find_elem].
  apply list_find_Some in Hf as (_ & Hid & _). f_equal. by apply current_same_id.
Qed.

(** Rows with the ids of stored records become these records. *)
Lemma current_fmap db mounted (l : list Task.t) :
  NoDup (Database.ids db) → l ⊆ Database.tasks db →
  Task.id <$> l = Task.id <$> mounted → current db <$> mounted = l.
Proof.
  intros Hnd. revert mounted. induction l as [|task l IH]; intros [|row mounted] Hl Hids;
    simplify_eq/=; [done|].
  rewrite (current_same_id db row task), IH; [done|set_solver..].
Qed.

Lemma mount_omap db mounted (l : list Task.t) :
  NoDup (Database.ids db) → l ⊆ Database.tasks db →
  omap (mount db mounted) (Task.id <$> l) = l.
Proof.
  intros Hnd. induction l as [|task l IH]; intros Hl; [done|].
  cbn. rewrite mount_elem, IH; [done|set_solver..].
Qed.

Lemma tasks_subseteq f db : Dashboard.tasks f db ⊆ Database.tasks db.
Proof. intros task [? _]%Dashboard.elem_of_tasks. done. Qed.

(** After the notifications the screen shows the query on the store,
    whatever it showed before. *)
Lemma notify_faithful db screen :
  NoDup (Database.ids db) → faithful db (notify db screen).
Proof.
  intros Hnd. unfold faithful, notify. case_decide as Hids; cbn.
  - by apply current_fmap; [|apply tasks_subseteq|].
  - by apply mount_omap; [|apply tasks_subseteq].
Qed.

Lemma notify_filter db screen : filter (notify db screen) = filter screen.
Proof. unfold notify. by case_decide. Qed.

Lemma changed_nil db (l : list Task.t) :
  NoDup (Database.ids db) → l ⊆ Database.tasks db → changed db l = [].
Proof.
  intros Hnd Hl. unfold changed. rewrite filter_none; [done|].
  apply Forall_forall. intros row Hin Hne. destruct Hne. apply current_elem; auto.
Qed.

(** What the observers of rows emit are records of the store. *)
Lemma changed_stored db (l : list Task.t) : changed db l ⊆ Database.tasks db.
Proof.
  intros row (row0 & -> & [Hne _]%list_elem_of_filter)%list_elem_of_fmap.
  unfold current in *. destruct (Database.find (Task.id row0) db) as [task|] eqn:Hfind; [|done].
  by apply Database.find_Some in Hfind as [? _].
Qed.

Lemma notify_records db screen :
  ∃ emitted, recordEmissions (notify db screen) = recordEmissions screen ++ emitted ∧
             emitted ⊆ Database.tasks db.
Proof.
  unfold notify. case_decide; cbn; eexists; (split; [done|apply changed_stored]).
Qed.

(** A screen that shows the store gets no notification from it. *)
Lemma notify_same db screen :
  NoDup (Database.ids db) → faithful db screen → notify db screen = screen.
Proof.
  intros Hnd Hf. unfold notify. rewrite decide_True by by rewrite Hf.
  rewrite changed_nil, app_nil_r; [|done|rewrite Hf; apply tasks_subseteq].
  rewrite (current_fmap db _ (rows screen)); [by destruct screen|done| |done].
  rewrite Hf. apply tasks_subseteq.
Qed.

(** The query emits at most once per commit, and what it emits are the
    records that match in the store that was committed. *)
Lemma notify_emissions db screen :
  queryEmissions (notify db screen) = queryEmissions screen ∨
  queryEmissions (notify db screen) =
    queryEmissions screen ++ [Task.id <$> Dashboard.tasks (filter screen) db].
Proof. unfold notify. case_decide; auto. Qed.

Lemma follow_snoc dbs db screen :
  follow (dbs ++ [db]) screen = notify db (follow dbs screen).
Proof. unfold follow. by rewrite foldl_snoc. Qed.

Lemma follow_filter dbs screen : filter (follow dbs screen) = filter screen.
Proof.
  induction dbs as [|db dbs IH] using rev_ind; [done|].
  by rewrite follow_snoc, notify_filter.
Qed.

End lemmas.

Section follow.
Implicit Types (db : Database.t) (f : FilterType).

(** What holds of the screen after every commit of a sequence: it shows
    the last store, the last list that the query emitted is the list it
    shows, and every emitted list was the query on a store of the
    sequence. *)
Definition settled f db0 (dbs : list Database.t) (screen : Screen) : Prop :=
  filter screen = f ∧
  faithful (default db0 (last dbs)) screen ∧
  last (queryEmissions screen) = Some (Task.id <$> rows screen) ∧
  length (queryEmissions screen) ≤ S (length dbs) ∧
  Forall (λ ids, ∃ db, db ∈ db0 :: dbs ∧ ids = Task.id <$> Dashboard.tasks f db)
    (queryEmissions screen).

Lemma subscribe_settled f db0 : settled f db0 [] (subscribe f db0).
Proof.
  split_and!; [done..|]. repeat constructor. exists db0. split; [apply list_elem_of_here|done].
Qed.

Lemma notify_settled f db0 dbs db screen :
  NoDup (Database.ids db) → settled f db0 dbs screen →
  settled f db0 (dbs ++ [db]) (notify db screen).
Proof.
  intros Hnd (Hf & Hrows & Hlast & Hlen & Hall).
  pose proof (notify_faithful db screen Hnd) as Hfaith.
  assert (∀ ids, (∃ db', db' ∈ db0 :: dbs ∧ ids = Task.id <$> Dashboard.tasks f db') →
                 ∃ db', db' ∈ db0 :: dbs ++ [db] ∧ ids = Task.id <$> Dashboard.tasks f db')
    as Hmono.
  { intros ids (db' & Hin & ->). exists db'. split; [|done].
    rewrite app_comm_cons. apply elem_of_app. by left. }
  split_and!.
  - by rewrite notify_filter.
  - by rewrite last_snoc.
  - rewrite Hfaith, notify_filter. unfold notify. case_decide as Hids; cbn.
    + by rewrite Hlast, Hids.
    + by rewrite last_snoc.
  - rewrite length_app. cbn. destruct (notify_emissions db screen) as [->| ->];
      [lia|rewrite length_app; cbn; lia].
  - destruct (notify_emissions db screen) as [->| ->].
    + eapply Forall_impl; [done|]. apply Hmono.
    + apply Forall_app. split; [eapply Forall_impl; [done|apply Hmono]|].
      repeat constructor. exists db. rewrite Hf. split; [|done].
      rewrite app_comm_cons. apply elem_of_app. right. apply list_elem_of_here.
Qed.

Lemma follow_settled f db0 dbs :
  Forall (λ db, NoDup (Database.ids db)) dbs →
  settled f db0 dbs (follow dbs (subscribe f db0)).
Proof.
  induction dbs as [|db dbs IH] using rev_ind; intros Hnd; [apply subscribe_settled|].
  apply Forall_app in Hnd as [Hnd [Hdb _]%Forall_cons].
  rewrite follow_snoc. by apply notify_settled; [|apply IH].
Qed.

End follow.

Section application.
Context {text : TextField} (policy : App.Policy).
Implicit Types (s : App.State) (l : App.Label) (screen : Screen).

(** The screen agrees with the application on the filter and shows the
    query on its store. *)
Definition in_step (s : App.State) (screen : Screen) : Prop :=
  filter screen = App.filter s ∧ faithful (App.database s) screen.

Lemma step_filter s l s' :
  App.step policy s l s' →
  App.filter s' = match l with App.SetFilter f => f | _ => App.filter s end ∧
  match l with App.SetFilter _ => App.database s' = App.database s | _ => True end.
Proof. by destruct 1. Qed.

Lemma subscribe_in_step db : in_step (App.start db) (subscribe all db).
Proof. by split. Qed.

(** Every event leaves the screen in step with the application. *)
Lemma track_in_step db0 s l s' screen :
  App.safe db0 s → App.step policy s l s' → in_step s screen →
  in_step s' (track l s' screen).
Proof.
  intros Hsafe Hstep [Hf Hrows].
  destruct (App.step_safe policy db0 s l s' Hsafe Hstep) as ([Hnd _] & _).
  destruct (step_filter s l s' Hstep) as [Hf' Hdb].
  destruct l as [env|i|id ok|id camera ok|f|e]; cbn [track];
    try (split; [by rewrite notify_filter, Hf'|by apply notify_faithful]).
  case_decide as Hsame; [|by split].
  split; [congruence|]. unfold faithful. by rewrite Hdb.
Qed.

Lemma observe_in_step db0 ls s screen s' screen' :
  App.safe db0 s → in_step s screen →
  observe policy ls s screen = Some (s', screen') →
  in_step s' screen' ∧ Machine.run (App.next policy) ls s = Some s'.
Proof.
  revert s screen. induction ls as [|l ls IH]; intros s screen Hsafe Hin; cbn.
  { by intros [= <- <-]. }
  intros (s1 & Hl & Hrest)%bind_Some. rewrite Hl. cbn.
  apply App.step_next in Hl.
  eapply IH; [by eapply App.step_safe|by eapply track_in_step|done].
Qed.

(** The screen is followed wherever the application goes. *)
Lemma observe_total ls s screen :
  is_Some (observe policy ls s screen) ↔ is_Some (Machine.run (App.next policy) ls s).
Proof.
  revert s screen. induction ls as [|l ls IH]; intros s screen; cbn; [done|].
  destruct (App.next policy l s) as [s1|]; cbn; [apply IH|done].
Qed.

(** Of the state after the event the observers read the store, nothing
    else. *)
Lemma track_database l s s' screen :
  App.database s = App.database s' → track l s screen = track l s' screen.
Proof. intros Hdb. destruct l; cbn; by rewrite Hdb. Qed.

(** An event that leaves the store and the filter as they were brings
    no notification. *)
Lemma track_silent db0 s l s' screen :
  App.safe db0 s → App.step policy s l s' → in_step s screen →
  App.database s' = App.database s → App.filter s' = App.filter s →
  track l s' screen = screen.
Proof.
  intros ([Hnd _] & _) Hstep [Hf Hrows] Hdb Hfilter.
  destruct (step_filter s l s' Hstep) as [Hf' _].
  destruct l as [env|i|id ok|id camera ok|f|e]; cbn [track];
    try (rewrite Hdb; by apply notify_same).
  rewrite decide_True; [done|congruence].
Qed.

End application.

End Observe.

(** ** The screen and the store *)

Section properties.
Context {text : TextField}.
Implicit Types (db : Database.t) (screen : Observe.Screen) (s : App.State).

(** the observers implement the list that the other files read off
    the store.  Started on a store that satisfies its invariants, with
    the screen subscribed to all tasks, after any sequence of events of
    the application (presses, captures, filter changes, refreshes and
    their continuations in any order, with any faults) the rows that the
    observers have delivered are exactly the query of the current filter
    on the store as it is, in the order of the table. *)
Theorem screen_follows_store (policy : App.Policy) db0 ls s screen :
  Database.wf db0 → Database.titles_ok db0 →
  Observe.observe policy ls (App.start db0) (Observe.subscribe all db0) = Some (s, screen) →
  Machine.run (App.next policy) ls (App.start db0) = Some s ∧
  Observe.filter screen = App.filter s ∧
  Observe.rows screen = Dashboard.tasks (App.filter s) (App.database s) ∧
  TaskItem.render <$> Observe.rows screen =
    Dashboard.rows (Dashboard.render (Dashboard.tasks (App.filter s) (App.database s))
      (App.filter s) (UseTasks.isSyncing (App.hook s)) (App.ui s) (App.header s)).
Proof.
  intros Hwf Hok Hobs.
  destruct (Observe.observe_in_step policy db0 ls _ _ s screen
              (App.start_safe db0 Hwf Hok) (Observe.subscribe_in_step db0) Hobs)
    as [[Hf Hrows] Hrun].
  unfold Observe.faithful in Hrows. rewrite Hf in Hrows.
  split_and!; [done..|]. by rewrite Hrows.
Qed.

(** C26: a commit is seen once, whole, and only if it changed something.
    When a write has committed and left the store [db'], a screen that
    showed the store before shows the query on [db'] afterwards; the
    query has emitted at most one list, the records that match in [db'],
    and it has emitted exactly when those are not the records it showed;
    every record that the observers of rows emitted is a record of [db'];
    and if the write failed, so that the store is as it was, nothing was
    emitted at all. *)
Theorem commit_seen_once db db' screen :
  NoDup (Database.ids db) → NoDup (Database.ids db') →
  Observe.faithful db screen →
  let screen' := Observe.notify db' screen in
  let ids' := Task.id <$> Dashboard.tasks (Observe.filter screen) db' in
  Observe.faithful db' screen' ∧
  Observe.queryEmissions screen' =
    Observe.queryEmissions screen ++
    (if decide (ids' = Task.id <$> Observe.rows screen) then [] else [ids']) ∧
  (∃ emitted, Observe.recordEmissions screen' = Observe.recordEmissions screen ++ emitted ∧
              emitted ⊆ Database.tasks db') ∧
  (db' = db → screen' = screen).
Proof.
  intros Hnd Hnd' Hf. cbn zeta. split_and!.
  - by apply Observe.notify_faithful.
  - unfold Observe.notify. case_decide; cbn; [by rewrite app_nil_r|done].
  - apply Observe.notify_records.
  - intros ->. by apply Observe.notify_same.
Qed.

(** C27: live query correctness.  Over any sequence of commits, every
    list that the observed query of a filter emits is the list of the
    records that the filter shows in one of the committed stores, never
    a state in between; there is at most one emission per commit after
    the first; and the last emission is the list on the screen, in which
    every record is shown by the filter in the store as it is. *)
Theorem emissions_match_filter (f : FilterType) db0 (dbs : list Database.t) :
  Forall (λ db, NoDup (Database.ids db)) dbs →
  let screen := Observe.follow dbs (Observe.subscribe f db0) in
  length (Observe.queryEmissions screen) ≤ S (length dbs) ∧
  Forall (λ ids, ∃ db, db ∈ db0 :: dbs ∧ ids = Task.id <$> Dashboard.tasks f db)
    (Observe.queryEmissions screen) ∧
  last (Observe.queryEmissions screen) = Some (Task.id <$> Observe.rows screen) ∧
  ∀ row, row ∈ Observe.rows screen →
         row ∈ Database.tasks (default db0 (last dbs)) ∧ Dashboard.shows f row.
Proof.
  intros Hnd. cbn zeta.
  destruct (Observe.follow_settled f db0 dbs Hnd) as (Hf & Hrows & Hlast & Hlen & Hall).
  split_and!; [done..|]. intros row Hin. rewrite Hrows, Hf in Hin.
  by apply Dashboard.elem_of_tasks.
Qed.

(** the first launch, from the effect at mount to the list on the
    screen.  On a store that satisfies its invariants, when the remote
    source serves [apiTasks] and nothing fails, the refresh that the
    dashboard starts when it mounts runs to its end: afterwards nothing
    is in flight, the loading indicator is off, the console has the one
    line of the service, and the list shows the rows that were stored
    followed by one row for each remote item whose title is not blank
    and not, as written, a stored title, with the trimmed title and the
    remote flag. *)
Theorem first_launch (policy : App.Policy) env (apiTasks : list RemoteTask.t) db :
  Database.wf db → Database.titles_ok db →
  policy (App.start db) = true → Sync.served env apiTasks →
  ∃ s screen,
    Observe.observe policy (App.launch env) (App.start db) (Observe.subscribe all db)
      = Some (s, screen) ∧
    App.quiescent s ∧
    UseTasks.console (App.hook s) = [UseTasks.Service (Sync.SyncComplete (length apiTasks))] ∧
    Observe.rows screen = Database.tasks db ++ Sync.created db apiTasks ∧
    Sync.staged <$> Sync.created db apiTasks =
      Sync.stage <$> filter (Sync.fresh_title (Sync.localTodoTexts (Database.tasks db))) apiTasks.
Proof.
  intros Hwf Hok Hp Hs. pose proof (App.launch_run policy env apiTasks db Hp Hs) as Hrun.
  destruct (proj2 (Observe.observe_total policy (App.launch env) (App.start db)
                     (Observe.subscribe all db))) as [[s screen] Hobs]; [by rewrite Hrun|].
  destruct (Observe.observe_in_step policy db _ _ _ s screen
              (App.start_safe db Hwf Hok) (Observe.subscribe_in_step db) Hobs)
    as [[Hf Hrows] Hrun'].
  rewrite Hrun in Hrun'. injection Hrun' as <-. eexists _, screen.
  split_and!; [done|done|done| |apply Sync.created_staged].
  unfold Observe.faithful in Hrows. rewrite Hrows, Hf. apply Dashboard.tasks_all.
Qed.

End properties.

(** ** Witnesses and examples *)

Lemma screen_follows_store_witness :
  let ls := [App.SetFilter completed; App.PressCheck 0 true] in
  let s := App.set_filter completed (App.start Database.sample) in
  let screen := Observe.subscribe completed Database.sample in
  Machine.run (App.next App.unguarded) [App.SetFilter completed] (App.start Database.sample)
    = Some s ∧
  Observe.filter screen = App.filter s ∧
  Observe.rows screen = Dashboard.tasks (App.filter s) (App.database s) ∧
  TaskItem.render <$> Observe.rows screen =
    Dashboard.rows (Dashboard.render (Dashboard.tasks (App.filter s) (App.database s))
      (App.filter s) (UseTasks.isSyncing (App.hook s)) (App.ui s) (App.header s)).
Proof.
  apply (screen_follows_store App.unguarded Database.sample [App.SetFilter completed]);
    [by_compute|by_compute|reflexivity].
Defined.

Lemma commit_seen_once_witness :
  let db := Database.sample in
  let db' := (Database.toggleComplete true 0 Database.sample).2 in
  let screen := Observe.subscribe completed Database.sample in
  let screen' := Observe.notify db' screen in
  let ids' := Task.id <$> Dashboard.tasks (Observe.filter screen) db' in
  Observe.faithful db' screen' ∧
  Observe.queryEmissions screen' =
    Observe.queryEmissions screen ++
    (if decide (ids' = Task.id <$> Observe.rows screen) then [] else [ids']) ∧
  (∃ emitted, Observe.recordEmissions screen' = Observe.recordEmissions screen ++ emitted ∧
              emitted ⊆ Database.tasks db') ∧
  (db' = db → screen' = screen).
Proof. apply commit_seen_once; [by_compute|by_compute|reflexivity]. Defined.

Lemma emissions_match_filter_witness :
  let dbs := [(Database.toggleComplete true 0 Database.sample).2] in
  let screen := Observe.follow dbs (Observe.subscribe pending Database.sample) in
  length (Observe.queryEmissions screen) ≤ S (length dbs) ∧
  Forall (λ ids, ∃ db, db ∈ Database.sample :: dbs ∧ ids = Task.id <$> Dashboard.tasks pending db)
    (Observe.queryEmissions screen) ∧
  last (Observe.queryEmissions screen) = Some (Task.id <$> Observe.rows screen) ∧
  ∀ row, row ∈ Observe.rows screen →
         row ∈ Database.tasks (default Database.sample (last dbs)) ∧ Dashboard.shows pending row.
Proof. apply emissions_match_filter. repeat constructor; by_compute. Defined.

Lemma first_launch_witness :
  ∃ s screen,
    Observe.observe App.unguarded (App.launch (Sync.healthy Sync.payload))
      (App.start Sync.call_mom) (Observe.subscribe all Sync.call_mom) = Some (s, screen) ∧
    App.quiescent s ∧
    UseTasks.console (App.hook s)
      = [UseTasks.Service (Sync.SyncComplete (length Sync.payload))] ∧
    Observe.rows screen = Database.tasks Sync.call_mom ++ Sync.created Sync.call_mom Sync.payload ∧
    Sync.staged <$> Sync.created Sync.call_mom Sync.payload =
      Sync.stage <$> filter (Sync.fresh_title (Sync.localTodoTexts (Database.tasks Sync.call_mom)))
                       Sync.payload.
Proof.
  apply first_launch; [by_compute|by_compute|done|apply Sync.healthy_served].
Defined.

(** With all tasks shown, a toggle changes no list: the query is
    silent, and the row is redrawn because it observes its record. *)
Example toggle_under_all :
  let db' := (Database.toggleComplete true 0 Database.sample).2 in
  let screen' := Observe.notify db' (Observe.subscribe all Database.sample) in
  length (Observe.queryEmissions screen') = 1 ∧
  Observe.recordEmissions screen' = [Task.toggleComplete (Task.mk 0 (js "Call mom") false None)] ∧
  Observe.rows screen' = Database.tasks db'.
Proof. by vm_compute. Qed.

(** With the pending tasks shown, the same toggle makes the query emit
    the list without the row. *)
Example toggle_under_pending :
  let db' := (Database.toggleComplete true 0 Database.sample).2 in
  let screen := Observe.subscribe pending Database.sample in
  let screen' := Observe.notify db' screen in
  length (Observe.queryEmissions screen') = 2 ∧
  0%N ∈ Task.id <$> Observe.rows screen ∧ 0%N ∉ Task.id <$> Observe.rows screen'.
Proof. cbn zeta. split_and!; by_compute. Qed.

(** A write that fails is not seen. *)
Example failed_write_is_silent :
  Observe.notify (Database.toggleComplete false 0 Database.sample).2
    (Observe.subscribe pending Database.sample)
  = Observe.subscribe pending Database.sample.
Proof. by vm_compute. Qed.
