(* ===== verification/Screen.v ===== *)
(** * Screen: the dashboard as React mounts and renders it

    [App] takes the calls of [handleRefresh] as free events.  In the
    program they have two sources, both in
    src/src/screens/DashboardScreen.tsx: the effect of [Dashboard] with
    the dependency array [[handleRefresh]] (lines 53 to 55), and the
    pull gesture on the [RefreshControl] of the list, which is given
    [refreshing={isSyncing}] (lines 118 to 124).  Whether refreshes can
    overlap in the program as it is wired depends on three contracts
    that are not in the repository:

    - the hooks of React: [useCallback] returns the function of an
      earlier render while its dependencies are what they were, and
      [useEffect] runs its effect after the first render and after every
      render in which a dependency has changed ([React]);
    - [RefreshControl]: the gesture calls [onRefresh] only while
      [refreshing] is false;
    - [withObservables(['filter'], ...)]: when the trigger prop changes,
      the component resubscribes; an implementation that shows nothing
      until the new observable has emitted mounts [Dashboard] anew,
      with new state and new effects.  This is the parameter
      [remounts] of the machine.

    [Screen] is the machine of [App] driven through these: its state is
    the state of [App], the memo cells of the hooks, and the log of the
    effects that have run.  After every event the screen renders until
    no effect is due ([Screen.commit]).

    The theorems: rendering settles after at most two renders; if the
    component stays mounted across filter changes, the effect starts
    one refresh in the life of the screen, refreshes take turns and
    titles stay unique; if it is mounted anew, a press on a chip while a
    refresh is in flight starts a second one, and the store ends up
    with every new title twice. *)

From S2P Require Import Prelude Machine JsString Task Schema Database Fetch Sync.
From S2P Require Import UiStore Hooks TaskItem FilterTabs Dashboard App.

(** ** Definitions *)

Module React.

Section hooks.
Context {D : Type} `{EqDecision D}.

(** The dependency arrays of two renders, compared item by item. *)
Definition areHookInputsEqual (nextDeps prevDeps : D) : bool :=
  bool_decide (nextDeps = prevDeps).

(** [useEffect(effect, deps)] in a render: whether the effect is due
    after it, and the cell of the hook.  The cell is empty before the
    first render of the component. *)
Definition useEffect (cell : option D) (deps : D) : bool * option D :=
  match cell with
  | Some prevDeps =>
      if areHookInputsEqual deps prevDeps then (false, cell) else (true, Some deps)
  | None => (true, Some deps)
  end.

(** [useCallback(callback, deps)] in a render: the function that the
    component gets, and the cell of the hook. *)
Definition useCallback {F : Type} (cell : option (F * D)) (callback : F) (deps : D)
  : F * option (F * D) :=
  match cell with
  | Some (memo, prevDeps) =>
      if areHookInputsEqual deps prevDeps then (memo, cell)
      else (callback, Some (callback, deps))
  | None => (callback, Some (callback, deps))
  end.

End hooks.

End React.

Module Screen.

(** A function value is known by the render that created it. *)
Definition Ref : Type := nat.

(** The effects of [Dashboard]: [LayoutAnimation.configureNext(...)]
    and [handleRefresh()]. *)
Inductive Effect : Type := ConfigureNext | HandleRefresh.

#[global] Instance Effect_eq_dec : EqDecision Effect.
Proof. solve_decision. Defined.

(** The cells of the hooks: the renders so far, the cell of
    [useCallback] in [useTasks], which belongs to [DashboardScreen], and
    the cells of the two effects of [Dashboard]. *)
Record Fiber : Type := mkFiber {
  renders : nat;
  handleRefresh : option (Ref * unit);
  animation : option (nat * FilterType * bool);
  refresh : option Ref;
}.

#[global] Instance Fiber_eq_dec : EqDecision Fiber.
Proof. solve_decision. Defined.

Record State : Type := mk {
  app : App.State;
  fiber : Fiber;
  log : list Effect;
}.

(** Before the first render. *)
Definition unmounted : Fiber := mkFiber 0 None None None.

(** [useTasks] in a render: [useCallback(async () => ..., [])]. *)
Definition useTasks (fiber : Fiber) : Ref * option (Ref * unit) :=
  React.useCallback (handleRefresh fiber) (renders fiber) tt.

(** [[tasks.length, filter, isEditing]] *)
Definition animationDeps (s : App.State) : nat * FilterType * bool :=
  (length (Dashboard.tasks (App.filter s) (App.database s)),
   App.filter s, Dashboard.isEditing (App.header s)).

(** One render of [DashboardScreen] with [Dashboard] inside it: the
    effects that are due, in the order of their hooks, and the cells
    afterwards. *)
Definition render (s : App.State) (fiber : Fiber) : list Effect * Fiber :=
  let callback := useTasks fiber in
  let animate := React.useEffect (animation fiber) (animationDeps s) in
  let refresh := React.useEffect (refresh fiber) callback.1 in
  ((if animate.1 then [ConfigureNext] else []) ++ (if refresh.1 then [HandleRefresh] else []),
   mkFiber (S (renders fiber)) callback.2 animate.2 refresh.2).

(** What the screen shows in a state of the application. *)
Definition view (s : App.State) : Dashboard.View :=
  Dashboard.render (Dashboard.tasks (App.filter s) (App.database s)) (App.filter s)
    (UseTasks.isSyncing (App.hook s)) (App.ui s) (App.header s).

(** The pull gesture calls [onRefresh] while the control is not
    refreshing. *)
Definition refreshControl : App.Policy :=
  λ s, negb (Dashboard.refreshing (view s)).

(** The refreshes that effects have started. *)
Definition started (log : list Effect) : nat :=
  length (filter (λ e, e = HandleRefresh) log).

(** [Dashboard] mounted anew: its state is initialised from the store
    of the UI, its effects have not run; the hooks of [DashboardScreen]
    are as they were. *)
Definition remount (s : State) : State :=
  mk (App.set_header (Dashboard.mount (App.ui (app s)), App.ui (app s)) (app s))
     (mkFiber (renders (fiber s)) (handleRefresh (fiber s)) None None)
     (log s).

Section wired.
Context {text : TextField}.

(** [remounts]: whether a change of the trigger prop mounts [Dashboard]
    anew.  [boot k]: what the refresh meets that is the [k]-th started
    by an effect. *)
Context (remounts : bool) (boot : nat → Sync.Env).

(** An effect runs. *)
Definition perform (e : Effect) (s : State) : State :=
  mk match e with
     | ConfigureNext => app s
     | HandleRefresh => App.pull (boot (started (log s))) (app s)
     end
     (fiber s) (log s ++ [e]).

(** Render, run the effects that are due, and render again if there
    were any; [fuel] bounds the renders. *)
Fixpoint commit (fuel : nat) (s : State) : State :=
  match fuel with
  | 0 => s
  | S fuel =>
      let r := render (app s) (fiber s) in
      let s' := mk (app s) r.2 (log s) in
      match r.1 with
      | [] => s'
      | effects => commit fuel (foldl (flip perform) s' effects)
      end
  end.

(** Whether [setFilter(f)] makes the observed component resubscribe. *)
Definition resubscribes (l : App.Label) (s : App.State) : bool :=
  match l with
  | App.SetFilter f => bool_decide (f ≠ App.filter s)
  | _ => false
  end.

(** The state after an event: the handler runs, the component is
    mounted anew if it resubscribes and the wrapper does that, and the
    screen renders until no effect is due.  Only the wrapper mounts the
    component. *)
Definition next (l : App.Label) (s : State) : option State :=
  match l with
  | App.Header Dashboard.Remount => None
  | _ =>
      a ← App.next refreshControl l (app s);
      let s' := mk a (fiber s) (log s) in
      Some (commit 2 (if remounts && resubscribes l (app s) then remount s' else s'))
  end.

Definition step (s : State) (l : App.Label) (s' : State) : Prop :=
  next l s = Some s'.

(** The screen mounted over a store. *)
Definition start (db : Database.t) : State :=
  commit 2 (mk (App.start db) unmounted []).

End wired.

(** No effect is due: the cells hold the dependencies of this state. *)
Definition quiet (s : State) : Prop :=
  ∃ ref, handleRefresh (fiber s) = Some (ref, tt) ∧
         refresh (fiber s) = Some ref ∧
         animation (fiber s) = Some (animationDeps (app s)).

(** The chip is pressed while the first refresh is in flight; both
    refreshes read, then both write. *)
Definition impatient : list App.Label :=
  [App.SetFilter pending; App.Resume 0; App.Resume 1; App.Resume 0; App.Resume 0].

(** ** Lemmas *)

Section lemmas.
Context {text : TextField} (remounts : bool) (boot : nat → Sync.Env).
Implicit Types (s : State) (a : App.State) (l : App.Label) (cells : Fiber).

Lemma started_app log log' : started (log ++ log') = started log + started log'.
Proof. unfold started. by rewrite filter_app, length_app. Qed.

(** The dependencies of the animation are not those that a refresh
    changes when it starts. *)
Lemma animationDeps_pull env a : animationDeps (App.pull env a) = animationDeps a.
Proof. done. Qed.

(** A render over cells that hold the callback and the dependency of
    the refresh: only the animation can be due. *)
Lemma render_mounted a cells ref :
  handleRefresh cells = Some (ref, tt) → refresh cells = Some ref →
  render a cells =
  (if bool_decide (animation cells = Some (animationDeps a)) then [] else [ConfigureNext],
   mkFiber (S (renders cells)) (Some (ref, tt)) (Some (animationDeps a)) (Some ref)).
Proof.
  intros Hcb Href. unfold render, useTasks. rewrite Hcb, Href. cbn.
  unfold React.areHookInputsEqual. rewrite !bool_decide_eq_true_2 by done. cbn.
  destruct (animation cells) as [deps|]; cbn; [|done].
  unfold React.areHookInputsEqual. by repeat case_bool_decide; simplify_eq.
Qed.

(** A render over cells of a component that has just been mounted:
    the refresh is due. *)
Lemma render_mount a cells :
  refresh cells = None →
  ∃ ref,
    render a cells =
    ((if bool_decide (animation cells = Some (animationDeps a)) then [] else [ConfigureNext])
       ++ [HandleRefresh],
     mkFiber (S (renders cells)) (Some (ref, tt)) (Some (animationDeps a)) (Some ref)).
Proof.
  intros Href. unfold render, useTasks. rewrite Href. cbn.
  exists (React.useCallback (handleRefresh cells) (renders cells) ()).1. f_equal.
  - f_equal. destruct (animation cells) as [deps|]; cbn; [|done].
    unfold React.areHookInputsEqual. by repeat case_bool_decide; simplify_eq.
  - f_equal.
    + by destruct (handleRefresh cells) as [[memo []]|].
    + destruct (animation cells) as [deps|]; cbn; [|done].
      unfold React.areHookInputsEqual. by repeat case_bool_decide; simplify_eq.
Qed.

(** Rendering a quiet screen changes nothing but the count of renders. *)
Lemma commit_quiet fuel s :
  quiet s → app (commit boot fuel s) = app s ∧ log (commit boot fuel s) = log s ∧
  quiet (commit boot fuel s).
Proof.
  intros (ref & Hcb & Href & Han). destruct fuel as [|fuel]; [by split_and!; [..|exists ref]|].
  cbn [commit]. rewrite (render_mounted _ _ ref) by done.
  rewrite bool_decide_eq_true_2 by done. cbn. split_and!; [done..|by exists ref].
Qed.

(** The screen after an event with the component still mounted: the
    animation is configured if its dependencies have changed, and no
    refresh starts. *)
Lemma commit_mounted s ref :
  handleRefresh (fiber s) = Some (ref, tt) → refresh (fiber s) = Some ref →
  let s' := commit boot 2 s in
  app s' = app s ∧
  log s' = log s ++ (if bool_decide (animation (fiber s) = Some (animationDeps (app s)))
                     then [] else [ConfigureNext]) ∧
  quiet s'.
Proof.
  intros Hcb Href. cbn [commit]. rewrite (render_mounted _ _ ref) by done. cbn [fst snd].
  case_bool_decide; cbn [foldl flip perform app fiber log].
  - rewrite (right_id_L [] (++)). split_and!; [done..|by exists ref].
  - rewrite (render_mounted _ _ ref) by done. rewrite bool_decide_eq_true_2 by done.
    cbn. split_and!; [done..|by exists ref].
Qed.

(** The screen after the component has been mounted: the animation is
    configured, a refresh starts, and rendering once more runs nothing. *)
Lemma commit_mount s :
  refresh (fiber s) = None →
  let s' := commit boot 2 s in
  app s' = App.pull (boot (started (log s))) (app s) ∧
  log s' = log s ++ (if bool_decide (animation (fiber s) = Some (animationDeps (app s)))
                     then [] else [ConfigureNext]) ++ [HandleRefresh] ∧
  quiet s'.
Proof.
  intros Href. cbn [commit]. destruct (render_mount (app s) (fiber s) Href) as [ref ->].
  cbn [fst snd].
  case_bool_decide; cbn [List.app foldl flip perform app fiber log];
    rewrite (render_mounted _ _ ref) by done; rewrite bool_decide_eq_true_2 by done;
    cbn [fst snd app fiber log].
  - split_and!; [done..|by exists ref].
  - rewrite started_app, Nat.add_0_r, <-(assoc_L (++)). split_and!; [done..|by exists ref].
Qed.

(** After a render and its effects, no effect is due, whatever the
    cells were. *)
Lemma render_settles s :
  let r := render (app s) (fiber s) in
  quiet (foldl (flip (perform boot)) (mk (app s) r.2 (log s)) r.1).
Proof.
  cbn zeta. destruct (refresh (fiber s)) as [ref|] eqn:Href.
  - unfold render, useTasks. rewrite Href.
    set (callback := React.useCallback _ _ _).
    set (animate := React.useEffect _ _).
    set (due := React.useEffect (Some ref) _).
    assert (callback.2 = Some (callback.1, ())) as Hcb
      by (unfold callback; by destruct (handleRefresh (fiber s)) as [[memo []]|]).
    assert (animate.2 = Some (animationDeps (app s))) as Han.
    { unfold animate. destruct (animation (fiber s)) as [deps|]; cbn; [|done].
      unfold React.areHookInputsEqual. by case_bool_decide; simplify_eq. }
    assert (due.2 = Some callback.1) as Hdue.
    { unfold due. cbn. unfold React.areHookInputsEqual. by case_bool_decide; simplify_eq. }
    destruct animate.1, due.1; by exists callback.1.
  - destruct (render_mount (app s) (fiber s) Href) as [ref ->]. cbn [fst snd].
    case_bool_decide; by exists ref.
Qed.

(** Two renders are enough. *)
Lemma commit_fuel fuel s : commit boot (S (S fuel)) s = commit boot 2 s.
Proof.
  cbn [commit]. destruct (render (app s) (fiber s)).1 as [|e effects] eqn:Hr; [done|].
  pose proof (render_settles s) as Hq. cbn zeta in Hq. rewrite Hr in Hq.
  destruct Hq as (ref & Hcb & Href & Han).
  rewrite (render_mounted _ _ ref) by done. by rewrite bool_decide_eq_true_2 by done.
Qed.

Lemma commit_settles s : quiet (commit boot 2 s).
Proof.
  cbn [commit]. pose proof (render_settles s) as Hq. cbn zeta in Hq.
  destruct (render (app s) (fiber s)).1 as [|e effects] eqn:Hr; [done|].
  destruct Hq as (ref & Hcb & Href & Han).
  rewrite (render_mounted _ _ ref) by done. rewrite bool_decide_eq_true_2 by done.
  by exists ref.
Qed.

(** The screen when it has mounted: the animation is configured, the
    first refresh has started. *)
Lemma start_mounted db :
  app (start boot db) = App.pull (boot 0) (App.start db) ∧
  log (start boot db) = [ConfigureNext; HandleRefresh] ∧
  quiet (start boot db).
Proof. by apply (commit_mount (mk (App.start db) unmounted [])). Qed.

(** An event on a quiet screen: the handler of [App] runs; either the
    component stays mounted, and at most the animation is configured,
    or it is mounted anew, and a refresh starts. *)
Lemma next_quiet l s s' :
  quiet s → next remounts boot l s = Some s' →
  l ≠ App.Header Dashboard.Remount ∧ quiet s' ∧
  ∃ a, App.next refreshControl l (app s) = Some a ∧
    if remounts && resubscribes l (app s)
    then app s' = App.pull (boot (started (log s)))
                    (App.set_header (Dashboard.mount (App.ui a), App.ui a) a) ∧
         log s' = log s ++ [ConfigureNext; HandleRefresh]
    else app s' = a ∧
         log s' = log s ++ (if bool_decide (animationDeps (app s) = animationDeps a)
                            then [] else [ConfigureNext]).
Proof.
  intros (ref & Hcb & Href & Han) Hnext.
  assert (l ≠ App.Header Dashboard.Remount) as Hl by (by intros ->).
  assert (∃ a, App.next refreshControl l (app s) = Some a ∧
            s' = commit boot 2
                   (if remounts && resubscribes l (app s)
                    then remount (mk a (fiber s) (log s)) else mk a (fiber s) (log s)))
    as (a & Ha & ->).
  { destruct l as [| | | | |[]]; try done;
      apply bind_Some in Hnext as (a & Ha & [= <-]); by exists a. }
  split_and!; [done|apply commit_settles|]. exists a. split; [done|].
  destruct (remounts && resubscribes l (app s)).
  - by destruct (commit_mount (remount (mk a (fiber s) (log s))) eq_refl) as (-> & -> & _).
  - destruct (commit_mounted (mk a (fiber s) (log s)) ref Hcb Href) as (-> & -> & _).
    split; [done|]. cbn [fiber app log]. rewrite Han.
    repeat case_bool_decide; congruence.
Qed.

(** Mounting anew and starting a refresh leave the store and the
    filter as the handler of the event left them. *)
Lemma next_store l s s' :
  quiet s → next remounts boot l s = Some s' →
  ∃ a, App.next refreshControl l (app s) = Some a ∧
       App.database (app s') = App.database a ∧ App.filter (app s') = App.filter a.
Proof.
  intros Hq Hnext. destruct (next_quiet _ _ _ Hq Hnext) as (_ & _ & a & Ha & Hcase).
  exists a. split; [done|].
  by destruct (remounts && resubscribes l (app s)); destruct Hcase as [-> _].
Qed.

(** An event that the application takes and that is not the mounting
    of the header is taken by the screen. *)
Lemma next_total l s a :
  l ≠ App.Header Dashboard.Remount → App.next refreshControl l (app s) = Some a →
  is_Some (next remounts boot l s).
Proof.
  intros Hl Ha. destruct l as [| | | | |[]]; try done; unfold next; by rewrite Ha.
Qed.

(** An event under which the component stays mounted: the handler of
    the application runs, and the animation is configured if its
    dependencies have changed. *)
Lemma next_stays l s a :
  quiet s → l ≠ App.Header Dashboard.Remount →
  remounts && resubscribes l (app s) = false →
  App.next refreshControl l (app s) = Some a →
  ∃ s', next remounts boot l s = Some s' ∧ app s' = a ∧ quiet s' ∧
        log s' = log s ++ (if bool_decide (animationDeps (app s) = animationDeps a)
                           then [] else [ConfigureNext]).
Proof.
  intros Hq Hl Hstays Ha. destruct (next_total l s a Hl Ha) as [s' Hs'].
  destruct (next_quiet _ _ _ Hq Hs') as (_ & Hq' & a' & Ha' & Hcase).
  rewrite Hstays in Hcase. destruct Hcase as [Happ Hlog]. simplify_eq. by exists s'.
Qed.

(** The effects of a render are among the two of the component, in
    the order of their hooks. *)
Lemma render_effects a cells : (render a cells).1 `sublist_of` [ConfigureNext; HandleRefresh].
Proof.
  unfold render. cbn [fst].
  destruct (React.useEffect (animation cells) _).1, (React.useEffect (refresh cells) _).1;
    cbn; repeat constructor.
Qed.

Lemma perform_log effects s :
  log (foldl (flip (perform boot)) s effects) = log s ++ effects.
Proof.
  revert s. induction effects as [|e effects IH]; intros s; cbn [foldl].
  - by rewrite (right_id_L [] (++)).
  - rewrite IH. cbn. by rewrite <-(assoc_L (++)).
Qed.

(** Only the first render of a commit runs effects. *)
Lemma commit_log s : log (commit boot 2 s) = log s ++ (render (app s) (fiber s)).1.
Proof.
  cbn [commit]. pose proof (render_settles s) as Hq. cbn zeta in Hq.
  destruct (render (app s) (fiber s)).1 as [|e effects] eqn:Hr; [by rewrite (right_id_L [] (++))|].
  destruct Hq as (ref & Hcb & Href & Han).
  rewrite (render_mounted _ _ ref) by done. rewrite bool_decide_eq_true_2 by done.
  cbn [log]. by rewrite perform_log.
Qed.

(** Continuations of refreshes leave the component mounted: the screen
    takes them as the application does. *)
Lemma run_resumes ls s a :
  quiet s → Forall App.is_resume ls →
  Machine.run (App.next refreshControl) ls (app s) = Some a →
  ∃ s', Machine.run (next remounts boot) ls s = Some s' ∧ app s' = a ∧ quiet s' ∧
        started (log s') = started (log s).
Proof.
  revert s. induction ls as [|l ls IH]; intros s Hq Hls Hrun.
  { injection Hrun as <-. by exists s. }
  apply Forall_cons in Hls as [Hl Hls]. destruct l as [|i| | | |]; try done.
  cbn [Machine.run] in Hrun. apply bind_Some in Hrun as (a1 & Ha1 & Hrun).
  destruct (next_stays (App.Resume i) s a1) as (s1 & Hs1 & <- & Hq1 & Hlog);
    [done|done|apply andb_false_r|done|].
  destruct (IH s1 Hq1 Hls Hrun) as (s' & Hrun' & ? & ? & Hstarted).
  exists s'. split_and!; [by rewrite (run_cons _ _ _ _ s1)|done..|].
  rewrite Hstarted, Hlog, started_app. by case_bool_decide.
Qed.

(** The launch: the screen mounts, its effect starts the refresh, and
    the refresh is served.  The animation is configured at mount, and
    once more if rows were created. *)
Lemma launch_served (apiTasks : list RemoteTask.t) db :
  Sync.served (boot 0) apiTasks →
  ∃ s, Machine.run (next remounts boot) [App.Resume 0; App.Resume 0] (start boot db) = Some s ∧
       app s = App.mk (UseTasks.mk (Sync.append db (Sync.created db apiTasks)) false
                         [UseTasks.Service (Sync.SyncComplete (length apiTasks))])
                 [] all (Dashboard.mount UiStore.initial) UiStore.initial ∧
       log s = [ConfigureNext; HandleRefresh] ++
               (if decide (Sync.created db apiTasks = []) then [] else [ConfigureNext]).
Proof.
  intros Hs. pose proof Hs as (_ & _ & Hw). destruct (start_mounted db) as (Happ & Hlog & Hq).
  edestruct (next_stays (App.Resume 0) (start boot db)) as (s1 & Hs1 & Happ1 & Hq1 & Hlog1);
    [done|done|apply andb_false_r| |].
  { rewrite Happ. by apply (App.next_resume_read _ _ 0 (boot 0) apiTasks). }
  edestruct (next_stays (App.Resume 0) s1) as (s2 & Hs2 & Happ2 & Hq2 & Hlog2);
    [done|done|apply andb_false_r| |].
  { rewrite Happ1. by apply (App.next_resume_write _ _ 0 (boot 0) apiTasks). }
  exists s2. split_and!; [by rewrite (run_cons _ _ _ _ s1), (run_cons _ _ _ _ s2)|by rewrite Happ2|].
  rewrite Hlog2, Hlog1, Hlog, Happ1, Happ, bool_decide_eq_true_2, (right_id_L [] (++)) by done.
  f_equal. unfold animationDeps. cbn [App.filter App.header App.hook].
  rewrite !Dashboard.tasks_all. unfold App.database, Sync.created, Sync.append. cbn.
  rewrite length_app.
  destruct (Sync.created_from _ _ _); cbn [length].
  - by rewrite Nat.add_0_r, bool_decide_eq_true_2.
  - rewrite bool_decide_eq_false_2; [done|]. intros [= ?]. lia.
Qed.

(** The screen whose component stays mounted is simulated by the
    application under single flight. *)
Lemma mounted_simulation db :
  remounts = false → App.tidy_env (boot 0) →
  Machine.simulation
    (λ s l s', step remounts boot s l s' ∧ App.tidy_label l) (λ s, s = start boot db)
    (λ a l a', App.step App.single_flight a l a' ∧ App.tidy_label l) (λ a, a = App.start db)
    app (λ s, quiet s ∧ started (log s) = 1).
Proof.
  intros Hmounted Hboot. split.
  - intros s ->. destruct (start_mounted db) as (-> & -> & ?). split; [done|].
    eapply reachable_step; [by apply reachable_initial|]. split; [by constructor|done].
  - intros s l s' [Hq Hone] [Hstep Hl].
    destruct (next_quiet _ _ _ Hq Hstep) as (_ & Hq' & a & Ha & Hcase).
    rewrite Hmounted in Hcase. destruct Hcase as [<- Hlog]. split.
    + split; [done|]. rewrite Hlog, started_app, Hone. by case_bool_decide.
    + exists [l]. econstructor; [|constructor]. split; [|done].
      by apply (App.step_next App.single_flight).
Qed.

(** The screen is simulated by the application without guard, whether
    or not the component is mounted anew. *)
Lemma screen_simulation db :
  Machine.simulation
    (step remounts boot) (λ s, s = start boot db)
    (App.step App.unguarded) (λ a, a = App.start db) app quiet.
Proof.
  split.
  - intros s ->. destruct (start_mounted db) as (-> & _ & ?). split; [done|].
    eapply reachable_step; [by apply reachable_initial|]. by constructor.
  - intros s l s' Hq Hstep.
    destruct (next_quiet _ _ _ Hq Hstep) as (_ & Hq' & a & Ha & Hcase).
    split; [done|].
    apply (App.step_next App.single_flight), App.step_unguarded in Ha.
    destruct (remounts && resubscribes l (app s)); destruct Hcase as [-> _].
    + eexists [l; App.Header Dashboard.Remount; App.Pull _].
      repeat (econstructor; [done||by repeat constructor|]). constructor.
    + exists [l]. econstructor; [done|constructor].
Qed.

End lemmas.

End Screen.

(** ** Rendering *)

Section rendering.
Context {text : TextField}.
Implicit Types (s : Screen.State) (db : Database.t) (boot : nat → Sync.Env).

(** C30: rendering settles.  Whatever the state of the application and
    whatever the cells of the hooks hold, the renders that follow an
    event run effects only after the first of them: each effect of the
    component at most once and in the order of the hooks, then no
    effect is due.  Two renders are enough: more fuel changes nothing.
    [handleRefresh] is the same function in every render, because
    [useCallback] has no dependencies, so the effect that calls it is
    not due again after the state change that it makes. *)
Theorem rendering_settles boot s fuel :
  2 ≤ fuel →
  Screen.commit boot fuel s = Screen.commit boot 2 s ∧
  Screen.quiet (Screen.commit boot 2 s) ∧
  ∃ effects, Screen.log (Screen.commit boot 2 s) = Screen.log s ++ effects ∧
             effects `sublist_of` [Screen.ConfigureNext; Screen.HandleRefresh].
Proof.
  intros Hfuel. split_and!.
  - destruct fuel as [|[|fuel]]; [lia..|]. apply Screen.commit_fuel.
  - apply Screen.commit_settles.
  - eexists. split; [apply Screen.commit_log|apply Screen.render_effects].
Qed.

(** C15: the screen as it is wired, when [Dashboard] stays mounted across
    filter changes.  The two sources of refreshes are the effect, which
    is due once, and the pull gesture, which the control offers only
    while [isSyncing] is false.  So from a store that satisfies its
    invariants with pairwise distinct titles, with a remote source that
    serves payloads of trimmed, pairwise distinct titles, in every state
    that the screen reaches: effects have started exactly one refresh,
    at most one refresh is in flight, the indicator is on exactly while
    one is, and the stored titles are pairwise distinct. *)
Theorem mounted_screen_single_flight boot db s :
  Database.wf db → Database.titles_ok db → NoDup (Database.titles db) →
  App.tidy_env (boot 0) →
  Machine.reachable (λ s l s', Screen.step false boot s l s' ∧ App.tidy_label l)
    (λ s, s = Screen.start boot db) s →
  Screen.started (Screen.log s) = 1 ∧
  length (App.inflight (Screen.app s)) ≤ 1 ∧
  (UseTasks.isSyncing (App.hook (Screen.app s)) = true ↔ App.inflight (Screen.app s) ≠ []) ∧
  NoDup (Database.titles (App.database (Screen.app s))).
Proof.
  intros Hwf Hok Hnd Hboot Hreach.
  apply (simulation_reachable _ _ _ _ _ _ _ (Screen.mounted_simulation false boot db eq_refl Hboot))
    in Hreach as [[_ Hone] Happ].
  by destruct (App.alone_reachable db _ Hwf Hok Hnd Happ) as [_ ((? & ? & _) & _ & ?)].
Qed.

(** C16: the screen as it is wired, when [Dashboard] is mounted anew on a
    filter change.  The effect of the new component calls
    [handleRefresh] whether or not a refresh is in flight: the control
    guards the gesture, nothing guards the effect.  A press on the chip
    of the pending tasks while the refresh of the launch waits for the
    network starts a second refresh; when both have read before either
    writes, every new remote title is stored twice, on any store and
    with any served payload. *)
Theorem remount_overlaps boot (apiTasks : list RemoteTask.t) db :
  Sync.served (boot 0) apiTasks → Sync.served (boot 1) apiTasks →
  ∃ s, Machine.run (Screen.next true boot) Screen.impatient (Screen.start boot db) = Some s ∧
       Screen.started (Screen.log s) = 2 ∧
       App.inflight (Screen.app s) = [] ∧
       Database.titles (App.database (Screen.app s)) =
       Database.titles db ++
       ((trim ∘ RemoteTask.todo) <$>
          filter (Sync.fresh_title (Sync.localTodoTexts (Database.tasks db))) apiTasks) ++
       ((trim ∘ RemoteTask.todo) <$>
          filter (Sync.fresh_title (Sync.localTodoTexts (Database.tasks db))) apiTasks).
Proof.
  intros Hs0 Hs1. destruct (Screen.start_mounted boot db) as (Happ & Hlog & Hq).
  destruct (Screen.next_total true boot (App.SetFilter pending) (Screen.start boot db)
              (App.set_filter pending (Screen.app (Screen.start boot db)))) as [s1 Hs1'];
    [done..|].
  destruct (Screen.next_quiet _ _ _ _ _ Hq Hs1') as (_ & Hq1 & a & [= <-] & Hcase).
  rewrite Happ, Hlog in Hcase. destruct Hcase as [Happ1 Hlog1].
  edestruct (Screen.run_resumes true boot [App.Resume 0; App.Resume 1; App.Resume 0; App.Resume 0]
               s1) as (s & Hrun & Happ' & _ & Hstarted); [done|by repeat constructor| |].
  { rewrite Happ1. by apply (App.overlap_resumes _ (boot 0) (boot 1) apiTasks). }
  exists s. split_and!.
  - unfold Screen.impatient. by rewrite (run_cons _ _ _ _ s1).
  - by rewrite Hstarted, Hlog1.
  - by rewrite Happ'.
  - rewrite Happ'. unfold App.database, Database.titles. cbn.
    by rewrite !fmap_app, !Sync.created_from_titles, <-(assoc_L (++)).
Qed.

(** Safety of the screen, mounted anew or not: every state that it
    reaches is a state that the application reaches without guard, so
    the store keeps its invariants, the saved name stays trimmed, and
    the rows of the start keep their ids, titles and places. *)
Theorem screen_safe (remounts : bool) boot db s :
  Database.wf db → Database.titles_ok db →
  Machine.reachable (Screen.step remounts boot) (λ s, s = Screen.start boot db) s →
  Screen.quiet s ∧ App.safe db (Screen.app s).
Proof.
  intros Hwf Hok Hreach.
  apply (simulation_reachable _ _ _ _ _ _ _ (Screen.screen_simulation remounts boot db))
    in Hreach as [Hq Happ].
  split; [done|].
  by apply (invariant_reachable _ _ _ _ (App.safe_invariant App.unguarded db Hwf Hok)).
Qed.

(** The animation is configured after an event exactly when the number
    of rows shown, the filter or the mode of the header has changed. *)
Theorem animation_follows_list boot l s s' :
  Screen.quiet s → Screen.step false boot s l s' →
  Screen.log s' =
  Screen.log s ++
  (if bool_decide (Screen.animationDeps (Screen.app s) = Screen.animationDeps (Screen.app s'))
   then [] else [Screen.ConfigureNext]).
Proof.
  intros Hq Hstep. by destruct (Screen.next_quiet _ _ _ _ _ Hq Hstep) as (_ & _ & a & _ & <- & ->).
Qed.

End rendering.

(** ** Witnesses and examples *)

Lemma rendering_settles_witness :
  let boot := λ _ : nat, Sync.healthy Sync.trimmed_payload in
  let s := Screen.mk (App.start Sync.call_mom) Screen.unmounted [] in
  Screen.commit boot 5 s = Screen.commit boot 2 s ∧
  Screen.quiet (Screen.commit boot 2 s) ∧
  ∃ effects, Screen.log (Screen.commit boot 2 s) = Screen.log s ++ effects ∧
             effects `sublist_of` [Screen.ConfigureNext; Screen.HandleRefresh].
Proof. apply rendering_settles. lia. Defined.

Lemma mounted_screen_single_flight_witness :
  let s := Screen.start (λ _, Sync.healthy Sync.trimmed_payload) Sync.call_mom in
  Screen.started (Screen.log s) = 1 ∧
  length (App.inflight (Screen.app s)) ≤ 1 ∧
  (UseTasks.isSyncing (App.hook (Screen.app s)) = true ↔ App.inflight (Screen.app s) ≠ []) ∧
  NoDup (Database.titles (App.database (Screen.app s))).
Proof.
  apply (mounted_screen_single_flight (text := text_trim)
           (λ _, Sync.healthy Sync.trimmed_payload) Sync.call_mom);
    [by_compute|by_compute|by_compute| |by apply reachable_initial].
  intros response data l [= <-] [= <-] [= <-]. split; by_compute.
Defined.

Lemma remount_overlaps_witness :
  let boot := λ _ : nat, Sync.healthy Sync.trimmed_payload in
  ∃ s, Machine.run (Screen.next true boot) Screen.impatient (Screen.start boot Database.empty)
         = Some s ∧
       Screen.started (Screen.log s) = 2 ∧
       App.inflight (Screen.app s) = [] ∧
       Database.titles (App.database (Screen.app s)) =
       Database.titles Database.empty ++
       ((trim ∘ RemoteTask.todo) <$>
          filter (Sync.fresh_title (Sync.localTodoTexts (Database.tasks Database.empty)))
            Sync.trimmed_payload) ++
       ((trim ∘ RemoteTask.todo) <$>
          filter (Sync.fresh_title (Sync.localTodoTexts (Database.tasks Database.empty)))
            Sync.trimmed_payload).
Proof. apply (remount_overlaps (text := text_trim)); apply Sync.healthy_served. Defined.

Lemma screen_safe_witness :
  let s := Screen.start (λ _, Sync.healthy Sync.payload) Sync.call_mom in
  Screen.quiet s ∧ App.safe Sync.call_mom (Screen.app s).
Proof.
  apply (screen_safe (text := text_trim) true (λ _, Sync.healthy Sync.payload));
    [by_compute|by_compute|by apply reachable_initial].
Defined.

(** A fresh install whose wrapper mounts the component anew: the user
    presses "Pendientes" before the first refresh has answered, and the
    three remote tasks are stored twice. *)
Example chip_pressed_during_launch :
  let boot := λ _ : nat, Sync.healthy Sync.trimmed_payload in
  (λ s, Database.titles (App.database (Screen.app s))) <$>
    Machine.run (Screen.next true boot) Screen.impatient (Screen.start boot Database.empty)
  = Some [js "Call mom"; js "Buy milk"; js "Water plants";
          js "Call mom"; js "Buy milk"; js "Water plants"].
Proof. by vm_compute. Qed.

(** The same press when the component stays mounted: one refresh, three
    rows; the second continuation of the schedule has nothing to
    resume. *)
Example chip_pressed_while_mounted :
  let boot := λ _ : nat, Sync.healthy Sync.trimmed_payload in
  ((λ s, (Database.titles (App.database (Screen.app s)), Screen.log s)) <$>
     Machine.run (Screen.next false boot) [App.SetFilter pending; App.Resume 0; App.Resume 0]
       (Screen.start boot Database.empty),
   Machine.run (Screen.next false boot) Screen.impatient (Screen.start boot Database.empty))
  = (Some ([js "Call mom"; js "Buy milk"; js "Water plants"],
           [Screen.ConfigureNext; Screen.HandleRefresh; Screen.ConfigureNext;
            Screen.ConfigureNext]),
     None).
Proof. by vm_compute. Qed.

(** While the refresh of the launch is in flight the control refuses
    the gesture; once it has ended the gesture starts the next one. *)
Example pull_waits_for_launch :
  let boot := λ _ : nat, Sync.healthy Sync.trimmed_payload in
  (Machine.run (Screen.next false boot) [App.Pull (boot 0)] (Screen.start boot Database.empty),
   (λ s, length (App.inflight (Screen.app s))) <$>
     Machine.run (Screen.next false boot)
       [App.Resume 0; App.Resume 0; App.Pull (boot 0)] (Screen.start boot Database.empty))
  = (None, Some 1).
Proof. by vm_compute. Qed.

(** A toggle under "Todas" leaves the number of rows as it is, and no
    animation is configured; under "Pendientes" the row leaves the
    list, and one is. *)
Example toggle_animates_when_hidden :
  let boot := λ _ : nat, Sync.healthy [] in
  let effects ls := (λ s, drop 2 (Screen.log s)) <$>
    Machine.run (Screen.next false boot) ls (Screen.start boot Database.sample) in
  effects [App.PressCheck 0 true] = Some [] ∧
  effects [App.SetFilter pending; App.PressCheck 0 true]
    = Some [Screen.ConfigureNext; Screen.ConfigureNext].
Proof. by vm_compute. Qed.
