(* ===== verification/Display.v ===== *)
(** * Display: what is on the display

    The parts of the screen are put together here: the application
    behind its hooks ([Screen], src/src/screens/DashboardScreen.tsx
    lines 36 to 55 and 148 to 162), the observers that deliver the list
    ([Observe], [enhance] in line 136 of the same file), and the tree
    that the component returns for what it was given ([Views], lines
    64 to 127).

    A state is the state of the screen with what the observers have
    delivered.  An event is taken by the screen, and the observers
    follow the store that it leaves.  The tree on the display is drawn
    from the rows that the observers delivered, not from the store.  The
    theorems show that it is nevertheless the tree of the store: of the
    query of the current filter on the rows as they are stored, after
    any sequence of events; and what is on the display when the refresh
    of the launch has ended.  This is also why [Screen.animationDeps]
    may read the length of the list from the store: between two events
    [tasks.length] is the length of the query. *)

From S2P Require Import Prelude Machine JsString Style Task Database Sync UiStore Hooks.
From S2P Require Import TaskItem Dashboard Views App Observe Screen.

Module Display.

(** ** Definitions *)

Record State : Type := mk {
  screen : Screen.State;
  observed : Observe.Screen;
}.

Section wired.
Context {text : TextField} (remounts : bool) (boot : nat → Sync.Env).

(** The screen mounts and the wrapper subscribes to the query of all
    tasks. *)
Definition start (db : Database.t) : State :=
  mk (Screen.start boot db) (Observe.subscribe all db).

(** An event: the screen takes it, then the observers deliver what the
    store has become. *)
Definition next (l : App.Label) (s : State) : option State :=
  screen' ← Screen.next remounts boot l (screen s);
  Some (mk screen' (Observe.track l (Screen.app screen') (observed s))).

Definition step (s : State) (l : App.Label) (s' : State) : Prop :=
  next l s = Some s'.

End wired.

(** The tree on the display: [Dashboard] with the [tasks] that its
    wrapper passes, the [filter] of [DashboardScreen], the name of the
    store of the UI and its own state. *)
Definition tree (s : State) : Native.Element :=
  let a := Screen.app (screen s) in
  DashboardStyles.tree (Observe.rows (observed s)) (App.filter a) (App.ui a) (App.header a).

(** The tree of the store: what the screen would show if it read the
    query of its filter from the store at every render. *)
Definition ideal (a : App.State) : Native.Element :=
  DashboardStyles.tree (Dashboard.tasks (App.filter a) (App.database a))
    (App.filter a) (App.ui a) (App.header a).

(** The screen is quiet, the application behind it is safe, and the
    observers are in step with it. *)
Definition inv (db : Database.t) (s : State) : Prop :=
  Screen.quiet (screen s) ∧ App.safe db (Screen.app (screen s)) ∧
  Observe.in_step (Screen.app (screen s)) (observed s).

(** ** Lemmas *)

Section lemmas.
Context {text : TextField} (remounts : bool) (boot : nat → Sync.Env).
Implicit Types (s : State) (l : App.Label) (db : Database.t).

(** A state of the display that is reached is reached by its screen. *)
Lemma reachable_screen db s :
  Machine.reachable (step remounts boot) (λ s, s = start boot db) s →
  Machine.reachable (Screen.step remounts boot) (λ scr, scr = Screen.start boot db) (screen s).
Proof.
  induction 1 as [s ->|s l s' _ IH Hstep]; [by apply reachable_initial|].
  apply bind_Some in Hstep as (screen' & Hscreen & [= <-]). by eapply reachable_step.
Qed.

Lemma start_inv db : Database.wf db → Database.titles_ok db → inv db (start boot db).
Proof.
  intros Hwf Hok. destruct (Screen.start_mounted boot db) as (Happ & _ & Hq).
  unfold inv, start. cbn [screen observed]. rewrite Happ. split_and!; [done| |done].
  eapply (App.step_safe App.unguarded); [by apply App.start_safe|by constructor].
Qed.

Lemma step_inv db s l s' : inv db s → step remounts boot s l s' → inv db s'.
Proof.
  intros (Hq & Hsafe & Hin) (screen' & Hscreen & [= <-])%bind_Some.
  unfold inv. cbn [screen observed].
  destruct (simulation_step _ _ _ _ _ _ (Screen.screen_simulation remounts boot db)
              _ _ _ Hq Hscreen) as [Hq' [ls Hls]].
  destruct (Screen.next_store _ _ _ _ _ Hq Hscreen) as (a & Ha & Hdb & Hf).
  apply (App.step_next Screen.refreshControl) in Ha.
  split_and!; [done| |].
  - apply (trace_preserves _ (App.safe db) _ _ _ (App.step_safe App.unguarded db) Hsafe Hls).
  - rewrite (Observe.track_database l _ a) by done.
    destruct (Observe.track_in_step _ db _ _ _ _ Hsafe Ha Hin) as [Hf' Hrows].
    split; [congruence|]. unfold Observe.faithful in *. by rewrite Hdb, Hrows.
Qed.

Lemma inv_invariant db :
  Database.wf db → Database.titles_ok db →
  Machine.invariant (step remounts boot) (λ s, s = start boot db) (inv db).
Proof.
  intros Hwf Hok. split; [intros s ->; by apply start_inv|apply step_inv].
Qed.

(** Where the invariant holds the display shows the tree of the
    store. *)
Lemma inv_tree db s : inv db s → tree s = ideal (Screen.app (screen s)).
Proof.
  intros (_ & _ & Hf & Hrows). unfold tree, ideal, Observe.faithful in *.
  by rewrite Hrows, Hf.
Qed.

(** The display goes wherever its screen goes. *)
Lemma run_screen ls s screen' :
  Machine.run (Screen.next remounts boot) ls (screen s) = Some screen' →
  ∃ s', Machine.run (next remounts boot) ls s = Some s' ∧ screen s' = screen'.
Proof.
  revert s. induction ls as [|l ls IH]; intros s Hrun.
  { injection Hrun as <-. by exists s. }
  apply bind_Some in Hrun as (screen1 & Hl & Hrun).
  destruct (IH (mk screen1 (Observe.track l (Screen.app screen1) (observed s))) Hrun)
    as (s' & Hrun' & ?).
  exists s'. split; [|done]. erewrite run_cons; [done|]. unfold next. by rewrite Hl.
Qed.

Lemma run_inv db ls s s' :
  inv db s → Machine.run (next remounts boot) ls s = Some s' → inv db s'.
Proof.
  intros Hinv Hrun%(run_trace (step remounts boot)); [|done].
  by apply (trace_preserves _ (inv db) _ _ _ (step_inv db) Hinv Hrun).
Qed.

End lemmas.

End Display.

(** ** The display and the store *)

Section display.
Context {text : TextField}.
Implicit Types (db : Database.t) (boot : nat → Sync.Env).

(** C25: the display shows the store.  The tree is drawn from the rows
    that the observers have delivered, which are copies, while the
    handlers write to the store.  Started on a store that satisfies its
    invariants, after any sequence of events that the screen takes
    (presses, captures, filter changes, gestures, continuations of
    refreshes in any order and with any faults, the component mounted
    anew on a filter change or not), the tree on the display is the
    tree of the store: its rows are those of the query of the current
    filter on the records as they are stored now, in the order of the
    table; and the store behind it is safe. *)
Theorem display_follows_store (remounts : bool) boot db s :
  Database.wf db → Database.titles_ok db →
  Machine.reachable (Display.step remounts boot) (λ s, s = Display.start boot db) s →
  Display.tree s = Display.ideal (Screen.app (Display.screen s)) ∧
  Observe.rows (Display.observed s) =
    filter (Dashboard.shows (App.filter (Screen.app (Display.screen s))))
      (Database.tasks (App.database (Screen.app (Display.screen s)))) ∧
  App.safe db (Screen.app (Display.screen s)).
Proof.
  intros Hwf Hok Hreach.
  pose proof (invariant_reachable _ _ _ _ (Display.inv_invariant remounts boot db Hwf Hok) Hreach)
    as Hinv.
  split_and!; [by eapply Display.inv_tree| |by destruct Hinv as (_ & ? & _)].
  destruct Hinv as (_ & _ & Hf & Hrows). unfold Observe.faithful in Hrows.
  by rewrite Hrows, Hf, Dashboard.tasks_filter.
Qed.

(** C21: the launch, from mounting to the display.  On a store that
    satisfies its invariants, when the remote source serves [apiTasks]
    and nothing fails, the screen mounts, its effect starts the refresh,
    and the two continuations of the refresh run: afterwards nothing is
    in flight, the indicator is off, the rows on the display are the
    rows that were stored followed by the rows created for the remote
    items, and the layout animation was configured at mount and once
    more exactly if rows were created. *)
Theorem launch_on_display (remounts : bool) boot (apiTasks : list RemoteTask.t) db :
  Database.wf db → Database.titles_ok db → Sync.served (boot 0) apiTasks →
  ∃ s, Machine.run (Display.next remounts boot) [App.Resume 0; App.Resume 0]
         (Display.start boot db) = Some s ∧
       App.quiescent (Screen.app (Display.screen s)) ∧
       Display.tree s =
         DashboardStyles.tree (Database.tasks db ++ Sync.created db apiTasks) all
           UiStore.initial (Dashboard.mount UiStore.initial) ∧
       Screen.log (Display.screen s) =
         [Screen.ConfigureNext; Screen.HandleRefresh] ++
         (if decide (Sync.created db apiTasks = []) then [] else [Screen.ConfigureNext]).
Proof.
  intros Hwf Hok Hs.
  destruct (Screen.launch_served remounts boot apiTasks db Hs) as (screen' & Hrun & Happ & Hlog).
  destruct (Display.run_screen remounts boot _ (Display.start boot db) _ Hrun)
    as (s & Hrun' & <-).
  pose proof (Display.run_inv remounts boot db _ _ _ (Display.start_inv boot db Hwf Hok) Hrun')
    as Hinv.
  exists s. split_and!; [done|by rewrite Happ| |done].
  rewrite (Display.inv_tree db s Hinv), Happ. unfold Display.ideal.
  cbn [App.filter App.database App.ui App.header]. by rewrite Dashboard.tasks_all.
Qed.

End display.

(** ** Witnesses and examples *)

Lemma display_follows_store_witness :
  let s := Display.start (λ _, Sync.healthy Sync.payload) Database.sample in
  Display.tree s = Display.ideal (Screen.app (Display.screen s)) ∧
  Observe.rows (Display.observed s) =
    filter (Dashboard.shows (App.filter (Screen.app (Display.screen s))))
      (Database.tasks (App.database (Screen.app (Display.screen s)))) ∧
  App.safe Database.sample (Screen.app (Display.screen s)).
Proof.
  apply (display_follows_store (text := text_trim) true (λ _, Sync.healthy Sync.payload));
    [by_compute|by_compute|by apply reachable_initial].
Defined.

Lemma launch_on_display_witness :
  let boot := λ _ : nat, Sync.healthy Sync.trimmed_payload in
  ∃ s, Machine.run (Display.next false boot) [App.Resume 0; App.Resume 0]
         (Display.start boot Sync.call_mom) = Some s ∧
       App.quiescent (Screen.app (Display.screen s)) ∧
       Display.tree s =
         DashboardStyles.tree
           (Database.tasks Sync.call_mom ++ Sync.created Sync.call_mom Sync.trimmed_payload) all
           UiStore.initial (Dashboard.mount UiStore.initial) ∧
       Screen.log (Display.screen s) =
         [Screen.ConfigureNext; Screen.HandleRefresh] ++
         (if decide (Sync.created Sync.call_mom Sync.trimmed_payload = [])
          then [] else [Screen.ConfigureNext]).
Proof.
  apply (launch_on_display (text := text_trim) false (λ _, Sync.healthy Sync.trimmed_payload));
    [by_compute|by_compute|apply Sync.healthy_served].
Defined.

(** The texts on the display of a fresh install after the launch: the
    button of the name input, the three chips, and the rows of the
    three remote tasks, the completed one with its check mark. *)
Example texts_after_launch :
  let boot := λ _ : nat, Sync.healthy Sync.trimmed_payload in
  Native.texts ∘ Display.tree <$>
    Machine.run (Display.next false boot) [App.Resume 0; App.Resume 0]
      (Display.start boot Database.empty)
  = Some [ js "OK"; js "Todas"; js "Pendientes"; js "Hechas";
           js "Call mom"; TaskItemStyles.camera;
           js "Buy milk"; TaskItemStyles.camera;
           TaskItemStyles.check; js "Water plants"; TaskItemStyles.camera ].
Proof. by vm_compute. Qed.

(** Under "Pendientes" a press on the check box of the first row takes
    the row off the display, on the screen that mounts the component
    anew and on the one that does not. *)
Example press_under_pending :
  let boot := λ _ : nat, Sync.healthy [] in
  let titles remounts := (λ s, Task.todo <$> Observe.rows (Display.observed s)) <$>
    Machine.run (Display.next remounts boot) [App.SetFilter pending; App.PressCheck 0 true]
      (Display.start boot Database.sample) in
  titles false = Some [] ∧ titles true = Some [].
Proof. by vm_compute. Qed.
