(* ===== verification/Tests.v ===== *)
(** * Tests: the unit tests of the repository, run on the model

    src/src/services/__tests__/TaskLogic.test.ts has three tests.  None
    of them calls the program: each defines the logic it tests in its
    own body ("lógica de mapeo espejo de la implementada en
    SyncService") and runs it on [mockTask], an object with the fields
    of a task and an [update] that applies its callback at once.
    src/jest-setup.js replaces [fetch] by a function that resolves to an
    object with a [json] method and nothing else.

    Here the mock, the three tests and the replaced [fetch] are
    translated as they are written.  The theorems say what the suite
    establishes: it passes, in the order of the file and in every other
    order; the mirrors agree with the functions of the program on the
    inputs that the tests use, and where they do not agree in general;
    and what the program does against the replaced [fetch]. *)

From S2P Require Import Prelude JsString Task Schema Database Fetch Sync Api.

(** ** Definitions *)

Module TaskLogicTest.

(** [mockTask], without its [update]. *)
Record MockTask : Type := mk {
  todo : jsstring;
  completed : bool;
  attachmentUri : option jsstring;
}.

#[global] Instance MockTask_eq_dec : EqDecision MockTask.
Proof. solve_decision. Defined.

Definition mockTask : MockTask := mk (js "Aprender WatermelonDB") false None.

(** [update]: [cb(this); return Promise.resolve()] *)
Definition update (cb : MockTask → MockTask) : prog MockTask unit :=
  λ this, (Ok tt, cb this).

(** [toggleComplete] of the first test. *)
Definition toggleComplete : prog MockTask unit :=
  update (λ t, mk (todo t) (negb (completed t)) (attachmentUri t)).

(** [addAttachment] of the third test. *)
Definition addAttachment (uri : jsstring) : prog MockTask unit :=
  update (λ t, mk (todo t) (completed t) (Some uri)).

(** [rawApiData] and [mappedData] of the second test. *)
Definition rawApiData : RemoteTask.t :=
  RemoteTask.mk 1 (js "Tarea desde API  ") false 10.

Definition mappedData (raw : RemoteTask.t) : jsstring * bool :=
  (trim (RemoteTask.todo raw), RemoteTask.completed raw).

Definition testUri : jsstring := js "file://images/photo.jpg".

(** A test runs on the mock that the tests share; it reports whether
    each of its expectations holds, in order, and leaves the mock as it
    made it. *)
Definition Test : Type := MockTask → list bool * MockTask.

(** 'debe invertir el estado de completed al llamar toggleComplete' *)
Definition test_toggle : Test := λ mock,
  let mock1 := (toggleComplete mock).2 in
  let mock2 := (toggleComplete mock1).2 in
  ([ bool_decide (completed mock1 = true); bool_decide (completed mock2 = false) ], mock2).

(** 'mapeo de API: debe validar que los datos se transformen
    correctamente' *)
Definition test_mapping : Test := λ mock,
  let mapped := mappedData rawApiData in
  ([ bool_decide (mapped.1 = js "Tarea desde API"); bool_decide (0 < length mapped.1) ], mock).

(** 'debe vincular una URI de imagen a la tarea' *)
Definition test_attach : Test := λ mock,
  let mock1 := (addAttachment testUri mock).2 in
  ([ bool_decide (attachmentUri mock1 = Some testUri) ], mock1).

(** The tests in the order of the file. *)
Definition suite : list Test := [test_toggle; test_mapping; test_attach].

(** Tests run one after the other on the same mock. *)
Fixpoint run (tests : list Test) (mock : MockTask) : list bool :=
  match tests with
  | [] => []
  | test :: tests => (test mock).1 ++ run tests (test mock).2
  end.

Definition passes (tests : list Test) : Prop := Forall (λ b, b = true) (run tests mockTask).

(** The mock as a record of the model class with a given id. *)
Definition as_task (id : N) (mock : MockTask) : Task.t :=
  Task.mk id (todo mock) (completed mock) (attachmentUri mock).

End TaskLogicTest.

Module JestSetup.

(** [global.fetch] of jest-setup.js: every request resolves to an
    object whose [json()] resolves to [{ todos: [] }].  The object has
    no [ok] and no [status]: read as a flag, [ok] is false. *)
Definition fetch : Fetch.Network Sync.Data :=
  λ _, Ok (Fetch.mkResponse false 0 (Ok (Sync.mkData (Some [])))).

(** The same for the client, whose bodies are pages. *)
Definition fetch_page (body : TodoResponse.t) : Fetch.Network TodoResponse.t :=
  λ _, Ok (Fetch.mkResponse false 0 (Ok body)).

End JestSetup.

(** ** Lemmas *)

Section tests.
Import TaskLogicTest.

(** What each test needs of the mock and what it leaves: the first
    needs a pending mock and leaves it as it was; the second needs
    nothing and changes nothing; the third needs nothing and changes
    the attachment only. *)
Lemma test_toggle_spec mock :
  completed mock = false → test_toggle mock = ([true; true], mock).
Proof. destruct mock as [? [|] ?]; [done|]. by intros _. Qed.

Lemma test_mapping_spec mock : test_mapping mock = ([true; true], mock).
Proof. by vm_compute. Qed.

Lemma test_attach_spec mock :
  test_attach mock = ([true], mk (todo mock) (completed mock) (Some testUri)).
Proof. unfold test_attach. cbn. by rewrite bool_decide_eq_true_2. Qed.

End tests.

(** ** The suite *)

(** The suite passes, in the order of the file, in every other order,
    and with tests left out or repeated: the shared mock does not
    couple the tests, because the first test leaves [completed] as it
    found it and no other test reads or writes it. *)
Theorem suite_passes_in_any_order (tests : list TaskLogicTest.Test) :
  Forall (λ test, test ∈ TaskLogicTest.suite) tests → TaskLogicTest.passes tests.
Proof.
  unfold TaskLogicTest.passes.
  assert (TaskLogicTest.completed TaskLogicTest.mockTask = false) as Hpending by done.
  revert Hpending. generalize TaskLogicTest.mockTask.
  induction tests as [|test tests IH]; intros mock Hpending Htests; [constructor|].
  apply Forall_cons in Htests as [Htest Htests]. cbn [TaskLogicTest.run].
  unfold TaskLogicTest.suite in Htest. set_unfold.
  destruct Htest as [->|[->|[->|[]]]].
  - rewrite test_toggle_spec by done. by repeat constructor; apply IH.
  - rewrite test_mapping_spec. by repeat constructor; apply IH.
  - rewrite test_attach_spec. by repeat constructor; apply IH.
Qed.

(** The first test does depend on the state of the mock that it finds:
    on a mock that is completed its first expectation fails. *)
Theorem toggle_test_needs_pending (mock : TaskLogicTest.MockTask) :
  Forall (λ b, b = true) (TaskLogicTest.test_toggle mock).1 ↔
  TaskLogicTest.completed mock = false.
Proof.
  destruct mock as [? [|] ?]; cbn.
  - split; [by intros [[=] _]%Forall_cons|done].
  - split; [done|by repeat constructor].
Qed.

(** ** The mirrors and the program *)

(** C40: What the tests establish of the program.  The callback of the
    first test is the callback of [Task.toggleComplete], and the
    mapping of the second is what the service stages for an item and
    what its builder stores.  The callback of the third is the callback
    of [Task.addAttachment] on a field that stores what it is given;
    with the setter of WatermelonDB, which trims, they agree exactly on
    the references that are trimmed, as the one of the test is. *)
Theorem mirrors_agree (id : N) (mock : TaskLogicTest.MockTask) (raw : RemoteTask.t)
    (uri : jsstring) :
  TaskLogicTest.as_task id (TaskLogicTest.toggleComplete mock).2
    = Task.toggleComplete (TaskLogicTest.as_task id mock) ∧
  TaskLogicTest.mappedData raw = Sync.stage raw ∧
  TaskLogicTest.mappedData raw
    = Sync.staged (Sync.builder (H := text_trim) raw (TaskLogicTest.as_task id mock)) ∧
  TaskLogicTest.as_task id (TaskLogicTest.addAttachment uri mock).2
    = Task.addAttachment (H := text_raw) uri (TaskLogicTest.as_task id mock) ∧
  (TaskLogicTest.as_task id (TaskLogicTest.addAttachment uri mock).2
     = Task.addAttachment (H := text_trim) uri (TaskLogicTest.as_task id mock)
   ↔ trimmed uri).
Proof.
  split_and!; [done|done| |done|].
  - unfold TaskLogicTest.mappedData, Sync.staged, Sync.builder. cbn.
    by rewrite trim_idemp.
  - unfold TaskLogicTest.as_task, Task.addAttachment, Task.set_attachmentUri. cbn. split.
    + intros [= Heq]. rewrite Heq. apply trim_trimmed.
    + intros Ht. by rewrite trimmed_trim.
Qed.

(** ** The replaced fetch *)

(** Against the [fetch] of jest-setup.js the service resolves: it never
    reads [ok], finds an empty payload, creates nothing and logs that
    zero tasks were processed.  The client of api/client.ts rejects
    every request against it, because it does read [ok]: a test of the
    client with this setup could only see the error path. *)
Theorem replaced_fetch (db : Database.t) (endpoint : string) (body : TodoResponse.t)
    (console : list ApiClient.LogEvent) :
  Sync.syncTaskFromApi (H := text_trim) (Sync.mkEnv JestSetup.fetch true true) db
    = Sync.completed 0 db ∧
  ApiClient.get (JestSetup.fetch_page body) endpoint console
    = (Err (HttpError 0), console ++ [ApiClient.ApiClientError (HttpError 0)]).
Proof.
  split; [|done]. rewrite (Sync.run_served _ []) by (by split_and!; [eexists|..]).
  unfold Sync.append, Sync.created, Sync.created_from. cbn.
  destruct db as [rows next]. cbn. by rewrite N.add_0_r, (right_id_L [] (++)).
Qed.

(** ** Witnesses and examples *)

Lemma suite_passes_in_any_order_witness :
  TaskLogicTest.passes
    [TaskLogicTest.test_attach; TaskLogicTest.test_toggle; TaskLogicTest.test_mapping].
Proof.
  apply suite_passes_in_any_order. unfold TaskLogicTest.suite.
  repeat constructor; set_solver.
Defined.

(** The suite in the order of the file: five expectations, all met. *)
Example suite_passes :
  TaskLogicTest.run TaskLogicTest.suite TaskLogicTest.mockTask = [true; true; true; true; true].
Proof. reflexivity. Qed.

(** A reference with a leading space: the mock keeps the space, the
    model class of the program drops it. *)
Example padded_reference :
  TaskLogicTest.attachmentUri (TaskLogicTest.addAttachment (js " file://a") TaskLogicTest.mockTask).2
    = Some (js " file://a") ∧
  Task.attachmentUri
    (Task.addAttachment (H := text_trim) (js " file://a")
       (TaskLogicTest.as_task 0 TaskLogicTest.mockTask))
    = Some (js "file://a").
Proof. by vm_compute. Qed.
